(** * Descriptive-statistics scripts: a shallow embedding

    The repository holds, for three CSV datasets (Facebook ads, Facebook
    posts, Twitter posts), three analyzers each: hand-written loops
    ([pure_python_stats.py]), pandas and polars.  This development embeds
    the code the specification speaks about and proves, or refutes, what the
    specification says about it.

    Conventions of the embedding.
    - A Python [str] is a [string] (a sequence of bytes); a Python list is a
      [list]; a [dict] whose iteration order matters (the [defaultdict] of
      the group-by steps) is an association list in insertion order.
    - Python numbers that take part in arithmetic are real numbers ([R]):
      [int] values are injected with [IZR], [float] arithmetic is exact.
      Rounding, infinities and NaN are outside the model.
    - Functions of Python's standard library whose code is not part of the
      repository ([csv.reader], [float], [int], [json.loads], [str] of a
      float) are the fields of the interface [PyLib]; the pandas and polars
      calls are the fields of [PdLib] and [PlLib].  Theorems hold for every
      implementation of these interfaces; concrete examples use the small
      instances defined near the end of the definitions.
    - [print] appends an [event] to the analyzer's output; the elapsed
      times the scripts print are left out of the events. *)

From Stdlib Require Import List String Ascii Bool Arith ZArith Lia.
From Stdlib Require Import Reals Lra Permutation Sorted DecimalString.
Import ListNotations.

Set Implicit Arguments.
Set Warnings "-abstract-large-number,-register-all".

(** ** Exceptions *)

Inductive exn : Type :=
| FileNotFoundError
| StopIteration
| ZeroDivisionError
| ValueError
| IndexError
| KeyError
| AttributeError
| LibraryError (msg : string).

Definition exn_str (e : exn) : string :=
  match e with
  | FileNotFoundError => "No such file or directory"
  | StopIteration => ""
  | ZeroDivisionError => "division by zero"
  | ValueError => "is not in list"
  | IndexError => "tuple index out of range"
  | KeyError => "key"
  | AttributeError => "'NoneType' object has no attribute"
  | LibraryError msg => msg
  end.

Inductive result (A : Type) : Type :=
| Ok (a : A)
| Raise (e : exn).

Arguments Ok {A} a.
Arguments Raise {A} e.

(** Sequencing of steps that may raise, outside of the analyzer state. *)
Definition and_then {A B : Type} (r : result A) (k : A -> result B) : result B :=
  match r with
  | Ok a => k a
  | Raise e => Raise e
  end.

(** A list comprehension whose element expression may raise. *)
Fixpoint for_each {A B : Type} (f : A -> result B) (l : list A) : result (list B) :=
  match l with
  | [] => Ok []
  | x :: rest =>
      and_then (f x) (fun y => and_then (for_each f rest) (fun ys => Ok (y :: ys)))
  end.

(** [l[i]]: IndexError when [i] is out of range. *)
Definition getitem {A : Type} (i : nat) (l : list A) : result A :=
  match nth_error l i with
  | Some x => Ok x
  | None => Raise IndexError
  end.

(** ** Python built-ins used by the scripts *)

Module Py.

Definition tab : ascii := ascii_of_nat 9.
Definition comma : ascii := ascii_of_nat 44.
Definition lf : ascii := ascii_of_nat 10.
Definition cr : ascii := ascii_of_nat 13.

(** [s.count(c)] for a one-character [c]. *)
Fixpoint count (c : ascii) (s : string) : nat :=
  match s with
  | EmptyString => 0
  | String a rest => (if Ascii.eqb a c then 1 else 0) + count c rest
  end.

(** [f.readline()] on a file opened in text mode, read from its start: the
    characters up to and including the first line end; text mode hands out
    every line end (LF, CR or CR LF) as LF. *)
Fixpoint readline (contents : string) : string :=
  match contents with
  | EmptyString => EmptyString
  | String a rest =>
      if Ascii.eqb a lf || Ascii.eqb a cr then String lf EmptyString
      else String a (readline rest)
  end.

(** [c in s] for a one-character [c]. *)
Definition contains (c : ascii) (s : string) : bool := negb (count c s =? 0).

(** [x in l] for a list of strings. *)
Definition mem (x : string) (l : list string) : bool :=
  existsb (String.eqb x) l.

(** ASCII white space, as [str.strip()] removes it. *)
Definition is_space (c : ascii) : bool :=
  let n := nat_of_ascii c in
  ((9 <=? n) && (n <=? 13)) || ((28 <=? n) && (n <=? 32)).

Fixpoint lstrip (s : string) : string :=
  match s with
  | EmptyString => EmptyString
  | String a rest => if is_space a then lstrip rest else s
  end.

Fixpoint rstrip (s : string) : string :=
  match s with
  | EmptyString => EmptyString
  | String a rest =>
      match rstrip rest with
      | EmptyString => if is_space a then EmptyString else String a EmptyString
      | r => String a r
      end
  end.

Definition strip (s : string) : string := rstrip (lstrip s).

(** [s.upper()] on ASCII letters. *)
Definition upper_char (c : ascii) : ascii :=
  let n := nat_of_ascii c in
  if (97 <=? n) && (n <=? 122) then ascii_of_nat (n - 32) else c.

Fixpoint upper (s : string) : string :=
  match s with
  | EmptyString => EmptyString
  | String a rest => String (upper_char a) (upper rest)
  end.

(** [s[:n]]. *)
Definition prefix (n : nat) (s : string) : string := substring 0 n s.

(** [sep.join(l)]. *)
Definition join (sep : string) (l : list string) : string := String.concat sep l.

(** [str(z)] for an [int]. *)
Definition str_int (z : Z) : string := NilZero.string_of_int (Z.to_int z).

(** [l.index(x)]: the first position of [x]; [None] stands for ValueError. *)
Fixpoint index (x : string) (l : list string) : option nat :=
  match l with
  | [] => None
  | y :: rest => if String.eqb y x then Some 0 else option_map S (index x rest)
  end.

(** [enumerate(l)]. *)
Definition enumerate {A : Type} (l : list A) : list (nat * A) :=
  combine (seq 0 (List.length l)) l.

(** [sorted(l, key=key, reverse=True)], and [sorted(l, key=lambda x: -key(x))]:
    a stable sort by decreasing key, so that elements with equal keys keep
    the order they had in [l]. *)
Fixpoint insert_desc {A : Type} (key : A -> nat) (x : A) (l : list A) : list A :=
  match l with
  | [] => [x]
  | y :: rest =>
      if key y <=? key x then x :: y :: rest else y :: insert_desc key x rest
  end.

Definition sorted_desc {A : Type} (key : A -> nat) (l : list A) : list A :=
  fold_right (insert_desc key) [] l.

(** [sum(l)] over numbers: starts from 0 and adds from the left. *)
Definition sum (l : list R) : R := fold_left Rplus l 0%R.

(** [min(l)] and [max(l)] of a list with first element [x]. *)
Definition min_of (x : R) (rest : list R) : R := fold_left Rmin rest x.
Definition max_of (x : R) (rest : list R) : R := fold_left Rmax rest x.

(** [sorted(l)] over numbers: a stable sort by increasing value. *)
Fixpoint insert_asc (x : R) (l : list R) : list R :=
  match l with
  | [] => [x]
  | y :: rest =>
      if Rle_dec x y then x :: y :: rest else y :: insert_asc x rest
  end.

Definition sorted (l : list R) : list R := fold_right insert_asc [] l.

(** [sorted(l, key=key)] and [l.sort(key=key)]: a stable sort by increasing
    key. *)
Fixpoint insert_by {A : Type} (key : A -> nat) (x : A) (l : list A) : list A :=
  match l with
  | [] => [x]
  | y :: rest =>
      if key x <=? key y then x :: y :: rest else y :: insert_by key x rest
  end.

Definition sorted_by {A : Type} (key : A -> nat) (l : list A) : list A :=
  fold_right (insert_by key) [] l.

(** Equality of tuples, as dictionary keys compare. *)
Fixpoint tuple_eqb {A : Type} (eqb : A -> A -> bool) (k1 k2 : list A) : bool :=
  match k1, k2 with
  | [], [] => true
  | a :: r1, b :: r2 => eqb a b && tuple_eqb eqb r1 r2
  | _, _ => false
  end.

(** [row[k]] on a [dict] written as the list of its items: the value given
    last for the key; KeyError when the key is absent. *)
Fixpoint lookup {V : Type} (k : string) (row : list (string * V)) : option V :=
  match row with
  | [] => None
  | (k', v) :: rest =>
      match lookup k rest with
      | Some v' => Some v'
      | None => if String.eqb k' k then Some v else None
      end
  end.

Definition dict_get {V : Type} (k : string) (row : list (string * V)) : result V :=
  match lookup k row with
  | Some v => Ok v
  | None => Raise KeyError
  end.

(** [groups[k].append(v)] on a [defaultdict(list)]: the value joins the list
    of its key, and a key met for the first time is added after the others. *)
Fixpoint append_to {K V : Type} (eqb : K -> K -> bool) (k : K) (v : V)
    (groups : list (K * list V)) : list (K * list V) :=
  match groups with
  | [] => [(k, [v])]
  | (k', vs) :: rest =>
      if eqb k' k then (k', vs ++ [v]) :: rest
      else (k', vs) :: append_to eqb k v rest
  end.

(** [Counter(l)]: each distinct string with its number of occurrences, in
    the order of first occurrence. *)
Fixpoint tally (x : string) (counts : list (string * nat)) : list (string * nat) :=
  match counts with
  | [] => [(x, 1)]
  | (y, n) :: rest =>
      if String.eqb y x then (y, S n) :: rest else (y, n) :: tally x rest
  end.

Definition Counter (l : list string) : list (string * nat) :=
  fold_left (fun counts x => tally x counts) l [].

(** [counts.most_common(1)[0]]: the first item with the greatest count;
    IndexError on an empty counter. *)
Definition most_common1 (counts : list (string * nat)) : result (string * nat) :=
  match counts with
  | [] => Raise IndexError
  | c :: rest =>
      Ok (fold_left (fun best kv => if snd best <? snd kv then kv else best) rest c)
  end.

(** [l[i] = v]. *)
Fixpoint set_item {A : Type} (i : nat) (v : A) (l : list A) : list A :=
  match l, i with
  | [], _ => []
  | _ :: rest, 0 => v :: rest
  | y :: rest, S j => y :: set_item j v rest
  end.

(** [d[k] = v] on a [dict] written as the list of its items: the value of a
    key that is there is replaced where it stands, a new key comes last. *)
Fixpoint dict_set {V : Type} (k : string) (v : V) (d : list (string * V))
    : list (string * V) :=
  match d with
  | [] => [(k, v)]
  | (k', v') :: rest =>
      if String.eqb k' k then (k', v) :: rest else (k', v') :: dict_set k v rest
  end.

(** [dict(items)]: the items are set one after the other. *)
Definition dict_of {V : Type} (items : list (string * V)) : list (string * V) :=
  fold_left (fun d kv => dict_set (fst kv) (snd kv) d) items [].

(** [statistics.mean(l)] and [statistics.stdev(l)] (the sample standard
    deviation) of a list of numbers. *)
Definition mean (l : list R) : R := (sum l / INR (List.length l))%R.

Definition stdev (l : list R) : R :=
  sqrt (sum (map (fun x => (x - mean l) ^ 2)%R l) / (INR (List.length l) - 1))%R.

(** [sorted(l, key=key, reverse=True)] for a key that is a number: a stable
    sort by decreasing key. *)
Fixpoint insert_desc_R {A : Type} (key : A -> R) (x : A) (l : list A) : list A :=
  match l with
  | [] => [x]
  | y :: rest =>
      if Rle_dec (key y) (key x) then x :: y :: rest
      else y :: insert_desc_R key x rest
  end.

Definition sorted_desc_R {A : Type} (key : A -> R) (l : list A) : list A :=
  fold_right (insert_desc_R key) [] l.

(** [s.lower()] on ASCII letters. *)
Definition lower_char (c : ascii) : ascii :=
  let n := nat_of_ascii c in
  if (65 <=? n) && (n <=? 90) then ascii_of_nat (n + 32) else c.

Fixpoint lower (s : string) : string :=
  match s with
  | EmptyString => EmptyString
  | String a rest => String (lower_char a) (lower rest)
  end.

End Py.

(** ** The standard library behind the scripts *)

(** A value returned by [json.loads]. *)
Inductive json : Type :=
| JNull
| JBool (b : bool)
| JNumber (x : R)
| JString (s : string)
| JArray (items : list json)
| JObject (members : list (string * json)).

(** What the scripts take from Python's standard library and from the file
    system.  [read_text path] is what [open(path, 'r', encoding='utf-8')]
    and reading the file give: its text, or the exception raised.
    [csv_reader delim text] is the rows [csv.reader] yields, and the exception
    that ends the iteration early, if any.  [float_of_str] and [int_of_str]
    are [float(s)] and [int(s)], [int_of_float] is [int(x)], each [None] when
    Python raises; [str_float] and [str_json] are [str(x)]; [json_loads] is
    [json.loads], [None] when it raises. *)
Class PyLib : Type := {
  read_text : string -> result string;
  csv_reader : ascii -> string -> list (list string) * option exn;
  float_of_str : string -> option R;
  int_of_str : string -> option Z;
  int_of_float : R -> option Z;
  str_float : R -> string;
  json_loads : string -> option json;
  str_json : json -> string
}.

(** ** Running an analyzer: state, output and exceptions *)

Module Run.

Section Monad.
Variables Self Event : Type.

(** The run-time state: the analyzer object and what was printed so far. *)
Record world : Type := { self : Self; stdout : list Event }.

(** Computations that read and write the state and may raise. *)
Definition M (A : Type) : Type := world -> result A * world.

Definition ret {A : Type} (a : A) : M A := fun w => (Ok a, w).

Definition bind {A B : Type} (m : M A) (k : A -> M B) : M B :=
  fun w =>
    match m w with
    | (Ok a, w') => k a w'
    | (Raise e, w') => (Raise e, w')
    end.

Definition raise {A : Type} (e : exn) : M A := fun w => (Raise e, w).

(** [try: body  except Exception as e: handler(e)]. *)
Definition try_except {A : Type} (body : M A) (handler : exn -> M A) : M A :=
  fun w =>
    match body w with
    | (Ok a, w') => (Ok a, w')
    | (Raise e, w') => handler e w'
    end.

Definition lift {A : Type} (r : result A) : M A := fun w => (r, w).

Definition gets {A : Type} (f : Self -> A) : M A :=
  fun w => (Ok (f (self w)), w).

Definition modify (f : Self -> Self) : M unit :=
  fun w => (Ok tt, Build_world (f (self w)) (stdout w)).

Definition print (e : Event) : M unit :=
  fun w => (Ok tt, Build_world (self w) (stdout w ++ [e])).

Definition prints (es : list Event) : M unit :=
  fun w => (Ok tt, Build_world (self w) (stdout w ++ es)).

(** Running a loop body over a list, for its effects. *)
Fixpoint for_ {A : Type} (l : list A) (body : A -> M unit) : M unit :=
  match l with
  | [] => ret tt
  | x :: rest => bind (body x) (fun _ => for_ rest body)
  end.

(** A list comprehension evaluated in the analyzer state. *)
Fixpoint collect {A B : Type} (l : list A) (f : A -> M B) : M (list B) :=
  match l with
  | [] => ret []
  | x :: rest =>
      bind (f x) (fun y => bind (collect rest f) (fun ys => ret (y :: ys)))
  end.

End Monad.

Arguments ret {Self Event A} a.
Arguments raise {Self Event A} e.
Arguments lift {Self Event A} r.
Arguments gets {Self Event A} f.
Arguments modify {Self Event} f.
Arguments print {Self Event} e.
Arguments prints {Self Event} es.

End Run.

Declare Scope py_scope.
Delimit Scope py_scope with py.
Notation "x <- m ;; k" := (Run.bind m (fun x => k))
  (at level 61, m at next level, right associativity) : py_scope.
Notation "m ;; k" := (Run.bind m (fun _ => k))
  (at level 61, right associativity) : py_scope.

(** ** 2024_fb_ads/pure_python_stats.py: class PythonAnalyzer *)

Module FbAdsPython.

(** The dictionary [_fast_stats] returns; [None] is Python's [None]. *)
Record stats : Type := {
  count : nat;
  mean : option R;
  std : option R;
  min_val : option R;
  max_val : option R;
  median : option R
}.

(** [_fast_stats], lines 135-153.  [variance ** 0.5] is the square root. *)
Definition _fast_stats (vals : list R) : stats :=
  match vals with
  | [] => Build_stats 0 None None None None None
  | [x] => Build_stats 1 (Some x) (Some 0%R) (Some x) (Some x) (Some x)
  | x :: rest =>
      let n := List.length vals in
      let total := Py.sum vals in
      let mean := (total / INR n)%R in
      let min_val := Py.min_of x rest in
      let max_val := Py.max_of x rest in
      let variance :=
        (Py.sum (map (fun v => (v - mean) ^ 2) vals) / INR n)%R in
      let std := sqrt variance in
      let sorted_vals := Py.sorted vals in
      let median :=
        if negb (n mod 2 =? 0) then nth (n / 2) sorted_vals 0%R
        else ((nth (n / 2 - 1) sorted_vals 0 + nth (n / 2) sorted_vals 0) / 2)%R in
      Build_stats n (Some mean) (Some std) (Some min_val) (Some max_val)
        (Some median)
  end.

(** A cell of a loaded row: [None], a [str], a value parsed by [json.loads],
    an [int] or a [float]. *)
Inductive cell : Type :=
| CNone
| CStr (s : string)
| CJson (j : json)
| CInt (z : Z)
| CFloat (x : R).

Definition is_not_none (c : cell) : bool :=
  match c with CNone => false | _ => true end.

(** [isinstance(c, (int, float))], with the number when it holds; a [bool]
    is an [int]. *)
Definition number (c : cell) : option R :=
  match c with
  | CInt z => Some (IZR z)
  | CFloat x => Some x
  | CJson (JNumber x) => Some x
  | CJson (JBool b) => Some (if b then 1%R else 0%R)
  | _ => None
  end.

Section Conversions.
Context {L : PyLib}.

(** [str(c)]. *)
Definition str (c : cell) : string :=
  match c with
  | CNone => "None"
  | CStr s => s
  | CJson j => str_json j
  | CInt z => Py.str_int z
  | CFloat x => str_float x
  end.

(** [float(c)] and [int(c)]; [None] when Python raises. *)
Definition float_of (c : cell) : option R :=
  match c with
  | CNone => None
  | CStr s => float_of_str s
  | CJson (JNumber x) => Some x
  | CJson (JBool b) => Some (if b then 1%R else 0%R)
  | CJson (JString s) => float_of_str s
  | CJson _ => None
  | CInt z => Some (IZR z)
  | CFloat x => Some x
  end.

Definition int_of (c : cell) : option Z :=
  match c with
  | CNone => None
  | CStr s => int_of_str s
  | CJson (JNumber x) => int_of_float x
  | CJson (JBool b) => Some (if b then 1%Z else 0%Z)
  | CJson (JString s) => int_of_str s
  | CJson _ => None
  | CInt z => Some z
  | CFloat x => int_of_float x
  end.

End Conversions.

(** What the analyzer prints.  Formatted numbers are kept as numbers. *)
Inductive event : Type :=
| Header (title : string) (level : nat)
| Box (title : string) (entries : list (string * cell))
| Table (columns : list string) (rows : list (list cell))
| Line (text : string) (args : list cell).

(** The fields of [self]. *)
Record analyzer : Type := {
  filepath : string;
  data : list (list cell);
  headers : list string;
  numeric_columns : list string;
  categorical_columns : list string
}.

(** [__init__], lines 7-9. *)
Definition __init__ (path : string) : analyzer :=
  Build_analyzer path [] [] [] [].

Section Methods.
Context {L : PyLib}.
Local Open Scope string_scope.
Local Open Scope nat_scope.
Local Open Scope py_scope.
Import Run.

Definition M : Type -> Type := Run.M analyzer event.

Definition set_headers (hs : list string) : M unit :=
  modify (fun a => Build_analyzer (filepath a) (data a) hs
                     (numeric_columns a) (categorical_columns a)).

Definition set_data (d : list (list cell)) : M unit :=
  modify (fun a => Build_analyzer (filepath a) d (headers a)
                     (numeric_columns a) (categorical_columns a)).

Definition set_columns (num cat : list string) : M unit :=
  modify (fun a => Build_analyzer (filepath a) (data a) (headers a) num cat).

(** [_header], lines 23-24. *)
Definition _header (title : string) (level : nat) : M unit :=
  print (Header title level).

(** [_box], lines 29-33. *)
Definition _box (title : string) (entries : list (string * cell)) : M unit :=
  print (Box title entries).

(** [_table], lines 11-21: nothing is printed for an empty table. *)
Definition _table (columns : list string) (rows : list (list cell)) : M unit :=
  match rows with
  | [] => ret tt
  | _ => print (Table columns rows)
  end.

(** [_parse_json_safe], lines 35-40. *)
Definition _parse_json_safe (value : string) : cell :=
  if String.eqb value "" || Py.mem value ["{}"; "[]"; ""] then CNone
  else if negb (Py.contains "{" value || Py.contains "[" value) then CStr value
  else match json_loads value with
       | Some j => CJson j
       | None => CStr value
       end.

(** Line 50: the delimiter is read off the first line. *)
Definition detect_delim (contents : string) : ascii :=
  let first_line := Py.readline contents in
  if Py.count Py.comma first_line <? Py.count Py.tab first_line
  then Py.tab else Py.comma.

Definition complex_fields : list string :=
  ["delivery_by_region"; "demographic_distribution"; "publisher_platforms"].

Definition null_markers : list string :=
  [""; "null"; "NULL"; "None"; "N/A"; "NA"].

(** Lines 65-66: the row is padded with empty strings and cut to the
    number of headers. *)
Definition fit (n : nat) (row : list string) : list string :=
  firstn n (row ++ repeat "" (n - List.length row)).

(** Lines 70-76, one cell. *)
Definition process_cell (header val : string) : cell :=
  if String.eqb val "" || Py.mem (Py.strip val) null_markers then CNone
  else if Py.mem header complex_fields then _parse_json_safe val
  else CStr (Py.strip val).

(** Lines 64-78, one row. *)
Definition process_row (hs : list string) (row : list string) : list cell :=
  map (fun hv => process_cell (fst hv) (snd hv))
      (combine hs (fit (List.length hs) row)).

(** Lines 61-62: the progress lines printed while [rows] are read. *)
Definition progress (rows : list (list string)) : list event :=
  map (fun row_num => Line "  Loaded {} rows..." [CInt (Z.of_nat row_num)])
      (filter (fun row_num => (row_num mod 10000 =? 0) && (0 <? row_num))
              (seq 0 (List.length rows))).

(** Lines 83-84. *)
Definition sample_data (raw_data : list (list cell)) : list (list cell) :=
  let sample_size := Nat.min 1000 (List.length raw_data) in
  if 1000 <? List.length raw_data then firstn sample_size raw_data else raw_data.

(** Line 92, on the rows as they are when the column is visited. *)
Definition column_vals (i : nat) (rows : list (list cell)) : list cell :=
  filter is_not_none (map (fun row => nth i row CNone) rows).

(** Lines 97-102. *)
Definition numeric_count (vals : list cell) : nat :=
  List.length (filter (fun v => match float_of v with Some _ => true | None => false end) vals).

(** Line 104: [numeric_count / len(vals[:100]) >= 0.8].  Both numbers are at
    most 100, so the quotient of the floats compares with 0.8 as the exact
    fraction compares with 4/5. *)
Definition mostly_numeric (vals : list cell) : bool :=
  let checked := firstn 100 vals in
  4 * List.length checked <=? 5 * numeric_count checked.

(** Line 109, one cell. *)
Definition convert (c : cell) : cell :=
  match c with
  | CNone => CNone
  | _ =>
      if Py.contains "." (str c)
      then match float_of c with Some x => CFloat x | None => c end
      else match int_of c with Some z => CInt z | None => c end
  end.

(** Lines 107-110: the column is converted in place, in every row. *)
Definition convert_column (i : nat) (raw_data : list (list cell)) : list (list cell) :=
  map (fun row => Py.set_item i (convert (nth i row CNone)) row) raw_data.

(** Lines 86-112: the loop over the headers.  Its state is the rows (which
    the loop rewrites) and the two lists of column names. *)
Definition detect_state : Type :=
  (list (list cell) * list string * list string)%type.

Definition detect_step (st : detect_state) (ih : nat * string) : detect_state :=
  let '(raw_data, num, cat) := st in
  let '(i, header) := ih in
  if Py.mem header complex_fields then (raw_data, num, cat ++ [header])%list
  else
    let vals := column_vals i (sample_data raw_data) in
    match vals with
    | [] => (raw_data, num, cat ++ [header])%list
    | _ =>
        if mostly_numeric vals
        then (convert_column i raw_data, num ++ [header], cat)%list
        else (raw_data, num, cat ++ [header])%list
    end.

Definition detect_types (hs : list string) (st : detect_state) : detect_state :=
  fold_left detect_step (Py.enumerate hs) st.

(** Line 119. *)
Definition row_key (row : list cell) : string :=
  Py.join "|" (map (fun c => match c with CNone => "" | _ => str c end) row).

(** Lines 116-122: [seen] is the set of keys met so far, [kept] is
    [self.data]. *)
Fixpoint remove_duplicates (rows : list (list cell)) (seen : list string)
    (kept : list (list cell)) : list (list cell) :=
  match rows with
  | [] => kept
  | row :: rest =>
      let key := row_key row in
      if Py.mem key seen then remove_duplicates rest seen kept
      else remove_duplicates rest (key :: seen) (kept ++ [row])%list
  end.

(** [load_and_clean_data], lines 42-133. *)
Definition load_and_clean_data : M unit :=
  _header "STEP 1: LOADING AND CLEANING DATASET" 1 ;;
  try_except
    (path <- gets filepath ;;
     contents <- lift (read_text path) ;;
     let delim := detect_delim contents in
     let reader := csv_reader delim contents in
     match reader with
     | ([], Some e) => raise e
     | ([], None) => raise StopIteration
     | (first :: rows, stop) =>
         set_headers (map Py.strip first) ;;
         hs <- gets headers ;;
         prints (progress rows) ;;
         match stop with Some e => raise e | None => ret tt end ;;
         let raw_data := map (process_row hs) rows in
         print (Line "Loaded {} rows" [CInt (Z.of_nat (List.length raw_data))]) ;;
         num0 <- gets numeric_columns ;;
         cat0 <- gets categorical_columns ;;
         let '(raw_data', num, cat) := detect_types hs (raw_data, num0, cat0) in
         set_columns num cat ;;
         print (Line "Removing duplicates..." []) ;;
         set_data (remove_duplicates raw_data' [] []) ;;
         d <- gets data ;;
         _box "LOADING SUMMARY"
           [("Final Rows", CInt (Z.of_nat (List.length d)));
            ("Duplicates Removed",
             CInt (Z.of_nat (List.length raw_data') - Z.of_nat (List.length d)));
            ("Numeric Columns", CInt (Z.of_nat (List.length num)));
            ("Categorical Columns", CInt (Z.of_nat (List.length cat)))]
     end)
    (fun e => print (Line "Error: {}" [CStr (exn_str e)])).

(** [self.headers.index(col)]. *)
Definition header_index (col : string) (hs : list string) : result nat :=
  match Py.index col hs with
  | Some idx => Ok idx
  | None => Raise ValueError
  end.

(** [[row[idx] for row in rows if isinstance(row[idx], (int, float))]],
    lines 175 and 254. *)
Definition numbers_at (idx : nat) (rows : list (list cell)) : result (list R) :=
  and_then (for_each (getitem idx) rows)
           (fun cells => Ok (flat_map (fun c => match number c with
                                                | Some x => [x]
                                                | None => []
                                                end) cells)).

Definition float_cell (x : option R) : cell :=
  match x with
  | Some v => CFloat v
  | None => CNone
  end.

Definition nat_cell (n : nat) : cell := CInt (Z.of_nat n).

(** [compute_column_statistics], lines 155-209. *)
Definition compute_column_statistics : M unit :=
  _header "STEP 2: COMPUTING STATISTICS" 1 ;;
  d <- gets data ;;
  hs <- gets headers ;;
  nums <- gets numeric_columns ;;
  cats <- gets categorical_columns ;;
  let total_cells := List.length d * List.length hs in
  let missing :=
    List.length (filter (fun c => negb (is_not_none c)) (List.concat d)) in
  (if total_cells =? 0 then raise ZeroDivisionError else ret tt) ;;
  _box "DATASET OVERVIEW"
    [("Rows", nat_cell (List.length d)); ("Columns", nat_cell (List.length hs));
     ("Numeric Cols", nat_cell (List.length nums));
     ("Categorical Cols", nat_cell (List.length cats));
     ("Missing Values", nat_cell missing);
     ("Missing %", CFloat (100 * INR missing / INR total_cells)%R)] ;;
  match nums with
  | [] => ret tt
  | _ =>
      _header "NUMERIC STATISTICS" 2 ;;
      num_data <- collect nums (fun col =>
        idx <- lift (header_index col hs) ;;
        vals <- lift (numbers_at idx d) ;;
        match vals with
        | [] =>
            ret [CStr (Py.prefix 20 col); CStr "0"; nat_cell (List.length d);
                 CStr "None"; CStr "None"; CStr "None"; CStr "None"]
        | _ =>
            let s := _fast_stats vals in
            ret [CStr (Py.prefix 20 col); nat_cell (count s);
                 CInt (Z.of_nat (List.length d) - Z.of_nat (count s));
                 float_cell (mean s); float_cell (std s);
                 float_cell (min_val s); float_cell (max_val s)]
        end) ;;
      _table ["Column"; "Count"; "Missing"; "Mean"; "StdDev"; "Min"; "Max"] num_data
  end ;;
  match cats with
  | [] => ret tt
  | _ =>
      _header "CATEGORICAL STATISTICS (Top 5)" 2 ;;
      cat_data <- collect (firstn 5 cats) (fun col =>
        idx <- lift (header_index col hs) ;;
        cells <- lift (for_each (getitem idx) d) ;;
        let vals := map str (filter is_not_none cells) in
        match vals with
        | [] =>
            ret [CStr (Py.prefix 20 col); CStr "0"; nat_cell (List.length d);
                 CStr "0"; CStr "None"; CStr "0"]
        | _ =>
            let counts := Py.Counter vals in
            top <- lift (Py.most_common1 counts) ;;
            ret [CStr (Py.prefix 20 col); nat_cell (List.length vals);
                 CInt (Z.of_nat (List.length d) - Z.of_nat (List.length vals));
                 nat_cell (List.length counts);
                 CStr (Py.prefix 20 (fst top)); nat_cell (snd top)]
        end) ;;
      _table ["Column"; "Count"; "Missing"; "Unique"; "Top_Value"; "Top_Count"]
        cat_data
  end ;;
  print (Line "Statistics computed" []).

(** Line 225: the key of a row, a tuple of strings. *)
Definition group_key (indices : list nat) (row : list cell) : result (list string) :=
  for_each (fun i => and_then (getitem i row)
                       (fun c => Ok (match c with CNone => "None" | _ => str c end)))
           indices.

(** Lines 222-226: the loop that fills [groups]. *)
Fixpoint group_rows (indices : list nat) (rows : list (list cell))
    (groups : list (list string * list (list cell)))
    : result (list (list string * list (list cell))) :=
  match rows with
  | [] => Ok groups
  | row :: rest =>
      and_then (group_key indices row)
               (fun key => group_rows indices rest
                             (Py.append_to (Py.tuple_eqb String.eqb) key row groups))
  end.

Definition group_size (g : list string * list (list cell)) : nat :=
  List.length (snd g).

(** Line 228. *)
Definition group_list_of (groups : list (list string * list (list cell)))
    : list (list string * list (list cell)) :=
  Py.sorted_desc group_size groups.

(** Lines 243-245: one line per group among the first ten of [group_list]. *)
Definition top_groups (group_list : list (list string * list (list cell)))
    : list (list string * list (list cell)) :=
  firstn 10 group_list.

(** Lines 250-257: the groups whose numeric statistics are printed. *)
Definition stats_groups (group_list : list (list string * list (list cell)))
    : list (list string * list (list cell)) :=
  firstn 3 group_list.

(** [key[0]]. *)
Definition key0 (key : list string) : result string :=
  getitem 0 key.

(** [perform_groupby_analysis], lines 211-257. *)
Definition perform_groupby_analysis (group_cols : list string) (name : string)
    : M unit :=
  _header ("STEP 3: " ++ Py.upper name) 1 ;;
  hs <- gets headers ;;
  let missing := filter (fun c => negb (Py.mem c hs)) group_cols in
  match missing with
  | _ :: _ => print (Line "Missing columns: {}" (map CStr missing))
  | [] =>
      indices <- lift (for_each (fun c => header_index c hs) group_cols) ;;
      d <- gets data ;;
      groups <- lift (group_rows indices d []) ;;
      let group_list := group_list_of groups in
      print (Line "Created {} groups" [nat_cell (List.length group_list)]) ;;
      let sizes := map group_size group_list in
      match sizes with
      | [] => ret tt
      | _ =>
          let size_stats := _fast_stats (map INR sizes) in
          _box "GROUP SIZES"
            [("Total Groups", nat_cell (List.length group_list));
             ("Mean Size", float_cell (mean size_stats));
             ("Min Size", float_cell (min_val size_stats));
             ("Max Size", float_cell (max_val size_stats))]
      end ;;
      print (Line "Top 10 Groups:" []) ;;
      for_ (Py.enumerate (top_groups group_list)) (fun ig =>
        let '(i, (key, rows)) := ig in
        k0 <- lift (key0 key) ;;
        let group_name :=
          if List.length key =? 1 then k0
          else k0 ++ "+" ++ Py.str_int (Z.of_nat (List.length key) - 1) ++ "more" in
        print (Line "{}. {} {} rows"
                 [nat_cell (i + 1); CStr (Py.prefix 30 group_name);
                  nat_cell (List.length rows)])) ;;
      nums <- gets numeric_columns ;;
      match nums, group_list with
      | _ :: _, _ :: _ =>
          print (Line "Numeric stats for top 3 groups:" []) ;;
          for_ (Py.enumerate (stats_groups group_list)) (fun ig =>
            let '(i, (key, rows)) := ig in
            k0 <- lift (key0 key) ;;
            print (Line "Group {}: {} ({} rows)"
                     [nat_cell (i + 1); CStr (Py.prefix 30 k0);
                      nat_cell (List.length rows)]) ;;
            for_ (firstn 3 nums) (fun col =>
              idx <- lift (header_index col hs) ;;
              vals <- lift (numbers_at idx rows) ;;
              match vals with
              | [] => ret tt
              | _ =>
                  let s := _fast_stats vals in
                  print (Line "  {}: mean={} min={} max={}"
                           [CStr (Py.prefix 15 col); float_cell (mean s);
                            float_cell (min_val s); float_cell (max_val s)])
              end))
      | _, _ => ret tt
      end
  end.

(** The truth value of a cell ([if row[idx]], line 298). *)
Definition truthy (c : cell) : bool :=
  match c with
  | CNone => false
  | CStr s => negb (String.eqb s "")
  | CJson JNull => false
  | CJson (JBool b) => b
  | CJson (JNumber x) => if Req_dec_T x 0 then false else true
  | CJson (JString s) => negb (String.eqb s "")
  | CJson (JArray items) => match items with [] => false | _ => true end
  | CJson (JObject members) => match members with [] => false | _ => true end
  | CInt z => negb (Z.eqb z 0)
  | CFloat x => if Req_dec_T x 0 then false else true
  end.

(** Lines 294-302: the columns that could serve as one more grouping, each
    with its number of distinct values in the first 1000 rows. *)
Definition candidate (col : string) : M (list (string * nat)) :=
  if Py.mem col ["page_id"; "ad_id"] then ret []
  else
    hs <- gets headers ;;
    d <- gets data ;;
    idx <- lift (header_index col hs) ;;
    cells <- lift (for_each (getitem idx) (firstn 1000 d)) ;;
    let vals := map str (filter truthy cells) in
    match vals with
    | [] => ret []
    | _ =>
        let unique := List.length (nodup string_dec vals) in
        if (2 <=? unique) && (unique <=? 20) then ret [(col, unique)] else ret []
    end.

(** Lines 284-311 of [run_complete_analysis]: the steps that follow a
    successful load. *)
Definition report_steps : M unit :=
  compute_column_statistics ;;
  hs1 <- gets headers ;;
  (if Py.mem "page_id" hs1
   then perform_groupby_analysis ["page_id"] "Analysis by PAGE_ID"
   else ret tt) ;;
  hs2 <- gets headers ;;
  (if Py.mem "page_id" hs2 && Py.mem "ad_id" hs2
   then perform_groupby_analysis ["page_id"; "ad_id"]
          "Analysis by PAGE_ID and AD_ID"
   else ret tt) ;;
  cats <- gets categorical_columns ;;
  found <- collect (firstn 10 cats) candidate ;;
  let candidates := Py.sorted_by snd (List.concat found) in
  match candidates with
  | [] => ret tt
  | (best_col, _) :: _ =>
      perform_groupby_analysis [best_col] ("Analysis by " ++ Py.upper best_col)
  end ;;
  print (Line "======================================================================" []) ;;
  print (Line "ANALYSIS COMPLETED SUCCESSFULLY" []) ;;
  print (Line "======================================================================" []).

(** Lines 279-311: the body of the [try] statement. *)
Definition analysis : M unit :=
  load_and_clean_data ;;
  d <- gets data ;;
  match d with
  | [] => print (Line "No data loaded!" [])
  | _ => report_steps
  end.

(** Lines 313-314: the [except Exception as e] clause. *)
Definition report_error (e : exn) : M unit :=
  print (Line "Error: {}" [CStr (exn_str e)]).

(** Lines 275-276. *)
Definition banner : M unit :=
  print (Line "FAST PYTHON DATASET ANALYZER" []) ;;
  print (Line "======================================================================" []).

(** [run_complete_analysis], lines 274-314 (the definition of lines 259-272
    is replaced by this one when the class body is executed). *)
Definition run_complete_analysis : M unit :=
  banner ;;
  try_except analysis report_error.

End Methods.

End FbAdsPython.

(** ** What the dataframe analyzers print

    [Report] is a piece of output whose text is produced by the dataframe
    library (a formatted statistic or table). *)

Inductive df_event : Type :=
| DfHeader (title : string) (level : nat)
| DfBox (title : string) (entries : list (string * string))
| DfLine (text : string) (args : list string)
| DfReport (text : string).

(** The digits of a count.  Where a script formats a count with thousands
    separators ([f"{n:,}"]), the event keeps the digits alone. *)
Definition str_nat (n : nat) : string := Py.str_int (Z.of_nat n).

(** ** 2024_fb_ads/pandas_stats.py: class PandasAnalyzer *)

Module FbAdsPandas.

(** An element of a dataframe: NaN, a [str], an object returned by
    [json.loads], or a number. *)
Inductive pcell : Type :=
| NaN
| Str (s : string)
| Obj (j : json)
| Num (x : R).

(** A [DataFrame]: its column labels and its rows. *)
Record DataFrame : Type := { columns : list string; rows : list (list pcell) }.

(** The fields of [self]; [df] is [None] until a file is read. *)
Record analyzer : Type := {
  filepath : string;
  df : option DataFrame;
  numeric_columns : list string;
  categorical_columns : list string
}.

(** [__init__], lines 6-10. *)
Definition __init__ (path : string) : analyzer := Build_analyzer path None [] [].

(** What the analyzer takes from pandas.  [read_csv path delim] is the call
    of lines 55-61; [parse_number s] is the number [pd.to_numeric] reads in
    the string [s], [None] when it reads none; [drop_duplicates] and
    [nunique] are the methods of these names.  [statistics] and [groupby]
    stand for the bodies of [compute_column_statistics] (lines 121-180) and
    of [perform_groupby_analysis] (lines 191-239), which consist of pandas
    calls and assign no field of [self]: each gives the text printed and the
    exception that ends the body, if any. *)
Class PdLib : Type := {
  read_csv : string -> ascii -> result DataFrame;
  parse_number : string -> option R;
  drop_duplicates : DataFrame -> result DataFrame;
  nunique : list pcell -> result nat;
  statistics : analyzer -> list string * option exn;
  groupby : analyzer -> list string -> list string * option exn
}.

Section Methods.
Context {L : PyLib} {P : PdLib}.
Local Open Scope string_scope.
Local Open Scope nat_scope.
Local Open Scope py_scope.
Import Run.

Definition M : Type -> Type := Run.M analyzer df_event.

Definition set_df (d : DataFrame) : M unit :=
  modify (fun a => Build_analyzer (filepath a) (Some d)
                     (numeric_columns a) (categorical_columns a)).

Definition set_columns (num cat : list string) : M unit :=
  modify (fun a => Build_analyzer (filepath a) (df a) num cat).

(** [self.df] where the code uses it as a dataframe: AttributeError or
    TypeError on [None]. *)
Definition the_df : M DataFrame :=
  d <- gets df ;;
  match d with
  | Some d => ret d
  | None => raise AttributeError
  end.

(** Output of a body made of library calls. *)
Definition report (body : list string * option exn) : M unit :=
  prints (map DfReport (fst body)) ;;
  match snd body with
  | Some e => raise e
  | None => ret tt
  end.

Definition _header (title : string) (level : nat) : M unit :=
  print (DfHeader title level).

Definition _box (title : string) (entries : list (string * string)) : M unit :=
  print (DfBox title entries).

(** Lines 49-51. *)
Definition detect_delim (contents : string) : ascii :=
  let first_line := Py.readline contents in
  if Py.count Py.comma first_line <? Py.count Py.tab first_line
  then Py.tab else Py.comma.

Definition complex_fields : list string :=
  ["delivery_by_region"; "demographic_distribution"; "publisher_platforms"].

(** [_parse_json_safe], lines 36-41. *)
Definition _parse_json_safe (value : pcell) : pcell :=
  match value with
  | Str s =>
      if Py.mem s ["{}"; "[]"; ""] then NaN
      else if negb (Py.contains "{" s || Py.contains "[" s) then Str s
      else match json_loads s with
           | Some j => Obj j
           | None => Str s
           end
  | NaN => NaN
  | other => other
  end.

(** [df[col]]: the elements of the column labelled [col]. *)
Definition column (col : string) (d : DataFrame) : list pcell :=
  match Py.index col (columns d) with
  | Some i => map (fun row => nth i row NaN) (rows d)
  | None => []
  end.

(** [df[col] = df[col].apply(f)] and the like: the column is replaced,
    element by element. *)
Definition map_column (col : string) (f : pcell -> pcell) (d : DataFrame) : DataFrame :=
  match Py.index col (columns d) with
  | Some i =>
      Build_DataFrame (columns d)
        (map (fun row => Py.set_item i (f (nth i row NaN)) row) (rows d))
  | None => d
  end.

Definition head (n : nat) (d : DataFrame) : DataFrame :=
  Build_DataFrame (columns d) (firstn n (rows d)).

Definition dropna (l : list pcell) : list pcell :=
  filter (fun c => match c with NaN => false | _ => true end) l.

(** The number [pd.to_numeric] makes of one element. *)
Definition numeric (c : pcell) : option R :=
  match c with
  | Str s => parse_number s
  | Num x => Some x
  | _ => None
  end.

(** [pd.to_numeric(l, errors='raise')] returns (rather than raises). *)
Definition to_numeric_ok (l : list pcell) : bool :=
  forallb (fun c => match numeric c with Some _ => true | None => false end) l.

(** [pd.to_numeric(..., errors='coerce')], one element. *)
Definition coerce (c : pcell) : pcell :=
  match numeric c with
  | Some x => Num x
  | None => NaN
  end.

(** Lines 80-98: the loop over the columns; [sample_df] was taken before
    the loop. *)
Definition classify_state : Type := (DataFrame * list string * list string)%type.

Definition classify_step (sample_df : DataFrame) (st : classify_state) (col : string)
    : classify_state :=
  let '(d, num, cat) := st in
  if Py.mem col complex_fields then (d, num, cat ++ [col])%list
  else
    let sample_non_null := dropna (column col sample_df) in
    match sample_non_null with
    | [] => (d, num, cat ++ [col])%list
    | _ =>
        if to_numeric_ok (firstn 100 sample_non_null)
        then (map_column col coerce d, num ++ [col], cat)%list
        else (d, num, cat ++ [col])%list
    end.

Definition classify (d : DataFrame) (num cat : list string) : classify_state :=
  let sample_size := Nat.min 1000 (List.length (rows d)) in
  let sample_df := head sample_size d in
  fold_left (classify_step sample_df) (columns d) (d, num, cat).

(** [load_and_clean_data], lines 43-115.  The set [complex_fields] is gone
    through in the order in which it is written. *)
Definition load_and_clean_data : M unit :=
  _header "STEP 1: LOADING AND CLEANING DATASET" 1 ;;
  try_except
    (path <- gets filepath ;;
     contents <- lift (read_text path) ;;
     let delim := detect_delim contents in
     print (DfLine "Loading data from {}..." [path]) ;;
     d <- lift (read_csv path delim) ;;
     set_df d ;;
     print (DfLine "Loaded {} rows" [str_nat (List.length (rows d))]) ;;
     let d1 := Build_DataFrame (map Py.strip (columns d)) (rows d) in
     set_df d1 ;;
     for_ complex_fields (fun col =>
       d2 <- the_df ;;
       if Py.mem col (columns d2)
       then print (DfLine "Processing JSON field: {}" [col]) ;;
            set_df (map_column col _parse_json_safe d2)
       else ret tt) ;;
     print (DfLine "Detecting column types..." []) ;;
     d3 <- the_df ;;
     num0 <- gets numeric_columns ;;
     cat0 <- gets categorical_columns ;;
     let '(d4, num, cat) := classify d3 num0 cat0 in
     set_df d4 ;;
     set_columns num cat ;;
     print (DfLine "Removing duplicates..." []) ;;
     let initial_rows := List.length (rows d4) in
     d5 <- lift (drop_duplicates d4) ;;
     set_df d5 ;;
     let duplicates_removed := initial_rows - List.length (rows d5) in
     _box "LOADING SUMMARY"
       [("Final Rows", str_nat (List.length (rows d5)));
        ("Duplicates Removed", str_nat duplicates_removed);
        ("Numeric Columns", str_nat (List.length num));
        ("Categorical Columns", str_nat (List.length cat))])
    (fun e => print (DfLine "Error: {}" [exn_str e])).

(** [compute_column_statistics], lines 117-180. *)
Definition compute_column_statistics : M unit :=
  _header "STEP 2: COMPUTING STATISTICS" 1 ;;
  a <- gets (fun a => a) ;;
  report (statistics a).

(** [perform_groupby_analysis], lines 182-239. *)
Definition perform_groupby_analysis (group_cols : list string) (name : string)
    : M unit :=
  _header ("STEP 3: " ++ Py.upper name) 1 ;;
  d <- the_df ;;
  let missing := filter (fun c => negb (Py.mem c (columns d))) group_cols in
  match missing with
  | _ :: _ => print (DfLine "Missing columns: {}" missing)
  | [] =>
      a <- gets (fun a => a) ;;
      report (groupby a group_cols)
  end.

(** Lines 277-283. *)
Definition candidate (col : string) : M (list (string * nat)) :=
  if Py.mem col ["page_id"; "ad_id"] then ret []
  else
    d <- the_df ;;
    let sample_data := firstn 1000 (dropna (column col d)) in
    match sample_data with
    | [] => ret []
    | _ =>
        unique <- lift (nunique sample_data) ;;
        if (2 <=? unique) && (unique <=? 20) then ret [(col, unique)] else ret []
    end.

(** Lines 266-292 of [run_complete_analysis]: the steps that follow a
    successful load. *)
Definition report_steps : M unit :=
  compute_column_statistics ;;
  d1 <- the_df ;;
  (if Py.mem "page_id" (columns d1)
   then perform_groupby_analysis ["page_id"] "Analysis by PAGE_ID"
   else ret tt) ;;
  d2 <- the_df ;;
  (if Py.mem "page_id" (columns d2) && Py.mem "ad_id" (columns d2)
   then perform_groupby_analysis ["page_id"; "ad_id"]
          "Analysis by PAGE_ID and AD_ID"
   else ret tt) ;;
  cats <- gets categorical_columns ;;
  found <- collect (firstn 10 cats) candidate ;;
  let candidates := Py.sorted_by snd (List.concat found) in
  match candidates with
  | [] => ret tt
  | (best_col, _) :: _ =>
      perform_groupby_analysis [best_col] ("Analysis by " ++ Py.upper best_col)
  end ;;
  print (DfLine "======================================================================" []) ;;
  print (DfLine "ANALYSIS COMPLETED SUCCESSFULLY" []) ;;
  print (DfLine "======================================================================" []).

(** [self.df is None or len(self.df) == 0], line 262. *)
Definition no_data (d : option DataFrame) : bool :=
  match d with
  | None => true
  | Some d0 => match rows d0 with [] => true | _ => false end
  end.

(** Lines 261-292: the body of the [try] statement. *)
Definition analysis : M unit :=
  load_and_clean_data ;;
  d <- gets df ;;
  if no_data d then print (DfLine "No data loaded!" [])
  else report_steps.

(** Lines 294-295: the [except Exception as e] clause. *)
Definition report_error (e : exn) : M unit :=
  print (DfLine "Error: {}" [exn_str e]).

(** Lines 257-258. *)
Definition banner : M unit :=
  print (DfLine "FAST PANDAS DATASET ANALYZER" []) ;;
  print (DfLine "======================================================================" []).

(** [run_complete_analysis], lines 256-295 (it replaces the definition of
    lines 241-254). *)
Definition run_complete_analysis : M unit :=
  banner ;;
  try_except analysis report_error.

End Methods.

End FbAdsPandas.

(** ** 2024_fb_ads/polars_stats.py: class PolarsAnalyzer *)

Module FbAdsPolars.

(** The polars data types the script tells apart (line 101), and the
    others. *)
Inductive dtype : Type :=
| Int8 | Int16 | Int32 | Int64
| UInt8 | UInt16 | UInt32 | UInt64
| Float32 | Float64
| Utf8 | Boolean | Date | Datetime | Object.

(** What the analyzer takes from polars.  [frame] is a polars DataFrame;
    [read_csv path delimiter] is the call of lines 63-70; [rename_strip] is
    the renaming of line 75, [parse_json col] the [with_columns] call of lines
    82-87 for one column, [unique] the method of line 92.  [statistics] and
    [groupby] stand for the bodies of [compute_column_statistics] (lines
    123-204) and of the [try] block of [perform_groupby_analysis] (lines
    218-277), which consist of polars calls and assign no field of [self]. *)
Class PlLib : Type := {
  frame : Type;
  read_csv : string -> ascii -> result frame;
  columns : frame -> list string;
  dtype_of : frame -> string -> dtype;
  height : frame -> nat;
  width : frame -> nat;
  rename_strip : frame -> result frame;
  parse_json : string -> frame -> result frame;
  unique : frame -> result frame;
  n_unique : frame -> string -> result nat;
  statistics : frame -> list string -> list string -> list string * option exn;
  groupby : frame -> list string -> list string -> list string * option exn
}.

Section Methods.
Context {L : PyLib} {P : PlLib}.
Local Open Scope string_scope.
Local Open Scope nat_scope.
Local Open Scope py_scope.
Import Run.

(** The fields of [self]. *)
Record analyzer : Type := {
  filepath : string;
  df : option frame;
  numeric_columns : list string;
  categorical_columns : list string
}.

(** [__init__], lines 6-10. *)
Definition __init__ (path : string) : analyzer := Build_analyzer path None [] [].

Definition M : Type -> Type := Run.M analyzer df_event.

Definition set_df (d : frame) : M unit :=
  modify (fun a => Build_analyzer (filepath a) (Some d)
                     (numeric_columns a) (categorical_columns a)).

Definition set_columns (num cat : list string) : M unit :=
  modify (fun a => Build_analyzer (filepath a) (df a) num cat).

Definition the_df : M frame :=
  d <- gets df ;;
  match d with
  | Some d => ret d
  | None => raise AttributeError
  end.

Definition report (body : list string * option exn) : M unit :=
  prints (map DfReport (fst body)) ;;
  match snd body with
  | Some e => raise e
  | None => ret tt
  end.

Definition _header (title : string) (level : nat) : M unit :=
  print (DfHeader title level).

Definition _box (title : string) (entries : list (string * string)) : M unit :=
  print (DfBox title entries).

(** Lines 57-59. *)
Definition detect_delimiter (contents : string) : ascii :=
  let first_line := Py.readline contents in
  if Py.count Py.comma first_line <? Py.count Py.tab first_line
  then Py.tab else Py.comma.

Definition complex_fields : list string :=
  ["delivery_by_region"; "demographic_distribution"; "publisher_platforms"].

(** Line 101. *)
Definition is_numeric_dtype (t : dtype) : bool :=
  match t with
  | Int8 | Int16 | Int32 | Int64 | UInt8 | UInt16 | UInt32 | UInt64
  | Float32 | Float64 => true
  | _ => false
  end.

(** Lines 96-104. *)
Definition classify (d : frame) : list string * list string :=
  fold_left (fun nc col =>
               if is_numeric_dtype (dtype_of d col)
               then (fst nc ++ [col], snd nc)%list
               else (fst nc, snd nc ++ [col])%list)
            (columns d) ([], []).

(** [load_and_clean_data], lines 50-117: the exception is printed and
    raised again. *)
Definition load_and_clean_data : M unit :=
  _header "STEP 1: LOADING AND CLEANING DATASET" 1 ;;
  try_except
    (print (DfLine "Auto-detecting delimiter..." []) ;;
     path <- gets filepath ;;
     contents <- lift (read_text path) ;;
     let delimiter := detect_delimiter contents in
     print (DfLine "Loading data with Polars..." []) ;;
     d <- lift (read_csv path delimiter) ;;
     set_df d ;;
     print (DfLine "Loaded {} rows and {} columns" [str_nat (height d); str_nat (width d)]) ;;
     d1 <- lift (rename_strip d) ;;
     set_df d1 ;;
     for_ complex_fields (fun field =>
       d2 <- the_df ;;
       if Py.mem field (columns d2)
       then d3 <- lift (parse_json field d2) ;; set_df d3
       else ret tt) ;;
     print (DfLine "Removing duplicates..." []) ;;
     d4 <- the_df ;;
     let initial_rows := height d4 in
     d5 <- lift (unique d4) ;;
     set_df d5 ;;
     let duplicates_removed := initial_rows - height d5 in
     let '(num, cat) := classify d5 in
     set_columns num cat ;;
     _box "LOADING SUMMARY"
       [("Final Rows", str_nat (height d5)); ("Columns", str_nat (width d5));
        ("Duplicates Removed", str_nat duplicates_removed);
        ("Numeric Columns", str_nat (List.length num));
        ("Categorical Columns", str_nat (List.length cat))])
    (fun e => print (DfLine "Error loading data: {}" [exn_str e]) ;; raise e).

(** [compute_column_statistics], lines 119-204. *)
Definition compute_column_statistics : M unit :=
  _header "STEP 2: COMPUTING STATISTICS" 1 ;;
  d <- the_df ;;
  num <- gets numeric_columns ;;
  cat <- gets categorical_columns ;;
  report (statistics d num cat).

(** [perform_groupby_analysis], lines 206-280. *)
Definition perform_groupby_analysis (group_cols : list string) (name : string)
    : M unit :=
  _header ("STEP 3: " ++ Py.upper name) 1 ;;
  d <- the_df ;;
  let missing := filter (fun c => negb (Py.mem c (columns d))) group_cols in
  match missing with
  | _ :: _ => print (DfLine "Missing columns: {}" missing)
  | [] =>
      num <- gets numeric_columns ;;
      try_except (report (groupby d group_cols num))
        (fun e => print (DfLine "Error in groupby analysis: {}" [exn_str e]))
  end.

(** Lines 306-313: an exception of [n_unique] skips the column. *)
Definition candidate (col : string) : M (list (string * nat)) :=
  if Py.mem col ["page_id"; "ad_id"] then ret []
  else
    try_except
      (d <- the_df ;;
       unique_count <- lift (n_unique d col) ;;
       if (2 <=? unique_count) && (unique_count <=? 20)
       then ret [(col, unique_count)] else ret [])
      (fun _ => ret []).

(** Lines 284-322: the body of the [try] statement. *)
Definition analysis : M unit :=
  print (DfLine "=== POLARS ANALYSIS START ===" []) ;;
  load_and_clean_data ;;
  print (DfLine "[TIMER] load_and_clean_data" []) ;;
  compute_column_statistics ;;
  print (DfLine "[TIMER] compute_column_statistics" []) ;;
  perform_groupby_analysis ["ad_id"] "Group by ad_id" ;;
  print (DfLine "[TIMER] perform_groupby_analysis (ad_id)" []) ;;
  print (DfLine "[TIMER] TOTAL" []) ;;
  d1 <- the_df ;;
  (if Py.mem "page_id" (columns d1)
   then perform_groupby_analysis ["page_id"] "Analysis by PAGE_ID"
   else ret tt) ;;
  d2 <- the_df ;;
  (if Py.mem "page_id" (columns d2) && Py.mem "ad_id" (columns d2)
   then perform_groupby_analysis ["page_id"; "ad_id"]
          "Analysis by PAGE_ID and AD_ID"
   else ret tt) ;;
  cats <- gets categorical_columns ;;
  found <- collect (firstn 10 cats) candidate ;;
  let candidates := Py.sorted_by snd (List.concat found) in
  match candidates with
  | [] => ret tt
  | (best_col, _) :: _ =>
      perform_groupby_analysis [best_col] ("Analysis by " ++ Py.upper best_col)
  end ;;
  print (DfLine "======================================================================" []) ;;
  print (DfLine "ANALYSIS COMPLETED SUCCESSFULLY" []) ;;
  print (DfLine "======================================================================" []).

(** Lines 323-326: the [except Exception as e] clause. *)
Definition report_error (e : exn) : M unit :=
  print (DfLine "Error in analysis: {}" [exn_str e]) ;;
  print (DfReport "traceback").

(** [run_complete_analysis], lines 282-326. *)
Definition run_complete_analysis : M unit :=
  try_except analysis report_error.

End Methods.

End FbAdsPolars.

(** ** 2024_tw_posts/pure_python_stats.py: class TwitterPostsAnalyzer *)

Module TwPostsPython.

(** A value of a loaded row: [None], a [str], or a [float]. *)
Inductive tcell : Type :=
| TNone
| TStr (s : string)
| TNum (x : R).

Definition tcell_eqb (a b : tcell) : bool :=
  match a, b with
  | TNone, TNone => true
  | TStr s, TStr t => String.eqb s t
  | TNum x, TNum y => if Req_dec_T x y then true else false
  | _, _ => false
  end.

(** A row is a [dict] from column names to values. *)
Definition row : Type := list (string * tcell).

(** The [defaultdict] of the group-by steps: keys (tuples) in the order in
    which they were first met, each with its rows. *)
Definition groups : Type := list (list tcell * list row).

Inductive event : Type :=
| Line (text : string) (args : list string)
| Table (columns : list tcell) (rows : list (list tcell)).

Record analyzer : Type := {
  data : list row;
  headers : list string;
  numeric_columns : list string;
  text_columns : list string
}.

Section Methods.
Context {L : PyLib}.
Local Open Scope string_scope.
Local Open Scope nat_scope.
Local Open Scope py_scope.
Import Run.

Definition M : Type -> Type := Run.M analyzer event.

(** [_get_num], lines 59-61. *)
Definition _get_num (v : tcell) : option R :=
  match v with
  | TNone => None
  | TStr s => float_of_str s
  | TNum x => Some x
  end.

(** [_table], lines 62-66. *)
Definition _table (rows : list (list tcell)) (columns : list tcell) : event :=
  Table columns rows.

(** Line 91. *)
Definition group_key (by_cols : list string) (r : row) : result (list tcell) :=
  for_each (fun c => Py.dict_get c r) by_cols.

(** Lines 89-92. *)
Fixpoint group_rows (by_cols : list string) (rows : list row) (d : groups)
    : result groups :=
  match rows with
  | [] => Ok d
  | r :: rest =>
      and_then (group_key by_cols r)
               (fun key => group_rows by_cols rest
                             (Py.append_to (Py.tuple_eqb tcell_eqb) key r d))
  end.

Definition group_size (g : list tcell * list row) : nat := List.length (snd g).

(** Line 95: the groups that make the rows of the printed table. *)
Definition printed_groups (d : groups) (topn : nat) : groups :=
  firstn topn (Py.sorted_desc group_size d).

(** [group_and_print], lines 88-98. *)
Definition group_and_print (by_cols : list string) (topn : nat) : M groups :=
  rows <- gets data ;;
  d <- lift (group_rows by_cols rows []) ;;
  print (Line "GROUP BY {}: {} groups (top {})"
           (by_cols ++ [str_nat (List.length d); str_nat topn])%list) ;;
  let table_rows :=
    map (fun kv => fst kv ++ [TNum (INR (List.length (snd kv)))])%list
        (printed_groups d topn) in
  print (_table table_rows (map TStr by_cols ++ [TStr "Count"])%list) ;;
  ret d.

(** Line 103: the groups whose statistics are computed. *)
Definition stats_groups (d : groups) : groups := firstn 10 d.

(** [[self._get_num(row[col]) for row in v if ... is not None]], line 104. *)
Definition nums_of (col : string) (v : list row) : result (list R) :=
  and_then (for_each (fun r => Py.dict_get col r) v)
           (fun cells => Ok (flat_map (fun c => match _get_num c with
                                                | Some x => [x]
                                                | None => []
                                                end) cells)).

(** Lines 102-106: the rows of the table of one column. *)
Fixpoint stats_rows (col : string) (items : groups) : result (list (list tcell)) :=
  match items with
  | [] => Ok []
  | (k, v) :: rest =>
      and_then (nums_of col v) (fun vals =>
      and_then (stats_rows col rest) (fun more =>
        match vals with
        | [] => Ok more
        | x :: xs =>
            Ok ((k ++ [TNum (Py.sum vals / INR (List.length vals))%R;
                       TNum (Py.min_of x xs); TNum (Py.max_of x xs)])%list :: more)
        end))
  end.

(** [group_numeric_stats], lines 100-110. *)
Definition group_numeric_stats (d : groups) (num_cols : list string) (topn : nat)
    : M unit :=
  for_ (firstn topn num_cols) (fun col =>
    rows <- lift (stats_rows col (stats_groups d)) ;;
    match rows with
    | [] => ret tt
    | _ =>
        key_headers <- lift (and_then (getitem 0 d) (fun kv => Ok (fst kv))) ;;
        print (Line "{} stats by group:" [col]) ;;
        print (_table rows (key_headers ++ [TStr "Mean"; TStr "Min"; TStr "Max"])%list)
    end).

(** [self.csv_file_path] is set by [__init__] (line 6) and assigned by no
    method; the record above does not hold it, and the methods that read it
    take it as their parameter [csv_file_path]. *)

(** Line 11. *)
Definition null_set : list string :=
  [""; "na"; "n/a"; "none"; "null"; "nan"; "#n/a"; "#null!"; "undefined"].

(** One row of [csv.DictReader]: [dict(zip(fieldnames, fields))], then
    [None] for the field names the line has no field for.  (Fields beyond
    the names are kept by Python under the key [None], which no column name
    reaches.) *)
Definition dict_row (fieldnames fields : list string) : row :=
  fold_left (fun d k => Py.dict_set k TNone d)
            (skipn (List.length fields) fieldnames)
            (Py.dict_of (combine fieldnames (map TStr fields))).

(** Lines 18-21, one value: a string is stripped, and a null marker
    becomes [None]. *)
Definition clean (v : tcell) : tcell :=
  match v with
  | TStr s =>
      let s' := Py.strip s in
      if Py.mem (Py.lower (Py.strip s')) null_set then TNone else TStr s'
  | other => other
  end.

Definition clean_row (r : row) : row := map (fun kv => (fst kv, clean (snd kv))) r.

(** [row.get(h)]. *)
Definition get (h : string) (r : row) : tcell :=
  match Py.lookup h r with
  | Some v => v
  | None => TNone
  end.

(** Line 27. *)
Definition row_tuple (hs : list string) (r : row) : list tcell :=
  map (fun h => get h r) hs.

(** Lines 24-30: [seen] is the set of tuples met so far. *)
Fixpoint unique_rows (hs : list string) (rows : list row) (seen : list (list tcell))
    (unique : list row) : list row :=
  match rows with
  | [] => unique
  | r :: rest =>
      let row_tuple := row_tuple hs r in
      if existsb (Py.tuple_eqb tcell_eqb row_tuple) seen
      then unique_rows hs rest seen unique
      else unique_rows hs rest (row_tuple :: seen) (unique ++ [r])%list
  end.

(** The truth value of a value ([if row[col]], lines 49 and 81). *)
Definition truthy (v : tcell) : bool :=
  match v with
  | TNone => false
  | TStr s => negb (String.eqb s "")
  | TNum x => if Req_dec_T x 0 then false else true
  end.

(** [_is_num], lines 56-58. *)
Definition _is_num (v : tcell) : bool :=
  match _get_num v with
  | Some _ => true
  | None => false
  end.

(** Lines 49-55, for one column: [true] when the column is numeric.  The
    values are collected before the [try], so a missing key is not caught. *)
Definition is_numeric_column (col : string) (rows : list row) : result bool :=
  and_then (for_each (fun r => Py.dict_get col r) (firstn 100 rows))
    (fun cells =>
       let vals := filter truthy cells in
       Ok (match vals with
           | [] => false
           | _ => 4 * List.length vals <? 5 * List.length (filter _is_num vals)
           end)).

(** [_identify_column_types], lines 46-55. *)
Definition _identify_column_types : M unit :=
  modify (fun a => Build_analyzer (data a) (headers a) [] []) ;;
  hs <- gets headers ;;
  for_ hs (fun col =>
    rows <- gets data ;;
    numeric <- lift (is_numeric_column col rows) ;;
    modify (fun a =>
              if numeric
              then Build_analyzer (data a) (headers a)
                     (numeric_columns a ++ [col]) (text_columns a)
              else Build_analyzer (data a) (headers a)
                     (numeric_columns a) (text_columns a ++ [col]))%list).

(** Lines 36-41, for one row and one numeric column. *)
Definition convert_value (col : string) (r : row) : row :=
  match Py.lookup col r with
  | None => r
  | Some TNone => r
  | Some v =>
      Py.dict_set col (match _get_num v with
                       | Some x => TNum x
                       | None => TNone
                       end) r
  end.

(** Lines 35-41, for one row. *)
Definition convert_row (num : list string) (r : row) : row :=
  fold_left (fun r col => convert_value col r) num r.

(** Line 42. *)
Definition nulls (rows : list row) : nat :=
  List.length (filter (fun v => match v with TNone => true | _ => false end)
                      (List.concat (map (map snd) rows))).

(** [load_and_clean_data], lines 9-44: no exception is caught.  On an empty
    file [reader.fieldnames] is [None], the headers cannot be gone through,
    and TypeError is raised (the list of headers is then written []). *)
Definition load_and_clean_data (csv_file_path : string) : M (list row) :=
  print (Line "LOADING AND CLEANING DATA" []) ;;
  contents <- lift (read_text csv_file_path) ;;
  match csv_reader Py.comma contents with
  | ([], Some e) => raise e
  | ([], None) =>
      modify (fun _ => Build_analyzer [] [] [] []) ;;
      raise (LibraryError "'NoneType' object is not iterable")
  | (fieldnames :: lines, stop) =>
      modify (fun a => Build_analyzer (data a) fieldnames
                         (numeric_columns a) (text_columns a)) ;;
      match stop with Some e => raise e | None => ret tt end ;;
      let cleaned :=
        map (fun l => clean_row (dict_row fieldnames l))
            (filter (fun l => match l with [] => false | _ => true end) lines) in
      modify (fun a => Build_analyzer (unique_rows fieldnames cleaned [] [])
                         (headers a) (numeric_columns a) (text_columns a)) ;;
      _identify_column_types ;;
      num <- gets numeric_columns ;;
      modify (fun a => Build_analyzer (map (convert_row num) (data a))
                         (headers a) (numeric_columns a) (text_columns a)) ;;
      d <- gets data ;;
      hs <- gets headers ;;
      txt <- gets text_columns ;;
      print (Line "Dataset loaded: {} rows x {} columns; Nulls: {}; Numeric: {}; Text: {}"
               ([str_nat (List.length d); str_nat (List.length hs); str_nat (nulls d)]
                ++ num ++ txt)%list) ;;
      ret d
  end.

(** [[self._get_num(row[col]) for row in rows if ... is not None]], line 74;
    the same as [nums_of]. *)

(** [Counter(l)] and [c.most_common(1)[0]] for values of rows. *)
Fixpoint tally (x : tcell) (counts : list (tcell * nat)) : list (tcell * nat) :=
  match counts with
  | [] => [(x, 1)]
  | (y, n) :: rest =>
      if tcell_eqb y x then (y, S n) :: rest else (y, n) :: tally x rest
  end.

Definition Counter (l : list tcell) : list (tcell * nat) :=
  fold_left (fun counts x => tally x counts) l [].

Definition most_common1 (counts : list (tcell * nat)) : result (tcell * nat) :=
  match counts with
  | [] => Raise IndexError
  | c :: rest =>
      Ok (fold_left (fun best kv => if snd best <? snd kv then kv else best) rest c)
  end.

(** Lines 74-76: the row of one numeric column, when it has a number. *)
Definition numeric_row (col : string) (rows : list row) : result (list (list tcell)) :=
  and_then (nums_of col rows) (fun vals =>
    Ok (match vals with
        | [] => []
        | x :: xs =>
            [[TStr col; TNum (INR (List.length vals)); TNum (Py.mean vals);
              TNum (Py.min_of x xs); TNum (Py.max_of x xs);
              TNum (if 1 <? List.length vals then Py.stdev vals else 0%R)]]
        end)).

(** [mf[:20]], line 85: TypeError when the value is not a string. *)
Definition prefix20 (v : tcell) : result tcell :=
  match v with
  | TStr s => Ok (TStr (Py.prefix 20 s))
  | _ => Raise (LibraryError "object is not subscriptable")
  end.

(** Lines 81-85: the row of one text column, when it has a value. *)
Definition text_row (col : string) (rows : list row) : result (list (list tcell)) :=
  and_then (for_each (fun r => Py.dict_get col r) rows) (fun cells =>
    let vals := filter truthy cells in
    match vals with
    | [] => Ok []
    | _ =>
        and_then (most_common1 (Counter vals)) (fun top =>
        and_then (prefix20 (fst top)) (fun mf =>
          Ok [[TStr col; TNum (INR (List.length vals));
               TNum (INR (List.length (Counter vals))); mf;
               TNum (INR (snd top))]]))
    end).

(** [compute_overall_statistics], lines 68-86. *)
Definition compute_overall_statistics : M unit :=
  print (Line "OVERALL DATASET STATISTICS:" []) ;;
  rows <- gets data ;;
  hs <- gets headers ;;
  print (Line "Rows: {}, Columns: {}"
           [str_nat (List.length rows); str_nat (List.length hs)]) ;;
  num <- gets numeric_columns ;;
  match num with
  | [] => ret tt
  | _ =>
      table <- lift (for_each (fun col => numeric_row col rows) num) ;;
      print (_table (List.concat table)
               [TStr "Col"; TStr "Count"; TStr "Mean"; TStr "Min"; TStr "Max"; TStr "Std"])
  end ;;
  txt <- gets text_columns ;;
  match txt with
  | [] => ret tt
  | _ =>
      table <- lift (for_each (fun col => text_row col rows) txt) ;;
      print (_table (List.concat table)
               [TStr "Col"; TStr "Count"; TStr "Unique"; TStr "Top"; TStr "TopCount"])
  end.

(** [row.get(group_col, 'N/A')], line 115. *)
Definition get_or_na (group_col : string) (r : row) : tcell :=
  match Py.lookup group_col r with
  | Some v => v
  | None => TStr "N/A"
  end.

(** Lines 113-115. *)
Definition engagement_groups (group_col : string) (rows : list row)
    : list (tcell * list row) :=
  fold_left (fun d r => Py.append_to tcell_eqb (get_or_na group_col r) r d) rows [].

(** [sum(self._get_num(row[m]) or 0 for m in metrics if m in row)], line 118. *)
Definition engagement (metrics : list string) (r : row) : R :=
  Py.sum (flat_map (fun m => match Py.lookup m r with
                             | Some v => [match _get_num v with
                                          | Some x => x
                                          | None => 0%R
                                          end]
                             | None => []
                             end) metrics).

(** Lines 117-119: one row of the table. *)
Definition engagement_row (metrics : list string) (kv : tcell * list row) : list tcell :=
  let vals := map (engagement metrics) (snd kv) in
  [fst kv; TNum (INR (List.length (snd kv))); TNum (Py.sum vals);
   TNum (match vals with
         | [] => 0%R
         | _ => (Py.sum vals / INR (List.length vals))%R
         end)].

(** The groups listed: the ten largest. *)
Definition engagement_listed (d : list (tcell * list row)) : list (tcell * list row) :=
  firstn 10 (Py.sorted_desc (fun kv => List.length (snd kv)) d).

(** [engagement_by_group], lines 112-121. *)
Definition engagement_by_group (group_col : string) (metrics : list string) : M unit :=
  rows <- gets data ;;
  let d := engagement_groups group_col rows in
  print (Line "Engagement by {}:" [group_col]) ;;
  print (_table (map (engagement_row metrics) (engagement_listed d))
           [TStr group_col; TStr "Posts"; TStr "TotalEng"; TStr "AvgEng"]).

(** Lines 134-156: one grouping and its statistics. *)
Definition grouping (by_cols : list string) : M unit :=
  d <- group_and_print by_cols 10 ;;
  print (Line "[TIMER] group_and_print {}" by_cols) ;;
  num <- gets numeric_columns ;;
  group_numeric_stats d num 3 ;;
  print (Line "[TIMER] group_numeric_stats {}" by_cols).

Definition engagement_metrics : list string :=
  ["retweetCount"; "replyCount"; "likeCount"; "quoteCount"; "bookmarkCount"].

(** [run_complete_analysis], lines 123-166: no exception is caught. *)
Definition run_complete_analysis (csv_file_path : string) : M unit :=
  print (Line "=== PURE PYTHON TWITTER ANALYSIS START ===" []) ;;
  load_and_clean_data csv_file_path ;;
  print (Line "[TIMER] load_and_clean_data" []) ;;
  compute_overall_statistics ;;
  print (Line "[TIMER] compute_overall_statistics" []) ;;
  hs <- gets headers ;;
  (if Py.mem "source" hs then grouping ["source"] else ret tt) ;;
  (if forallb (fun x => Py.mem x hs) ["id"; "source"]
   then grouping ["id"; "source"] else ret tt) ;;
  (if Py.mem "lang" hs then grouping ["lang"] else ret tt) ;;
  let metrics := filter (fun c => Py.mem c hs) engagement_metrics in
  match metrics with
  | [] => ret tt
  | _ =>
      engagement_by_group "source" metrics ;;
      print (Line "[TIMER] engagement_by_group 'source'" []) ;;
      engagement_by_group "lang" metrics ;;
      print (Line "[TIMER] engagement_by_group 'lang'" [])
  end ;;
  print (Line "[TIMER] TOTAL; === PURE PYTHON TWITTER ANALYSIS END ===" []).

End Methods.

End TwPostsPython.

(** ** 2024_fb_posts/pure_python_stats.py: class SocialMediaPostsAnalyzer *)

Module FbPostsPython.

(** [csv.DictReader] gives every value as a [str], or [None] for a field
    the line does not have. *)
Definition row : Type := list (string * option string).

(** The [defaultdict] of [analyze_by_facebook_id]: page ids in the order in
    which they were first met, each with its rows. *)
Definition groups : Type := list (option string * list row).

(** One row of a printed table: the cells by column name.  A number the
    script formats ([:.2f], [:,.0f], [:.1f] followed by a percent sign) is
    kept as the number. *)
Inductive fcell : Type :=
| Text (s : string)
| Number (x : R).

Inductive event : Type :=
| Line (text : string) (args : list string)
| Table (title : string) (rows : list (list (string * fcell))).

Record analyzer : Type := {
  csv_file_path : string;
  data : list row;
  headers : list string;
  numeric_columns : list string;
  text_columns : list string
}.

(** [__init__], lines 6-8. *)
Definition __init__ (path : string) : analyzer := Build_analyzer path [] [] [] [].

Section Methods.
Context {L : PyLib}.
Local Open Scope string_scope.
Local Open Scope nat_scope.
Local Open Scope py_scope.
Import Run.

Definition M : Type -> Type := Run.M analyzer event.

(** [_to_num], lines 10-12. *)
Definition _to_num (v : option string) : option R :=
  match v with
  | None => None
  | Some s =>
      if String.eqb s "" then None
      else if Py.contains "." s then float_of_str s
      else option_map IZR (int_of_str s)
  end.

(** One row of [csv.DictReader]: the fields by name, [None] for a name the
    line has no field for.  (Fields beyond the names are kept by Python
    under the key [None], which no column name reaches.) *)
Definition dict_row (fieldnames : list string) (fields : list string) : row :=
  combine fieldnames
    (map Some fields ++ repeat None (List.length fieldnames - List.length fields))%list.

(** [bool(row[h])], lines 33 and 37. *)
Definition filled (v : option string) : bool :=
  match v with
  | Some s => negb (String.eqb s "")
  | None => false
  end.

(** Lines 37-39, for one header: [true] when the column is numeric. *)
Definition is_numeric_column (h : string) (rows : list row) : result bool :=
  and_then (for_each (fun r => Py.dict_get h r) (firstn 100 rows))
    (fun cells =>
       let samples := filter filled cells in
       let parsed :=
         List.length (filter (fun v => match _to_num v with
                                       | Some _ => true
                                       | None => false
                                       end) samples) in
       Ok (match samples with
           | [] => false
           | _ => 4 * List.length samples <? 5 * parsed
           end)).

(** [load_and_clean_data], lines 26-42.  [csv.DictReader] takes the first
    row for the field names and skips empty rows; an exception is not
    caught. *)
Definition load_and_clean_data : M (list row) :=
  print (Line "LOADING AND CLEANING DATA" []) ;;
  path <- gets csv_file_path ;;
  contents <- lift (read_text path) ;;
  match csv_reader Py.comma contents with
  | ([], Some e) => raise e
  | ([], None) => raise (LibraryError "object of type 'NoneType' has no len()")
  | (fieldnames :: lines, stop) =>
      match stop with Some e => raise e | None => ret tt end ;;
      let rows :=
        map (dict_row fieldnames)
            (filter (fun l => match l with [] => false | _ => true end) lines) in
      modify (fun a => Build_analyzer (csv_file_path a) rows fieldnames
                         (numeric_columns a) (text_columns a)) ;;
      print (Line "Dataset: {} rows x {} columns"
               [str_nat (List.length rows); str_nat (List.length fieldnames)]) ;;
      nulls <- lift (for_each (fun h => for_each (fun r => Py.dict_get h r) rows)
                              fieldnames) ;;
      print (Line "Null values in {} columns"
               [str_nat (List.length
                           (filter (fun col => existsb (fun v => negb (filled v)) col)
                                   nulls))]) ;;
      for_ fieldnames (fun h =>
        numeric <- lift (is_numeric_column h rows) ;;
        modify (fun a =>
                  if numeric
                  then Build_analyzer (csv_file_path a) (data a) (headers a)
                         (numeric_columns a ++ [h]) (text_columns a)
                  else Build_analyzer (csv_file_path a) (data a) (headers a)
                         (numeric_columns a) (text_columns a ++ [h]))%list) ;;
      num <- gets numeric_columns ;;
      txt <- gets text_columns ;;
      print (Line "Numeric: {} | Text: {}"
               [str_nat (List.length num); str_nat (List.length txt)]) ;;
      ret rows
  end.

(** [_print_table], lines 14-24: nothing is printed for an empty table. *)
Definition _print_table (rows : list (list (string * fcell))) (title : string) : M unit :=
  match rows with
  | [] => ret tt
  | _ => print (Table title rows)
  end.

Definition option_eqb (a b : option string) : bool :=
  match a, b with
  | None, None => true
  | Some s, Some t => String.eqb s t
  | _, _ => false
  end.

(** Line 75. *)
Fixpoint group_rows (rows : list row) (g : groups) : result groups :=
  match rows with
  | [] => Ok g
  | r :: rest =>
      and_then (Py.dict_get "Facebook_Id" r)
               (fun fb_id => group_rows rest (Py.append_to option_eqb fb_id r g))
  end.

(** Line 80: the pages that make the rows of the printed table. *)
Definition sample_pages (g : groups) : groups := firstn 10 g.

(** [str(fb_id)]. *)
Definition str_id (fb_id : option string) : string :=
  match fb_id with
  | Some s => s
  | None => "None"
  end.

(** Line 83. *)
Definition nums_of (col : string) (group_data : list row) : result (list R) :=
  and_then (for_each (fun r => Py.dict_get col r) group_data)
           (fun cells => Ok (flat_map (fun c => match _to_num c with
                                                | Some x => [x]
                                                | None => []
                                                end) cells)).

(** Lines 82-85: the entries one numeric column adds to the row of a page. *)
Definition column_entries (col : string) (group_data : list row)
    : result (list (string * fcell)) :=
  and_then (nums_of col group_data) (fun vals =>
    Ok [(col ++ "_Mean",
         match vals with
         | [] => Text "N/A"
         | _ => Number (Py.sum vals / INR (List.length vals))%R
         end);
        (col ++ "_Count", Text (str_nat (List.length vals)))]).

(** Lines 80-86: the row of one page. *)
Definition page_stat (num : list string) (page : option string * list row)
    : result (list (string * fcell)) :=
  and_then (for_each (fun col => column_entries col (snd page)) (firstn 3 num))
           (fun entries =>
              Ok (("Facebook_Id", Text (Py.prefix 15 (str_id (fst page)) ++ "..."))
                    :: List.concat entries)).

(** [analyze_by_facebook_id], lines 70-88; the result is [None] when the
    column is missing. *)
Definition analyze_by_facebook_id : M (option groups) :=
  print (Line "PART 2A: GROUPING BY FACEBOOK_ID" []) ;;
  hs <- gets headers ;;
  if negb (Py.mem "Facebook_Id" hs)
  then print (Line "'Facebook_Id' column not found" []) ;; ret None
  else
    rows <- gets data ;;
    g <- lift (group_rows rows []) ;;
    print (Line "Unique Facebook pages: {}" [str_nat (List.length g)]) ;;
    num <- gets numeric_columns ;;
    match num with
    | [] => ret tt
    | _ =>
        stats <- lift (for_each (page_stat num) (sample_pages g)) ;;
        _print_table stats "SAMPLE: Top 10 Pages - Numeric Statistics"
    end ;;
    ret (Some g).

(** A loop whose body may raise: [for x in l: b = f(b, x)]. *)
Fixpoint fold_result {A B : Type} (f : B -> A -> result B) (l : list A) (b : B)
    : result B :=
  match l with
  | [] => Ok b
  | x :: rest => and_then (f b x) (fun b' => fold_result f rest b')
  end.

(** [enumerate(l, 1)]. *)
Definition enumerate1 {A : Type} (l : list A) : list (nat * A) :=
  combine (seq 1 (List.length l)) l.

(** Lines 50-55: the row of one numeric column in the table of part 1. *)
Definition numeric_stat (col : string) (rows : list row)
    : result (list (string * fcell)) :=
  and_then (nums_of col rows) (fun vals =>
    Ok (match vals with
        | [] =>
            [("Column", Text col); ("Count", Text "0"); ("Mean", Text "N/A");
             ("Min", Text "N/A"); ("Max", Text "N/A"); ("Std", Text "N/A")]
        | x :: xs =>
            [("Column", Text col); ("Count", Text (str_nat (List.length vals)));
             ("Mean", Number (Py.mean vals));
             ("Min", Number (Py.min_of x xs)); ("Max", Number (Py.max_of x xs));
             ("Std", Number (if 1 <? List.length vals then Py.stdev vals else 0%R))]
        end)).

(** [[row[col] for row in rows if row[col]]], line 61. *)
Definition filled_values (col : string) (rows : list row) : result (list string) :=
  and_then (for_each (fun r => Py.dict_get col r) rows)
           (fun cells => Ok (flat_map (fun v => match v with
                                                | Some s => if String.eqb s "" then [] else [s]
                                                | None => []
                                                end) cells)).

(** Lines 61-67: the row of one text column in the table of part 1. *)
Definition text_stat (col : string) (rows : list row)
    : result (list (string * fcell)) :=
  and_then (filled_values col rows) (fun vals =>
    match vals with
    | [] =>
        Ok [("Column", Text col); ("Count", Text "0"); ("Unique", Text "0");
            ("Top Value", Text "N/A"); ("Top Count", Text "0")]
    | _ =>
        and_then (Py.most_common1 (Py.Counter vals)) (fun top =>
          Ok [("Column", Text col); ("Count", Text (str_nat (List.length vals)));
              ("Unique", Text (str_nat (List.length (Py.Counter vals))));
              ("Top Value",
               Text (Py.prefix 20 (fst top)
                     ++ (if 20 <? String.length (fst top) then "..." else "")));
              ("Top Count", Text (str_nat (snd top)))])
    end).

(** [compute_overall_statistics], lines 44-68. *)
Definition compute_overall_statistics : M unit :=
  print (Line "PART 1: OVERALL DATASET ANALYSIS" []) ;;
  rows <- gets data ;;
  num <- gets numeric_columns ;;
  match num with
  | [] => ret tt
  | _ =>
      stats <- lift (for_each (fun col => numeric_stat col rows) num) ;;
      _print_table stats "NUMERIC COLUMNS STATISTICS"
  end ;;
  txt <- gets text_columns ;;
  match txt with
  | [] => ret tt
  | _ =>
      stats <- lift (for_each (fun col => text_stat col rows) txt) ;;
      _print_table stats "TEXT COLUMNS STATISTICS"
  end.

(** The [defaultdict] of [analyze_by_facebook_and_post_id]: the pairs of a
    page id and a post id in the order in which they were first met. *)
Definition pair_groups : Type := list ((option string * option string) * list row).

Definition pair_eqb (a b : option string * option string) : bool :=
  option_eqb (fst a) (fst b) && option_eqb (snd a) (snd b).

(** Line 96. *)
Fixpoint pair_group_rows (rows : list row) (g : pair_groups) : result pair_groups :=
  match rows with
  | [] => Ok g
  | r :: rest =>
      and_then (Py.dict_get "Facebook_Id" r) (fun fb_id =>
      and_then (Py.dict_get "post_id" r) (fun post_id =>
        pair_group_rows rest (Py.append_to pair_eqb (fb_id, post_id) r g)))
  end.

(** The text of a mean, or "N/A" when there is no value (lines 84, 105, 129). *)
Definition mean_cell (vals : list R) : fcell :=
  match vals with
  | [] => Text "N/A"
  | _ => Number (Py.mean vals)
  end.

(** Lines 104-105: a numeric column sets its mean in the row of a
    combination. *)
Definition set_mean (col : string) (group_data : list row) (stat : list (string * fcell))
    : result (list (string * fcell)) :=
  and_then (nums_of col group_data) (fun vals =>
    Ok (Py.dict_set (col ++ "_Mean") (mean_cell vals) stat)).

(** Lines 101-106: the row of one combination. *)
Definition pair_stat (num : list string)
    (g : (option string * option string) * list row)
    : result (list (string * fcell)) :=
  fold_result (fun stat col => set_mean col (snd g) stat) (firstn 2 num)
    [("Facebook_Id", Text (Py.prefix 10 (str_id (fst (fst g))) ++ "..."));
     ("Post_ID", Text (Py.prefix 10 (str_id (snd (fst g))) ++ "..."));
     ("Rows", Number (INR (List.length (snd g))))].

(** [analyze_by_facebook_and_post_id], lines 90-108; the result is [None]
    when one of the two columns is missing. *)
Definition analyze_by_facebook_and_post_id : M (option pair_groups) :=
  print (Line "PART 2B: GROUPING BY FACEBOOK_ID + POST_ID" []) ;;
  hs <- gets headers ;;
  let missing := filter (fun col => negb (Py.mem col hs)) ["Facebook_Id"; "post_id"] in
  match missing with
  | _ :: _ => print (Line "Missing columns: {}" missing) ;; ret None
  | [] =>
      rows <- gets data ;;
      g <- lift (pair_group_rows rows []) ;;
      print (Line "Unique combinations: {}" [str_nat (List.length g)]) ;;
      num <- gets numeric_columns ;;
      match num with
      | [] => ret tt
      | _ =>
          stats <- lift (for_each (pair_stat num) (firstn 10 g)) ;;
          _print_table stats "SAMPLE: First 10 Combinations - Statistics"
      end ;;
      ret (Some g)
  end.

(** Lines 115 and 142: the rows by the value of one column. *)
Fixpoint group_rows_by (col : string) (rows : list row) (g : groups) : result groups :=
  match rows with
  | [] => Ok g
  | r :: rest =>
      and_then (Py.dict_get col r)
               (fun k => group_rows_by col rest (Py.append_to option_eqb k r g))
  end.

(** Line 118: the categories with their numbers of posts, the largest
    first. *)
Definition cat_counts (g : groups) : list (option string * nat) :=
  Py.sorted_desc snd (map (fun cd => (fst cd, List.length (snd cd))) g).

(** Lines 119-120: one row of the table of categories; [n_rows] is
    [len(self.data)]. *)
Definition cat_row (n_rows : nat) (ic : nat * (option string * nat))
    : result (list (string * fcell)) :=
  if n_rows =? 0 then Raise ZeroDivisionError
  else Ok [("Rank", Number (INR (fst ic)));
           ("Category", Text (str_id (fst (snd ic))));
           ("Posts", Text (str_nat (snd (snd ic))));
           ("Percentage", Number (INR (snd (snd ic)) / INR n_rows * 100)%R)].

(** Lines 127-130: a numeric column sets its mean and its count in the row
    of a category. *)
Definition set_mean_count (col : string) (group_data : list row)
    (stat : list (string * fcell)) : result (list (string * fcell)) :=
  and_then (nums_of col group_data) (fun vals =>
    Ok (Py.dict_set (col ++ "_Count") (Text (str_nat (List.length vals)))
          (Py.dict_set (col ++ "_Mean") (mean_cell vals) stat))).

(** Lines 125-131: the row of one category. *)
Definition cat_stat (num : list string) (g : option string * list row)
    : result (list (string * fcell)) :=
  fold_result (fun stat col => set_mean_count col (snd g) stat) (firstn 4 num)
    [("Category", Text (str_id (fst g)))].

(** [analyze_by_page_category], lines 110-133; the result is [None] when
    the column is missing. *)
Definition analyze_by_page_category : M (option groups) :=
  print (Line "PART 2C: GROUPING BY PAGE CATEGORY" []) ;;
  hs <- gets headers ;;
  if negb (Py.mem "Page Category" hs)
  then print (Line "'Page Category' column not found" []) ;; ret None
  else
    rows <- gets data ;;
    g <- lift (group_rows_by "Page Category" rows []) ;;
    print (Line "Unique page categories: {}" [str_nat (List.length g)]) ;;
    cat_data <- lift (for_each (cat_row (List.length rows)) (enumerate1 (cat_counts g))) ;;
    _print_table cat_data "CATEGORIES BY POST COUNT" ;;
    num <- gets numeric_columns ;;
    match num with
    | [] => ret tt
    | _ =>
        stats <- lift (for_each (cat_stat num) g) ;;
        _print_table stats "STATISTICS BY CATEGORY"
    end ;;
    ret (Some g).

(** [sum(self._to_num(row[col]) or 0 for row in rows)], lines 145 and 158. *)
Definition total_of (col : string) (rows : list row) : result R :=
  and_then (for_each (fun r => Py.dict_get col r) rows)
           (fun cells => Ok (Py.sum (map (fun c => match _to_num c with
                                                   | Some x => x
                                                   | None => 0%R
                                                   end) cells))).

Definition engagement_columns : list string :=
  ["Likes"; "Comments"; "Shares"; "Love"; "Wow"; "Haha"; "Sad"; "Angry"; "Care"].

(** Line 145: the total of one column for each category. *)
Definition cat_totals (col : string) (g : groups) : result (list (option string * R)) :=
  for_each (fun cd => and_then (total_of col (snd cd)) (fun t => Ok (fst cd, t))) g.

(** Lines 146-147: the categories listed for one column, the largest totals
    first. *)
Definition ranked_categories (totals : list (option string * R))
    : list (nat * (option string * R)) :=
  enumerate1 (firstn 5 (Py.sorted_desc_R snd totals)).

Definition ranking_row (col : string) (ic : nat * (option string * R))
    : list (string * fcell) :=
  [("Rank", Number (INR (fst ic))); ("Category", Text (str_id (fst (snd ic))));
   (col, Number (snd (snd ic)))].

(** Lines 157-159: the totals of one page. *)
Record page_total : Type := {
  page_id : option string;
  totals : list (string * R);
  total_engagement : R
}.

Definition page_totals (metrics : list string) (g : groups) : result (list page_total) :=
  for_each (fun pd =>
              and_then (for_each (fun m => and_then (total_of m (snd pd))
                                             (fun t => Ok (m, t))) metrics)
                       (fun tots => Ok (Build_page_total (fst pd) tots
                                          (Py.sum (map snd tots)))))
           g.

(** Lines 161-164: the pages listed, the largest total engagement first. *)
Definition ranked_pages (pages : list page_total) : list (nat * page_total) :=
  enumerate1 (firstn 10 (Py.sorted_desc_R total_engagement pages)).

(** [tots.get(m, 0)]. *)
Definition total_or_0 (m : string) (tots : list (string * R)) : R :=
  match Py.lookup m tots with
  | Some t => t
  | None => 0%R
  end.

Definition page_row (ip : nat * page_total) : list (string * fcell) :=
  [("Rank", Number (INR (fst ip)));
   ("Page_ID", Text (Py.prefix 15 (str_id (page_id (snd ip))) ++ "..."));
   ("Total_Engagement", Number (total_engagement (snd ip)));
   ("Likes", Number (total_or_0 "Likes" (totals (snd ip))));
   ("Comments", Number (total_or_0 "Comments" (totals (snd ip))));
   ("Shares", Number (total_or_0 "Shares" (totals (snd ip))))].

(** [compare_groups_analysis], lines 135-165. *)
Definition compare_groups_analysis : M unit :=
  print (Line "PART 2D: COMPARING GROUPS" []) ;;
  hs <- gets headers ;;
  rows <- gets data ;;
  let eng_cols := filter (fun c => Py.mem c hs) engagement_columns in
  (if Py.mem "Page Category" hs
   then
     cat_groups <- lift (group_rows_by "Page Category" rows []) ;;
     for_ (firstn 3 eng_cols) (fun col =>
       tots <- lift (cat_totals col cat_groups) ;;
       _print_table (map (ranking_row col) (ranked_categories tots))
         (col ++ " Rankings:"))
   else ret tt) ;;
  if Py.mem "Facebook_Id" hs && Py.mem "Likes" hs
  then
    page_groups <- lift (group_rows_by "Facebook_Id" rows []) ;;
    let metrics := filter (fun c => Py.mem c hs) ["Likes"; "Comments"; "Shares"] in
    match metrics with
    | [] => ret tt
    | _ =>
        pages <- lift (page_totals metrics page_groups) ;;
        _print_table (map page_row (ranked_pages pages))
          "TOP FACEBOOK PAGES BY TOTAL ENGAGEMENT"
    end
  else ret tt.

(** [run_complete_analysis], lines 167-189: no exception is caught. *)
Definition run_complete_analysis : M unit :=
  print (Line "=== PURE PYTHON FB POSTS ANALYSIS START ===" []) ;;
  load_and_clean_data ;;
  print (Line "[TIMER] load_and_clean_data" []) ;;
  compute_overall_statistics ;;
  print (Line "[TIMER] compute_overall_statistics" []) ;;
  analyze_by_facebook_id ;;
  print (Line "[TIMER] analyze_by_facebook_id" []) ;;
  analyze_by_facebook_and_post_id ;;
  print (Line "[TIMER] analyze_by_facebook_and_post_id" []) ;;
  analyze_by_page_category ;;
  print (Line "[TIMER] analyze_by_page_category" []) ;;
  compare_groups_analysis ;;
  print (Line "[TIMER] compare_groups_analysis" []) ;;
  print (Line "[TIMER] TOTAL; === PURE PYTHON FB POSTS ANALYSIS END ===" []).

End Methods.

End FbPostsPython.

(** ** A small standard library for worked examples

    [simple_lib file] reads [file] whatever the path, splits rows at line
    feeds and fields at the delimiter (no quoting), and reads numbers
    written as an optional minus sign, digits and an optional fraction.  On
    such files and such fields it agrees with Python; nothing is parsed as
    JSON. *)

Module Simple.

Local Open Scope string_scope.
Local Open Scope nat_scope.

(** [s.split(d)]. *)
Fixpoint split (d : ascii) (s : string) : list string :=
  match s with
  | EmptyString => [EmptyString]
  | String c rest =>
      if Ascii.eqb c d then EmptyString :: split d rest
      else match split d rest with
           | x :: xs => String c x :: xs
           | [] => [String c EmptyString]
           end
  end.

Fixpoint drop_last_empty (lines : list string) : list string :=
  match lines with
  | [] => []
  | [l] => if String.eqb l "" then [] else [l]
  | l :: rest => l :: drop_last_empty rest
  end.

Definition csv_rows (delim : ascii) (text : string) : list (list string) :=
  map (fun line => if String.eqb line "" then [] else split delim line)
      (drop_last_empty (split Py.lf text)).

Definition digit (c : ascii) : option nat :=
  let n := nat_of_ascii c in
  if (48 <=? n) && (n <=? 57) then Some (n - 48) else None.

(** The value of a non-empty string of digits, read after [acc]. *)
Fixpoint digits (s : string) (acc : nat) : option nat :=
  match s with
  | EmptyString => Some acc
  | String c rest =>
      match digit c with
      | Some d => digits rest (10 * acc + d)
      | None => None
      end
  end.

Definition natural (s : string) : option nat :=
  match s with
  | EmptyString => None
  | _ => digits s 0
  end.

Definition integer (s : string) : option Z :=
  match s with
  | String "-" rest => option_map (fun n => (- Z.of_nat n)%Z) (natural rest)
  | _ => option_map Z.of_nat (natural s)
  end.

Definition decimal (s : string) : option R :=
  match split "." s with
  | [whole] => option_map IZR (integer whole)
  | [whole; frac] =>
      match integer whole, natural frac with
      | Some w, Some f =>
          let scaled := (IZR (Z.of_nat f) / IZR (10 ^ Z.of_nat (String.length frac)))%R in
          Some (if (w <? 0)%Z || String.eqb (Py.prefix 1 whole) "-"
                then (IZR w - scaled)%R else (IZR w + scaled)%R)
      | _, _ => None
      end
  | _ => None
  end.

Definition simple_lib (file : option string) : PyLib := {|
  read_text := fun _ => match file with
                        | Some text => Ok text
                        | None => Raise FileNotFoundError
                        end;
  csv_reader := fun delim text => (csv_rows delim text, None);
  float_of_str := decimal;
  int_of_str := integer;
  int_of_float := fun _ => None;
  str_float := fun _ => "float";
  json_loads := fun _ => None;
  str_json := fun _ => "json"
|}.

(** The pandas calls on the same files: the listed markers and pandas' own
    are read as NaN, rows are compared cell by cell, and the two report
    bodies print nothing. *)
Definition na_values : list string :=
  [""; "null"; "NULL"; "None"; "N/A"; "NA"; "#N/A"; "#N/A N/A"; "#NA"; "-1.#IND";
   "-1.#QNAN"; "-NaN"; "-nan"; "1.#IND"; "1.#QNAN"; "<NA>"; "NaN"; "n/a"; "nan"].

Definition pd_cell (s : string) : FbAdsPandas.pcell :=
  if Py.mem s na_values then FbAdsPandas.NaN else FbAdsPandas.Str s.

Definition pd_read_csv (file : option string) (delim : ascii)
    : result FbAdsPandas.DataFrame :=
  match file with
  | None => Raise FileNotFoundError
  | Some text =>
      match csv_rows delim text with
      | [] => Raise (LibraryError "No columns to parse from file")
      | first :: lines =>
          Ok (FbAdsPandas.Build_DataFrame first
                (map (map pd_cell)
                     (filter (fun l => match l with [] => false | _ => true end) lines)))
      end
  end.

Definition pcell_eqb (a b : FbAdsPandas.pcell) : bool :=
  match a, b with
  | FbAdsPandas.NaN, FbAdsPandas.NaN => true
  | FbAdsPandas.Str s, FbAdsPandas.Str t => String.eqb s t
  | FbAdsPandas.Num x, FbAdsPandas.Num y => if Req_dec_T x y then true else false
  | _, _ => false
  end.

Fixpoint distinct {A : Type} (eqb : A -> A -> bool) (l seen : list A) : list A :=
  match l with
  | [] => []
  | x :: rest =>
      if existsb (eqb x) seen then distinct eqb rest seen
      else x :: distinct eqb rest (x :: seen)
  end.

Definition simple_pandas (file : option string) : FbAdsPandas.PdLib := {|
  FbAdsPandas.read_csv := fun _ delim => pd_read_csv file delim;
  FbAdsPandas.parse_number := decimal;
  FbAdsPandas.drop_duplicates := fun d =>
    Ok (FbAdsPandas.Build_DataFrame (FbAdsPandas.columns d)
          (distinct (Py.tuple_eqb pcell_eqb) (FbAdsPandas.rows d) []));
  FbAdsPandas.nunique := fun l => Ok (List.length (distinct pcell_eqb l []));
  FbAdsPandas.statistics := fun _ => ([], None);
  FbAdsPandas.groupby := fun _ _ => ([], None)
|}.

(** A stand-in for polars: a frame is its schema and its height, and no
    file can be read. *)
Definition simple_polars : FbAdsPolars.PlLib := {|
  FbAdsPolars.frame := (list (string * FbAdsPolars.dtype) * nat)%type;
  FbAdsPolars.read_csv := fun _ _ => Raise (LibraryError "no reader");
  FbAdsPolars.columns := fun d => map fst (fst d);
  FbAdsPolars.dtype_of := fun d col =>
    match Py.lookup col (fst d) with
    | Some t => t
    | None => FbAdsPolars.Object
    end;
  FbAdsPolars.height := fun d => snd d;
  FbAdsPolars.width := fun d => List.length (fst d);
  FbAdsPolars.rename_strip := fun d => Ok d;
  FbAdsPolars.parse_json := fun _ d => Ok d;
  FbAdsPolars.unique := fun d => Ok d;
  FbAdsPolars.n_unique := fun _ _ => Ok 0;
  FbAdsPolars.statistics := fun _ _ _ => ([], None);
  FbAdsPolars.groupby := fun _ _ _ => ([], None)
|}.

(** The same stand-in, but for the grouping calls, which raise [e] after
    printing one line. *)
Definition failing_polars (e : exn) : FbAdsPolars.PlLib := {|
  FbAdsPolars.frame := (list (string * FbAdsPolars.dtype) * nat)%type;
  FbAdsPolars.read_csv := fun _ _ => Raise (LibraryError "no reader");
  FbAdsPolars.columns := fun d => map fst (fst d);
  FbAdsPolars.dtype_of := fun d col =>
    match Py.lookup col (fst d) with
    | Some t => t
    | None => FbAdsPolars.Object
    end;
  FbAdsPolars.height := fun d => snd d;
  FbAdsPolars.width := fun d => List.length (fst d);
  FbAdsPolars.rename_strip := fun d => Ok d;
  FbAdsPolars.parse_json := fun _ d => Ok d;
  FbAdsPolars.unique := fun d => Ok d;
  FbAdsPolars.n_unique := fun _ _ => Ok 0;
  FbAdsPolars.statistics := fun _ _ _ => ([], None);
  FbAdsPolars.groupby := fun _ _ _ => (["Created 0 groups"], Some e)
|}.

End Simple.

(** ** Files used in the worked examples *)

Module Examples.

Local Open Scope string_scope.

Definition nl : string := String Py.lf EmptyString.

(** A column of which four values out of five are numbers. *)
Definition mixed_file : string :=
  "x" ++ nl ++ "1" ++ nl ++ "2" ++ nl ++ "3" ++ nl ++ "4" ++ nl ++ "abc" ++ nl.

(** Two different rows with the same cells once joined with a bar. *)
Definition merged_file : string :=
  "x,y" ++ nl ++ "a|b,c" ++ nl ++ "a,b|c" ++ nl.

(** Five ads, one of them given twice; the spend is a number but once. *)
Definition ads_file : string :=
  "page_id,spend,note" ++ nl ++ "p1,10,a" ++ nl ++ "p2,20,b" ++ nl
  ++ "p1,10,a" ++ nl ++ "p3,30,c" ++ nl ++ "p4,n/k,d" ++ nl.

(** An empty first line: no header at all. *)
Definition headless_file : string := nl ++ "x" ++ nl.

(** Eleven pages; the last one has two posts, the others one. *)
Definition pages_file : string :=
  "Facebook_Id,Likes" ++ nl
  ++ "p0,1" ++ nl ++ "p1,1" ++ nl ++ "p2,1" ++ nl ++ "p3,1" ++ nl ++ "p4,1" ++ nl
  ++ "p5,1" ++ nl ++ "p6,1" ++ nl ++ "p7,1" ++ nl ++ "p8,1" ++ nl ++ "p9,1" ++ nl
  ++ "p10,5" ++ nl ++ "p10,7" ++ nl.

(** The state of the pure-Python fb_ads analyzer after loading [file]. *)
Definition ads_loaded (file : string)
    : Run.world FbAdsPython.analyzer FbAdsPython.event :=
  snd (@FbAdsPython.load_and_clean_data (Simple.simple_lib (Some file))
         (Run.Build_world (FbAdsPython.__init__ "ads.csv") [])).

(** The state of the pandas fb_ads analyzer after loading [file]. *)
Definition pandas_loaded (file : string)
    : Run.world FbAdsPandas.analyzer df_event :=
  snd (@FbAdsPandas.load_and_clean_data (Simple.simple_lib (Some file))
         (Simple.simple_pandas (Some file))
         (Run.Build_world (FbAdsPandas.__init__ "ads.csv") [])).

(** The state of the Facebook-posts analyzer after loading [pages_file],
    and what [analyze_by_facebook_id] then returns and prints. *)
Definition pages_loaded : Run.world FbPostsPython.analyzer FbPostsPython.event :=
  snd (@FbPostsPython.load_and_clean_data (Simple.simple_lib (Some pages_file))
         (Run.Build_world (FbPostsPython.__init__ "posts.csv") [])).

Definition pages_analyzed
    : result (option FbPostsPython.groups)
      * Run.world FbPostsPython.analyzer FbPostsPython.event :=
  @FbPostsPython.analyze_by_facebook_id (Simple.simple_lib (Some pages_file))
    pages_loaded.

Definition pages_groups : FbPostsPython.groups :=
  match fst pages_analyzed with
  | Ok (Some g) => g
  | _ => []
  end.

(** The first cells of the rows of the tables in a piece of output. *)
Definition listed_pages (out : list FbPostsPython.event) : list string :=
  flat_map (fun e =>
              match e with
              | FbPostsPython.Table _ rows =>
                  flat_map (fun row =>
                              match row with
                              | (_, FbPostsPython.Text id) :: _ => [id]
                              | _ => []
                              end) rows
              | _ => []
              end) out.

Definition page_size (g : option string * list FbPostsPython.row) : nat :=
  List.length (snd g).

(** Five posts of three pages in two categories; four of the five values
    of the column Comments are numbers. *)
Definition posts_file : string :=
  "Facebook_Id,post_id,Page Category,Likes,Comments" ++ nl
  ++ "p1,a1,News,10,1" ++ nl ++ "p1,a2,News,20,2" ++ nl ++ "p2,b1,Sport,5,3" ++ nl
  ++ "p3,c1,News,7,4" ++ nl ++ "p2,b2,Sport,8,n/k" ++ nl.

Definition posts_header : list string :=
  ["Facebook_Id"; "post_id"; "Page Category"; "Likes"; "Comments"].

Definition posts_lines : list (list string) :=
  [["p1"; "a1"; "News"; "10"; "1"]; ["p1"; "a2"; "News"; "20"; "2"];
   ["p2"; "b1"; "Sport"; "5"; "3"]; ["p3"; "c1"; "News"; "7"; "4"];
   ["p2"; "b2"; "Sport"; "8"; "n/k"]].

(** The state of the Facebook-posts analyzer after loading [posts_file]. *)
Definition posts_loaded : Run.world FbPostsPython.analyzer FbPostsPython.event :=
  snd (@FbPostsPython.load_and_clean_data (Simple.simple_lib (Some posts_file))
         (Run.Build_world (FbPostsPython.__init__ "posts.csv") [])).

(** Five tweets: the third repeats the first, the fourth has a null marker
    for its likes, the fifth no language. *)
Definition tweets_file : string :=
  "id,source,lang,likeCount" ++ nl
  ++ "1,web,en,3" ++ nl ++ "2,app,en,5" ++ nl ++ "1,web,en,3" ++ nl
  ++ "3,web,fr,N/A" ++ nl ++ "4,app,,2" ++ nl.

Definition tweets_header : list string := ["id"; "source"; "lang"; "likeCount"].

Definition tweets_lines : list (list string) :=
  [["1"; "web"; "en"; "3"]; ["2"; "app"; "en"; "5"]; ["1"; "web"; "en"; "3"];
   ["3"; "web"; "fr"; "N/A"]; ["4"; "app"; ""; "2"]].

(** A Twitter analyzer as [__init__] leaves it (lines 5-7), the path
    apart. *)
Definition tweets_init : TwPostsPython.analyzer :=
  TwPostsPython.Build_analyzer [] [] [] [].

(** The state of the Twitter analyzer after loading [tweets_file]. *)
Definition tweets_loaded : Run.world TwPostsPython.analyzer TwPostsPython.event :=
  snd (@TwPostsPython.load_and_clean_data (Simple.simple_lib (Some tweets_file))
         "tweets.csv" (Run.Build_world tweets_init [])).

(** A file with nothing in it. *)
Definition empty_file : string := "".

End Examples.

(** ** The statistics, as the specification words them *)

Module Described.

(** The sum of a list of numbers. *)
Definition total (vals : list R) : R := fold_right Rplus 0%R vals.

(** The population variance: sum((x - mean)^2) / n. *)
Definition population_variance (vals : list R) : R :=
  let n := INR (List.length vals) in
  let m := (total vals / n)%R in
  (total (map (fun x => (x - m) ^ 2)%R vals) / n)%R.

Definition least (m : R) (vals : list R) : Prop :=
  In m vals /\ forall x, In x vals -> (m <= x)%R.

Definition greatest (m : R) (vals : list R) : Prop :=
  In m vals /\ forall x, In x vals -> (x <= m)%R.

(** [sv] is [vals] in increasing order. *)
Definition sorting (sv vals : list R) : Prop :=
  StronglySorted Rle sv /\ Permutation sv vals.

(** The middle element of the sorted list for an odd length, the average
    of the two middle elements for an even length. *)
Definition median_of (md : R) (vals : list R) : Prop :=
  exists sv, sorting sv vals /\
    let n := List.length vals in
    (n mod 2 = 1 -> md = nth (n / 2) sv 0%R) /\
    (n mod 2 = 0 ->
     md = ((nth (n / 2 - 1) sv 0 + nth (n / 2) sv 0) / 2)%R).

(** [s] is the square root of [v]. *)
Definition square_root (s v : R) : Prop := (0 <= s)%R /\ (s * s = v)%R.

(** [groups] splits [rows] by key: the keys of the groups are distinct,
    the groups together hold every row exactly once, each member of a group
    has the key of its group, and the sizes add up to the number of rows. *)
Definition partition_by {K V : Type} (has_key : V -> K -> Prop)
    (groups : list (K * list V)) (rows : list V) : Prop :=
  NoDup (map fst groups)
  /\ Permutation (List.concat (map snd groups)) rows
  /\ (forall k members r, In (k, members) groups -> In r members -> has_key r k)
  /\ list_sum (map (fun g => List.length (snd g)) groups) = List.length rows.

(** [l] is listed by non-increasing [size]. *)
Definition non_increasing {A : Type} (size : A -> nat) (l : list A) : Prop :=
  StronglySorted (fun a b => size b <= size a) l.

(** [top] holds the [n] largest elements of [all] (all of them when there
    are fewer than [n]), listed by non-increasing size: nothing left out is
    larger than something listed. *)
Definition largest {A : Type} (size : A -> nat) (n : nat) (top all : list A) : Prop :=
  exists others,
    Permutation (top ++ others) all
    /\ List.length top = Nat.min n (List.length all)
    /\ non_increasing size top
    /\ (forall a b, In a top -> In b others -> size b <= size a).

(** [l] is [all] with some elements left out, the others in their order. *)
Inductive subsequence {A : Type} : list A -> list A -> Prop :=
| sub_nil : subsequence [] []
| sub_keep (x : A) (l all : list A) :
    subsequence l all -> subsequence (x :: l) (x :: all)
| sub_drop (x : A) (l all : list A) :
    subsequence l all -> subsequence l (x :: all).

(** The distinct keys of [keys], in the order in which they first appear;
    [seen] holds the keys met before. *)
Fixpoint first_seen {K : Type} (eqb : K -> K -> bool) (keys seen : list K) : list K :=
  match keys with
  | [] => []
  | k :: rest =>
      if existsb (eqb k) seen then first_seen eqb rest seen
      else k :: first_seen eqb rest (k :: seen)
  end.

(** The page id of a Facebook post, and the key of a tweet. *)
Definition page_of (r : FbPostsPython.row) : option string :=
  match Py.lookup "Facebook_Id" r with
  | Some v => v
  | None => None
  end.

Definition tweet_key (by_cols : list string) (r : TwPostsPython.row)
    : list TwPostsPython.tcell :=
  map (fun c => match Py.lookup c r with
                | Some v => v
                | None => TwPostsPython.TNone
                end) by_cols.

(** The pandas cell and the pure-Python cell hold the same value as read:
    both null, or the same string. *)
Definition same_cell (p : FbAdsPandas.pcell) (c : FbAdsPython.cell) : Prop :=
  match p, c with
  | FbAdsPandas.NaN, FbAdsPython.CNone => True
  | FbAdsPandas.Str s, FbAdsPython.CStr t => s = t
  | _, _ => False
  end.

(** The dataframe pandas read and the rows the pure-Python analyzer read
    hold the same values. *)
Definition same_table (d : FbAdsPandas.DataFrame)
    (raw_data : list (list FbAdsPython.cell)) : Prop :=
  Forall2 (Forall2 same_cell) (FbAdsPandas.rows d) raw_data.

(** The test of lines 81-98 of the pandas script, on the sample. *)
Definition pandas_numeric {P : FbAdsPandas.PdLib}
    (sample_df : FbAdsPandas.DataFrame) (col : string) : bool :=
  negb (Py.mem col FbAdsPandas.complex_fields)
  && match FbAdsPandas.dropna (FbAdsPandas.column col sample_df) with
     | [] => false
     | vals => FbAdsPandas.to_numeric_ok (firstn 100 vals)
     end.

(** [kept] holds the first occurrence of each row of [table], in the
    order of [table]: no row twice, every row of [table] once. *)
Definition first_occurrences {A : Type} (kept table : list A) : Prop :=
  subsequence kept table /\ NoDup kept /\ forall row, In row table -> In row kept.

(** [kept] holds, in the order of [table], the first row of [table] for
    each [key]: a row is kept exactly when no row before it has its key. *)
Definition first_by_key {A K : Type} (key : A -> K) (kept table : list A) : Prop :=
  subsequence kept table
  /\ NoDup (map key kept)
  /\ (forall row, In row table -> In (key row) (map key kept))
  /\ (forall before row after,
        table = (before ++ row :: after)%list ->
        ~ In (key row) (map key before) -> In row kept).

(** The steps of a run, as the headers "STEP 1", "STEP 2" and "STEP 3"
    announce them. *)
Inductive step : Type :=
| Loading
| Statistics
| Grouping.

Definition step_of_title (title : string) : option step :=
  if String.prefix "STEP 1:" title then Some Loading
  else if String.prefix "STEP 2:" title then Some Statistics
  else if String.prefix "STEP 3:" title then Some Grouping
  else None.

Definition py_step (e : FbAdsPython.event) : option step :=
  match e with
  | FbAdsPython.Header title _ => step_of_title title
  | _ => None
  end.

Definition df_step (e : df_event) : option step :=
  match e with
  | DfHeader title _ => step_of_title title
  | _ => None
  end.

(** The steps announced in a piece of output, in order. *)
Definition steps {E : Type} (step_of : E -> option step) (out : list E) : list step :=
  flat_map (fun e => match step_of e with
                     | Some s => [s]
                     | None => []
                     end) out.

(** At most [n] group-by steps, and nothing else. *)
Definition groupings (n : nat) (l : list step) : Prop :=
  exists k, k <= n /\ l = repeat Grouping k.

(** The statistics step, then at most [n] group-by steps. *)
Definition statistics_then_groupings (n : nat) (l : list step) : Prop :=
  exists k, k <= n /\ l = Statistics :: repeat Grouping k.

(** The loop [for row in rows: groups[key(row)].append(row)], when the key
    is a function of the row. *)
Definition fill {K V : Type} (eqb : K -> K -> bool) (key : V -> K)
    (rows : list V) (g : list (K * list V)) : list (K * list V) :=
  fold_left (fun g r => Py.append_to eqb (key r) r g) rows g.

(** The position of a grouping column, when it is a header. *)
Definition position (hs : list string) (c : string) : nat :=
  match Py.index c hs with
  | Some i => i
  | None => 0
  end.

(** The columns from position [k] on are as in [raw0]. *)
Definition same_from (k : nat) (raw raw0 : list (list FbAdsPython.cell)) : Prop :=
  forall j, k <= j ->
    map (fun row => nth j row FbAdsPython.CNone) raw
    = map (fun row => nth j row FbAdsPython.CNone) raw0.

(** The computation leaves the analyzer object as it found it. *)
Definition read_only {Self E A : Type} (m : Run.M Self E A) : Prop :=
  forall w, Run.self (snd (m w)) = Run.self w.

(** The computation only adds to the output, and the steps it announces
    satisfy [P]. *)
Definition emits {Self E A : Type} (step_of : E -> option step)
    (P : list step -> Prop) (m : Run.M Self E A) : Prop :=
  forall w, exists out,
    Run.stdout (snd (m w)) = (Run.stdout w ++ out)%list /\ P (steps step_of out).

(** The computation announces no step. *)
Definition silent {Self E A : Type} (step_of : E -> option step)
    (m : Run.M Self E A) : Prop :=
  emits step_of (fun l => l = []) m.

(** A run that starts in [started] (the banner is printed) and ends with
    [finished] goes through its steps in the fixed order: the output of
    [load] comes first and announces the loading step alone; what follows
    is, when the table is empty after loading, the line [no_data] and a
    normal return with nothing else done, and otherwise the statistics step
    followed by at most three group-by steps. *)
Definition runs_in_order {Self E : Type} (step_of : E -> option step)
    (load : Run.M Self E unit) (empty : Self -> bool) (no_data : E)
    (started : Run.world Self E) (finished : result unit * Run.world Self E) : Prop :=
  let loaded := snd (load started) in
  exists out_load out_rest,
    Run.stdout loaded = (Run.stdout started ++ out_load)%list
    /\ steps step_of out_load = [Loading]
    /\ Run.stdout (snd finished) = (Run.stdout loaded ++ out_rest)%list
    /\ (empty (Run.self loaded) = true ->
        finished
        = (Ok tt, Run.Build_world (Run.self loaded)
                    (Run.stdout loaded ++ [no_data])%list))
    /\ (empty (Run.self loaded) = false ->
        statistics_then_groupings 3 (steps step_of out_rest)).

(** A run that executes [body] from [started] and ends with [finished]
    catches every exception: it returns normally, and when [body] raised
    [e] the run ends by printing [error_lines e]. *)
Definition catches {Self E : Type} (body : Run.M Self E unit)
    (error_lines : exn -> list E)
    (started : Run.world Self E) (finished : result unit * Run.world Self E) : Prop :=
  fst finished = Ok tt
  /\ match body started with
     | (Ok _, w) => snd finished = w
     | (Raise e, w) =>
         snd finished
         = Run.Build_world (Run.self w) (Run.stdout w ++ error_lines e)%list
     end.

(** Started with the analyzer object [a], the computation returns normally
    and leaves the object as it found it, whatever was printed before. *)
Definition returns_from {Self E A : Type} (a : Self) (m : Run.M Self E A) : Prop :=
  forall w, Run.self w = a ->
    exists x, fst (m w) = Ok x /\ Run.self (snd (m w)) = a.

(** [x] is a value the computation returns when started with [a]. *)
Definition yields {Self E A : Type} (a : Self) (m : Run.M Self E A) (x : A) : Prop :=
  exists w, Run.self w = a /\ fst (m w) = Ok x.

(** When the computation returns normally, what it printed ends with [es]. *)
Definition ends_with {Self E A : Type} (es : list E) (m : Run.M Self E A) : Prop :=
  forall w x, fst (m w) = Ok x -> exists out, Run.stdout (snd (m w)) = (out ++ es)%list.

(** The table of the fb_ads analyzer is well formed: every row has one cell
    per header, and the columns told apart are headers. *)
Definition well_formed (a : FbAdsPython.analyzer) : Prop :=
  Forall (fun row => List.length row = List.length (FbAdsPython.headers a))
         (FbAdsPython.data a)
  /\ incl (FbAdsPython.numeric_columns a) (FbAdsPython.headers a)
  /\ incl (FbAdsPython.categorical_columns a) (FbAdsPython.headers a).

Section ColumnTypes.
Context {L : PyLib}.

(** The key of a row of ads that has a cell at every index. *)
Definition key_of (indices : list nat) (row : list FbAdsPython.cell) : list string :=
  map (fun i => match nth i row FbAdsPython.CNone with
                | FbAdsPython.CNone => "None"%string
                | c => FbAdsPython.str c
                end) indices.

(** The first up-to-100 non-null values of column [i], drawn from the first
    up-to-1000 rows. *)
Definition sampled (raw_data : list (list FbAdsPython.cell)) (i : nat)
    : list FbAdsPython.cell :=
  firstn 100
    (filter FbAdsPython.is_not_none
       (map (fun row => nth i row FbAdsPython.CNone) (firstn 1000 raw_data))).

(** The value parses as a float. *)
Definition parses (c : FbAdsPython.cell) : bool :=
  match FbAdsPython.float_of c with
  | Some _ => true
  | None => false
  end.

(** At least 80% of the values parse (of an empty sample, nothing does). *)
Definition at_least_80_percent (vs : list FbAdsPython.cell) : bool :=
  match vs with
  | [] => false
  | _ => 80 * List.length vs <=? 100 * List.length (filter parses vs)
  end.

(** The column at position [i], with header [h], is numeric. *)
Definition numeric_column (raw_data : list (list FbAdsPython.cell))
    (ih : nat * string) : bool :=
  negb (Py.mem (snd ih) FbAdsPython.complex_fields)
  && at_least_80_percent (sampled raw_data (fst ih)).

End ColumnTypes.

(** A cell of the fb_ads table in a column named [h], [num] being the
    numeric columns.  In a column that is not one of the JSON fields the
    cell is [None], or a text that is the stripped text of a field and none
    of the null markers, or a number; a number stands in a numeric column
    only. *)
Definition clean_cell (num : list string) (h : string) (c : FbAdsPython.cell) : Prop :=
  Py.mem h FbAdsPython.complex_fields = false ->
  match c with
  | FbAdsPython.CNone => True
  | FbAdsPython.CStr s =>
      Py.mem s FbAdsPython.null_markers = false /\ exists val, s = Py.strip val
  | FbAdsPython.CInt _ | FbAdsPython.CFloat _ => In h num
  | FbAdsPython.CJson _ => False
  end.

Section Candidates.
Context {L : PyLib}.

(** The texts of the cells of column [col] that count as true, in the first
    up-to-1000 rows of the table of the fb_ads analyzer. *)
Definition sampled_texts (a : FbAdsPython.analyzer) (col : string) : list string :=
  match Py.index col (FbAdsPython.headers a) with
  | Some idx =>
      map FbAdsPython.str
          (filter FbAdsPython.truthy
                  (map (fun row => nth idx row FbAdsPython.CNone)
                       (firstn 1000 (FbAdsPython.data a))))
  | None => []
  end.

(** The number of distinct texts among them. *)
Definition distinct_count (a : FbAdsPython.analyzer) (col : string) : nat :=
  List.length (nodup string_dec (sampled_texts a col)).

(** [col] can serve as one more grouping: it is neither of the two ids, and
    it has from 2 to 20 distinct values in the sample. *)
Definition grouping_candidate (a : FbAdsPython.analyzer) (col : string) : bool :=
  negb (Py.mem col ["page_id"; "ad_id"]%string)
  && (2 <=? distinct_count a col) && (distinct_count a col <=? 20).

End Candidates.

Section Posts.
Context {L : PyLib}.

(** The table of the Facebook-posts analyzer is well formed: every row has
    a value (possibly [None]) for each header and for nothing else, and
    the columns told apart are headers. *)
Definition posts_table (a : FbPostsPython.analyzer) : Prop :=
  Forall (fun r => map fst r = FbPostsPython.headers a) (FbPostsPython.data a)
  /\ incl (FbPostsPython.numeric_columns a) (FbPostsPython.headers a)
  /\ incl (FbPostsPython.text_columns a) (FbPostsPython.headers a).

(** The value of column [h] in a post, [None] when the post has none. *)
Definition value_of (h : string) (r : FbPostsPython.row) : option string :=
  match Py.lookup h r with
  | Some v => v
  | None => None
  end.

(** The non-empty values of column [h] in all the posts. *)
Definition filled_column (rows : list FbPostsPython.row) (h : string) : list string :=
  flat_map (fun r => match value_of h r with
                     | Some s => if String.eqb s "" then [] else [s]
                     | None => []
                     end) rows.

(** [counts[k]] on a [Counter]: 0 when [k] is not a key. *)
Definition count_in (k : string) (counts : list (string * nat)) : nat :=
  match find (fun kv => String.eqb (fst kv) k) counts with
  | Some kv => snd kv
  | None => 0
  end.

(** The number of times [v] occurs in [vals]. *)
Definition occurrences (vals : list string) (v : string) : nat :=
  count_occ string_dec vals v.

(** The non-empty values of column [h] in the first up-to-100 posts. *)
Definition posts_samples (rows : list FbPostsPython.row) (h : string)
    : list (option string) :=
  filter FbPostsPython.filled (map (value_of h) (firstn 100 rows)).

Definition posts_parses (v : option string) : bool :=
  match FbPostsPython._to_num v with
  | Some _ => true
  | None => false
  end.

(** There is a sample, and more than 80% of the samples are numbers. *)
Definition numeric_posts_column (rows : list FbPostsPython.row) (h : string) : bool :=
  match posts_samples rows h with
  | [] => false
  | samples =>
      80 * List.length samples <? 100 * List.length (filter posts_parses samples)
  end.

(** The total of column [m] over [members]: values that are not numbers
    count for 0. *)
Definition column_total (m : string) (members : list FbPostsPython.row) : R :=
  Py.sum (map (fun r => match FbPostsPython._to_num (value_of m r) with
                        | Some x => x
                        | None => 0%R
                        end) members).

(** [l] is listed by non-increasing [key]. *)
Definition non_increasing_R {A : Type} (key : A -> R) (l : list A) : Prop :=
  StronglySorted (fun p q => (key q <= key p)%R) l.

(** The totals of a page for the columns [metrics], and their sum. *)
Definition totals_of_page (metrics : list string)
    (pd : option string * list FbPostsPython.row) : FbPostsPython.page_total :=
  FbPostsPython.Build_page_total (fst pd)
    (map (fun m => (m, column_total m (snd pd))) metrics)
    (Py.sum (map snd (map (fun m => (m, column_total m (snd pd))) metrics))).

End Posts.

Section Tweets.
Context {L : PyLib}.

(** The rows of a file of tweets, cleaned, before duplicates are removed:
    one for each line that is not empty. *)
Definition tweets_cleaned (fieldnames : list string) (lines : list (list string))
    : list TwPostsPython.row :=
  map (fun l => TwPostsPython.clean_row (TwPostsPython.dict_row fieldnames l))
      (filter (fun l => match l with [] => false | _ => true end) lines).

(** The values of column [col] that are neither [None] nor empty, in the
    first up-to-100 rows. *)
Definition tweet_samples (rows : list TwPostsPython.row) (col : string)
    : list TwPostsPython.tcell :=
  filter TwPostsPython.truthy (map (TwPostsPython.get col) (firstn 100 rows)).

(** There is a sample, and more than 80% of the samples are numbers. *)
Definition numeric_tweet_column (rows : list TwPostsPython.row) (col : string) : bool :=
  match tweet_samples rows col with
  | [] => false
  | samples =>
      80 * List.length samples
      <? 100 * List.length (filter TwPostsPython._is_num samples)
  end.

(** A value is [None] or a [float]. *)
Definition none_or_float (v : TwPostsPython.tcell) : Prop :=
  match v with
  | TwPostsPython.TStr _ => False
  | _ => True
  end.

(** The table of the Twitter analyzer is well formed: the rows have the
    headers for keys, each once, the columns told apart are headers, a
    numeric column holds numbers or [None], and a text column strings or
    [None]. *)
Definition tweets_table (a : TwPostsPython.analyzer) : Prop :=
  Forall (fun r => NoDup (map fst r)
                   /\ forall h, In h (TwPostsPython.headers a) <-> In h (map fst r))
         (TwPostsPython.data a)
  /\ incl (TwPostsPython.numeric_columns a) (TwPostsPython.headers a)
  /\ incl (TwPostsPython.text_columns a) (TwPostsPython.headers a)
  /\ (forall r col, In r (TwPostsPython.data a) ->
        In col (TwPostsPython.numeric_columns a) ->
        none_or_float (TwPostsPython.get col r))
  /\ (forall r col x, In r (TwPostsPython.data a) ->
        In col (TwPostsPython.text_columns a) ->
        TwPostsPython.get col r <> TwPostsPython.TNum x).

(** A value is not a [float]. *)
Definition not_a_number (v : TwPostsPython.tcell) : Prop :=
  forall x, v <> TwPostsPython.TNum x.

End Tweets.

End Described.

(** * Properties of the embedded code *)

(** ** The delimiter is read off the first line *)

Section DelimiterFacts.

Lemma readline_idempotent (s : string) :
  Py.readline (Py.readline s) = Py.readline s.
Proof.
  induction s as [|a rest IH]; simpl; [reflexivity|].
  destruct (Ascii.eqb a Py.lf || Ascii.eqb a Py.cr) eqn:E; simpl.
  - reflexivity.
  - rewrite E. now rewrite IH.
Qed.

Lemma readline_first_line (line rest : string) :
  Py.count Py.lf line = 0 -> Py.count Py.cr line = 0 ->
  Py.readline (line ++ String Py.lf rest) = (line ++ String Py.lf EmptyString)%string.
Proof.
  induction line as [|a line IH]; simpl; intros Hlf Hcr.
  - reflexivity.
  - destruct (Ascii.eqb a Py.lf) eqn:E1; [discriminate|].
    destruct (Ascii.eqb a Py.cr) eqn:E2; [discriminate|].
    simpl in *. now rewrite IH.
Qed.

(** C10.  In the three fb_ads scripts the delimiter is a function of the
    first line alone: it is the tab exactly when the first line holds
    strictly more tabs than commas, and the comma otherwise; the three
    scripts choose the same delimiter, and two files with the same first
    line get the same delimiter. *)
Theorem delimiter_depends_on_first_line (contents : string) :
  let first_line := Py.readline contents in
  (FbAdsPython.detect_delim contents = Py.tab <->
   Py.count Py.comma first_line < Py.count Py.tab first_line)
  /\ (FbAdsPython.detect_delim contents = Py.comma <->
      Py.count Py.tab first_line <= Py.count Py.comma first_line)
  /\ FbAdsPandas.detect_delim contents = FbAdsPython.detect_delim contents
  /\ FbAdsPolars.detect_delimiter contents = FbAdsPython.detect_delim contents
  /\ FbAdsPython.detect_delim contents = FbAdsPython.detect_delim first_line
  /\ (forall line rest rest' : string,
        Py.count Py.lf line = 0 -> Py.count Py.cr line = 0 ->
        FbAdsPython.detect_delim (line ++ String Py.lf rest)
        = FbAdsPython.detect_delim (line ++ String Py.lf rest')).
Proof.
  intros first_line.
  assert (Hne : Py.tab <> Py.comma) by discriminate.
  unfold FbAdsPandas.detect_delim, FbAdsPolars.detect_delimiter,
    FbAdsPython.detect_delim.
  fold first_line.
  repeat split.
  - destruct (Nat.ltb_spec (Py.count Py.comma first_line)
                (Py.count Py.tab first_line)); intros H'; [assumption|].
    symmetry in H'. contradiction.
  - intros Hlt. apply Nat.ltb_lt in Hlt. now rewrite Hlt.
  - destruct (Nat.ltb_spec (Py.count Py.comma first_line)
                (Py.count Py.tab first_line)); intros H'; [contradiction|assumption].
  - intros Hle. apply Nat.ltb_ge in Hle. now rewrite Hle.
  - subst first_line. now rewrite readline_idempotent.
  - intros line rest rest' Hlf Hcr.
    now rewrite !readline_first_line.
Qed.

End DelimiterFacts.

(** ** [_fast_stats] *)

Section FastStats.
Local Open Scope R_scope.

Lemma fold_left_Rplus (l : list R) (a : R) :
  fold_left Rplus l a = a + Described.total l.
Proof.
  revert a. induction l as [|x l IH]; intros a; simpl.
  - lra.
  - rewrite IH. lra.
Qed.

Lemma sum_total (l : list R) : Py.sum l = Described.total l.
Proof. unfold Py.sum. rewrite fold_left_Rplus. lra. Qed.

Lemma min_of_least (x : R) (rest : list R) :
  Described.least (Py.min_of x rest) (x :: rest).
Proof.
  unfold Py.min_of. revert x.
  induction rest as [|y rest IH]; intros x; simpl.
  - split; [now left|]. intros z [->|[]]. lra.
  - destruct (IH (Rmin x y)) as [Hin Hle]. split.
    + destruct Hin as [Hin|Hin]; [|now right; right].
      rewrite <- Hin. unfold Rmin. destruct (Rle_dec x y); [now left|now right; left].
    + intros z [->|[->|Hz]].
      * eapply Rle_trans; [apply Hle; now left|apply Rmin_l].
      * eapply Rle_trans; [apply Hle; now left|apply Rmin_r].
      * apply Hle. now right.
Qed.

Lemma max_of_greatest (x : R) (rest : list R) :
  Described.greatest (Py.max_of x rest) (x :: rest).
Proof.
  unfold Py.max_of. revert x.
  induction rest as [|y rest IH]; intros x; simpl.
  - split; [now left|]. intros z [->|[]]. lra.
  - destruct (IH (Rmax x y)) as [Hin Hle]. split.
    + destruct Hin as [Hin|Hin]; [|now right; right].
      rewrite <- Hin. unfold Rmax. destruct (Rle_dec x y); [now right; left|now left].
    + intros z [->|[->|Hz]].
      * eapply Rle_trans; [apply Rmax_l|apply Hle; now left].
      * eapply Rle_trans; [apply Rmax_r|apply Hle; now left].
      * apply Hle. now right.
Qed.

Lemma insert_asc_perm (x : R) (l : list R) :
  Permutation (Py.insert_asc x l) (x :: l).
Proof.
  induction l as [|y l IH]; simpl; [reflexivity|].
  destruct (Rle_dec x y); [reflexivity|].
  rewrite IH. apply perm_swap.
Qed.

Lemma insert_asc_sorted (x : R) (l : list R) :
  StronglySorted Rle l -> StronglySorted Rle (Py.insert_asc x l).
Proof.
  induction 1 as [|y l Hs IH Hall]; simpl.
  - constructor; [constructor|constructor].
  - destruct (Rle_dec x y) as [Hxy|Hxy].
    + constructor; [now constructor|].
      constructor; [assumption|].
      eapply Forall_impl; [|exact Hall]. intros z Hz. lra.
    + constructor; [assumption|].
      apply (Permutation_Forall (Permutation_sym (insert_asc_perm x l))).
      constructor; [lra|assumption].
Qed.

Lemma sorted_sorting (l : list R) : Described.sorting (Py.sorted l) l.
Proof.
  unfold Described.sorting, Py.sorted.
  induction l as [|x l [Hs Hp]]; simpl.
  - split; [constructor|reflexivity].
  - split; [now apply insert_asc_sorted|].
    rewrite insert_asc_perm. now constructor.
Qed.

Lemma total_squares_nonneg (m : R) (l : list R) :
  0 <= Described.total (map (fun x => (x - m) ^ 2) l).
Proof.
  unfold Described.total.
  induction l as [|x l IH]; cbn [map fold_right]; [lra|].
  pose proof (pow2_ge_0 (x - m)) as Hsq. lra.
Qed.

Lemma variance_nonneg (l : list R) :
  l <> [] -> 0 <= Described.population_variance l.
Proof.
  intros Hne. unfold Described.population_variance.
  apply Rmult_le_pos; [apply total_squares_nonneg|].
  apply Rlt_le, Rinv_0_lt_compat, lt_0_INR.
  destruct l; [contradiction|simpl; lia].
Qed.

Lemma mod2_cases (n : nat) :
  (negb (n mod 2 =? 0)%nat = true /\ (n mod 2 = 1)%nat)
  \/ (negb (n mod 2 =? 0)%nat = false /\ (n mod 2 = 0)%nat).
Proof.
  pose proof (Nat.mod_upper_bound n 2 ltac:(discriminate)) as Hb.
  destruct (n mod 2)%nat as [|[|k]] eqn:E; simpl; [now right|now left|lia].
Qed.



End FastStats.

(** ** Sorting by decreasing size, and the first groups of a sorted list *)

Section SortedDesc.
Variables (A : Type) (size : A -> nat).

Lemma insert_desc_perm (x : A) (l : list A) :
  Permutation (Py.insert_desc size x l) (x :: l).
Proof.
  induction l as [|y l IH]; simpl; [reflexivity|].
  destruct (size y <=? size x); [reflexivity|].
  rewrite IH. apply perm_swap.
Qed.

Lemma sorted_desc_perm (l : list A) : Permutation (Py.sorted_desc size l) l.
Proof.
  unfold Py.sorted_desc. induction l as [|x l IH]; simpl; [reflexivity|].
  rewrite insert_desc_perm. now constructor.
Qed.

Lemma insert_desc_sorted (x : A) (l : list A) :
  Described.non_increasing size l ->
  Described.non_increasing size (Py.insert_desc size x l).
Proof.
  unfold Described.non_increasing.
  induction 1 as [|y l Hs IH Hall]; simpl.
  - repeat constructor.
  - destruct (Nat.leb_spec (size y) (size x)) as [Hle|Hlt].
    + constructor; [now constructor|].
      constructor; [assumption|].
      eapply Forall_impl; [|exact Hall]. simpl. intros z Hz. lia.
    + constructor; [assumption|].
      apply (Permutation_Forall (Permutation_sym (insert_desc_perm x l))).
      constructor; [lia|assumption].
Qed.

Lemma sorted_desc_sorted (l : list A) :
  Described.non_increasing size (Py.sorted_desc size l).
Proof.
  unfold Py.sorted_desc. induction l as [|x l IH]; simpl.
  - constructor.
  - now apply insert_desc_sorted.
Qed.

Lemma non_increasing_firstn (n : nat) (l : list A) :
  Described.non_increasing size l -> Described.non_increasing size (firstn n l).
Proof.
  unfold Described.non_increasing. intros Hs. revert n.
  induction Hs as [|y l Hs IH Hall]; intros [|n]; simpl; try constructor.
  - apply IH.
  - apply Forall_forall. intros z Hz.
    rewrite Forall_forall in Hall. apply Hall.
    rewrite <- (firstn_skipn n l). apply in_or_app. now left.
Qed.

Lemma non_increasing_split (n : nat) (l : list A) (a b : A) :
  Described.non_increasing size l ->
  In a (firstn n l) -> In b (skipn n l) -> size b <= size a.
Proof.
  unfold Described.non_increasing. intros Hs. revert n.
  induction Hs as [|y l Hs IH Hall]; intros [|n]; simpl; try contradiction.
  intros [<-|Ha] Hb.
  - rewrite Forall_forall in Hall. apply Hall.
    rewrite <- (firstn_skipn n l). apply in_or_app. now right.
  - now apply (IH n).
Qed.

(** The first [n] elements of the sorted list are the [n] largest. *)
Lemma firstn_sorted_desc_largest (n : nat) (l : list A) :
  Described.largest size n (firstn n (Py.sorted_desc size l)) l.
Proof.
  exists (skipn n (Py.sorted_desc size l)).
  rewrite firstn_skipn. repeat split.
  - apply sorted_desc_perm.
  - rewrite length_firstn. now rewrite (Permutation_length (sorted_desc_perm l)).
  - apply non_increasing_firstn, sorted_desc_sorted.
  - intros a b. apply non_increasing_split, sorted_desc_sorted.
Qed.

End SortedDesc.

(** ** Filling a dictionary of groups *)

Section Grouping.
Variables (K V : Type) (eqb : K -> K -> bool).
Hypothesis eqb_eq : forall a b, eqb a b = true <-> a = b.

Lemma append_to_keys (k : K) (v : V) (g : list (K * list V)) :
  (In k (map fst g) /\ map fst (Py.append_to eqb k v g) = map fst g)
  \/ (~ In k (map fst g) /\ map fst (Py.append_to eqb k v g) = (map fst g ++ [k])%list).
Proof.
  induction g as [|[k' vs] g IH]; simpl.
  - right. split; [tauto|reflexivity].
  - destruct (eqb k' k) eqn:E.
    + apply eqb_eq in E. subst k'. left. split; [now left|reflexivity].
    + assert (k' <> k) by (intros ->; rewrite (proj2 (eqb_eq k k) eq_refl) in E; discriminate).
      destruct IH as [[Hin Heq]|[Hnin Heq]]; simpl; rewrite Heq.
      * left. split; [now right|reflexivity].
      * right. split; [|reflexivity]. intros [Hk|Hk]; [contradiction|tauto].
Qed.

Lemma append_to_nodup (k : K) (v : V) (g : list (K * list V)) :
  NoDup (map fst g) -> NoDup (map fst (Py.append_to eqb k v g)).
Proof.
  intros Hnd. destruct (append_to_keys k v g) as [[_ ->]|[Hnin ->]]; [assumption|].
  apply (Permutation_NoDup (l := k :: map fst g)).
  - apply Permutation_cons_append.
  - now constructor.
Qed.

Lemma append_to_members (k : K) (v : V) (g : list (K * list V)) :
  Permutation (List.concat (map snd (Py.append_to eqb k v g)))
              (List.concat (map snd g) ++ [v]).
Proof.
  induction g as [|[k' vs] g IH]; simpl; [reflexivity|].
  destruct (eqb k' k); simpl.
  - rewrite <- !app_assoc. apply Permutation_app_head, Permutation_app_comm.
  - rewrite IH. now rewrite app_assoc.
Qed.

Lemma append_to_keyed (has_key : V -> K -> Prop) (k : K) (v : V)
    (g : list (K * list V)) :
  has_key v k ->
  (forall k' members r, In (k', members) g -> In r members -> has_key r k') ->
  forall k' members r,
    In (k', members) (Py.append_to eqb k v g) -> In r members -> has_key r k'.
Proof.
  intros Hv. induction g as [|[k0 vs] g IH]; simpl; intros Hg k' members r.
  - intros [[= <- <-]|[]] [<-|[]]. exact Hv.
  - destruct (eqb k0 k) eqn:E.
    + apply eqb_eq in E. subst k0.
      intros [[= <- <-]|Hin] Hr.
      * apply in_app_or in Hr. destruct Hr as [Hr|[<-|[]]]; [|exact Hv].
        eapply Hg; [left; reflexivity|exact Hr].
      * eapply Hg; [right; exact Hin|exact Hr].
    + intros [[= <- <-]|Hin] Hr.
      * eapply Hg; [left; reflexivity|exact Hr].
      * eapply IH; [|exact Hin|exact Hr].
        intros k1 m1 r1 H1. apply Hg. now right.
Qed.

Lemma fill_invariant (has_key : V -> K -> Prop) (key : V -> K)
    (rows done : list V) (g : list (K * list V)) :
  (forall r, In r rows -> has_key r (key r)) ->
  NoDup (map fst g) ->
  Permutation (List.concat (map snd g)) done ->
  (forall k members r, In (k, members) g -> In r members -> has_key r k) ->
  NoDup (map fst (Described.fill eqb key rows g))
  /\ Permutation (List.concat (map snd (Described.fill eqb key rows g))) (done ++ rows)
  /\ (forall k members r,
        In (k, members) (Described.fill eqb key rows g) -> In r members -> has_key r k).
Proof.
  revert done g. induction rows as [|r rows IH]; intros done g Hkey Hnd Hp Hk; simpl.
  - rewrite app_nil_r. auto.
  - destruct (IH (done ++ [r])%list (Py.append_to eqb (key r) r g)) as (H1 & H2 & H3).
    + intros r' Hr'. apply Hkey. now right.
    + now apply append_to_nodup.
    + rewrite append_to_members. now apply Permutation_app_tail.
    + apply append_to_keyed; [apply Hkey; now left|exact Hk].
    + split; [exact H1|]. split; [|exact H3].
      rewrite H2. now rewrite <- app_assoc.
Qed.

Lemma fill_partition (has_key : V -> K -> Prop) (key : V -> K) (rows : list V) :
  (forall r, In r rows -> has_key r (key r)) ->
  Described.partition_by has_key (Described.fill eqb key rows []) rows.
Proof.
  intros Hkey.
  assert (Hnd : NoDup (map fst (@nil (K * list V)))) by constructor.
  assert (Hp : Permutation (List.concat (map snd (@nil (K * list V)))) []) by reflexivity.
  assert (Hk : forall k members r,
             In (k, members) (@nil (K * list V)) -> In r members -> has_key r k)
    by (intros k members r []).
  destruct (@fill_invariant has_key key rows [] [] Hkey Hnd Hp Hk) as (H1 & H2 & H3).
  simpl in H2.
  unfold Described.partition_by. repeat split; try assumption.
  rewrite <- (Permutation_length H2), length_concat, map_map. reflexivity.
Qed.

End Grouping.

(** ** The group-by step splits the rows *)

Section GroupBy.
Context {L : PyLib}.

Lemma tuple_eqb_eq (A : Type) (eqb : A -> A -> bool) :
  (forall a b, eqb a b = true <-> a = b) ->
  forall k1 k2, Py.tuple_eqb eqb k1 k2 = true <-> k1 = k2.
Proof.
  intros Heq. induction k1 as [|a k1 IH]; intros [|b k2]; simpl;
    try (split; [discriminate|discriminate]); [tauto|].
  rewrite andb_true_iff, Heq, IH. split; [intros [-> ->]; reflexivity|].
  intros [= -> ->]. auto.
Qed.

Lemma tcell_eqb_eq (a b : TwPostsPython.tcell) :
  TwPostsPython.tcell_eqb a b = true <-> a = b.
Proof.
  destruct a, b; simpl; try (split; [discriminate|discriminate]); try tauto.
  - rewrite String.eqb_eq. split; [now intros ->|now intros [= ->]].
  - destruct (Req_dec_T x x0) as [->|Hne]; split; auto; try discriminate.
    intros [= E]. contradiction.
Qed.

Lemma for_each_ok (A B : Type) (f : A -> result B) (g : A -> B) (l : list A) :
  (forall x, In x l -> f x = Ok (g x)) -> for_each f l = Ok (map g l).
Proof.
  induction l as [|x l IH]; intros H; simpl; [reflexivity|].
  rewrite (H x (or_introl eq_refl)). simpl.
  rewrite IH by (intros y Hy; apply H; now right). reflexivity.
Qed.

Lemma index_of_member (c : string) (hs : list string) :
  Py.mem c hs = true ->
  exists i, Py.index c hs = Some i /\ i < List.length hs.
Proof.
  unfold Py.mem. induction hs as [|h hs IH]; simpl; [discriminate|].
  rewrite String.eqb_sym. destruct (String.eqb h c) eqn:E; simpl.
  - intros _. exists 0. split; [reflexivity|lia].
  - intros Hm. destruct (IH Hm) as (i & -> & Hi). exists (S i). split; [reflexivity|lia].
Qed.

Lemma header_indices_ok (hs group_cols : list string) :
  Forall (fun c => Py.mem c hs = true) group_cols ->
  for_each (fun c => FbAdsPython.header_index c hs) group_cols
  = Ok (map (Described.position hs) group_cols)
  /\ Forall (fun i => i < List.length hs) (map (Described.position hs) group_cols).
Proof.
  intros Hall. split.
  - apply for_each_ok. intros c Hc. rewrite Forall_forall in Hall.
    destruct (index_of_member c hs (Hall c Hc)) as (i & Hi & _).
    unfold FbAdsPython.header_index, Described.position. now rewrite Hi.
  - rewrite Forall_map. eapply Forall_impl; [|exact Hall]. simpl.
    intros c Hc. destruct (index_of_member c hs Hc) as (i & Hi & Hlt).
    unfold Described.position. now rewrite Hi.
Qed.

Lemma group_key_ok (indices : list nat) (row : list FbAdsPython.cell) :
  Forall (fun i => i < List.length row) indices ->
  FbAdsPython.group_key indices row = Ok (Described.key_of indices row).
Proof.
  intros Hall. unfold FbAdsPython.group_key, Described.key_of.
  apply for_each_ok. intros i Hi. rewrite Forall_forall in Hall.
  unfold getitem. destruct (nth_error row i) as [c|] eqn:E.
  - rewrite (nth_error_nth _ _ _ E). simpl. destruct c; reflexivity.
  - apply nth_error_None in E. specialize (Hall i Hi). lia.
Qed.

Lemma group_rows_fill (indices : list nat) (rows : list (list FbAdsPython.cell))
    (g : list (list string * list (list FbAdsPython.cell))) :
  (forall row, In row rows ->
     FbAdsPython.group_key indices row = Ok (Described.key_of indices row)) ->
  FbAdsPython.group_rows indices rows g
  = Ok (Described.fill (Py.tuple_eqb String.eqb) (Described.key_of indices) rows g).
Proof.
  revert g. induction rows as [|row rows IH]; intros g H; simpl; [reflexivity|].
  rewrite (H row (or_introl eq_refl)). simpl.
  apply IH. intros r Hr. apply H. now right.
Qed.

Lemma tw_group_key_ok (by_cols : list string) (r : TwPostsPython.row) :
  Forall (fun c => Py.lookup c r <> None) by_cols ->
  TwPostsPython.group_key by_cols r = Ok (Described.tweet_key by_cols r).
Proof.
  intros Hall. unfold TwPostsPython.group_key, Described.tweet_key.
  apply for_each_ok. intros c Hc. rewrite Forall_forall in Hall.
  unfold Py.dict_get. specialize (Hall c Hc).
  destruct (Py.lookup c r); [reflexivity|contradiction].
Qed.

Lemma tw_group_rows_fill (by_cols : list string) (rows : list TwPostsPython.row)
    (d : TwPostsPython.groups) :
  (forall r, In r rows ->
     TwPostsPython.group_key by_cols r = Ok (Described.tweet_key by_cols r)) ->
  TwPostsPython.group_rows by_cols rows d
  = Ok (Described.fill (Py.tuple_eqb TwPostsPython.tcell_eqb) (Described.tweet_key by_cols) rows d).
Proof.
  revert d. induction rows as [|r rows IH]; intros d H; simpl; [reflexivity|].
  rewrite (H r (or_introl eq_refl)). simpl.
  apply IH. intros r' Hr. apply H. now right.
Qed.


End GroupBy.

(** ** Column types are inferred from a sample *)

Section ColumnTypes.
Context {L : PyLib}.
Import FbAdsPython.

Lemma sample_data_firstn (raw : list (list cell)) :
  sample_data raw = firstn 1000 raw.
Proof.
  unfold sample_data.
  destruct (Nat.ltb_spec 1000 (List.length raw)) as [Hlt|Hle].
  - now rewrite Nat.min_l by lia.
  - now rewrite firstn_all2.
Qed.

Lemma nth_set_item_other (A : Type) (i j : nat) (v d : A) (l : list A) :
  i <> j -> nth j (Py.set_item i v l) d = nth j l d.
Proof.
  revert i j. induction l as [|x l IH]; intros [|i] [|j] Hne; simpl;
    try reflexivity; try congruence.
  apply IH. congruence.
Qed.

Lemma convert_column_same_from (i : nat) (raw raw0 : list (list cell)) :
  Described.same_from i raw raw0 -> Described.same_from (S i) (convert_column i raw) raw0.
Proof.
  intros H j Hj. rewrite <- (H j) by lia.
  unfold convert_column. rewrite map_map. apply map_ext.
  intros row. apply nth_set_item_other. lia.
Qed.

Lemma same_from_weaken (i : nat) (raw raw0 : list (list cell)) :
  Described.same_from i raw raw0 -> Described.same_from (S i) raw raw0.
Proof. intros H j Hj. apply H. lia. Qed.

Lemma column_vals_sampled (i : nat) (raw raw0 : list (list cell)) :
  Described.same_from i raw raw0 ->
  firstn 100 (column_vals i (sample_data raw)) = Described.sampled raw0 i.
Proof.
  intros H. unfold column_vals, Described.sampled.
  rewrite sample_data_firstn, <- !firstn_map, (H i) by lia. reflexivity.
Qed.

Lemma mostly_numeric_described (vals : list cell) :
  vals <> [] ->
  mostly_numeric vals = Described.at_least_80_percent (firstn 100 vals).
Proof.
  intros Hne. unfold mostly_numeric, Described.at_least_80_percent, numeric_count.
  fold Described.parses.
  change (filter (fun v0 => match float_of v0 with Some _ => true | None => false end))
    with (filter Described.parses).
  set (checked := firstn 100 vals).
  assert (Hlen : List.length checked <> 0).
  { subst checked. rewrite length_firstn. destruct vals; [contradiction|].
    cbn [List.length]. lia. }
  destruct checked as [|c checked]; [contradiction|].
  destruct (Nat.leb_spec (4 * List.length (c :: checked))
              (5 * List.length (filter Described.parses (c :: checked))));
    symmetry; [apply Nat.leb_le|apply Nat.leb_gt]; lia.
Qed.

(** One turn of the loop of lines 86-112. *)
Lemma detect_step_described (i : nat) (h : string)
    (raw raw0 : list (list cell)) (num cat : list string) :
  Described.same_from i raw raw0 ->
  exists raw',
    detect_step (raw, num, cat) (i, h)
    = (raw',
       (num ++ if Described.numeric_column raw0 (i, h) then [h] else [])%list,
       (cat ++ if Described.numeric_column raw0 (i, h) then [] else [h])%list)
    /\ Described.same_from (S i) raw' raw0.
Proof.
  intros Hsame. unfold detect_step, Described.numeric_column. cbn [fst snd].
  destruct (Py.mem h complex_fields); cbn [negb andb].
  - exists raw. rewrite app_nil_r. split; [reflexivity|now apply same_from_weaken].
  - rewrite <- (column_vals_sampled Hsame).
    destruct (column_vals i (sample_data raw)) as [|v vals] eqn:E.
    + exists raw. cbn. rewrite app_nil_r.
      split; [reflexivity|now apply same_from_weaken].
    + rewrite <- mostly_numeric_described by discriminate.
      destruct (mostly_numeric (v :: vals)).
      * exists (convert_column i raw). rewrite app_nil_r.
        split; [reflexivity|now apply convert_column_same_from].
      * exists raw. rewrite app_nil_r.
        split; [reflexivity|now apply same_from_weaken].
Qed.

Lemma detect_loop_described (hs : list string) (k : nat)
    (raw raw0 : list (list cell)) (num cat : list string) :
  Described.same_from k raw raw0 ->
  exists raw',
    fold_left detect_step (combine (seq k (List.length hs)) hs) (raw, num, cat)
    = (raw',
       (num ++ map snd (filter (Described.numeric_column raw0)
                          (combine (seq k (List.length hs)) hs)))%list,
       (cat ++ map snd (filter (fun ih => negb (Described.numeric_column raw0 ih))
                          (combine (seq k (List.length hs)) hs)))%list)
    /\ Described.same_from (k + List.length hs) raw' raw0.
Proof.
  revert k raw num cat. induction hs as [|h hs IH]; intros k raw num cat Hsame.
  - exists raw. simpl. rewrite !app_nil_r, Nat.add_0_r. auto.
  - cbn [List.length seq combine fold_left filter].
    destruct (detect_step_described h num cat Hsame) as (raw1 & -> & Hsame1).
    destruct (IH (S k) raw1
                (num ++ if Described.numeric_column raw0 (k, h) then [h] else [])%list
                (cat ++ if Described.numeric_column raw0 (k, h) then [] else [h])%list
                Hsame1) as (raw' & -> & Hsame').
    exists raw'. split.
    + destruct (Described.numeric_column raw0 (k, h)); cbn [negb map snd];
        rewrite <- !app_assoc; reflexivity.
    + now rewrite Nat.add_succ_r.
Qed.

(** The loop over the headers, from the rows as they were read: the
    columns are told apart by the described test on the rows as read, and
    the loop keeps the number of rows. *)
Lemma detect_types_described (hs : list string) (raw : list (list cell))
    (num cat : list string) :
  exists raw',
    detect_types hs (raw, num, cat)
    = (raw',
       (num ++ map snd (filter (Described.numeric_column raw) (Py.enumerate hs)))%list,
       (cat ++ map snd (filter (fun ih => negb (Described.numeric_column raw ih))
                          (Py.enumerate hs)))%list)
    /\ List.length raw' = List.length raw.
Proof.
  unfold detect_types, Py.enumerate.
  destruct (@detect_loop_described hs 0 raw raw num cat) as (raw' & Heq & Hsame).
  - intros j _. reflexivity.
  - exists raw'. split; [exact Heq|].
    specialize (Hsame (0 + List.length hs) (Nat.le_refl _)).
    apply (f_equal (@List.length _)) in Hsame. now rewrite !length_map in Hsame.
Qed.

Lemma map_snd_enumerate (A : Type) (l : list A) : map snd (Py.enumerate l) = l.
Proof.
  unfold Py.enumerate. generalize 0.
  induction l as [|x l IH]; intros k; simpl; [reflexivity|]. now rewrite IH.
Qed.

Lemma filter_split_perm (A : Type) (f : A -> bool) (l : list A) :
  Permutation (filter f l ++ filter (fun x => negb (f x)) l) l.
Proof.
  induction l as [|x l IH]; simpl; [reflexivity|].
  destruct (f x); simpl.
  - now constructor.
  - rewrite <- Permutation_middle. now constructor.
Qed.

(** What [load_and_clean_data] does when the file is read without an
    exception and has a first row. *)
Lemma load_and_clean_data_ok (a0 : analyzer) (out0 : list event)
    (contents : string) (first : list string) (rows : list (list string)) :
  read_text (filepath a0) = Ok contents ->
  csv_reader (detect_delim contents) contents = (first :: rows, None) ->
  let hs := map Py.strip first in
  let raw := map (process_row hs) rows in
  let st := detect_types hs (raw, numeric_columns a0, categorical_columns a0) in
  let d := remove_duplicates (fst (fst st)) [] [] in
  load_and_clean_data (Run.Build_world a0 out0)
  = (Ok tt,
     Run.Build_world
       (Build_analyzer (filepath a0) d hs (snd (fst st)) (snd st))
       (out0 ++ Header "STEP 1: LOADING AND CLEANING DATASET" 1
             :: progress rows
             ++ [Line "Loaded {} rows" [CInt (Z.of_nat (List.length raw))];
                 Line "Removing duplicates..." [];
                 Box "LOADING SUMMARY"
                   [("Final Rows"%string, CInt (Z.of_nat (List.length d)));
                    ("Duplicates Removed"%string,
                     CInt (Z.of_nat (List.length (fst (fst st)))
                           - Z.of_nat (List.length d)));
                    ("Numeric Columns"%string,
                     CInt (Z.of_nat (List.length (snd (fst st)))));
                    ("Categorical Columns"%string,
                     CInt (Z.of_nat (List.length (snd st))))]])%list).
Proof.
  intros Hread Hcsv hs raw st d.
  unfold load_and_clean_data, _header, _box, set_headers, set_columns, set_data.
  unfold Run.try_except, Run.bind, Run.gets, Run.lift, Run.print, Run.prints,
    Run.modify, Run.ret.
  cbn [Run.self Run.stdout filepath data headers numeric_columns categorical_columns].
  rewrite Hread, Hcsv.
  cbn [Run.self Run.stdout filepath data headers numeric_columns categorical_columns].
  fold hs. fold raw. fold st. destruct st as [[raw' num] cat] eqn:Est.
  cbn [Run.self Run.stdout filepath data headers numeric_columns categorical_columns fst snd].
  subst d. cbn [fst snd].
  repeat rewrite <- app_assoc. reflexivity.
Qed.

(** *** The loaded rows have one cell per header

    This is what makes [row[i]] safe in the loops over the columns: no
    index of a header is out of range in a row. *)

Lemma fit_length (n : nat) (row : list string) : List.length (fit n row) = n.
Proof.
  unfold fit. rewrite length_firstn, length_app, repeat_length. lia.
Qed.

Lemma process_row_length (hs : list string) (row : list string) :
  List.length (process_row hs row) = List.length hs.
Proof.
  unfold process_row. rewrite length_map, length_combine, fit_length. lia.
Qed.

Lemma set_item_length (A : Type) (i : nat) (v : A) (l : list A) :
  List.length (Py.set_item i v l) = List.length l.
Proof.
  revert i. induction l as [|y l IH]; intros [|i]; simpl; try reflexivity.
  now rewrite IH.
Qed.

Lemma convert_column_lengths (n i : nat) (raw : list (list cell)) :
  Forall (fun row => List.length row = n) raw ->
  Forall (fun row => List.length row = n) (convert_column i raw).
Proof.
  intros H. unfold convert_column. apply Forall_map.
  eapply Forall_impl; [|exact H]. intros row Hrow. cbn beta.
  now rewrite set_item_length.
Qed.

Lemma detect_step_lengths (n : nat) (st : detect_state) (ih : nat * string) :
  Forall (fun row => List.length row = n) (fst (fst st)) ->
  Forall (fun row => List.length row = n) (fst (fst (detect_step st ih))).
Proof.
  destruct st as [[raw num] cat], ih as [i h]. cbn [fst]. intros H.
  unfold detect_step.
  destruct (Py.mem h complex_fields); [exact H|].
  destruct (column_vals i (sample_data raw)); [exact H|].
  destruct (mostly_numeric _); [|exact H].
  cbn [fst]. now apply convert_column_lengths.
Qed.

Lemma detect_types_lengths (n : nat) (hs : list string) (st : detect_state) :
  Forall (fun row => List.length row = n) (fst (fst st)) ->
  Forall (fun row => List.length row = n) (fst (fst (detect_types hs st))).
Proof.
  unfold detect_types. generalize (Py.enumerate hs) as l. intros l. revert st.
  induction l as [|ih l IH]; intros st H; simpl; [exact H|].
  apply IH. now apply detect_step_lengths.
Qed.

Lemma remove_duplicates_In (rows : list (list cell)) (seen : list string)
    (kept : list (list cell)) (row : list cell) :
  In row (remove_duplicates rows seen kept) -> In row rows \/ In row kept.
Proof.
  revert seen kept. induction rows as [|r rows IH]; intros seen kept H; simpl in H.
  - now right.
  - destruct (Py.mem (row_key r) seen).
    + destruct (IH _ _ H) as [Hin|Hin]; [left; now right | now right].
    + destruct (IH _ _ H) as [Hin|Hin]; [left; now right |].
      apply in_app_or in Hin. destruct Hin as [Hin|[<-|[]]]; [now right|].
      left. now left.
Qed.

(** Whatever the file, every row of the table that [load_and_clean_data]
    stores has exactly one cell per header. *)
Lemma loaded_rows_fit (first : list string) (rows : list (list string))
    (num cat : list string) :
  let hs := map Py.strip first in
  let st := detect_types hs (map (process_row hs) rows, num, cat) in
  Forall (fun row => List.length row = List.length hs)
         (remove_duplicates (fst (fst st)) [] []).
Proof.
  intros hs st. apply Forall_forall. intros row Hrow.
  destruct (remove_duplicates_In _ _ _ _ Hrow) as [Hin|[]].
  assert (H : Forall (fun row => List.length row = List.length hs) (fst (fst st))).
  { apply detect_types_lengths. cbn [fst]. apply Forall_map, Forall_forall.
    intros r _. apply process_row_length. }
  rewrite Forall_forall in H. now apply H.
Qed.

End ColumnTypes.

(** ** The column types after loading *)

Section LoadedColumnTypes.
Context {L : PyLib}.
Import FbAdsPython.

Lemma mem_In (x : string) (l : list string) : Py.mem x l = true <-> In x l.
Proof.
  unfold Py.mem. rewrite existsb_exists. split.
  - intros (y & Hy & E). apply String.eqb_eq in E. now subst.
  - intros H. exists x. split; [assumption|apply String.eqb_refl].
Qed.

Lemma numeric_column_iff (raw : list (list cell)) (i : nat) (h : string) :
  Described.numeric_column raw (i, h) = true <->
  ~ In h complex_fields
  /\ Described.sampled raw i <> []
  /\ 80 * List.length (Described.sampled raw i)
     <= 100 * List.length (filter Described.parses (Described.sampled raw i)).
Proof.
  unfold Described.numeric_column. cbn [fst snd].
  rewrite andb_true_iff, negb_true_iff, <- not_true_iff_false, mem_In.
  unfold Described.at_least_80_percent.
  destruct (Described.sampled raw i) as [|v vs].
  - split; [intros [_ H]; discriminate|intros (_ & H & _); contradiction].
  - rewrite Nat.leb_le. split.
    + intros [H1 H2]. repeat split; [assumption|discriminate|assumption].
    + intros (H1 & _ & H2). split; assumption.
Qed.

(** C3.  When the file is read, the pure-Python fb_ads analyzer classifies
    the column at each position from a sample: it is numeric exactly when
    its header is not a complex field and at least 80% of the first
    up-to-100 non-null values among the first up-to-1000 loaded rows parse as
    floats (a column with no such value is not numeric); otherwise it is
    categorical; every header is put in exactly one of the two lists. *)
Theorem column_types_by_sampling
    (path contents : string) (first : list string) (rows : list (list string)) :
  read_text path = Ok contents ->
  csv_reader (detect_delim contents) contents = (first :: rows, None) ->
  let hs := map Py.strip first in
  let raw := map (process_row hs) rows in
  let a := Run.self (snd (load_and_clean_data (Run.Build_world (__init__ path) []))) in
  headers a = hs
  /\ numeric_columns a
     = map snd (filter (Described.numeric_column raw) (Py.enumerate hs))
  /\ categorical_columns a
     = map snd (filter (fun ih => negb (Described.numeric_column raw ih))
                  (Py.enumerate hs))
  /\ Permutation (numeric_columns a ++ categorical_columns a) hs
  /\ (forall i h,
        Described.numeric_column raw (i, h) = true <->
        ~ In h complex_fields
        /\ Described.sampled raw i <> []
        /\ 80 * List.length (Described.sampled raw i)
           <= 100 * List.length (filter Described.parses (Described.sampled raw i))).
Proof.
  intros Hread Hcsv hs raw a. subst a.
  rewrite (@load_and_clean_data_ok L (__init__ path) [] contents first rows Hread Hcsv).
  cbn [Run.self snd headers numeric_columns categorical_columns __init__].
  fold hs. fold raw.
  destruct (detect_types_described hs raw [] []) as (raw' & -> & _).
  cbn [fst snd app].
  split; [reflexivity|]. split; [reflexivity|]. split; [reflexivity|].
  split; [|apply numeric_column_iff].
  rewrite <- map_app, filter_split_perm, map_snd_enumerate. reflexivity.
Qed.

End LoadedColumnTypes.

(** ** Reasoning about runs: frames, traces and exceptions *)

Section RunFacts.
Variables (Self Event : Type) (step_of : Event -> option Described.step).
Import Run.

Local Abbreviation M := (Run.M Self Event).

Local Abbreviation read_only := (@Described.read_only Self Event _).
Local Abbreviation emits := (@Described.emits Self Event _ step_of).
Local Abbreviation silent := (@Described.silent Self Event _ step_of).

Lemma read_only_ret (A : Type) (a : A) : read_only (ret a).
Proof. intros w. reflexivity. Qed.

Lemma read_only_raise (A : Type) (e : exn) : read_only (@raise Self Event A e).
Proof. intros w. reflexivity. Qed.

Lemma read_only_lift (A : Type) (r : result A) : read_only (@lift Self Event A r).
Proof. intros w. reflexivity. Qed.

Lemma read_only_gets (A : Type) (f : Self -> A) : read_only (@gets Self Event A f).
Proof. intros w. reflexivity. Qed.

Lemma read_only_print (e : Event) : read_only (@print Self Event e).
Proof. intros w. reflexivity. Qed.

Lemma read_only_prints (es : list Event) : read_only (@prints Self Event es).
Proof. intros w. reflexivity. Qed.

Lemma read_only_bind (A B : Type) (m : M A) (k : A -> M B) :
  read_only m -> (forall a, read_only (k a)) -> read_only (bind m k).
Proof.
  intros Hm Hk w. unfold bind. specialize (Hm w).
  destruct (m w) as [[a|e] w1]; simpl in *.
  - now rewrite Hk.
  - assumption.
Qed.

Lemma read_only_try_except (A : Type) (body : M A) (handler : exn -> M A) :
  read_only body -> (forall e, read_only (handler e)) ->
  read_only (try_except body handler).
Proof.
  intros Hm Hk w. unfold try_except. specialize (Hm w).
  destruct (body w) as [[a|e] w1]; simpl in *.
  - assumption.
  - now rewrite Hk.
Qed.

Lemma read_only_for (A : Type) (l : list A) (body : A -> M unit) :
  (forall x, read_only (body x)) -> read_only (for_ l body).
Proof.
  intros H. induction l as [|x l IH]; simpl.
  - apply read_only_ret.
  - apply read_only_bind; [apply H|intros _; exact IH].
Qed.

Lemma read_only_collect (A B : Type) (l : list A) (f : A -> M B) :
  (forall x, read_only (f x)) -> read_only (collect l f).
Proof.
  intros H. induction l as [|x l IH]; simpl.
  - apply read_only_ret.
  - apply read_only_bind; [apply H|intros y].
    apply read_only_bind; [exact IH|intros ys; apply read_only_ret].
Qed.

Lemma steps_app (out1 out2 : list Event) :
  Described.steps step_of (out1 ++ out2)
  = (Described.steps step_of out1 ++ Described.steps step_of out2)%list.
Proof. unfold Described.steps. apply flat_map_app. Qed.

Lemma emits_weaken (A : Type) (P Q : list Described.step -> Prop) (m : M A) :
  (forall l, P l -> Q l) -> emits P m -> emits Q m.
Proof.
  intros HPQ Hm w. destruct (Hm w) as (out & Hout & HP). exists out. auto.
Qed.

(** Sequencing: the steps of [m], then (unless [m] raised) those of [k]. *)
Lemma emits_bind (A B : Type) (P Q : list Described.step -> Prop)
    (m : M A) (k : A -> M B) :
  emits P m -> (forall a, emits Q (k a)) ->
  emits (fun l => exists l1 l2, l = (l1 ++ l2)%list /\ P l1 /\ (l2 = [] \/ Q l2))
        (bind m k).
Proof.
  intros Hm Hk w. unfold bind. destruct (Hm w) as (out1 & Hout1 & HP).
  destruct (m w) as [[a|e] w1]; simpl in *.
  - destruct (Hk a w1) as (out2 & Hout2 & HQ).
    exists (out1 ++ out2)%list. rewrite Hout2, Hout1, app_assoc. split; [reflexivity|].
    rewrite steps_app. eauto 6.
  - exists out1. split; [assumption|].
    exists (Described.steps step_of out1), []. rewrite app_nil_r. auto.
Qed.

Lemma emits_try_except (A : Type) (P Q : list Described.step -> Prop)
    (body : M A) (handler : exn -> M A) :
  emits P body -> (forall e, emits Q (handler e)) ->
  emits (fun l => exists l1 l2, l = (l1 ++ l2)%list /\ P l1 /\ (l2 = [] \/ Q l2))
        (try_except body handler).
Proof.
  intros Hm Hk w. unfold try_except. destruct (Hm w) as (out1 & Hout1 & HP).
  destruct (body w) as [[a|e] w1]; simpl in *.
  - exists out1. split; [assumption|].
    exists (Described.steps step_of out1), []. rewrite app_nil_r. auto.
  - destruct (Hk e w1) as (out2 & Hout2 & HQ).
    exists (out1 ++ out2)%list. rewrite Hout2, Hout1, app_assoc. split; [reflexivity|].
    rewrite steps_app. eauto 6.
Qed.

Lemma silent_ret (A : Type) (a : A) : silent (ret a).
Proof. intros w. exists []. simpl. now rewrite app_nil_r. Qed.

Lemma silent_raise (A : Type) (e : exn) : silent (@raise Self Event A e).
Proof. intros w. exists []. simpl. now rewrite app_nil_r. Qed.

Lemma silent_lift (A : Type) (r : result A) : silent (@lift Self Event A r).
Proof. intros w. exists []. simpl. now rewrite app_nil_r. Qed.

Lemma silent_gets (A : Type) (f : Self -> A) : silent (@gets Self Event A f).
Proof. intros w. exists []. simpl. now rewrite app_nil_r. Qed.

Lemma silent_modify (f : Self -> Self) : silent (@modify Self Event f).
Proof. intros w. exists []. simpl. now rewrite app_nil_r. Qed.

Lemma emits_print (e : Event) :
  emits (fun l => l = match step_of e with Some s => [s] | None => [] end)
        (@print Self Event e).
Proof.
  intros w. exists [e]. split; [reflexivity|].
  unfold Described.steps. simpl. now rewrite app_nil_r.
Qed.

Lemma silent_print (e : Event) : step_of e = None -> silent (@print Self Event e).
Proof.
  intros He. eapply emits_weaken; [|apply emits_print].
  intros l ->. now rewrite He.
Qed.

Lemma silent_prints (es : list Event) :
  Forall (fun e => step_of e = None) es -> silent (@prints Self Event es).
Proof.
  intros Hall w. exists es. split; [reflexivity|].
  unfold Described.steps. induction Hall as [|e es He _ IH]; simpl; [reflexivity|].
  now rewrite He.
Qed.

Lemma silent_bind (A B : Type) (m : M A) (k : A -> M B) :
  silent m -> (forall a, silent (k a)) -> silent (bind m k).
Proof.
  intros Hm Hk. eapply emits_weaken; [|eapply emits_bind; [exact Hm|exact Hk]].
  intros l (l1 & l2 & -> & -> & [->| ->]); reflexivity.
Qed.

Lemma silent_try_except (A : Type) (body : M A) (handler : exn -> M A) :
  silent body -> (forall e, silent (handler e)) -> silent (try_except body handler).
Proof.
  intros Hm Hk. eapply emits_weaken; [|eapply emits_try_except; [exact Hm|exact Hk]].
  intros l (l1 & l2 & -> & -> & [->| ->]); reflexivity.
Qed.

Lemma silent_for (A : Type) (l : list A) (body : A -> M unit) :
  (forall x, silent (body x)) -> silent (for_ l body).
Proof.
  intros H. induction l as [|x l IH]; simpl.
  - apply silent_ret.
  - apply silent_bind; [apply H|intros _; exact IH].
Qed.

Lemma silent_collect (A B : Type) (l : list A) (f : A -> M B) :
  (forall x, silent (f x)) -> silent (collect l f).
Proof.
  intros H. induction l as [|x l IH]; simpl.
  - apply silent_ret.
  - apply silent_bind; [apply H|intros y].
    apply silent_bind; [exact IH|intros ys; apply silent_ret].
Qed.

(** One announced step, then a silent rest. *)
Lemma emits_step_then_silent (A B : Type) (s : Described.step)
    (m : M A) (k : A -> M B) :
  emits (fun l => l = [s]) m -> (forall a, silent (k a)) ->
  emits (fun l => l = [s]) (bind m k).
Proof.
  intros Hm Hk. eapply emits_weaken; [|eapply emits_bind; [exact Hm|exact Hk]].
  intros l (l1 & l2 & -> & -> & [->| ->]); reflexivity.
Qed.

(** Group-by steps add up. *)
Lemma groupings_bind (A B : Type) (a b : nat) (m : M A) (k : A -> M B) :
  emits (Described.groupings a) m ->
  (forall x, emits (Described.groupings b) (k x)) ->
  emits (Described.groupings (a + b)) (bind m k).
Proof.
  intros Hm Hk. eapply emits_weaken; [|eapply emits_bind; [exact Hm|exact Hk]].
  intros l (l1 & l2 & -> & (k1 & Hk1 & ->) & [->|(k2 & Hk2 & ->)]).
  - exists k1. rewrite app_nil_r. split; [lia|reflexivity].
  - exists (k1 + k2). rewrite repeat_app. split; [lia|reflexivity].
Qed.

Lemma silent_groupings (A : Type) (m : M A) :
  silent m -> emits (Described.groupings 0) m.
Proof.
  apply emits_weaken. intros l ->. exists 0. split; [lia|reflexivity].
Qed.

Lemma one_grouping (A : Type) (m : M A) :
  emits (fun l => l = [Described.Grouping]) m -> emits (Described.groupings 1) m.
Proof.
  apply emits_weaken. intros l ->. exists 1. split; [lia|reflexivity].
Qed.

(** The statistics step, then group-by steps. *)
Lemma statistics_then (A B : Type) (n : nat) (m : M A) (k : A -> M B) :
  emits (fun l => l = [Described.Statistics]) m ->
  (forall x, emits (Described.groupings n) (k x)) ->
  emits (Described.statistics_then_groupings n) (bind m k).
Proof.
  intros Hm Hk. eapply emits_weaken; [|eapply emits_bind; [exact Hm|exact Hk]].
  intros l (l1 & l2 & -> & -> & [->|(k2 & Hk2 & ->)]).
  - exists 0. split; [lia|reflexivity].
  - exists k2. split; [assumption|reflexivity].
Qed.

(** A [try] statement whose handler returns never raises. *)
Lemma try_except_returns (A : Type) (body : M A) (handler : exn -> M A) :
  (forall e w, exists a, fst (handler e w) = Ok a) ->
  forall w, exists a, fst (try_except body handler w) = Ok a.
Proof.
  intros Hh w. unfold try_except. destruct (body w) as [[a|e] w1]; simpl.
  - now exists a.
  - apply Hh.
Qed.

(** What a [try] statement does with the outcome of its body. *)
Lemma try_except_outcome (A : Type) (body : M A) (handler : exn -> M A) (w : world Self Event) :
  match body w with
  | (Ok a, w1) => try_except body handler w = (Ok a, w1)
  | (Raise e, w1) => try_except body handler w = handler e w1
  end.
Proof.
  unfold try_except. destruct (body w) as [[a|e] w1]; reflexivity.
Qed.

End RunFacts.

Ltac frame_step :=
  first
    [ apply read_only_bind; [|intros]
    | apply read_only_ret
    | apply read_only_raise
    | apply read_only_lift
    | apply read_only_gets
    | apply read_only_print
    | apply read_only_prints
    | apply read_only_for; intros
    | apply read_only_collect; intros
    | apply read_only_try_except; [|intros]
    | progress cbv zeta
    | match goal with
      | |- Described.read_only (match ?x with _ => _ end) => destruct x
      end ].

Ltac frame := repeat frame_step.

Ltac quiet_step :=
  first
    [ apply silent_bind; [|intros]
    | apply silent_ret
    | apply silent_raise
    | apply silent_lift
    | apply silent_gets
    | apply silent_modify
    | apply silent_print; reflexivity
    | apply silent_for; intros
    | apply silent_collect; intros
    | apply silent_try_except; [|intros]
    | progress cbv zeta
    | match goal with
      | |- Described.silent _ (match ?x with _ => _ end) => destruct x
      end ].

Ltac quiet := repeat quiet_step.

(** ** The pure-Python fb_ads analyzer: frames and traces *)

Section PythonRun.
Context {L : PyLib}.
Import FbAdsPython.

Lemma compute_column_statistics_read_only : Described.read_only compute_column_statistics.
Proof.
  unfold compute_column_statistics, _header, _box, _table. frame.
Qed.

Lemma perform_groupby_analysis_read_only (group_cols : list string) (name : string) :
  Described.read_only (perform_groupby_analysis group_cols name).
Proof.
  unfold perform_groupby_analysis, _header, _box. frame.
Qed.

Lemma candidate_read_only (col : string) : Described.read_only (candidate col).
Proof. unfold candidate. frame. Qed.

Lemma report_steps_read_only : Described.read_only report_steps.
Proof.
  unfold report_steps.
  repeat first
    [ apply compute_column_statistics_read_only
    | apply perform_groupby_analysis_read_only
    | apply candidate_read_only
    | frame_step ].
Qed.

Lemma progress_silent (rows : list (list string)) :
  Forall (fun e => Described.py_step e = None) (progress rows).
Proof.
  unfold progress. apply Forall_map, Forall_forall. intros n _. reflexivity.
Qed.

Lemma header_emits (title : string) (level : nat) (s : Described.step) :
  Described.step_of_title title = Some s ->
  Described.emits Described.py_step (fun l => l = [s]) (_header title level).
Proof.
  intros Ht. unfold _header. eapply emits_weaken; [|apply emits_print].
  intros l ->. simpl. now rewrite Ht.
Qed.

Lemma load_and_clean_data_emits :
  Described.emits Described.py_step (fun l => l = [Described.Loading]) load_and_clean_data.
Proof.
  unfold load_and_clean_data.
  apply emits_step_then_silent; [now apply header_emits|intros _].
  unfold _box, set_headers, set_columns, set_data.
  repeat first [ apply silent_prints; apply progress_silent | quiet_step ].
Qed.

Lemma load_and_clean_data_returns (w : Run.world analyzer event) :
  fst (load_and_clean_data w) = Ok tt.
Proof.
  unfold load_and_clean_data, _header, Run.bind, Run.print. cbn [fst snd].
  match goal with
  | |- fst (Run.try_except ?body ?handler ?w1) = _ =>
      destruct (@try_except_returns _ _ _ body handler) with (w := w1) as [[] ->];
        [|reflexivity]
  end.
  intros e w2. exists tt. reflexivity.
Qed.

Lemma compute_column_statistics_emits :
  Described.emits Described.py_step (fun l => l = [Described.Statistics])
        compute_column_statistics.
Proof.
  unfold compute_column_statistics.
  apply emits_step_then_silent; [now apply header_emits|intros _].
  unfold _header, _box, _table. quiet.
Qed.

Lemma perform_groupby_analysis_emits (group_cols : list string) (name : string) :
  Described.emits Described.py_step (fun l => l = [Described.Grouping])
        (perform_groupby_analysis group_cols name).
Proof.
  unfold perform_groupby_analysis.
  apply emits_step_then_silent; [now apply header_emits|intros _].
  unfold _header, _box. quiet.
Qed.

Lemma candidate_silent (col : string) : Described.silent Described.py_step (candidate col).
Proof. unfold candidate. quiet. Qed.

Lemma optional_grouping (b : bool) (group_cols : list string) (name : string) :
  Described.emits Described.py_step (Described.groupings 1)
        (if b then perform_groupby_analysis group_cols name else Run.ret tt).
Proof.
  destruct b.
  - apply one_grouping, perform_groupby_analysis_emits.
  - eapply emits_weaken; [|apply silent_groupings, silent_ret].
    intros l (k & Hk & ->). exists k. split; [lia|reflexivity].
Qed.

Lemma report_steps_emits :
  Described.emits Described.py_step (Described.statistics_then_groupings 3) report_steps.
Proof.
  unfold report_steps.
  apply statistics_then; [apply compute_column_statistics_emits|intros _].
  change (Described.groupings 3)
    with (Described.groupings (0 + (1 + (0 + (1 + (0 + (0 + (1 + 0)))))))).
  apply groupings_bind; [apply silent_groupings, silent_gets|intros hs1].
  apply groupings_bind; [apply optional_grouping|intros _].
  apply groupings_bind; [apply silent_groupings, silent_gets|intros hs2].
  apply groupings_bind; [apply optional_grouping|intros _].
  apply groupings_bind; [apply silent_groupings, silent_gets|intros cats].
  apply groupings_bind;
    [apply silent_groupings, silent_collect; intros; apply candidate_silent
    |intros found].
  apply groupings_bind.
  - destruct (Py.sorted_by snd (List.concat found)) as [|[best_col n] rest].
    + eapply emits_weaken; [|apply silent_groupings, silent_ret].
      intros l (k & Hk & ->). exists k. split; [lia|reflexivity].
    + apply one_grouping, perform_groupby_analysis_emits.
  - intros _. apply silent_groupings. quiet.
Qed.

End PythonRun.

(** ** The pandas fb_ads analyzer: traces *)

Section PandasRun.
Context {L : PyLib} {P : FbAdsPandas.PdLib}.
Import FbAdsPandas.

Lemma pandas_header_emits (title : string) (level : nat) (s : Described.step) :
  Described.step_of_title title = Some s ->
  Described.emits Described.df_step (fun l => l = [s]) (_header title level).
Proof.
  intros Ht. unfold _header. eapply emits_weaken; [|apply emits_print].
  intros l ->. simpl. now rewrite Ht.
Qed.

Lemma pandas_report_silent (body : list string * option exn) :
  Described.silent Described.df_step (report body).
Proof.
  unfold report. apply silent_bind.
  - apply silent_prints, Forall_map, Forall_forall. intros t _. reflexivity.
  - intros _. quiet.
Qed.

Lemma pandas_the_df_silent : Described.silent Described.df_step the_df.
Proof. unfold the_df. quiet. Qed.

Lemma pandas_load_emits :
  Described.emits Described.df_step (fun l => l = [Described.Loading]) load_and_clean_data.
Proof.
  unfold load_and_clean_data.
  apply emits_step_then_silent; [now apply pandas_header_emits|intros _].
  unfold _box, set_df, set_columns.
  repeat first [ apply pandas_the_df_silent | quiet_step ].
Qed.

Lemma pandas_load_returns (w : Run.world analyzer df_event) :
  fst (load_and_clean_data w) = Ok tt.
Proof.
  unfold load_and_clean_data, _header, Run.bind, Run.print. cbn [fst snd].
  match goal with
  | |- fst (Run.try_except ?body ?handler ?w1) = _ =>
      destruct (@try_except_returns _ _ _ body handler) with (w := w1) as [[] ->];
        [|reflexivity]
  end.
  intros e w2. exists tt. reflexivity.
Qed.

Lemma pandas_statistics_emits :
  Described.emits Described.df_step (fun l => l = [Described.Statistics])
        compute_column_statistics.
Proof.
  unfold compute_column_statistics.
  apply emits_step_then_silent; [now apply pandas_header_emits|intros _].
  apply silent_bind; [apply silent_gets|intros a; apply pandas_report_silent].
Qed.

Lemma pandas_groupby_emits (group_cols : list string) (name : string) :
  Described.emits Described.df_step (fun l => l = [Described.Grouping])
        (perform_groupby_analysis group_cols name).
Proof.
  unfold perform_groupby_analysis.
  apply emits_step_then_silent; [now apply pandas_header_emits|intros _].
  repeat first [ apply pandas_the_df_silent | apply pandas_report_silent | quiet_step ].
Qed.

Lemma pandas_candidate_silent (col : string) :
  Described.silent Described.df_step (candidate col).
Proof.
  unfold candidate. repeat first [ apply pandas_the_df_silent | quiet_step ].
Qed.

Lemma pandas_optional_grouping (b : bool) (group_cols : list string) (name : string) :
  Described.emits Described.df_step (Described.groupings 1)
        (if b then perform_groupby_analysis group_cols name else Run.ret tt).
Proof.
  destruct b.
  - apply one_grouping, pandas_groupby_emits.
  - eapply emits_weaken; [|apply silent_groupings, silent_ret].
    intros l (k & Hk & ->). exists k. split; [lia|reflexivity].
Qed.

Lemma pandas_report_steps_emits :
  Described.emits Described.df_step (Described.statistics_then_groupings 3) report_steps.
Proof.
  unfold report_steps.
  apply statistics_then; [apply pandas_statistics_emits|intros _].
  change (Described.groupings 3)
    with (Described.groupings (0 + (1 + (0 + (1 + (0 + (0 + (1 + 0)))))))).
  apply groupings_bind; [apply silent_groupings, pandas_the_df_silent|intros d1].
  apply groupings_bind; [apply pandas_optional_grouping|intros _].
  apply groupings_bind; [apply silent_groupings, pandas_the_df_silent|intros d2].
  apply groupings_bind; [apply pandas_optional_grouping|intros _].
  apply groupings_bind; [apply silent_groupings, silent_gets|intros cats].
  apply groupings_bind;
    [apply silent_groupings, silent_collect; intros; apply pandas_candidate_silent
    |intros found].
  apply groupings_bind.
  - destruct (Py.sorted_by snd (List.concat found)) as [|[best_col n] rest].
    + eapply emits_weaken; [|apply silent_groupings, silent_ret].
      intros l (k & Hk & ->). exists k. split; [lia|reflexivity].
    + apply one_grouping, pandas_groupby_emits.
  - intros _. apply silent_groupings. quiet.
Qed.

End PandasRun.

(** ** The order of the steps of a run *)

Section RunOrder.
Context {L : PyLib} {P : FbAdsPandas.PdLib}.

Lemma python_runs_in_order (w : Run.world FbAdsPython.analyzer FbAdsPython.event) :
  Described.runs_in_order Described.py_step FbAdsPython.load_and_clean_data
    (fun a => match FbAdsPython.data a with [] => true | _ => false end)
    (FbAdsPython.Line "No data loaded!" [])
    (snd (FbAdsPython.banner w)) (FbAdsPython.run_complete_analysis w).
Proof.
  unfold Described.runs_in_order.
  change (FbAdsPython.run_complete_analysis w)
    with (Run.try_except FbAdsPython.analysis FbAdsPython.report_error
            (snd (FbAdsPython.banner w))).
  set (wb := snd (FbAdsPython.banner w)).
  destruct (load_and_clean_data_emits wb) as (out_load & Hout & Hsteps).
  pose proof (load_and_clean_data_returns wb) as Hret.
  exists out_load.
  unfold Run.try_except, FbAdsPython.analysis, Run.bind, Run.gets.
  destruct (FbAdsPython.load_and_clean_data wb) as [r1 w1].
  cbn [fst snd] in *. subst r1.
  destruct (FbAdsPython.data (Run.self w1)) as [|row rest] eqn:Ed.
  - exists [FbAdsPython.Line "No data loaded!" []].
    split; [exact Hout|]. split; [exact Hsteps|]. split; [reflexivity|].
    split; [intros _; reflexivity|discriminate].
  - destruct (report_steps_emits w1) as (out & Hout2 & Hsteps2).
    destruct (FbAdsPython.report_steps w1) as [[[]|e] w2]; cbn [fst snd] in *.
    + exists out.
      split; [exact Hout|]. split; [exact Hsteps|]. split; [exact Hout2|].
      split; [discriminate|intros _; exact Hsteps2].
    + exists (out ++ [FbAdsPython.Line "Error: {}" [FbAdsPython.CStr (exn_str e)]])%list.
      split; [exact Hout|]. split; [exact Hsteps|].
      split; [cbn; now rewrite Hout2, <- app_assoc|].
      split; [discriminate|intros _].
      rewrite steps_app. cbn. now rewrite app_nil_r.
Qed.

Lemma pandas_runs_in_order (w : Run.world FbAdsPandas.analyzer df_event) :
  Described.runs_in_order Described.df_step FbAdsPandas.load_and_clean_data
    (fun a => FbAdsPandas.no_data (FbAdsPandas.df a))
    (DfLine "No data loaded!" [])
    (snd (FbAdsPandas.banner w)) (FbAdsPandas.run_complete_analysis w).
Proof.
  unfold Described.runs_in_order.
  change (FbAdsPandas.run_complete_analysis w)
    with (Run.try_except FbAdsPandas.analysis FbAdsPandas.report_error
            (snd (FbAdsPandas.banner w))).
  set (wb := snd (FbAdsPandas.banner w)).
  destruct (pandas_load_emits wb) as (out_load & Hout & Hsteps).
  pose proof (pandas_load_returns wb) as Hret.
  exists out_load.
  unfold Run.try_except, FbAdsPandas.analysis, Run.bind, Run.gets.
  destruct (FbAdsPandas.load_and_clean_data wb) as [r1 w1].
  cbn [fst snd] in *. subst r1.
  destruct (FbAdsPandas.no_data (FbAdsPandas.df (Run.self w1))) eqn:Ed.
  - exists [DfLine "No data loaded!" []].
    split; [exact Hout|]. split; [exact Hsteps|]. split; [reflexivity|].
    split; [intros _; reflexivity|discriminate].
  - destruct (pandas_report_steps_emits w1) as (out & Hout2 & Hsteps2).
    destruct (FbAdsPandas.report_steps w1) as [[[]|e] w2]; cbn [fst snd] in *.
    + exists out.
      split; [exact Hout|]. split; [exact Hsteps|]. split; [exact Hout2|].
      split; [discriminate|intros _; exact Hsteps2].
    + exists (out ++ [DfLine "Error: {}" [exn_str e]])%list.
      split; [exact Hout|]. split; [exact Hsteps|].
      split; [cbn; now rewrite Hout2, <- app_assoc|].
      split; [discriminate|intros _].
      rewrite steps_app. cbn. now rewrite app_nil_r.
Qed.

(** C6.  [run_complete_analysis] of the pure-Python and of the pandas fb_ads
    analyzer goes through its steps in the fixed order: after the banner,
    the output of [load_and_clean_data] comes first and announces the
    loading step alone, so that no statistic and no group report is printed
    before loading has returned; when the table is empty after loading the
    run prints "No data loaded!", does nothing else and returns; otherwise
    the statistics step follows, then at most three group-by steps, and
    the run ends. *)
Theorem analysis_runs_in_order :
  (forall w : Run.world FbAdsPython.analyzer FbAdsPython.event,
     Described.runs_in_order Described.py_step FbAdsPython.load_and_clean_data
       (fun a => match FbAdsPython.data a with [] => true | _ => false end)
       (FbAdsPython.Line "No data loaded!" [])
       (snd (FbAdsPython.banner w)) (FbAdsPython.run_complete_analysis w))
  /\ (forall w : Run.world FbAdsPandas.analyzer df_event,
        Described.runs_in_order Described.df_step FbAdsPandas.load_and_clean_data
          (fun a => FbAdsPandas.no_data (FbAdsPandas.df a))
          (DfLine "No data loaded!" [])
          (snd (FbAdsPandas.banner w)) (FbAdsPandas.run_complete_analysis w)).
Proof.
  split; [exact python_runs_in_order|exact pandas_runs_in_order].
Qed.

End RunOrder.

(** ** After loading, the analyzer object is only read *)

Section Frame.
Context {L : PyLib}.
Import FbAdsPython.

Lemma after_load_read_only (w : Run.world analyzer event) :
  Run.self (snd (run_complete_analysis w))
  = Run.self (snd (load_and_clean_data (snd (banner w)))).
Proof.
  change (run_complete_analysis w)
    with (Run.try_except analysis report_error (snd (banner w))).
  set (wb := snd (banner w)).
  unfold Run.try_except, analysis, Run.bind, Run.gets.
  destruct (load_and_clean_data wb) as [[[]|e] w1]; cbn [fst snd]; [|reflexivity].
  destruct (data (Run.self w1)) as [|row rest]; [reflexivity|].
  pose proof (report_steps_read_only w1) as Hro.
  destruct (report_steps w1) as [[[]|e] w2]; cbn [fst snd] in *; exact Hro.
Qed.

(** C7.  The reporting steps only read the analyzer object: whatever the
    state, [compute_column_statistics] and [perform_groupby_analysis] leave
    the table, the headers and the two lists of column names as they found
    them (they add to the output, and may raise); the same holds for all
    the steps that follow loading, so that at the end of a run the analyzer
    object is the one [load_and_clean_data] built. *)
Theorem reporting_is_read_only
    (w : Run.world analyzer event) (group_cols : list string) (name : string) :
  Run.self (snd (compute_column_statistics w)) = Run.self w
  /\ Run.self (snd (perform_groupby_analysis group_cols name w)) = Run.self w
  /\ Run.self (snd (report_steps w)) = Run.self w
  /\ Run.self (snd (run_complete_analysis w))
     = Run.self (snd (load_and_clean_data (snd (banner w)))).
Proof.
  split; [apply compute_column_statistics_read_only|].
  split; [apply perform_groupby_analysis_read_only|].
  split; [apply report_steps_read_only|].
  apply after_load_read_only.
Qed.

End Frame.

(** ** No exception leaves [run_complete_analysis] *)

Section Exceptions.
Context {L : PyLib} {P : FbAdsPandas.PdLib} {Q : FbAdsPolars.PlLib}.

Lemma python_run_catches (w : Run.world FbAdsPython.analyzer FbAdsPython.event) :
  Described.catches FbAdsPython.analysis
    (fun e => [FbAdsPython.Line "Error: {}" [FbAdsPython.CStr (exn_str e)]])
    (snd (FbAdsPython.banner w)) (FbAdsPython.run_complete_analysis w).
Proof.
  unfold Described.catches.
  change (FbAdsPython.run_complete_analysis w)
    with (Run.try_except FbAdsPython.analysis FbAdsPython.report_error
            (snd (FbAdsPython.banner w))).
  unfold Run.try_except.
  destruct (FbAdsPython.analysis (snd (FbAdsPython.banner w))) as [[[]|e] w2];
    split; reflexivity.
Qed.

Lemma pandas_run_catches (w : Run.world FbAdsPandas.analyzer df_event) :
  Described.catches FbAdsPandas.analysis
    (fun e => [DfLine "Error: {}" [exn_str e]])
    (snd (FbAdsPandas.banner w)) (FbAdsPandas.run_complete_analysis w).
Proof.
  unfold Described.catches.
  change (FbAdsPandas.run_complete_analysis w)
    with (Run.try_except FbAdsPandas.analysis FbAdsPandas.report_error
            (snd (FbAdsPandas.banner w))).
  unfold Run.try_except.
  destruct (FbAdsPandas.analysis (snd (FbAdsPandas.banner w))) as [[[]|e] w2];
    split; reflexivity.
Qed.

Lemma polars_run_catches (w : Run.world FbAdsPolars.analyzer df_event) :
  Described.catches FbAdsPolars.analysis
    (fun e => [DfLine "Error in analysis: {}" [exn_str e]; DfReport "traceback"])
    w (FbAdsPolars.run_complete_analysis w).
Proof.
  unfold Described.catches, FbAdsPolars.run_complete_analysis, Run.try_except.
  destruct (FbAdsPolars.analysis w) as [[[]|e] w2]; split; try reflexivity.
  cbn. now rewrite <- app_assoc.
Qed.

(** C9.  [run_complete_analysis] of the three fb_ads analyzers never lets an
    exception through: whatever the state and the files, it returns
    normally, and an exception raised by the body of its [try] statement
    (loading, statistics or group analysis) ends the run with a printed
    error message.  In the pure-Python and the pandas analyzer
    [load_and_clean_data] itself returns normally too. *)
Theorem run_never_raises :
  (forall w : Run.world FbAdsPython.analyzer FbAdsPython.event,
     Described.catches FbAdsPython.analysis
       (fun e => [FbAdsPython.Line "Error: {}" [FbAdsPython.CStr (exn_str e)]])
       (snd (FbAdsPython.banner w)) (FbAdsPython.run_complete_analysis w)
     /\ fst (FbAdsPython.load_and_clean_data w) = Ok tt)
  /\ (forall w : Run.world FbAdsPandas.analyzer df_event,
        Described.catches FbAdsPandas.analysis
          (fun e => [DfLine "Error: {}" [exn_str e]])
          (snd (FbAdsPandas.banner w)) (FbAdsPandas.run_complete_analysis w)
        /\ fst (FbAdsPandas.load_and_clean_data w) = Ok tt)
  /\ (forall w : Run.world FbAdsPolars.analyzer df_event,
        Described.catches FbAdsPolars.analysis
          (fun e => [DfLine "Error in analysis: {}" [exn_str e];
                     DfReport "traceback"])
          w (FbAdsPolars.run_complete_analysis w)).
Proof.
  split; [|split].
  - intros w. split; [apply python_run_catches|apply load_and_clean_data_returns].
  - intros w. split; [apply pandas_run_catches|apply pandas_load_returns].
  - exact polars_run_catches.
Qed.

End Exceptions.

(** ** Duplicate rows *)

Section Duplicates.
Context {L : PyLib}.
Import FbAdsPython.

Lemma subsequence_refl (A : Type) (l : list A) : Described.subsequence l l.
Proof. induction l; constructor; assumption. Qed.

Lemma remove_duplicates_spec (rows : list (list cell)) :
  forall (seen : list string) (kept : list (list cell)),
    (forall k, In k seen <-> In k (map row_key kept)) ->
    NoDup (map row_key kept) ->
    exists l,
      remove_duplicates rows seen kept = (kept ++ l)%list
      /\ Described.subsequence l rows
      /\ NoDup (map row_key (kept ++ l))
      /\ (forall row, In row rows -> In (row_key row) (map row_key (kept ++ l)))
      /\ (forall before row after,
            rows = (before ++ row :: after)%list ->
            ~ In (row_key row) (map row_key kept) ->
            ~ In (row_key row) (map row_key before) -> In row l).
Proof.
  induction rows as [|r rows IH]; intros seen kept Hseen Hnd; cbn [remove_duplicates].
  - exists []. rewrite app_nil_r. repeat split; try assumption; try constructor.
    + intros row [].
    + intros [|? ?] row after E; discriminate E.
  - destruct (Py.mem (row_key r) seen) eqn:Em.
    + apply mem_In, Hseen in Em.
      destruct (IH seen kept Hseen Hnd) as (l & -> & Hsub & Hnd' & Hall & Hfirst).
      exists l. repeat split; try assumption.
      * now constructor.
      * intros row [<-|Hrow]; [|now apply Hall].
        rewrite map_app. apply in_or_app. now left.
      * intros [|b before] row after E Hk Hb; injection E as <- E.
        -- contradiction.
        -- apply (Hfirst before row after E Hk). intros Hin. apply Hb. now right.
    + assert (Hnew : ~ In (row_key r) (map row_key kept)).
      { intros Hin. apply Hseen, mem_In in Hin. congruence. }
      destruct (IH (row_key r :: seen) (kept ++ [r])%list) as (l & -> & Hsub & Hnd' & Hall & Hfirst).
      * intros k. rewrite map_app, in_app_iff. cbn. rewrite Hseen. tauto.
      * rewrite map_app. cbn.
        apply (Permutation_NoDup (l := row_key r :: map row_key kept));
          [apply Permutation_cons_append|now constructor].
      * exists (r :: l). rewrite <- app_assoc in *. cbn [app] in *.
        repeat split; try assumption.
        -- now constructor.
        -- intros row [<-|Hrow]; [|now apply Hall].
           rewrite map_app. apply in_or_app. right. now left.
        -- intros [|b before] row after E Hk Hb; injection E as <- E.
           ++ now left.
           ++ right. apply (Hfirst before row after E).
              ** rewrite map_app, in_app_iff. cbn. intros [Hin|[Hin|[]]]; [contradiction|].
                 apply Hb. now left.
              ** intros Hin. apply Hb. now right.
Qed.

Lemma remove_duplicates_first_by_key (table : list (list cell)) :
  Described.first_by_key row_key (remove_duplicates table [] []) table.
Proof.
  destruct (@remove_duplicates_spec table [] []) as (l & -> & Hsub & Hnd & Hall & Hfirst).
  - intros k. cbn. tauto.
  - constructor.
  - cbn [app] in *. unfold Described.first_by_key. repeat split; try assumption.
    intros before row after E Hb. apply (Hfirst before row after E); [|exact Hb].
    intros [].
Qed.

Lemma subsequence_length (A : Type) (l all : list A) :
  Described.subsequence l all -> List.length l <= List.length all.
Proof. induction 1; simpl; lia. Qed.

(** What the duplicate removal of the pure-Python loader guarantees.  When
    the file is read, the table kept by [load_and_clean_data] holds, in
    their original order, the first row for each string key (the cells joined with "|", [None]
    written as the empty string): no two kept rows are identical, every row
    read has the key of a kept row, the "Duplicates Removed" entry of the
    summary is the number of rows read minus the number of rows kept, and
    the run adds no row afterwards. *)
Theorem duplicates_removed_by_key
    (path contents : string) (first : list string) (rows : list (list string)) :
  read_text path = Ok contents ->
  csv_reader (detect_delim contents) contents = (first :: rows, None) ->
  let start := Run.Build_world (__init__ path) [] in
  let loaded := snd (load_and_clean_data start) in
  let hs := map Py.strip first in
  let table := fst (fst (detect_types hs (map (process_row hs) rows, [], []))) in
  let kept := data (Run.self loaded) in
  List.length table = List.length rows
  /\ Described.first_by_key row_key kept table
  /\ NoDup kept
  /\ In (Box "LOADING SUMMARY"
           [("Final Rows"%string, CInt (Z.of_nat (List.length kept)));
            ("Duplicates Removed"%string,
             CInt (Z.of_nat (List.length rows) - Z.of_nat (List.length kept)));
            ("Numeric Columns"%string,
             CInt (Z.of_nat (List.length (numeric_columns (Run.self loaded)))));
            ("Categorical Columns"%string,
             CInt (Z.of_nat (List.length (categorical_columns (Run.self loaded)))))])
        (Run.stdout loaded)
  /\ List.length kept <= List.length rows
  /\ (forall w, snd (banner w) = start ->
        data (Run.self (snd (run_complete_analysis w))) = kept).
Proof.
  intros Hread Hcsv start loaded hs table kept.
  assert (Hload := @load_and_clean_data_ok L (__init__ path) [] contents first rows
                     Hread Hcsv).
  cbv zeta in Hload. fold hs in Hload.
  cbn [numeric_columns categorical_columns __init__] in Hload. fold table in Hload.
  subst kept loaded start. rewrite Hload. cbn [snd Run.self Run.stdout data
    numeric_columns categorical_columns].
  assert (Hlen : List.length table = List.length rows).
  { subst table.
    destruct (detect_types_described hs (map (process_row hs) rows) [] [])
      as (raw' & -> & Hlen).
    cbn [fst]. now rewrite Hlen, length_map. }
  pose proof (remove_duplicates_first_by_key table) as Hkey.
  split; [exact Hlen|]. split; [exact Hkey|].
  split; [apply (NoDup_map_inv row_key), Hkey|].
  split.
  - rewrite Hlen. cbn [app]. right. apply in_or_app. right. right. right. now left.
  - split.
    + rewrite <- Hlen. apply subsequence_length, Hkey.
    + intros w Hw. rewrite after_load_read_only, Hw, Hload. reflexivity.
Qed.

End Duplicates.

(** ** Which groups a report lists *)

Section ListedGroups.
Context {L : PyLib}.

Section Keys.
Variables (K V : Type) (eqb : K -> K -> bool).
Hypothesis eqb_eq : forall a b, eqb a b = true <-> a = b.

Lemma existsb_eqb_In (k : K) (seen : list K) :
  existsb (eqb k) seen = true <-> In k seen.
Proof.
  rewrite existsb_exists. split.
  - intros (x & Hx & E). apply eqb_eq in E. now subst.
  - intros H. exists k. split; [assumption|now apply eqb_eq].
Qed.

(** The keys of the dictionary are in the order of their first appearance. *)
Lemma fill_keys (key : V -> K) (rows : list V) :
  forall (g : list (K * list V)) (seen : list K),
    (forall k, In k seen <-> In k (map fst g)) ->
    map fst (Described.fill eqb key rows g)
    = (map fst g ++ Described.first_seen eqb (map key rows) seen)%list.
Proof.
  induction rows as [|r rows IH]; intros g seen Hseen; cbn.
  - now rewrite app_nil_r.
  - destruct (@append_to_keys K V eqb eqb_eq (key r) r g) as [[Hin Hk]|[Hnin Hk]].
    + assert (E : existsb (eqb (key r)) seen = true)
        by now apply existsb_eqb_In, Hseen.
      rewrite E. unfold Described.fill in IH. rewrite (IH _ seen); rewrite Hk; auto.
    + assert (E : existsb (eqb (key r)) seen = false).
      { apply not_true_iff_false. intros H. apply Hnin, Hseen, existsb_eqb_In, H. }
      rewrite E. unfold Described.fill in IH. rewrite (IH _ (key r :: seen)).
      * rewrite Hk, <- app_assoc. reflexivity.
      * intros k. rewrite Hk, in_app_iff. cbn. rewrite Hseen. tauto.
Qed.

End Keys.

Lemma option_eqb_eq (a b : option string) :
  FbPostsPython.option_eqb a b = true <-> a = b.
Proof.
  destruct a, b; cbn; try (split; [discriminate|discriminate]); try tauto.
  rewrite String.eqb_eq. split; [now intros ->|now intros [= ->]].
Qed.

Lemma posts_group_rows_fill (rows : list FbPostsPython.row) :
  forall g0 g,
    FbPostsPython.group_rows rows g0 = Ok g ->
    g = Described.fill FbPostsPython.option_eqb Described.page_of rows g0.
Proof.
  induction rows as [|r rows IH]; intros g0 g; cbn.
  - now intros [= <-].
  - unfold Py.dict_get, Described.page_of.
    destruct (Py.lookup "Facebook_Id" r) as [v|]; cbn; [apply IH|discriminate].
Qed.

Lemma for_each_dict_get (by_cols : list string) (r : TwPostsPython.row) :
  forall key,
    for_each (fun c => Py.dict_get c r) by_cols = Ok key ->
    key = Described.tweet_key by_cols r.
Proof.
  unfold Described.tweet_key.
  induction by_cols as [|c cols IH]; intros key; cbn.
  - now intros [= <-].
  - unfold Py.dict_get at 1. destruct (Py.lookup c r) as [v|]; cbn; [|discriminate].
    destruct (for_each (fun c0 => Py.dict_get c0 r) cols) as [ks|e]; cbn; [|discriminate].
    intros [= <-]. now rewrite (IH ks eq_refl).
Qed.

Lemma tweets_group_rows_fill (by_cols : list string) (rows : list TwPostsPython.row) :
  forall d0 d,
    TwPostsPython.group_rows by_cols rows d0 = Ok d ->
    d = Described.fill (Py.tuple_eqb TwPostsPython.tcell_eqb) (Described.tweet_key by_cols) rows d0.
Proof.
  induction rows as [|r rows IH]; intros d0 d; cbn.
  - now intros [= <-].
  - unfold TwPostsPython.group_key.
    destruct (for_each (fun c => Py.dict_get c r) by_cols) as [key|e] eqn:E; cbn;
      [|discriminate].
    rewrite (for_each_dict_get _ _ E). apply IH.
Qed.

(** The tables of the Twitter [group_numeric_stats] follow the order in
    which the keys first appear in the data. *)
Lemma tweet_statistics_follow_first_appearance
    (by_cols : list string) (rows : list TwPostsPython.row) (d : TwPostsPython.groups) :
  TwPostsPython.group_rows by_cols rows [] = Ok d ->
  map fst (TwPostsPython.stats_groups d)
  = firstn 10
      (Described.first_seen (Py.tuple_eqb TwPostsPython.tcell_eqb)
         (map (Described.tweet_key by_cols) rows) []).
Proof.
  intros E. apply tweets_group_rows_fill in E. subst d.
  unfold TwPostsPython.stats_groups. rewrite <- firstn_map.
  rewrite (@fill_keys _ _ _ (@tuple_eqb_eq _ _ tcell_eqb_eq) _ rows [] []);
    [reflexivity|cbn; tauto].
Qed.


End ListedGroups.

(** ** The three analyzers do not classify alike *)

Section Classification.
Context {L : PyLib} {P : FbAdsPandas.PdLib} {Q : FbAdsPolars.PlLib}.

Lemma pandas_classify_step (sample_df d : FbAdsPandas.DataFrame)
    (num cat : list string) (col : string) :
  exists d',
    FbAdsPandas.classify_step sample_df (d, num, cat) col
    = (d', (num ++ if Described.pandas_numeric sample_df col then [col] else [])%list,
           (cat ++ if Described.pandas_numeric sample_df col then [] else [col])%list).
Proof.
  unfold FbAdsPandas.classify_step, Described.pandas_numeric.
  destruct (Py.mem col FbAdsPandas.complex_fields); cbn [negb andb].
  - exists d. now rewrite app_nil_r.
  - destruct (FbAdsPandas.dropna (FbAdsPandas.column col sample_df)) as [|v vals].
    + exists d. now rewrite app_nil_r.
    + destruct (FbAdsPandas.to_numeric_ok (firstn 100 (v :: vals))).
      * eexists. now rewrite app_nil_r.
      * exists d. now rewrite app_nil_r.
Qed.

Lemma pandas_classify_loop (sample_df : FbAdsPandas.DataFrame) (cols : list string) :
  forall d num cat,
  exists d',
    fold_left (FbAdsPandas.classify_step sample_df) cols (d, num, cat)
    = (d', (num ++ filter (Described.pandas_numeric sample_df) cols)%list,
           (cat ++ filter (fun c => negb (Described.pandas_numeric sample_df c)) cols)%list).
Proof.
  induction cols as [|col cols IH]; intros d num cat; cbn [fold_left filter].
  - exists d. now rewrite !app_nil_r.
  - destruct (pandas_classify_step sample_df d num cat col) as (d1 & ->).
    destruct (IH d1 (num ++ if Described.pandas_numeric sample_df col then [col] else [])%list
                (cat ++ if Described.pandas_numeric sample_df col then [] else [col])%list)
      as (d' & ->).
    exists d'. destruct (Described.pandas_numeric sample_df col); cbn [negb];
      rewrite <- !app_assoc; reflexivity.
Qed.

Lemma index_nth_error (c : string) (hs : list string) (i : nat) :
  Py.index c hs = Some i -> nth_error hs i = Some c.
Proof.
  revert i. induction hs as [|h hs IH]; intros i; cbn; [discriminate|].
  destruct (String.eqb h c) eqn:E.
  - intros [= <-]. apply String.eqb_eq in E. now subst.
  - destruct (Py.index c hs) as [j|]; cbn; [|discriminate].
    intros [= <-]. cbn. now apply IH.
Qed.

Lemma in_combine_seq (A : Type) (l : list A) :
  forall (i k : nat) (x : A),
    nth_error l i = Some x -> In (k + i, x) (combine (seq k (List.length l)) l).
Proof.
  induction l as [|y l IH]; intros [|i] k x; cbn; try discriminate.
  - intros [= ->]. left. now rewrite Nat.add_0_r.
  - intros H. right. rewrite Nat.add_succ_r. now apply (IH i (S k)).
Qed.

Lemma in_enumerate (A : Type) (l : list A) (i : nat) (x : A) :
  nth_error l i = Some x -> In (i, x) (Py.enumerate l).
Proof. intros H. apply (in_combine_seq l i 0 H). Qed.

Lemma nth_same_cell (prow : list FbAdsPandas.pcell) (row : list FbAdsPython.cell) :
  Forall2 Described.same_cell prow row ->
  forall i, Described.same_cell (nth i prow FbAdsPandas.NaN)
              (nth i row FbAdsPython.CNone).
Proof.
  induction 1 as [|p c prow row Hpc _ IH]; intros [|i]; cbn; auto.
Qed.

Lemma column_same_cells (i : nat) (prows : list (list FbAdsPandas.pcell))
    (raw : list (list FbAdsPython.cell)) :
  Forall2 (Forall2 Described.same_cell) prows raw ->
  Forall2 Described.same_cell
    (map (fun row => nth i row FbAdsPandas.NaN) prows)
    (map (fun row => nth i row FbAdsPython.CNone) raw).
Proof.
  induction 1 as [|prow row prows raw Hrow _ IH]; cbn; constructor.
  - now apply nth_same_cell.
  - exact IH.
Qed.

Lemma Forall2_firstn (A B : Type) (R : A -> B -> Prop) (n : nat)
    (l1 : list A) (l2 : list B) :
  Forall2 R l1 l2 -> Forall2 R (firstn n l1) (firstn n l2).
Proof.
  intros H. revert n. induction H as [|x y l1 l2 Hxy _ IH]; intros [|n]; cbn;
    constructor; auto.
Qed.

Lemma dropna_same_cells (ps : list FbAdsPandas.pcell) (cs : list FbAdsPython.cell) :
  Forall2 Described.same_cell ps cs ->
  Forall2 Described.same_cell (FbAdsPandas.dropna ps)
    (filter FbAdsPython.is_not_none cs).
Proof.
  induction 1 as [|p c ps cs Hpc _ IH]; cbn; [constructor|].
  destruct p, c; cbn in *; try contradiction; try assumption; now constructor.
Qed.

Lemma all_numeric_all_parse (ps : list FbAdsPandas.pcell) (cs : list FbAdsPython.cell) :
  (forall s, FbAdsPandas.parse_number s <> None -> float_of_str s <> None) ->
  Forall2 Described.same_cell ps cs ->
  FbAdsPandas.to_numeric_ok ps = true ->
  filter Described.parses cs = cs.
Proof.
  intros Hparse. induction 1 as [|p c ps cs Hpc _ IH]; cbn; [reflexivity|].
  rewrite andb_true_iff. intros [Hp Hps].
  destruct p, c; cbn in *; try contradiction; try discriminate.
  subst s0.
  destruct (FbAdsPandas.parse_number s) eqn:En; [|discriminate].
  assert (Hf : float_of_str s <> None) by (apply Hparse; congruence).
  assert (Hp' : Described.parses (FbAdsPython.CStr s) = true).
  { unfold Described.parses. cbn. destruct (float_of_str s); [reflexivity|contradiction]. }
  rewrite Hp'. now rewrite IH.
Qed.

Lemma firstn_min_length (A : Type) (l : list A) :
  firstn (Nat.min 1000 (List.length l)) l = firstn 1000 l.
Proof.
  destruct (Nat.le_ge_cases 1000 (List.length l)) as [H|H].
  - now rewrite Nat.min_l.
  - rewrite Nat.min_r by assumption. now rewrite firstn_all, firstn_all2.
Qed.

Lemma pandas_numeric_python_numeric (d : FbAdsPandas.DataFrame)
    (raw : list (list FbAdsPython.cell)) (h : string) (i : nat) :
  Described.same_table d raw ->
  (forall s, FbAdsPandas.parse_number s <> None -> float_of_str s <> None) ->
  Py.index h (FbAdsPandas.columns d) = Some i ->
  Described.pandas_numeric
    (FbAdsPandas.head (Nat.min 1000 (List.length (FbAdsPandas.rows d))) d) h = true ->
  Described.numeric_column raw (i, h) = true.
Proof.
  intros Hsame Hparse Hidx. unfold Described.pandas_numeric, Described.numeric_column.
  cbn [fst snd]. rewrite !andb_true_iff. intros [Hc Hn]. split; [exact Hc|].
  unfold FbAdsPandas.column, FbAdsPandas.head in Hn.
  cbn [FbAdsPandas.columns FbAdsPandas.rows] in Hn. rewrite Hidx in Hn.
  rewrite firstn_min_length in Hn.
  assert (Hcells : Forall2 Described.same_cell
            (firstn 100 (FbAdsPandas.dropna
               (map (fun row => nth i row FbAdsPandas.NaN)
                    (firstn 1000 (FbAdsPandas.rows d)))))
            (Described.sampled raw i)).
  { unfold Described.sampled. apply Forall2_firstn, dropna_same_cells,
      column_same_cells, Forall2_firstn, Hsame. }
  destruct (FbAdsPandas.dropna
              (map (fun row => nth i row FbAdsPandas.NaN)
                   (firstn 1000 (FbAdsPandas.rows d)))) as [|v vals] eqn:Ev;
    [discriminate|].
  pose proof (all_numeric_all_parse Hparse Hcells Hn) as Hall.
  unfold Described.at_least_80_percent.
  destruct (Described.sampled raw i) as [|c cs] eqn:Es.
  - change (firstn 100 (v :: vals)) with (v :: firstn 99 vals) in Hcells.
    inversion Hcells.
  - rewrite Hall. apply Nat.leb_le. lia.
Qed.

Lemma polars_classify_loop (d : FbAdsPolars.frame) (cols : list string) :
  forall num cat,
    fold_left (fun nc col =>
                 if FbAdsPolars.is_numeric_dtype (FbAdsPolars.dtype_of d col)
                 then (fst nc ++ [col], snd nc)%list
                 else (fst nc, snd nc ++ [col])%list)
              cols (num, cat)
    = ((num ++ filter (fun col => FbAdsPolars.is_numeric_dtype
                                    (FbAdsPolars.dtype_of d col)) cols)%list,
       (cat ++ filter (fun col => negb (FbAdsPolars.is_numeric_dtype
                                          (FbAdsPolars.dtype_of d col))) cols)%list).
Proof.
  induction cols as [|col cols IH]; intros num cat; cbn [fold_left filter].
  - now rewrite !app_nil_r.
  - destruct (FbAdsPolars.is_numeric_dtype (FbAdsPolars.dtype_of d col));
      cbn [fst snd negb]; rewrite IH, <- app_assoc; reflexivity.
Qed.

Lemma polars_classify_described (d : FbAdsPolars.frame) :
  FbAdsPolars.classify d
  = (filter (fun col => FbAdsPolars.is_numeric_dtype (FbAdsPolars.dtype_of d col))
       (FbAdsPolars.columns d),
     filter (fun col => negb (FbAdsPolars.is_numeric_dtype (FbAdsPolars.dtype_of d col)))
       (FbAdsPolars.columns d)).
Proof.
  unfold FbAdsPolars.classify. now rewrite polars_classify_loop.
Qed.


End Classification.

(** ** Worked examples *)

Section Worked.
Import Examples.
Local Open Scope string_scope.




(** The types of the columns of [ads_file]. *)
Lemma column_types_by_sampling_witness :
  let L := Simple.simple_lib (Some ads_file) in
  read_text "ads.csv" = Ok ads_file
  /\ csv_reader (FbAdsPython.detect_delim ads_file) ads_file
     = (["page_id"; "spend"; "note"]
          :: [["p1"; "10"; "a"]; ["p2"; "20"; "b"]; ["p1"; "10"; "a"];
              ["p3"; "30"; "c"]; ["p4"; "n/k"; "d"]], None)
  /\ FbAdsPython.numeric_columns (Run.self (ads_loaded ads_file)) = ["spend"]
  /\ FbAdsPython.categorical_columns (Run.self (ads_loaded ads_file))
     = ["page_id"; "note"].
Proof.
  intros L.
  assert (Hread : read_text "ads.csv" = Ok ads_file) by reflexivity.
  assert (Hcsv : csv_reader (FbAdsPython.detect_delim ads_file) ads_file
                 = (["page_id"; "spend"; "note"]
                      :: [["p1"; "10"; "a"]; ["p2"; "20"; "b"]; ["p1"; "10"; "a"];
                          ["p3"; "30"; "c"]; ["p4"; "n/k"; "d"]], None))
    by (vm_compute; reflexivity).
  split; [exact Hread|]. split; [exact Hcsv|].
  destruct (@column_types_by_sampling L "ads.csv" ads_file _ _ Hread Hcsv)
    as (_ & Hnum & Hcat & _).
  unfold ads_loaded. fold L. rewrite Hnum, Hcat. split; vm_compute; reflexivity.
Defined.


(** C8.  The pure-Python loader does not keep the first occurrence of each
    row on [merged_file], the file with the lines [x,y], [a|b,c] and
    [a,b|c]: the two rows read differ, their cells joined with a bar are the
    same string [a|b|c], and the second row is dropped and counted as a
    duplicate of the first, so the table kept is not the list of first
    occurrences of the rows read. *)
Lemma distinct_rows_are_merged :
  let L := Simple.simple_lib (Some merged_file) in
  let table := [[FbAdsPython.CStr "a|b"; FbAdsPython.CStr "c"];
                [FbAdsPython.CStr "a"; FbAdsPython.CStr "b|c"]] in
  Simple.csv_rows Py.comma merged_file = [["x"; "y"]; ["a|b"; "c"]; ["a"; "b|c"]]
  /\ fst (fst (FbAdsPython.detect_types ["x"; "y"]
                 (map (FbAdsPython.process_row ["x"; "y"])
                      [["a|b"; "c"]; ["a"; "b|c"]], [], []))) = table
  /\ map FbAdsPython.row_key table = ["a|b|c"; "a|b|c"]
  /\ FbAdsPython.data (Run.self (ads_loaded merged_file))
     = [[FbAdsPython.CStr "a|b"; FbAdsPython.CStr "c"]]
  /\ In (FbAdsPython.Box "LOADING SUMMARY"
           [("Final Rows", FbAdsPython.CInt 1);
            ("Duplicates Removed", FbAdsPython.CInt 1);
            ("Numeric Columns", FbAdsPython.CInt 0);
            ("Categorical Columns", FbAdsPython.CInt 2)])
        (Run.stdout (ads_loaded merged_file))
  /\ ~ Described.first_occurrences
         (FbAdsPython.data (Run.self (ads_loaded merged_file))) table.
Proof.
  intros L table.
  split; [vm_compute; reflexivity|]. split; [vm_compute; reflexivity|].
  split; [vm_compute; reflexivity|]. split; [vm_compute; reflexivity|].
  split; [vm_compute; repeat (first [left; reflexivity | right])|].
  intros (_ & _ & Hall).
  specialize (Hall [FbAdsPython.CStr "a"; FbAdsPython.CStr "b|c"]).
  assert (Hin : In [FbAdsPython.CStr "a"; FbAdsPython.CStr "b|c"] table)
    by (right; left; reflexivity).
  apply Hall in Hin. vm_compute in Hin. destruct Hin as [Hin|[]]. discriminate Hin.
Qed.

(** The rows kept of [ads_file]: the second ad of page p1 repeats the first
    and is dropped. *)
Lemma duplicates_removed_by_key_witness :
  let L := Simple.simple_lib (Some ads_file) in
  read_text "ads.csv" = Ok ads_file
  /\ csv_reader (FbAdsPython.detect_delim ads_file) ads_file
     = (["page_id"; "spend"; "note"]
          :: [["p1"; "10"; "a"]; ["p2"; "20"; "b"]; ["p1"; "10"; "a"];
              ["p3"; "30"; "c"]; ["p4"; "n/k"; "d"]], None)
  /\ NoDup (FbAdsPython.data (Run.self (ads_loaded ads_file)))
  /\ List.length (FbAdsPython.data (Run.self (ads_loaded ads_file))) <= 5.
Proof.
  intros L.
  assert (Hread : read_text "ads.csv" = Ok ads_file) by reflexivity.
  assert (Hcsv : csv_reader (FbAdsPython.detect_delim ads_file) ads_file
                 = (["page_id"; "spend"; "note"]
                      :: [["p1"; "10"; "a"]; ["p2"; "20"; "b"]; ["p1"; "10"; "a"];
                          ["p3"; "30"; "c"]; ["p4"; "n/k"; "d"]], None))
    by (vm_compute; reflexivity).
  split; [exact Hread|]. split; [exact Hcsv|].
  destruct (@duplicates_removed_by_key L "ads.csv" ads_file _ _ Hread Hcsv)
    as (_ & _ & Hnodup & _ & Hlen & _).
  split; [exact Hnodup|exact Hlen].
Defined.

(** An exception raised by the statistics step is caught and reported: the
    file has no header, the table has a row and no cell, and computing the
    share of missing cells divides by zero. *)
Lemma division_by_zero_is_reported :
  let L := Simple.simple_lib (Some headless_file) in
  let run := FbAdsPython.run_complete_analysis
               (Run.Build_world (FbAdsPython.__init__ "ads.csv") []) in
  fst run = Ok tt
  /\ skipn 6 (Run.stdout (snd run))
     = [FbAdsPython.Header "STEP 2: COMPUTING STATISTICS" 1;
        FbAdsPython.Line "Error: {}" [FbAdsPython.CStr "division by zero"]].
Proof. intros L run. split; vm_compute; reflexivity. Qed.

(** A file that cannot be opened: the error is reported by
    [load_and_clean_data], and the run ends with "No data loaded!". *)
Lemma missing_file_is_reported :
  let L := Simple.simple_lib None in
  let run := FbAdsPython.run_complete_analysis
               (Run.Build_world (FbAdsPython.__init__ "ads.csv") []) in
  fst run = Ok tt
  /\ skipn 2 (Run.stdout (snd run))
     = [FbAdsPython.Header "STEP 1: LOADING AND CLEANING DATASET" 1;
        FbAdsPython.Line "Error: {}" [FbAdsPython.CStr "No such file or directory"];
        FbAdsPython.Line "No data loaded!" []].
Proof. intros L run. split; vm_compute; reflexivity. Qed.

End Worked.

(** * Further properties of the code

    As everywhere in this development, numbers are exact reals.  What
    Python's floats do with values too large for them (an OverflowError of
    [**], of [int] or of [statistics.mean]; infinities and NaN) is outside
    the model, and what follows says of a step that it returns normally for
    numbers Python computes with without overflow. *)

(** ** [_fast_stats]: the statistics lie within the range of the values *)

Section FastStatsBounds.
Local Open Scope R_scope.

Lemma total_between (lo hi : R) (l : list R) :
  (forall x, In x l -> lo <= x <= hi) ->
  INR (List.length l) * lo <= Described.total l <= INR (List.length l) * hi.
Proof.
  induction l as [|x l IH]; intros H.
  - simpl. lra.
  - change (Described.total (x :: l)) with (x + Described.total l).
    change (List.length (x :: l)) with (S (List.length l)). rewrite S_INR.
    destruct (H x (or_introl eq_refl)) as [H1 H2].
    destruct IH as [H3 H4]; [intros y Hy; apply H; now right|]. lra.
Qed.

Lemma quotient_between (lo hi t n : R) :
  0 < n -> n * lo <= t <= n * hi -> lo <= t / n <= hi.
Proof.
  intros Hn [H1 H2]. unfold Rdiv.
  pose proof (Rinv_0_lt_compat n Hn) as Hi.
  split.
  - apply Rmult_le_reg_r with n; [assumption|].
    rewrite Rmult_assoc, Rinv_l by lra. lra.
  - apply Rmult_le_reg_r with n; [assumption|].
    rewrite Rmult_assoc, Rinv_l by lra. lra.
Qed.

Lemma squares_between (lo hi m : R) (l : list R) :
  lo <= m <= hi ->
  (forall x, In x l -> lo <= x <= hi) ->
  INR (List.length l) * 0
  <= Described.total (map (fun v => (v - m) ^ 2) l)
  <= INR (List.length l) * ((hi - lo) * (hi - lo)).
Proof.
  intros Hm H. rewrite <- (length_map (fun v => (v - m) ^ 2) l).
  apply total_between. intros y Hy. apply in_map_iff in Hy.
  destruct Hy as (x & <- & Hx). destruct (H x Hx) as [H1 H2].
  split; [apply pow2_ge_0|]. simpl. nra.
Qed.

Lemma nth_sorted_between (lo hi : R) (l : list R) (k : nat) :
  (forall x, In x l -> lo <= x <= hi) ->
  (k < List.length l)%nat ->
  lo <= nth k (Py.sorted l) 0 <= hi.
Proof.
  intros H Hk. destruct (sorted_sorting l) as [_ Hperm].
  apply H. apply (Permutation_in _ Hperm). apply nth_In.
  now rewrite (Permutation_length Hperm).
Qed.



End FastStatsBounds.

(** ** Computations that return normally *)

Section Returns.
Variables (Self Event : Type) (a : Self).
Import Run.

Local Abbreviation M := (Run.M Self Event).
Local Abbreviation returns := (@Described.returns_from Self Event _ a).
Local Abbreviation yields := (@Described.yields Self Event _ a).

Lemma returns_ret (A : Type) (x : A) : returns (ret x).
Proof. intros w Hw. exists x. split; [reflexivity|exact Hw]. Qed.

Lemma returns_gets (A : Type) (f : Self -> A) : returns (gets f).
Proof. intros w Hw. exists (f (self w)). split; [reflexivity|exact Hw]. Qed.

Lemma returns_print (e : Event) : returns (print e).
Proof. intros w Hw. exists tt. split; [reflexivity|exact Hw]. Qed.

Lemma returns_prints (es : list Event) : returns (prints es).
Proof. intros w Hw. exists tt. split; [reflexivity|exact Hw]. Qed.

Lemma returns_lift (A : Type) (r : result A) (x : A) :
  r = Ok x -> returns (@lift Self Event A r).
Proof. intros -> w Hw. exists x. split; [reflexivity|exact Hw]. Qed.

Lemma returns_bind (A B : Type) (m : M A) (k : A -> M B) :
  returns m -> (forall x, yields m x -> returns (k x)) -> returns (bind m k).
Proof.
  intros Hm Hk w Hw. destruct (Hm w Hw) as (x & Hx & Hs).
  unfold bind. destruct (m w) as [[x'|e] w'] eqn:E; cbn in Hx, Hs; [|discriminate].
  injection Hx as ->. apply (Hk x); [|exact Hs].
  exists w. split; [exact Hw|]. now rewrite E.
Qed.

Lemma returns_then (A B : Type) (m : M A) (k : M B) :
  returns m -> returns k -> returns (bind m (fun _ => k)).
Proof. intros Hm Hk. apply returns_bind; [exact Hm|]. intros _ _. exact Hk. Qed.

Lemma returns_for (A : Type) (l : list A) (body : A -> M unit) :
  (forall x, In x l -> returns (body x)) -> returns (for_ l body).
Proof.
  induction l as [|x l IH]; intros H; cbn [for_].
  - apply returns_ret.
  - apply returns_then; [apply H; now left|]. apply IH. intros y Hy. apply H. now right.
Qed.

Lemma returns_collect (A B : Type) (l : list A) (f : A -> M B) :
  (forall x, In x l -> returns (f x)) -> returns (collect l f).
Proof.
  induction l as [|x l IH]; intros H; cbn [collect].
  - apply returns_ret.
  - apply returns_bind; [apply H; now left|]. intros y _.
    apply returns_bind; [apply IH; intros z Hz; apply H; now right|].
    intros ys _. apply returns_ret.
Qed.

Lemma yields_gets (A : Type) (f : Self -> A) (x : A) : yields (gets f) x -> x = f a.
Proof. intros (w & <- & H). cbn in H. now injection H. Qed.

Lemma yields_lift (A : Type) (r : result A) (x : A) :
  yields (@lift Self Event A r) x -> r = Ok x.
Proof. intros (w & _ & H). exact H. Qed.

Lemma yields_collect (A B : Type) (P : A -> B -> Prop) (l : list A) (f : A -> M B)
    (ys : list B) :
  (forall x, In x l -> returns (f x)) ->
  (forall x y, In x l -> yields (f x) y -> P x y) ->
  yields (collect l f) ys -> Forall2 P l ys.
Proof.
  revert ys. induction l as [|x l IH]; intros ys Hr HP (w & Hw & H); cbn [collect] in H.
  - cbn in H. injection H as <-. constructor.
  - unfold bind in H. destruct (f x w) as [[y|e] w1] eqn:E1; [|discriminate].
    assert (Hw1 : self w1 = a).
    { destruct (Hr x (or_introl eq_refl) w Hw) as (y' & _ & Hs). now rewrite E1 in Hs. }
    destruct (collect l f w1) as [[ys'|e] w2] eqn:E2; [|discriminate].
    cbn in H. injection H as <-. constructor.
    + apply HP; [now left|]. exists w. split; [exact Hw|]. now rewrite E1.
    + apply IH.
      * intros z Hz. apply Hr. now right.
      * intros z y' Hz. apply HP. now right.
      * exists w1. split; [exact Hw1|]. now rewrite E2.
Qed.

End Returns.

(** ** The pure-Python fb_ads analyzer: the reporting steps return *)

Section PythonReturns.
Context {L : PyLib}.
Variable a : FbAdsPython.analyzer.
Import FbAdsPython.
Hypothesis Hwf : Described.well_formed a.

Local Abbreviation returns := (@Described.returns_from analyzer event _ a).

Lemma header_returns (title : string) (level : nat) : returns (_header title level).
Proof. apply returns_print. Qed.

Lemma box_returns (title : string) (entries : list (string * cell)) :
  returns (_box title entries).
Proof. apply returns_print. Qed.

Lemma table_returns (columns : list string) (rows : list (list cell)) :
  returns (_table columns rows).
Proof. unfold _table. destruct rows; [apply returns_ret|apply returns_print]. Qed.

Lemma header_index_of_header (col : string) :
  In col (headers a) ->
  exists idx, header_index col (headers a) = Ok idx /\ idx < List.length (headers a).
Proof.
  intros Hin. apply mem_In in Hin.
  destruct (index_of_member col (headers a) Hin) as (i & Hi & Hlt).
  exists i. unfold header_index. rewrite Hi. auto.
Qed.

Lemma column_cells (idx : nat) (rows : list (list cell)) :
  idx < List.length (headers a) ->
  incl rows (data a) ->
  for_each (getitem idx) rows = Ok (map (fun row => nth idx row CNone) rows).
Proof.
  intros Hidx Hrows. apply for_each_ok. intros row Hrow.
  destruct Hwf as (Hfit & _). rewrite Forall_forall in Hfit.
  specialize (Hfit row (Hrows row Hrow)).
  unfold getitem. destruct (nth_error row idx) as [c|] eqn:E.
  - now rewrite (nth_error_nth _ _ _ E).
  - apply nth_error_None in E. lia.
Qed.

Lemma numbers_at_returns (idx : nat) (rows : list (list cell)) :
  idx < List.length (headers a) ->
  incl rows (data a) ->
  exists vals, numbers_at idx rows = Ok vals.
Proof.
  intros Hidx Hrows. unfold numbers_at. rewrite (column_cells Hidx Hrows).
  cbn [and_then]. eexists. reflexivity.
Qed.

Lemma in_firstn (A : Type) (n : nat) (l : list A) (x : A) :
  In x (firstn n l) -> In x l.
Proof.
  intros H. rewrite <- (firstn_skipn n l). apply in_or_app. now left.
Qed.

Lemma tally_nonempty (x : string) (counts : list (string * nat)) :
  Py.tally x counts <> [].
Proof.
  destruct counts as [|[y n] counts]; simpl; [discriminate|].
  destruct (String.eqb y x); discriminate.
Qed.

Lemma counter_nonempty (vals : list string) : vals <> [] -> Py.Counter vals <> [].
Proof.
  unfold Py.Counter. destruct vals as [|v vals]; [contradiction|]. intros _.
  cbn [fold_left].
  assert (H : forall l c, c <> [] ->
            fold_left (fun counts x => Py.tally x counts) l c <> []).
  { induction l as [|x l IH]; intros c Hc; simpl; [exact Hc|].
    apply IH, tally_nonempty. }
  apply H, tally_nonempty.
Qed.

Lemma compute_column_statistics_returns :
  data a <> [] -> headers a <> [] -> returns compute_column_statistics.
Proof.
  intros Hd Hh. destruct Hwf as (Hfit & Hnum & Hcat).
  unfold compute_column_statistics.
  apply returns_then; [apply header_returns|].
  apply returns_bind; [apply returns_gets|]. intros d Hd'. apply yields_gets in Hd'. subst d.
  apply returns_bind; [apply returns_gets|]. intros hs Hh'. apply yields_gets in Hh'. subst hs.
  apply returns_bind; [apply returns_gets|]. intros nums Hn. apply yields_gets in Hn. subst nums.
  apply returns_bind; [apply returns_gets|]. intros cats Hc. apply yields_gets in Hc. subst cats.
  cbv zeta.
  apply returns_then.
  { destruct (Nat.eqb_spec (List.length (data a) * List.length (headers a)) 0) as [E|E];
      [|apply returns_ret].
    exfalso. apply Nat.eq_mul_0 in E.
    destruct E as [E|E]; apply length_zero_iff_nil in E; contradiction. }
  apply returns_then; [apply box_returns|].
  apply returns_then.
  { destruct (numeric_columns a) as [|c cs] eqn:En; [apply returns_ret|].
    apply returns_then; [apply header_returns|].
    apply returns_bind; [|intros; apply table_returns].
    apply returns_collect. intros col Hcol.
    destruct (@header_index_of_header col) as (idx & Hidx & Hlt); [now apply Hnum|].
    apply returns_bind; [eapply returns_lift; exact Hidx|].
    intros idx' Hi. apply yields_lift in Hi. rewrite Hidx in Hi. injection Hi as <-.
    destruct (@numbers_at_returns idx (data a) Hlt (incl_refl _)) as (vals & Hvals).
    apply returns_bind; [eapply returns_lift; exact Hvals|].
    intros vals' _. destruct vals'; apply returns_ret. }
  apply returns_then; [|apply returns_print].
  destruct (categorical_columns a) as [|c cs] eqn:Ec; [apply returns_ret|].
  apply returns_then; [apply header_returns|].
  apply returns_bind; [|intros; apply table_returns].
  apply returns_collect. intros col Hcol.
  destruct (@header_index_of_header col) as (idx & Hidx & Hlt).
  { apply Hcat. eapply in_firstn. exact Hcol. }
  apply returns_bind; [eapply returns_lift; exact Hidx|].
  intros idx' Hi. apply yields_lift in Hi. rewrite Hidx in Hi. injection Hi as <-.
  apply returns_bind; [eapply returns_lift; exact (column_cells Hlt (incl_refl _))|].
  intros cells _. cbv zeta.
  destruct (map str (filter is_not_none cells)) as [|v vals] eqn:Ev; [apply returns_ret|].
  destruct (Py.most_common1 (Py.Counter (v :: vals))) as [top|e] eqn:Et.
  - apply returns_bind; [eapply returns_lift; exact eq_refl|]. intros; apply returns_ret.
  - exfalso. unfold Py.most_common1 in Et.
    destruct (Py.Counter (v :: vals)) eqn:Ecn; [|discriminate].
    now apply (@counter_nonempty (v :: vals)).
Qed.

Lemma first_seen_incl (K : Type) (eqb : K -> K -> bool) (keys seen : list K) (k : K) :
  In k (Described.first_seen eqb keys seen) -> In k keys.
Proof.
  revert seen. induction keys as [|k' keys IH]; intros seen; cbn; [tauto|].
  destruct (existsb (eqb k') seen).
  - intros H. right. now apply (IH seen).
  - intros [->|H]; [now left|]. right. now apply (IH (k' :: seen)).
Qed.

Lemma filter_nil_forall (A : Type) (f : A -> bool) (l : list A) :
  filter (fun x => negb (f x)) l = [] -> Forall (fun x => f x = true) l.
Proof.
  induction l as [|x l IH]; cbn; [constructor|].
  destruct (f x) eqn:E; cbn; [|discriminate].
  intros H. constructor; [exact E|now apply IH].
Qed.

(** The groups of a well-formed table: the indices of the grouping columns
    are in range, every key has one part per grouping column, and the
    members of a group are rows of the table. *)
Lemma groups_of_table (group_cols : list string) :
  Forall (fun c => Py.mem c (headers a) = true) group_cols ->
  exists indices groups,
    for_each (fun c => header_index c (headers a)) group_cols = Ok indices
    /\ group_rows indices (data a) [] = Ok groups
    /\ (forall key rows, In (key, rows) groups ->
          List.length key = List.length group_cols /\ incl rows (data a)).
Proof.
  intros Hcols. destruct Hwf as (Hfit & _).
  destruct (@header_indices_ok (headers a) group_cols Hcols) as [Hidx Hlt].
  set (indices := map (Described.position (headers a)) group_cols) in *.
  assert (Hkey : forall row, In row (data a) ->
            group_key indices row = Ok (Described.key_of indices row)).
  { intros row Hrow. apply group_key_ok. rewrite Forall_forall in Hfit.
    rewrite (Hfit row Hrow). exact Hlt. }
  assert (Heqb : forall k1 k2 : list string,
            Py.tuple_eqb String.eqb k1 k2 = true <-> k1 = k2)
    by (apply tuple_eqb_eq; intros x y; apply String.eqb_eq).
  exists indices,
    (Described.fill (Py.tuple_eqb String.eqb) (Described.key_of indices) (data a) []).
  split; [exact Hidx|]. split; [now apply group_rows_fill|].
  intros key rows Hin. split.
  - assert (Hk : In key (map fst (Described.fill (Py.tuple_eqb String.eqb)
                                   (Described.key_of indices) (data a) [])))
      by (apply in_map_iff; exists (key, rows); auto).
    rewrite (@fill_keys _ _ _ Heqb (Described.key_of indices) (data a) [] [])
      in Hk by (intros k; cbn; tauto).
    cbn [map app] in Hk. apply first_seen_incl in Hk. apply in_map_iff in Hk.
    destruct Hk as (r & <- & _). unfold Described.key_of, indices.
    now rewrite !length_map.
  - destruct (@fill_partition _ _ _ Heqb
                (fun r k => Described.key_of indices r = k)
                (Described.key_of indices) (data a) (fun r _ => eq_refl))
      as (_ & Hperm & _).
    intros r Hr. apply (Permutation_in _ Hperm). apply in_concat.
    exists rows. split; [|exact Hr]. apply in_map_iff. exists (key, rows). auto.
Qed.

Lemma key0_returns (key : list string) :
  key <> [] -> exists k0, key0 key = Ok k0.
Proof. destruct key as [|k key]; [contradiction|]. intros _. now exists k. Qed.

Lemma perform_groupby_analysis_returns (group_cols : list string) (name : string) :
  group_cols <> [] -> returns (perform_groupby_analysis group_cols name).
Proof.
  intros Hne. unfold perform_groupby_analysis.
  apply returns_then; [apply header_returns|].
  apply returns_bind; [apply returns_gets|]. intros hs Hh. apply yields_gets in Hh. subst hs.
  cbv zeta.
  destruct (filter (fun c => negb (Py.mem c (headers a))) group_cols) eqn:Emiss;
    [|apply returns_print].
  apply filter_nil_forall in Emiss.
  destruct (groups_of_table Emiss) as (indices & groups & Hidx & Hgroups & Hin).
  apply returns_bind; [eapply returns_lift; exact Hidx|].
  intros i' Hi. apply yields_lift in Hi. rewrite Hidx in Hi. injection Hi as <-.
  apply returns_bind; [apply returns_gets|]. intros d Hd. apply yields_gets in Hd. subst d.
  apply returns_bind; [eapply returns_lift; exact Hgroups|].
  intros g' Hg. apply yields_lift in Hg. rewrite Hgroups in Hg. injection Hg as <-.
  assert (Hlist : forall key rows, In (key, rows) (group_list_of groups) ->
            key <> [] /\ incl rows (data a)).
  { intros key rows Hkr.
    apply (Permutation_in _ (sorted_desc_perm group_size groups)) in Hkr.
    destruct (Hin key rows Hkr) as [Hlen Hincl]. split; [|exact Hincl].
    intros ->. destruct group_cols; [contradiction|discriminate]. }
  apply returns_then; [apply returns_print|].
  apply returns_then.
  { destruct (map group_size (group_list_of groups)); [apply returns_ret|apply box_returns]. }
  apply returns_then; [apply returns_print|].
  apply returns_then.
  { apply returns_for. intros [i [key rows]] Hig.
    assert (Hkr : In (key, rows) (group_list_of groups)).
    { apply in_combine_r in Hig. eapply in_firstn. exact Hig. }
    destruct (key0_returns (proj1 (Hlist key rows Hkr))) as (k0 & Hk0).
    apply returns_bind; [eapply returns_lift; exact Hk0|].
    intros; apply returns_print. }
  apply returns_bind; [apply returns_gets|]. intros nums Hn. apply yields_gets in Hn. subst nums.
  destruct Hwf as (_ & Hnum & _).
  destruct (numeric_columns a) as [|c cs] eqn:En; [apply returns_ret|].
  destruct (group_list_of groups) as [|g gs] eqn:Eg; [apply returns_ret|].
  apply returns_then; [apply returns_print|].
  apply returns_for. intros [i [key rows]] Hig.
  assert (Hkr : In (key, rows) (g :: gs)).
  { apply in_combine_r in Hig. eapply in_firstn. exact Hig. }
  destruct (Hlist key rows Hkr) as [Hkey Hrows].
  destruct (key0_returns Hkey) as (k0 & Hk0).
  apply returns_bind; [eapply returns_lift; exact Hk0|]. intros k0' _.
  apply returns_then; [apply returns_print|].
  apply returns_for. intros col Hcol.
  destruct (@header_index_of_header col) as (idx & Hidx' & Hlt).
  { apply Hnum. eapply in_firstn. exact Hcol. }
  apply returns_bind; [eapply returns_lift; exact Hidx'|].
  intros idx' Hi. apply yields_lift in Hi. rewrite Hidx' in Hi. injection Hi as <-.
  destruct (@numbers_at_returns idx rows Hlt Hrows) as (vals & Hvals).
  apply returns_bind; [eapply returns_lift; exact Hvals|].
  intros vals' _. destruct vals'; [apply returns_ret|apply returns_print].
Qed.

Lemma candidate_returns (col : string) :
  In col (categorical_columns a) -> returns (candidate col).
Proof.
  intros Hcol. destruct Hwf as (_ & _ & Hcat). unfold candidate.
  destruct (Py.mem col ["page_id"; "ad_id"]%string); [apply returns_ret|].
  apply returns_bind; [apply returns_gets|]. intros hs Hh. apply yields_gets in Hh. subst hs.
  apply returns_bind; [apply returns_gets|]. intros d Hd. apply yields_gets in Hd. subst d.
  destruct (@header_index_of_header col (Hcat col Hcol)) as (idx & Hidx & Hlt).
  apply returns_bind; [eapply returns_lift; exact Hidx|].
  intros idx' Hi. apply yields_lift in Hi. rewrite Hidx in Hi. injection Hi as <-.
  apply returns_bind.
  { eapply returns_lift. apply (column_cells Hlt).
    intros row Hrow. eapply in_firstn. exact Hrow. }
  intros cells _. cbv zeta.
  destruct (map str (filter truthy cells)); [apply returns_ret|].
  match goal with |- context [if ?b then _ else _] => destruct b end; apply returns_ret.
Qed.

(** The steps that follow a successful load return normally on a
    well-formed table that has a row and a header. *)
Lemma report_steps_returns :
  data a <> [] -> headers a <> [] -> returns report_steps.
Proof.
  intros Hd Hh. unfold report_steps.
  apply returns_then; [now apply compute_column_statistics_returns|].
  apply returns_bind; [apply returns_gets|]. intros hs1 _.
  apply returns_then.
  { destruct (Py.mem "page_id" hs1); [|apply returns_ret].
    apply perform_groupby_analysis_returns. discriminate. }
  apply returns_bind; [apply returns_gets|]. intros hs2 _.
  apply returns_then.
  { destruct (Py.mem "page_id" hs2 && Py.mem "ad_id" hs2); [|apply returns_ret].
    apply perform_groupby_analysis_returns. discriminate. }
  apply returns_bind; [apply returns_gets|]. intros cats Hc. apply yields_gets in Hc. subst cats.
  apply returns_bind.
  { apply returns_collect. intros col Hcol. apply candidate_returns.
    eapply in_firstn. exact Hcol. }
  intros found _. cbv zeta.
  apply returns_then.
  { destruct (Py.sorted_by snd (List.concat found)) as [|[best_col n] rest];
      [apply returns_ret|].
    apply perform_groupby_analysis_returns. discriminate. }
  apply returns_then; [apply returns_print|].
  apply returns_then; apply returns_print.
Qed.

End PythonReturns.

(** ** The pure-Python fb_ads analyzer: complete runs *)

Section PythonCompletes.
Context {L : PyLib}.
Import FbAdsPython.

Lemma ends_with_bind (Self Event A B : Type) (es : list Event)
    (m : Run.M Self Event A) (k : A -> Run.M Self Event B) :
  (forall x, Described.ends_with es (k x)) -> Described.ends_with es (Run.bind m k).
Proof.
  intros Hk w y. unfold Run.bind. destruct (m w) as [[x|e] w'].
  - apply Hk.
  - discriminate.
Qed.

Lemma report_steps_ends :
  Described.ends_with
    [Line "======================================================================" [];
     Line "ANALYSIS COMPLETED SUCCESSFULLY" [];
     Line "======================================================================" []]
    report_steps.
Proof.
  unfold report_steps.
  do 8 (apply ends_with_bind; intros ?).
  intros w0 u _. exists (Run.stdout w0). cbn. now rewrite <- !app_assoc.
Qed.

Lemma remove_duplicates_keeps (rows : list (list cell)) (seen : list string)
    (kept : list (list cell)) :
  kept <> [] -> remove_duplicates rows seen kept <> [].
Proof.
  revert seen kept. induction rows as [|row rows IH]; intros seen kept H; cbn.
  - exact H.
  - destruct (Py.mem (row_key row) seen); apply IH; [exact H|].
    destruct kept; discriminate.
Qed.

Lemma remove_duplicates_nonempty (rows : list (list cell)) :
  rows <> [] -> remove_duplicates rows [] [] <> [].
Proof.
  destruct rows as [|row rows]; [contradiction|]. intros _. cbn.
  apply remove_duplicates_keeps. discriminate.
Qed.

Lemma filtered_headers (f : nat * string -> bool) (hs : list string) :
  incl (map snd (filter f (Py.enumerate hs))) hs.
Proof.
  intros h Hh. apply in_map_iff in Hh. destruct Hh as (ih & <- & Hin).
  apply filter_In in Hin. destruct Hin as [Hin _].
  assert (H : In (snd ih) (map snd (Py.enumerate hs))) by now apply in_map.
  now rewrite map_snd_enumerate in H.
Qed.

(** The analyzer object after a load that read the file. *)
Lemma loaded_well_formed (path contents : string) (first : list string)
    (rows : list (list string)) :
  read_text path = Ok contents ->
  csv_reader (detect_delim contents) contents = (first :: rows, None) ->
  forall out0,
  let w := load_and_clean_data (Run.Build_world (__init__ path) out0) in
  fst w = Ok tt
  /\ Described.well_formed (Run.self (snd w))
  /\ headers (Run.self (snd w)) = map Py.strip first
  /\ (rows <> [] -> data (Run.self (snd w)) <> []).
Proof.
  intros Hread Hcsv out0 w. subst w.
  rewrite (@load_and_clean_data_ok L (__init__ path) out0 contents first rows Hread Hcsv).
  split; [reflexivity|].
  cbn [Run.self snd headers data numeric_columns categorical_columns __init__].
  set (hs := map Py.strip first).
  pose proof (@loaded_rows_fit L first rows [] []) as Hfit. cbv zeta in Hfit. fold hs in Hfit.
  destruct (detect_types_described hs (map (process_row hs) rows) [] [])
    as (raw' & Heq & Hlen).
  rewrite Heq in *. cbn [fst snd app] in *.
  split; [|split; [reflexivity|]].
  - unfold Described.well_formed.
    cbn [headers data numeric_columns categorical_columns].
    split; [exact Hfit|]. split; apply filtered_headers.
  - intros Hrows. apply remove_duplicates_nonempty.
    intros ->. cbn in Hlen. rewrite length_map in Hlen.
    destruct rows; [contradiction|discriminate].
Qed.

(** [compute_column_statistics] on a table without rows or without columns:
    the share of missing cells is a division by zero. *)
Lemma statistics_of_no_cells (w : Run.world analyzer event) :
  data (Run.self w) = [] \/ headers (Run.self w) = [] ->
  compute_column_statistics w
  = (Raise ZeroDivisionError,
     Run.Build_world (Run.self w)
       (Run.stdout w ++ [Header "STEP 2: COMPUTING STATISTICS" 1])).
Proof.
  intros H. unfold compute_column_statistics, _header.
  unfold Run.bind, Run.print, Run.gets. cbn [Run.self Run.stdout fst snd].
  assert (E : List.length (data (Run.self w)) * List.length (headers (Run.self w)) = 0)
    by (destruct H as [-> | ->]; cbn; lia).
  rewrite E. reflexivity.
Qed.

Lemma init_well_formed (path : string) (hs : list string) :
  Described.well_formed (Build_analyzer path [] hs [] []).
Proof.
  unfold Described.well_formed. cbn. split; [constructor|]. split; intros x [].
Qed.

(** Whatever the file system and the CSV reader do, the table a fresh
    analyzer holds after [load_and_clean_data] is well formed. *)
Lemma load_well_formed (path : string) (out0 : list event) :
  Described.well_formed
    (Run.self (snd (load_and_clean_data (Run.Build_world (__init__ path) out0)))).
Proof.
  destruct (read_text path) as [contents|e] eqn:Hread.
  - destruct (csv_reader (detect_delim contents) contents) as [[|first rows] stop] eqn:Hcsv.
    + unfold load_and_clean_data, _header.
      unfold Run.try_except, Run.bind, Run.gets, Run.lift, Run.print.
      cbn [Run.self Run.stdout filepath __init__]. rewrite Hread, Hcsv.
      destruct stop; cbn; apply init_well_formed.
    + destruct stop as [e|].
      * unfold load_and_clean_data, _header, set_headers.
        unfold Run.try_except, Run.bind, Run.gets, Run.lift, Run.print, Run.prints,
          Run.modify, Run.raise.
        cbn [Run.self Run.stdout filepath __init__]. rewrite Hread, Hcsv.
        cbn. apply init_well_formed.
      * apply (@loaded_well_formed path contents first rows Hread Hcsv out0).
  - unfold load_and_clean_data, _header.
    unfold Run.try_except, Run.bind, Run.gets, Run.lift, Run.print.
    cbn [Run.self Run.stdout filepath __init__]. rewrite Hread.
    cbn. apply init_well_formed.
Qed.

(** X2.  Whatever the file system and the CSV reader do, after
    [load_and_clean_data] on a fresh analyzer every row of the table has
    exactly one cell per header, and every column listed as numeric or as
    categorical is a header. *)
Theorem loaded_table_is_well_formed (path : string) (out0 : list event) :
  let a := Run.self (snd (load_and_clean_data (Run.Build_world (__init__ path) out0))) in
  Forall (fun row => List.length row = List.length (headers a)) (data a)
  /\ incl (numeric_columns a) (headers a)
  /\ incl (categorical_columns a) (headers a).
Proof. intros a. exact (load_well_formed path out0). Qed.

(** X3.  On the table a fresh analyzer holds after [load_and_clean_data],
    [perform_groupby_analysis] with at least one grouping column returns
    normally, whatever the columns and the file are, and leaves the analyzer
    object as it was: no index is out of range and no header is missing
    where the code looks one up. *)
Theorem groupby_returns_on_loaded_table (path : string) (out0 out : list event)
    (group_cols : list string) (name : string) :
  group_cols <> [] ->
  let a := Run.self (snd (load_and_clean_data (Run.Build_world (__init__ path) out0))) in
  let r := perform_groupby_analysis group_cols name (Run.Build_world a out) in
  fst r = Ok tt /\ Run.self (snd r) = a.
Proof.
  intros Hne a r.
  destruct (@perform_groupby_analysis_returns L a (load_well_formed path out0)
              group_cols name Hne (Run.Build_world a out) eq_refl) as ([] & H1 & H2).
  split; assumption.
Qed.

(** X4.  On a well-formed table [compute_column_statistics] leaves the
    analyzer object as it was, and it raises exactly when the table has no
    row or no column: the exception is then ZeroDivisionError, raised when
    the share of missing cells is computed, after the header of the step
    was printed. *)
Theorem statistics_raise_without_cells (w : Run.world analyzer event) :
  Described.well_formed (Run.self w) ->
  let r := compute_column_statistics w in
  Run.self (snd r) = Run.self w
  /\ ((data (Run.self w) <> [] /\ headers (Run.self w) <> [] /\ fst r = Ok tt)
      \/ ((data (Run.self w) = [] \/ headers (Run.self w) = [])
          /\ r = (Raise ZeroDivisionError,
                  Run.Build_world (Run.self w)
                    (Run.stdout w ++ [Header "STEP 2: COMPUTING STATISTICS" 1])))).
Proof.
  intros Hwf r. subst r.
  destruct (data (Run.self w)) as [|row rows] eqn:Ed.
  - rewrite statistics_of_no_cells by (left; exact Ed). split; [reflexivity|].
    right. split; [now left|reflexivity].
  - destruct (headers (Run.self w)) as [|h hs] eqn:Eh.
    + rewrite statistics_of_no_cells by (right; exact Eh). split; [reflexivity|].
      right. split; [now right|reflexivity].
    + destruct (@compute_column_statistics_returns L (Run.self w) Hwf) with (w := w)
        as ([] & H1 & H2); try reflexivity; try (rewrite ?Ed, ?Eh; discriminate).
      split; [exact H2|]. left. repeat split; try discriminate. exact H1.
Qed.

(** What a run does after the banner, when the load leaves a table with a
    row: the steps of [report_steps] follow. *)
Lemma run_after_load (path contents : string) (first : list string)
    (rows : list (list string)) :
  read_text path = Ok contents ->
  csv_reader (detect_delim contents) contents = (first :: rows, None) ->
  rows <> [] ->
  exists w,
    Described.well_formed (Run.self w)
    /\ headers (Run.self w) = map Py.strip first
    /\ data (Run.self w) <> []
    /\ run_complete_analysis (Run.Build_world (__init__ path) [])
       = Run.try_except report_steps report_error w.
Proof.
  intros Hread Hcsv Hrows.
  set (out0 := [Line "FAST PYTHON DATASET ANALYZER" [];
                Line "======================================================================" []]).
  destruct (@loaded_well_formed path contents first rows Hread Hcsv out0)
    as (Hok & Hwf & Hhs & Hd).
  specialize (Hd Hrows).
  exists (snd (load_and_clean_data (Run.Build_world (__init__ path) out0))).
  split; [exact Hwf|]. split; [exact Hhs|]. split; [exact Hd|].
  unfold run_complete_analysis, banner, analysis.
  unfold Run.try_except, Run.bind, Run.print, Run.gets.
  cbn [Run.self Run.stdout app]. fold out0.
  destruct (load_and_clean_data (Run.Build_world (__init__ path) out0)) as [[[]|e] w1];
    cbn [fst snd] in *; [|discriminate].
  destruct (data (Run.self w1)); [contradiction|reflexivity].
Qed.

(** X5.  When the file is read, its first line has a field and a row
    follows, the run goes through all its steps without an exception: it
    returns normally and its output ends with the three lines that announce
    the completion. *)
Theorem run_completes (path contents : string) (first : list string)
    (rows : list (list string)) :
  read_text path = Ok contents ->
  csv_reader (detect_delim contents) contents = (first :: rows, None) ->
  first <> [] ->
  rows <> [] ->
  let run := run_complete_analysis (Run.Build_world (__init__ path) []) in
  fst run = Ok tt
  /\ exists out,
       Run.stdout (snd run)
       = (out ++ [Line "======================================================================" [];
                  Line "ANALYSIS COMPLETED SUCCESSFULLY" [];
                  Line "======================================================================" []])%list.
Proof.
  intros Hread Hcsv Hfirst Hrows run. subst run.
  destruct (@run_after_load path contents first rows Hread Hcsv Hrows)
    as (w & Hwf & Hhs & Hd & ->).
  assert (Hh : headers (Run.self w) <> []).
  { rewrite Hhs. destruct first; [contradiction|discriminate]. }
  destruct (@report_steps_returns L (Run.self w) Hwf Hd Hh w eq_refl) as ([] & H1 & _).
  pose proof (@report_steps_ends w tt H1) as Hends.
  unfold Run.try_except. destruct (report_steps w) as [[[]|e] w']; cbn [fst snd] in *;
    [|discriminate].
  split; [reflexivity|exact Hends].
Qed.

(** X6.  When the first line of the file has no field (an empty line) and
    a row follows, the table has a row and no column: the run gets past the
    test for an empty table, the statistics step divides by zero, and the
    run ends by reporting that exception. *)
Theorem empty_header_line_is_reported (path contents : string)
    (rows : list (list string)) :
  read_text path = Ok contents ->
  csv_reader (detect_delim contents) contents = ([] :: rows, None) ->
  rows <> [] ->
  let run := run_complete_analysis (Run.Build_world (__init__ path) []) in
  fst run = Ok tt
  /\ exists out,
       Run.stdout (snd run)
       = (out ++ [Header "STEP 2: COMPUTING STATISTICS" 1;
                  Line "Error: {}" [CStr "division by zero"]])%list.
Proof.
  intros Hread Hcsv Hrows run. subst run.
  destruct (@run_after_load path contents [] rows Hread Hcsv Hrows)
    as (w & Hwf & Hhs & Hd & ->).
  unfold Run.try_except, report_steps, Run.bind.
  rewrite statistics_of_no_cells by (right; exact Hhs).
  cbn. split; [reflexivity|].
  exists (Run.stdout w). now rewrite <- app_assoc.
Qed.

End PythonCompletes.

(** ** The Facebook-posts analyzer: loading *)

Section PostsLoad.
Context {L : PyLib}.
Import FbPostsPython.

Lemma map_fst_combine (A B : Type) (l : list A) (l' : list B) :
  List.length l <= List.length l' -> map fst (combine l l') = l.
Proof.
  revert l'. induction l as [|x l IH]; intros [|y l'] H; cbn in *;
    try reflexivity; try lia.
  f_equal. apply IH. lia.
Qed.

Lemma dict_row_keys (fieldnames fields : list string) :
  map fst (dict_row fieldnames fields) = fieldnames.
Proof.
  unfold dict_row. apply map_fst_combine.
  rewrite length_app, length_map, repeat_length. lia.
Qed.

Lemma lookup_key (V : Type) (k : string) (r : list (string * V)) :
  In k (map fst r) -> exists v, Py.lookup k r = Some v.
Proof.
  induction r as [|[k' v] r IH]; cbn; [tauto|].
  intros [->|H].
  - destruct (Py.lookup k r) as [v'|]; [now exists v'|].
    rewrite String.eqb_refl. now exists v.
  - destruct (IH H) as (v' & ->). now exists v'.
Qed.

Lemma dict_get_value (h : string) (r : row) :
  In h (map fst r) -> Py.dict_get h r = Ok (Described.value_of h r).
Proof.
  intros H. destruct (lookup_key h r H) as (v & Hv).
  unfold Py.dict_get, Described.value_of. now rewrite Hv.
Qed.

Lemma column_of_table (hs : list string) (rows : list row) (h : string) :
  Forall (fun r => map fst r = hs) rows ->
  In h hs ->
  for_each (fun r => Py.dict_get h r) rows = Ok (map (Described.value_of h) rows).
Proof.
  intros Hrows Hh. apply for_each_ok. intros r Hr.
  rewrite Forall_forall in Hrows. apply dict_get_value. now rewrite (Hrows r Hr).
Qed.

Lemma Forall_firstn (A : Type) (P : A -> Prop) (n : nat) (l : list A) :
  Forall P l -> Forall P (firstn n l).
Proof.
  intros H. apply Forall_forall. intros x Hx. rewrite Forall_forall in H.
  apply H. rewrite <- (firstn_skipn n l). apply in_or_app. now left.
Qed.

Lemma is_numeric_column_described (hs : list string) (rows : list row) (h : string) :
  Forall (fun r => map fst r = hs) rows ->
  In h hs ->
  is_numeric_column h rows = Ok (Described.numeric_posts_column rows h).
Proof.
  intros Hrows Hh. unfold is_numeric_column.
  rewrite (@column_of_table hs (firstn 100 rows) h (Forall_firstn 100 Hrows) Hh).
  cbn [and_then]. f_equal. unfold Described.numeric_posts_column, Described.posts_samples.
  fold Described.posts_parses.
  change (filter (fun v => match _to_num v with Some _ => true | None => false end))
    with (filter Described.posts_parses).
  destruct (filter filled (map (Described.value_of h) (firstn 100 rows))) as [|v vs];
    [reflexivity|].
  destruct (Nat.ltb_spec (4 * List.length (v :: vs))
              (5 * List.length (filter Described.posts_parses (v :: vs))));
    symmetry; [apply Nat.ltb_lt|apply Nat.ltb_ge]; lia.
Qed.

(** The loop of lines 36-39 over the headers [hs]. *)
Lemma posts_classify_loop (rows : list row) (P : string -> bool) (hs : list string) :
  (forall h, In h hs -> is_numeric_column h rows = Ok (P h)) ->
  forall (a : analyzer) (out : list event),
    Run.for_ hs (fun h =>
      Run.bind (Run.lift (is_numeric_column h rows)) (fun numeric =>
        Run.modify (fun a =>
          if numeric
          then Build_analyzer (csv_file_path a) (data a) (headers a)
                 (numeric_columns a ++ [h]) (text_columns a)
          else Build_analyzer (csv_file_path a) (data a) (headers a)
                 (numeric_columns a) (text_columns a ++ [h]))))
      (Run.Build_world a out)
    = (Ok tt,
       Run.Build_world
         (Build_analyzer (csv_file_path a) (data a) (headers a)
            (numeric_columns a ++ filter P hs)
            (text_columns a ++ filter (fun h => negb (P h)) hs))
         out).
Proof.
  induction hs as [|h hs IH]; intros H a out.
  - cbn. rewrite !app_nil_r. now destruct a.
  - cbn [Run.for_]. unfold Run.bind at 1. unfold Run.bind at 1.
    unfold Run.lift at 1. rewrite (H h (or_introl eq_refl)).
    unfold Run.modify at 1. cbn [Run.self Run.stdout].
    rewrite IH by (intros h' Hh'; apply H; now right).
    cbn [filter]. destruct (P h); cbn [negb csv_file_path data headers numeric_columns
                                        text_columns];
      rewrite <- ?app_assoc; reflexivity.
Qed.

(** What [load_and_clean_data] does when the file is read without an
    exception and has a first row. *)
Lemma posts_load_ok (a0 : analyzer) (out0 : list event) (contents : string)
    (fieldnames : list string) (lines : list (list string)) :
  read_text (csv_file_path a0) = Ok contents ->
  csv_reader Py.comma contents = (fieldnames :: lines, None) ->
  let rows := map (dict_row fieldnames)
                  (filter (fun l => match l with [] => false | _ => true end) lines) in
  exists out,
    load_and_clean_data (Run.Build_world a0 out0)
    = (Ok rows,
       Run.Build_world
         (Build_analyzer (csv_file_path a0) rows fieldnames
            (numeric_columns a0 ++ filter (Described.numeric_posts_column rows) fieldnames)
            (text_columns a0
             ++ filter (fun h => negb (Described.numeric_posts_column rows h)) fieldnames))
         (out0 ++ out)).
Proof.
  intros Hread Hcsv rows.
  assert (Hrows : Forall (fun r => map fst r = fieldnames) rows).
  { apply Forall_forall. intros r Hr. apply in_map_iff in Hr.
    destruct Hr as (l & <- & _). apply dict_row_keys. }
  assert (Hnulls : for_each (fun h => for_each (fun r => Py.dict_get h r) rows) fieldnames
                   = Ok (map (fun h => map (Described.value_of h) rows) fieldnames)).
  { apply for_each_ok. intros h Hh. now apply (@column_of_table fieldnames). }
  eexists.
  unfold load_and_clean_data.
  unfold Run.bind at 1. unfold Run.print at 1. cbn [Run.self Run.stdout].
  unfold Run.bind at 1. unfold Run.gets at 1. cbn [Run.self Run.stdout].
  unfold Run.bind at 1. unfold Run.lift at 1. rewrite Hread, Hcsv.
  unfold Run.bind at 1. unfold Run.ret at 1.
  fold rows.
  unfold Run.bind at 1. unfold Run.modify at 1. cbn [Run.self Run.stdout].
  unfold Run.bind at 1. unfold Run.print at 1. cbn [Run.self Run.stdout].
  unfold Run.bind at 1. unfold Run.lift at 1. rewrite Hnulls.
  unfold Run.bind at 1. unfold Run.print at 1. cbn [Run.self Run.stdout].
  unfold Run.bind at 1.
  rewrite (@posts_classify_loop rows (Described.numeric_posts_column rows) fieldnames)
    by (intros h Hh; now apply (@is_numeric_column_described fieldnames)).
  cbn [csv_file_path data headers numeric_columns text_columns].
  unfold Run.bind, Run.gets, Run.print, Run.ret.
  cbn [Run.self Run.stdout csv_file_path data headers numeric_columns text_columns].
  rewrite <- !app_assoc. reflexivity.
Qed.

Lemma filter_incl_self (A : Type) (f : A -> bool) (l : list A) : incl (filter f l) l.
Proof. intros x Hx. apply filter_In in Hx. tauto. Qed.

(** The analyzer object after a load that read the file is well formed. *)
Lemma posts_loaded_table (path contents : string) (fieldnames : list string)
    (lines : list (list string)) (out0 : list event) :
  read_text path = Ok contents ->
  csv_reader Py.comma contents = (fieldnames :: lines, None) ->
  let r := load_and_clean_data (Run.Build_world (__init__ path) out0) in
  (exists rows, fst r = Ok rows)
  /\ Described.posts_table (Run.self (snd r))
  /\ headers (Run.self (snd r)) = fieldnames.
Proof.
  intros Hread Hcsv r. subst r.
  destruct (@posts_load_ok (__init__ path) out0 contents fieldnames lines Hread Hcsv)
    as (out & ->).
  cbn [fst snd Run.self]. split; [eexists; reflexivity|]. split; [|reflexivity].
  unfold Described.posts_table. cbn [data headers numeric_columns text_columns __init__ app].
  split; [|split; apply filter_incl_self].
  apply Forall_forall. intros r Hr. apply in_map_iff in Hr.
  destruct Hr as (l & <- & _). apply dict_row_keys.
Qed.

(** X7.  When the file is read and has a first row, the Facebook-posts
    loader returns the rows, each with a value (or [None]) for every field
    name of the first row, and puts every field name in exactly one of the
    two lists of columns: a column is numeric exactly when at least one of
    the first up-to-100 rows has a non-empty value in it and strictly more
    than 80% of these values are numbers for [_to_num]; otherwise it is a
    text column. *)
Theorem posts_columns_by_sampling (path contents : string) (fieldnames : list string)
    (lines : list (list string)) :
  read_text path = Ok contents ->
  csv_reader Py.comma contents = (fieldnames :: lines, None) ->
  let rows := map (dict_row fieldnames)
                  (filter (fun l => match l with [] => false | _ => true end) lines) in
  let r := load_and_clean_data (Run.Build_world (__init__ path) []) in
  let a := Run.self (snd r) in
  fst r = Ok rows
  /\ data a = rows
  /\ headers a = fieldnames
  /\ Forall (fun row => map fst row = fieldnames) rows
  /\ numeric_columns a = filter (Described.numeric_posts_column rows) fieldnames
  /\ text_columns a
     = filter (fun h => negb (Described.numeric_posts_column rows h)) fieldnames
  /\ Permutation (numeric_columns a ++ text_columns a) fieldnames
  /\ (forall h,
        Described.numeric_posts_column rows h = true <->
        Described.posts_samples rows h <> []
        /\ 80 * List.length (Described.posts_samples rows h)
           < 100 * List.length (filter Described.posts_parses
                                  (Described.posts_samples rows h))).
Proof.
  intros Hread Hcsv rows r a. subst a r.
  destruct (@posts_load_ok (__init__ path) [] contents fieldnames lines Hread Hcsv)
    as (out & ->).
  fold rows. cbn [fst snd Run.self data headers numeric_columns text_columns __init__ app].
  repeat split; try reflexivity.
  - apply Forall_forall. intros row Hr. apply in_map_iff in Hr.
    destruct Hr as (l & <- & _). apply dict_row_keys.
  - apply filter_split_perm.
  - unfold Described.numeric_posts_column in H.
    destruct (Described.posts_samples rows h); discriminate.
  - unfold Described.numeric_posts_column in H.
    destruct (Described.posts_samples rows h); [discriminate|].
    now apply Nat.ltb_lt.
  - intros [Hne Hlt]. unfold Described.numeric_posts_column.
    destruct (Described.posts_samples rows h); [contradiction|].
    now apply Nat.ltb_lt.
Qed.

End PostsLoad.

(** ** The Facebook-posts analyzer: the reports return *)

Section PostsReturns.
Context {L : PyLib}.
Variable a : FbPostsPython.analyzer.
Import FbPostsPython.
Hypothesis Htable : Described.posts_table a.

Local Abbreviation returns := (@Described.returns_from analyzer event _ a).

Lemma for_each_returns (A B : Type) (f : A -> result B) (l : list A) :
  (forall x, In x l -> exists y, f x = Ok y) -> exists ys, for_each f l = Ok ys.
Proof.
  induction l as [|x l IH]; intros H; cbn.
  - now exists [].
  - destruct (H x (or_introl eq_refl)) as (y & ->).
    destruct IH as (ys & ->); [intros z Hz; apply H; now right|].
    cbn. now eexists.
Qed.

Lemma fold_result_returns (A B : Type) (f : B -> A -> result B) (l : list A) (b : B) :
  (forall b' x, In x l -> exists b'', f b' x = Ok b'') ->
  exists b', fold_result f l b = Ok b'.
Proof.
  revert b. induction l as [|x l IH]; intros b H; cbn.
  - now exists b.
  - destruct (H b x (or_introl eq_refl)) as (b1 & ->). cbn.
    apply IH. intros b' z Hz. apply H. now right.
Qed.

Lemma print_table_returns (rows : list (list (string * fcell))) (title : string) :
  returns (_print_table rows title).
Proof. unfold _print_table. destruct rows; [apply returns_ret|apply returns_print]. Qed.

(** The values of a header in rows of the table. *)
Lemma values_of_header (col : string) (rows : list row) :
  In col (headers a) -> incl rows (data a) ->
  for_each (fun r => Py.dict_get col r) rows = Ok (map (Described.value_of col) rows).
Proof.
  intros Hcol Hrows. apply (@column_of_table (headers a)); [|exact Hcol].
  destruct Htable as (Hkeys & _). rewrite Forall_forall in *.
  intros r Hr. apply Hkeys, Hrows, Hr.
Qed.

Lemma nums_of_returns (col : string) (rows : list row) :
  In col (headers a) -> incl rows (data a) -> exists vals, nums_of col rows = Ok vals.
Proof.
  intros Hcol Hrows. unfold nums_of. rewrite (@values_of_header col rows Hcol Hrows).
  cbn. now eexists.
Qed.

Lemma total_of_returns (col : string) (rows : list row) :
  In col (headers a) -> incl rows (data a) -> exists t, total_of col rows = Ok t.
Proof.
  intros Hcol Hrows. unfold total_of. rewrite (@values_of_header col rows Hcol Hrows).
  cbn. now eexists.
Qed.

(** Grouping by a header: the groups are filled from the values of the
    column, and their members are rows of the table. *)
Lemma groups_by_header (col : string) :
  In col (headers a) ->
  group_rows_by col (data a) []
  = Ok (Described.fill option_eqb (Described.value_of col) (data a) [])
  /\ forall k members,
       In (k, members) (Described.fill option_eqb (Described.value_of col) (data a) []) ->
       incl members (data a).
Proof.
  intros Hcol. split.
  - assert (H : forall rows g, incl rows (data a) ->
              group_rows_by col rows g
              = Ok (Described.fill option_eqb (Described.value_of col) rows g)).
    { induction rows as [|r rows IH]; intros g Hrows; cbn; [reflexivity|].
      pose proof (@values_of_header col [r] Hcol) as Hv. cbn in Hv.
      destruct (Py.dict_get col r) as [v|e] eqn:E.
      - cbn. specialize (Hv ltac:(intros x [<-|[]]; apply Hrows; now left)).
        injection Hv as ->. apply IH. intros x Hx. apply Hrows. now right.
      - specialize (Hv ltac:(intros x [<-|[]]; apply Hrows; now left)). discriminate. }
    apply H, incl_refl.
  - intros k members Hin r Hr.
    destruct (@fill_partition _ _ _ option_eqb_eq
                (fun r k => Described.value_of col r = k)
                (Described.value_of col) (data a) (fun r _ => eq_refl))
      as (_ & Hperm & _).
    apply (Permutation_in _ Hperm). apply in_concat.
    exists members. split; [|exact Hr]. apply in_map_iff. exists (k, members). auto.
Qed.

Lemma numeric_stat_returns (col : string) :
  In col (headers a) -> exists stat, numeric_stat col (data a) = Ok stat.
Proof.
  intros Hcol. unfold numeric_stat.
  destruct (@nums_of_returns col (data a) Hcol (incl_refl _)) as (vals & ->).
  cbn. now eexists.
Qed.

Lemma text_stat_returns (col : string) :
  In col (headers a) -> exists stat, text_stat col (data a) = Ok stat.
Proof.
  intros Hcol. unfold text_stat, filled_values.
  rewrite (@values_of_header col (data a) Hcol (incl_refl _)). cbn [and_then].
  match goal with |- context [match ?l with [] => _ | _ :: _ => _ end] =>
    destruct l as [|v vals] eqn:Ev end; [now eexists|].
  unfold Py.most_common1.
  destruct (Py.Counter (v :: vals)) eqn:Ec.
  - exfalso. now apply (@counter_nonempty (v :: vals)).
  - cbn. now eexists.
Qed.

Lemma compute_overall_statistics_returns : returns compute_overall_statistics.
Proof.
  destruct Htable as (_ & Hnum & Htxt). unfold compute_overall_statistics.
  apply returns_then; [apply returns_print|].
  apply returns_bind; [apply returns_gets|]. intros rows Hr. apply yields_gets in Hr. subst rows.
  apply returns_bind; [apply returns_gets|]. intros num Hn. apply yields_gets in Hn. subst num.
  apply returns_then.
  { destruct (numeric_columns a) as [|c cs] eqn:En; [apply returns_ret|].
    destruct (@for_each_returns _ _ (fun col => numeric_stat col (data a)) (c :: cs))
      as (stats & Hs); [intros col Hcol; apply numeric_stat_returns, Hnum, Hcol|].
    apply returns_bind; [eapply returns_lift; exact Hs|].
    intros; apply print_table_returns. }
  apply returns_bind; [apply returns_gets|]. intros txt Ht. apply yields_gets in Ht. subst txt.
  destruct (text_columns a) as [|c cs] eqn:Et; [apply returns_ret|].
  destruct (@for_each_returns _ _ (fun col => text_stat col (data a)) (c :: cs))
    as (stats & Hs); [intros col Hcol; apply text_stat_returns, Htxt, Hcol|].
  apply returns_bind; [eapply returns_lift; exact Hs|].
  intros; apply print_table_returns.
Qed.

Lemma group_rows_by_facebook_id (rows : list row) (g : groups) :
  group_rows rows g = group_rows_by "Facebook_Id" rows g.
Proof.
  revert g. induction rows as [|r rows IH]; intros g; cbn; [reflexivity|].
  destruct (Py.dict_get "Facebook_Id" r); cbn; [apply IH|reflexivity].
Qed.

Lemma analyze_by_facebook_id_returns : returns analyze_by_facebook_id.
Proof.
  destruct Htable as (_ & Hnum & _). unfold analyze_by_facebook_id.
  apply returns_then; [apply returns_print|].
  apply returns_bind; [apply returns_gets|]. intros hs Hh. apply yields_gets in Hh. subst hs.
  destruct (Py.mem "Facebook_Id" (headers a)) eqn:Em; cbn [negb].
  2: { apply returns_then; [apply returns_print|apply returns_ret]. }
  apply mem_In in Em. destruct (@groups_by_header "Facebook_Id" Em) as [Hg Hmembers].
  apply returns_bind; [apply returns_gets|]. intros rows Hr. apply yields_gets in Hr. subst rows.
  apply returns_bind.
  { eapply returns_lift. rewrite group_rows_by_facebook_id. exact Hg. }
  intros g Hy. apply yields_lift in Hy. rewrite group_rows_by_facebook_id, Hg in Hy.
  injection Hy as <-.
  apply returns_then; [apply returns_print|].
  apply returns_bind; [apply returns_gets|]. intros num Hn. apply yields_gets in Hn. subst num.
  apply returns_then; [|apply returns_ret].
  destruct (numeric_columns a) as [|c cs] eqn:En; [apply returns_ret|].
  match goal with |- context [for_each ?f ?l] =>
    destruct (@for_each_returns _ _ f l) as (stats & Hs) end.
  { intros [k members] Hin. unfold page_stat. cbn [fst snd].
    unfold sample_pages in Hin. apply in_firstn in Hin.
    match goal with |- context [for_each ?f ?l] =>
      destruct (@for_each_returns _ _ f l) as (entries & ->) end.
    - intros col Hcol. apply in_firstn in Hcol. unfold column_entries.
      destruct (@nums_of_returns col members (Hnum col Hcol) (Hmembers k members Hin))
        as (vals & ->). cbn. now eexists.
    - cbn. now eexists. }
  apply returns_bind; [eapply returns_lift; exact Hs|].
  intros; apply print_table_returns.
Qed.

Lemma pair_eqb_eq (p q : option string * option string) :
  pair_eqb p q = true <-> p = q.
Proof.
  destruct p as [p1 p2], q as [q1 q2]. unfold pair_eqb. cbn [fst snd].
  rewrite andb_true_iff, !option_eqb_eq. split; [intros [-> ->]|intros [= -> ->]]; auto.
Qed.

(** Grouping by page and post. *)
Lemma groups_by_pair :
  In "Facebook_Id"%string (headers a) ->
  In "post_id"%string (headers a) ->
  let key := fun r => (Described.value_of "Facebook_Id" r, Described.value_of "post_id" r) in
  pair_group_rows (data a) [] = Ok (Described.fill pair_eqb key (data a) [])
  /\ forall k members,
       In (k, members) (Described.fill pair_eqb key (data a) []) ->
       incl members (data a).
Proof.
  intros Hfb Hpost key. split.
  - assert (H : forall rows g, incl rows (data a) ->
              pair_group_rows rows g = Ok (Described.fill pair_eqb key rows g)).
    { induction rows as [|r rows IH]; intros g Hrows; cbn; [reflexivity|].
      assert (Hr : incl [r] (data a)) by (intros x [<-|[]]; apply Hrows; now left).
      pose proof (@values_of_header "Facebook_Id" [r] Hfb Hr) as H1.
      pose proof (@values_of_header "post_id" [r] Hpost Hr) as H2.
      cbn in H1, H2.
      destruct (Py.dict_get "Facebook_Id" r) as [v1|]; [|discriminate].
      destruct (Py.dict_get "post_id" r) as [v2|]; [|discriminate].
      cbn in *. injection H1 as ->. injection H2 as ->.
      apply IH. intros x Hx. apply Hrows. now right. }
    apply H, incl_refl.
  - intros k members Hin r Hr.
    destruct (@fill_partition _ _ _ pair_eqb_eq (fun r k => key r = k) key (data a)
                (fun r _ => eq_refl)) as (_ & Hperm & _).
    apply (Permutation_in _ Hperm). apply in_concat.
    exists members. split; [|exact Hr]. apply in_map_iff. exists (k, members). auto.
Qed.

Lemma analyze_by_facebook_and_post_id_returns : returns analyze_by_facebook_and_post_id.
Proof.
  destruct Htable as (_ & Hnum & _). unfold analyze_by_facebook_and_post_id.
  apply returns_then; [apply returns_print|].
  apply returns_bind; [apply returns_gets|]. intros hs Hh. apply yields_gets in Hh. subst hs.
  cbv zeta.
  destruct (filter (fun col => negb (Py.mem col (headers a))) ["Facebook_Id"; "post_id"]%string)
    eqn:Emiss.
  2: { apply returns_then; [apply returns_print|apply returns_ret]. }
  apply filter_nil_forall in Emiss.
  assert (Hfb : In "Facebook_Id"%string (headers a))
    by (apply mem_In; now inversion Emiss).
  assert (Hpost : In "post_id"%string (headers a)).
  { apply mem_In. inversion Emiss as [|? ? _ H2]. now inversion H2. }
  destruct (groups_by_pair Hfb Hpost) as [Hg Hmembers].
  apply returns_bind; [apply returns_gets|]. intros rows Hr. apply yields_gets in Hr. subst rows.
  apply returns_bind; [eapply returns_lift; exact Hg|].
  intros g Hy. apply yields_lift in Hy. rewrite Hg in Hy. injection Hy as <-.
  apply returns_then; [apply returns_print|].
  apply returns_bind; [apply returns_gets|]. intros num Hn. apply yields_gets in Hn. subst num.
  apply returns_then; [|apply returns_ret].
  destruct (numeric_columns a) as [|c cs] eqn:En; [apply returns_ret|].
  match goal with |- context [for_each ?f ?l] =>
    destruct (@for_each_returns _ _ f l) as (stats & Hs) end.
  { intros [k members] Hin. unfold pair_stat. cbn [fst snd].
    apply in_firstn in Hin.
    apply fold_result_returns. intros stat col Hcol. apply in_firstn in Hcol.
    unfold set_mean.
    destruct (@nums_of_returns col members (Hnum col Hcol) (Hmembers k members Hin))
      as (vals & ->). cbn. now eexists. }
  apply returns_bind; [eapply returns_lift; exact Hs|].
  intros; apply print_table_returns.
Qed.

Lemma analyze_by_page_category_returns : returns analyze_by_page_category.
Proof.
  destruct Htable as (_ & Hnum & _). unfold analyze_by_page_category.
  apply returns_then; [apply returns_print|].
  apply returns_bind; [apply returns_gets|]. intros hs Hh. apply yields_gets in Hh. subst hs.
  destruct (Py.mem "Page Category" (headers a)) eqn:Em; cbn [negb].
  2: { apply returns_then; [apply returns_print|apply returns_ret]. }
  apply mem_In in Em. destruct (@groups_by_header "Page Category" Em) as [Hg Hmembers].
  apply returns_bind; [apply returns_gets|]. intros rows Hr. apply yields_gets in Hr. subst rows.
  apply returns_bind; [eapply returns_lift; exact Hg|].
  intros g Hy. apply yields_lift in Hy. rewrite Hg in Hy. injection Hy as <-.
  apply returns_then; [apply returns_print|].
  apply returns_bind.
  { match goal with |- context [for_each ?f ?l] =>
      destruct (@for_each_returns _ _ f l) as (cat_data & Hs) end.
    - intros ic Hic. unfold cat_row.
      destruct (data a) as [|r rows] eqn:Ed; [destruct Hic|].
      cbn [List.length Nat.eqb]. now eexists.
    - eapply returns_lift. exact Hs. }
  intros cat_data _.
  apply returns_then; [apply print_table_returns|].
  apply returns_bind; [apply returns_gets|]. intros num Hn. apply yields_gets in Hn. subst num.
  apply returns_then; [|apply returns_ret].
  destruct (numeric_columns a) as [|c cs] eqn:En; [apply returns_ret|].
  match goal with |- context [for_each ?f ?l] =>
    destruct (@for_each_returns _ _ f l) as (stats & Hs) end.
  { intros [k members] Hin. unfold cat_stat. cbn [fst snd].
    apply fold_result_returns. intros stat col Hcol. apply in_firstn in Hcol.
    unfold set_mean_count.
    destruct (@nums_of_returns col members (Hnum col Hcol) (Hmembers k members Hin))
      as (vals & ->). cbn. now eexists. }
  apply returns_bind; [eapply returns_lift; exact Hs|].
  intros; apply print_table_returns.
Qed.

Lemma filtered_are_headers (names : list string) :
  incl (filter (fun c => Py.mem c (headers a)) names) (headers a).
Proof. intros c Hc. apply filter_In in Hc. now apply mem_In. Qed.

Lemma compare_groups_analysis_returns : returns compare_groups_analysis.
Proof.
  unfold compare_groups_analysis.
  apply returns_then; [apply returns_print|].
  apply returns_bind; [apply returns_gets|]. intros hs Hh. apply yields_gets in Hh. subst hs.
  apply returns_bind; [apply returns_gets|]. intros rows Hr. apply yields_gets in Hr. subst rows.
  cbv zeta.
  apply returns_then.
  { destruct (Py.mem "Page Category" (headers a)) eqn:Em; [|apply returns_ret].
    apply mem_In in Em. destruct (@groups_by_header "Page Category" Em) as [Hg Hmembers].
    apply returns_bind; [eapply returns_lift; exact Hg|].
    intros g Hy. apply yields_lift in Hy. rewrite Hg in Hy. injection Hy as <-.
    apply returns_for. intros col Hcol. apply in_firstn in Hcol.
    apply filtered_are_headers in Hcol.
    match goal with |- context [cat_totals col ?g] =>
      destruct (@for_each_returns _ _
                  (fun cd => and_then (total_of col (snd cd)) (fun t => Ok (fst cd, t))) g)
        as (tots & Hs) end.
    { intros [k members] Hin. cbn [fst snd].
      destruct (@total_of_returns col members Hcol (Hmembers k members Hin)) as (t & ->).
      cbn. now eexists. }
    apply returns_bind; [eapply returns_lift; exact Hs|].
    intros; apply print_table_returns. }
  destruct (Py.mem "Facebook_Id" (headers a)) eqn:Em; cbn [andb]; [|apply returns_ret].
  destruct (Py.mem "Likes" (headers a)); [|apply returns_ret].
  apply mem_In in Em. destruct (@groups_by_header "Facebook_Id" Em) as [Hg Hmembers].
  apply returns_bind; [eapply returns_lift; exact Hg|].
  intros g Hy. apply yields_lift in Hy. rewrite Hg in Hy. injection Hy as <-.
  pose proof (filtered_are_headers ["Likes"; "Comments"; "Shares"]%string) as Hmetrics.
  destruct (filter (fun c => Py.mem c (headers a)) ["Likes"; "Comments"; "Shares"]%string)
    as [|m ms]; [apply returns_ret|].
  match goal with |- context [page_totals ?ms ?g] =>
    destruct (@for_each_returns _ _
                (fun pd =>
                   and_then (for_each (fun m => and_then (total_of m (snd pd))
                                                  (fun t => Ok (m, t))) ms)
                            (fun tots => Ok (Build_page_total (fst pd) tots
                                               (Py.sum (map snd tots))))) g)
      as (pages & Hs) end.
  { intros [k members] Hin. cbn [fst snd].
    match goal with |- context [for_each ?f ?l] =>
      destruct (@for_each_returns _ _ f l) as (tots & ->) end.
    - intros col Hcol.
      destruct (@total_of_returns col members (Hmetrics col Hcol) (Hmembers k members Hin))
        as (t & ->). cbn. now eexists.
    - cbn. now eexists. }
  apply returns_bind; [eapply returns_lift; exact Hs|].
  intros; apply print_table_returns.
Qed.

(** The steps of a run that follow the load. *)
Lemma reports_return :
  returns
    (Run.print (Line "[TIMER] load_and_clean_data" []) ;;
     compute_overall_statistics ;;
     Run.print (Line "[TIMER] compute_overall_statistics" []) ;;
     analyze_by_facebook_id ;;
     Run.print (Line "[TIMER] analyze_by_facebook_id" []) ;;
     analyze_by_facebook_and_post_id ;;
     Run.print (Line "[TIMER] analyze_by_facebook_and_post_id" []) ;;
     analyze_by_page_category ;;
     Run.print (Line "[TIMER] analyze_by_page_category" []) ;;
     compare_groups_analysis ;;
     Run.print (Line "[TIMER] compare_groups_analysis" []) ;;
     Run.print (Line "[TIMER] TOTAL; === PURE PYTHON FB POSTS ANALYSIS END ===" []))%py.
Proof.
  apply returns_then; [apply returns_print|].
  apply returns_then; [apply compute_overall_statistics_returns|].
  apply returns_then; [apply returns_print|].
  apply returns_then; [apply analyze_by_facebook_id_returns|].
  apply returns_then; [apply returns_print|].
  apply returns_then; [apply analyze_by_facebook_and_post_id_returns|].
  apply returns_then; [apply returns_print|].
  apply returns_then; [apply analyze_by_page_category_returns|].
  apply returns_then; [apply returns_print|].
  apply returns_then; [apply compare_groups_analysis_returns|].
  apply returns_then; apply returns_print.
Qed.

End PostsReturns.

(** ** The Facebook-posts analyzer: runs *)

Section PostsRuns.
Context {L : PyLib}.
Import FbPostsPython.

Lemma posts_run_ends :
  Described.ends_with
    [Line "[TIMER] TOTAL; === PURE PYTHON FB POSTS ANALYSIS END ===" []]
    run_complete_analysis.
Proof.
  unfold run_complete_analysis.
  do 13 (apply ends_with_bind; intros ?).
  intros w0 u _. exists (Run.stdout w0). reflexivity.
Qed.

(** X8.  The run of the Facebook-posts analyzer catches nothing, and the
    only step of it that can fail on a file that is read is the load: when
    the file is read and has a first row, the run returns normally and the
    last line it prints is the one that ends the analysis, whatever the rows
    and the column names are. *)
Theorem posts_run_completes (path contents : string) (fieldnames : list string)
    (lines : list (list string)) :
  read_text path = Ok contents ->
  csv_reader Py.comma contents = (fieldnames :: lines, None) ->
  let run := run_complete_analysis (Run.Build_world (__init__ path) []) in
  fst run = Ok tt
  /\ exists out,
       Run.stdout (snd run)
       = (out ++ [Line "[TIMER] TOTAL; === PURE PYTHON FB POSTS ANALYSIS END ===" []])%list.
Proof.
  intros Hread Hcsv run. subst run.
  assert (Hfst : fst (run_complete_analysis (Run.Build_world (__init__ path) [])) = Ok tt).
  { unfold run_complete_analysis.
    unfold Run.bind at 1. unfold Run.print at 1. cbn [Run.self Run.stdout app].
    unfold Run.bind at 1.
    destruct (@posts_loaded_table L path contents fieldnames lines
                [Line "=== PURE PYTHON FB POSTS ANALYSIS START ===" []] Hread Hcsv)
      as ((rows & Hrows) & Htable & _).
    destruct (load_and_clean_data _) as [[rows'|e] w1]; cbn [fst snd] in *; [|discriminate].
    destruct (@reports_return L (Run.self w1) Htable w1 eq_refl) as ([] & Hfst & _).
    exact Hfst. }
  split; [exact Hfst|]. exact (@posts_run_ends _ _ Hfst).
Qed.

End PostsRuns.

(** ** The Facebook-posts analyzer: the ranking of the categories *)

Section PostsCategories.
Context {L : PyLib}.
Import FbPostsPython.

Lemma enumerate1_fst (A : Type) (l : list A) :
  map fst (enumerate1 l) = seq 1 (List.length l).
Proof.
  unfold enumerate1. apply map_fst_combine. now rewrite length_seq.
Qed.

Lemma enumerate1_snd (A : Type) (l : list A) : map snd (enumerate1 l) = l.
Proof.
  unfold enumerate1. generalize 1.
  induction l as [|x l IH]; intros k; cbn; [reflexivity|]. now rewrite IH.
Qed.

Lemma cat_rows_ok (n : nat) (l : list (nat * (option string * nat))) :
  n <> 0 ->
  for_each (cat_row n) l
  = Ok (map (fun ic =>
               [("Rank"%string, Number (INR (fst ic)));
                ("Category"%string, Text (str_id (fst (snd ic))));
                ("Posts"%string, Text (str_nat (snd (snd ic))));
                ("Percentage"%string, Number (INR (snd (snd ic)) / INR n * 100)%R)]) l).
Proof.
  intros Hn. apply for_each_ok. intros ic _. unfold cat_row.
  destruct (Nat.eqb_spec n 0); [contradiction|reflexivity].
Qed.


End PostsCategories.

(** ** Sorting by a decreasing number *)

Section SortedDescR.
Variables (A : Type) (key : A -> R).
Local Open Scope R_scope.

Lemma insert_desc_R_perm (x : A) (l : list A) :
  Permutation (Py.insert_desc_R key x l) (x :: l).
Proof.
  induction l as [|y l IH]; cbn; [reflexivity|].
  destruct (Rle_dec (key y) (key x)); [reflexivity|].
  rewrite IH. apply perm_swap.
Qed.

Lemma sorted_desc_R_perm (l : list A) : Permutation (Py.sorted_desc_R key l) l.
Proof.
  unfold Py.sorted_desc_R. induction l as [|x l IH]; cbn; [reflexivity|].
  rewrite insert_desc_R_perm. now constructor.
Qed.

Lemma insert_desc_R_sorted (x : A) (l : list A) :
  Described.non_increasing_R key l ->
  Described.non_increasing_R key (Py.insert_desc_R key x l).
Proof.
  unfold Described.non_increasing_R.
  induction 1 as [|y l Hs IH Hall]; cbn.
  - constructor; constructor.
  - destruct (Rle_dec (key y) (key x)) as [Hle|Hgt].
    + constructor; [now constructor|].
      constructor; [exact Hle|].
      eapply Forall_impl; [|exact Hall]. cbn. intros z Hz. lra.
    + constructor; [exact IH|].
      apply (Permutation_Forall (Permutation_sym (insert_desc_R_perm x l))).
      constructor; [lra|exact Hall].
Qed.

Lemma sorted_desc_R_sorted (l : list A) :
  Described.non_increasing_R key (Py.sorted_desc_R key l).
Proof.
  unfold Py.sorted_desc_R. induction l as [|x l IH]; cbn.
  - constructor.
  - now apply insert_desc_R_sorted.
Qed.

End SortedDescR.

(** ** The Facebook-posts analyzer: the pages with the most engagement *)

Section PostsPages.
Context {L : PyLib}.
Variable a : FbPostsPython.analyzer.
Import FbPostsPython.
Hypothesis Htable : Described.posts_table a.
Local Open Scope py_scope.

Lemma total_of_described (m : string) (members : list row) :
  In m (headers a) -> incl members (data a) ->
  total_of m members = Ok (Described.column_total m members).
Proof.
  intros Hm Hmembers. unfold total_of, Described.column_total.
  rewrite (@values_of_header a Htable m members Hm Hmembers). cbn [and_then].
  now rewrite map_map.
Qed.

Lemma page_totals_described (metrics : list string) (g : groups) :
  incl metrics (headers a) ->
  (forall k members, In (k, members) g -> incl members (data a)) ->
  page_totals metrics g = Ok (map (Described.totals_of_page metrics) g).
Proof.
  intros Hmetrics Hg. unfold page_totals. apply for_each_ok.
  intros [k members] Hin. cbn [fst snd].
  rewrite (@for_each_ok _ _ _ (fun m => (m, Described.column_total m members))).
  - reflexivity.
  - intros m Hm.
    now rewrite (@total_of_described m members (Hmetrics m Hm) (Hg k members Hin)).
Qed.

Lemma category_rankings_return :
  Described.returns_from a
    (if Py.mem "Page Category" (headers a)
     then
       cat_groups <- Run.lift (group_rows_by "Page Category" (data a) []) ;;
       Run.for_ (firstn 3 (filter (fun c => Py.mem c (headers a)) engagement_columns))
         (fun col =>
            tots <- Run.lift (cat_totals col cat_groups) ;;
            _print_table (map (ranking_row col) (ranked_categories tots))
              (col ++ " Rankings:"))
     else Run.ret tt).
Proof.
  destruct (Py.mem "Page Category" (headers a)) eqn:Em; [|apply returns_ret].
  apply mem_In in Em.
  destruct (@groups_by_header a Htable "Page Category"%string Em) as [Hg Hmembers].
  apply returns_bind; [eapply returns_lift; exact Hg|].
  intros g Hy. apply yields_lift in Hy. rewrite Hg in Hy. injection Hy as <-.
  apply returns_for. intros col Hcol. apply in_firstn in Hcol.
  apply filter_In in Hcol. destruct Hcol as [_ Hcol]. apply mem_In in Hcol.
  match goal with |- context [cat_totals col ?g] =>
    destruct (@for_each_returns _ _
                (fun cd => and_then (total_of col (snd cd)) (fun t => Ok (fst cd, t))) g)
      as (tots & Hs) end.
  { intros [k members] Hin. cbn [fst snd].
    rewrite (@total_of_described col members Hcol (Hmembers k members Hin)).
    cbn. now eexists. }
  apply returns_bind; [eapply returns_lift; exact Hs|].
  intros. apply (@print_table_returns a).
Qed.

Lemma firstn_enumerate1 (A : Type) (l : list A) :
  map fst (enumerate1 l) = seq 1 (List.length l) /\ map snd (enumerate1 l) = l.
Proof. split; [apply enumerate1_fst|apply enumerate1_snd]. Qed.

Lemma total_is_sum_of_three (hs : list string) (pd : option string * list row) :
  Py.mem "Likes" hs = true ->
  let p := Described.totals_of_page
             (filter (fun c => Py.mem c hs) ["Likes"; "Comments"; "Shares"]%string) pd in
  total_engagement p
  = (total_or_0 "Likes" (totals p) + total_or_0 "Comments" (totals p)
     + total_or_0 "Shares" (totals p))%R.
Proof.
  intros HL p. subst p. cbn [filter]. rewrite HL.
  destruct (Py.mem "Comments" hs), (Py.mem "Shares" hs);
    unfold Described.totals_of_page, total_or_0, Py.sum;
    cbn [map fst snd total_engagement totals fold_left Py.lookup String.eqb Ascii.eqb
         Bool.eqb andb];
    lra.
Qed.

(** X11.  On a well-formed table with posts and the columns "Facebook_Id"
    and "Likes", the last table [compare_groups_analysis] prints lists the
    pages by total engagement: the posts are split by page, the total of a
    page is the sum of its totals of likes, comments and shares (a column
    that is missing and a value that is not a number count for 0), and the
    table holds, ranked from 1, the (up to) ten pages with the greatest
    totals, in non-increasing order of total. *)
Theorem pages_are_ranked (out : list event) :
  In "Facebook_Id"%string (headers a) ->
  In "Likes"%string (headers a) ->
  data a <> [] ->
  let r := compare_groups_analysis (Run.Build_world a out) in
  let metrics :=
    filter (fun c => Py.mem c (headers a)) ["Likes"; "Comments"; "Shares"]%string in
  exists g before rest,
    let pages := map (Described.totals_of_page metrics) g in
    Described.partition_by
      (fun row k => Described.value_of "Facebook_Id" row = k) g (data a)
    /\ fst r = Ok tt
    /\ Run.stdout (snd r)
       = (before ++ [Table "TOP FACEBOOK PAGES BY TOTAL ENGAGEMENT"
                       (map page_row (ranked_pages pages))])%list
    /\ map fst (ranked_pages pages) = seq 1 (Nat.min 10 (List.length g))
    /\ Permutation (map snd (ranked_pages pages) ++ rest) pages
    /\ Described.non_increasing_R total_engagement (map snd (ranked_pages pages) ++ rest)
    /\ forall p, In p pages ->
         total_engagement p
         = (total_or_0 "Likes" (totals p) + total_or_0 "Comments" (totals p)
            + total_or_0 "Shares" (totals p))%R.
Proof.
  intros Hfb Hlikes Hdata r metrics.
  destruct (@groups_by_header a Htable "Facebook_Id"%string Hfb) as [Hg Hmembers].
  set (g := Described.fill option_eqb (Described.value_of "Facebook_Id"%string)
              (data a) []) in *.
  assert (Hpart : Described.partition_by
            (fun row k => Described.value_of "Facebook_Id"%string row = k) g (data a))
    by (apply fill_partition; [apply option_eqb_eq|reflexivity]).
  assert (Hgne : g <> []).
  { intros E. destruct Hpart as (_ & _ & _ & Hsum). rewrite E in Hsum. cbn in Hsum.
    symmetry in Hsum. apply length_zero_iff_nil in Hsum. contradiction. }
  assert (HL : Py.mem "Likes" (headers a) = true) by now apply mem_In.
  assert (Hthree : forall p, In p (map (Described.totals_of_page metrics) g) ->
            total_engagement p
            = (total_or_0 "Likes" (totals p) + total_or_0 "Comments" (totals p)
               + total_or_0 "Shares" (totals p))%R).
  { intros p Hp. apply in_map_iff in Hp. destruct Hp as (pd & <- & _).
    apply (@total_is_sum_of_three (headers a) pd HL). }
  assert (Hmetrics : incl metrics (headers a)).
  { intros c Hc. apply filter_In in Hc. now apply mem_In. }
  assert (Hmne : metrics <> []).
  { subst metrics. cbn [filter]. rewrite HL. discriminate. }
  set (pages := map (Described.totals_of_page metrics) g) in *.
  set (sorted := Py.sorted_desc_R total_engagement pages).
  assert (Hlen : List.length sorted = List.length g).
  { unfold sorted. rewrite (Permutation_length (sorted_desc_R_perm _ _)).
    unfold pages. apply length_map. }
  assert (Hranked : map snd (ranked_pages pages) = firstn 10 sorted)
    by (unfold ranked_pages; apply enumerate1_snd).
  assert (Hsorted : (map snd (ranked_pages pages) ++ skipn 10 sorted)%list = sorted)
    by (rewrite Hranked; apply firstn_skipn).
  assert (Hrne : map page_row (ranked_pages pages) <> []).
  { intros E. apply map_eq_nil in E.
    assert (E' : firstn 10 sorted = []) by (rewrite <- Hranked, E; reflexivity).
    destruct sorted; [|discriminate]. destruct g; [contradiction|discriminate]. }
  assert (Hrun : exists before,
            compare_groups_analysis (Run.Build_world a out)
            = (Ok tt,
               Run.Build_world a
                 (before ++ [Table "TOP FACEBOOK PAGES BY TOTAL ENGAGEMENT"
                               (map page_row (ranked_pages pages))]))).
  { unfold compare_groups_analysis.
    unfold Run.bind at 1. unfold Run.print at 1. cbn [Run.self Run.stdout].
    unfold Run.bind at 1. unfold Run.gets at 1. cbn [Run.self Run.stdout].
    unfold Run.bind at 1. unfold Run.gets at 1. cbn [Run.self Run.stdout].
    unfold Run.bind at 1.
    destruct (category_rankings_return
                (Run.Build_world a (out ++ [Line "PART 2D: COMPARING GROUPS" []])) eq_refl)
      as ([] & Hfst & Hself).
    match goal with |- context [match ?m ?w with _ => _ end] =>
      destruct (m w) as [[[]|e] w1] end; cbn [fst snd] in *; [|discriminate].
    rewrite HL, (proj2 (mem_In _ _) Hfb). cbn [andb].
    unfold Run.bind at 1. unfold Run.lift at 1. rewrite Hg.
    fold metrics.
    assert (Hmatch : forall (X : Type) (x y : X),
              match metrics with [] => x | _ :: _ => y end = y)
      by (intros X x y; destruct metrics; [contradiction|reflexivity]).
    rewrite Hmatch.
    unfold Run.bind at 1. unfold Run.lift at 1.
    rewrite (@page_totals_described metrics g Hmetrics Hmembers).
    fold pages. unfold _print_table.
    exists (Run.stdout w1).
    destruct (map page_row (ranked_pages pages)); [contradiction|].
    unfold Run.print. now rewrite Hself. }
  destruct Hrun as (before & Hrun).
  exists g, before, (skipn 10 sorted). cbv zeta. fold pages.
  subst r. rewrite Hrun. cbn [fst snd Run.stdout].
  split; [exact Hpart|]. split; [reflexivity|]. split; [reflexivity|].
  split.
  { unfold ranked_pages. rewrite enumerate1_fst, length_firstn. fold sorted.
    now rewrite Hlen. }
  rewrite Hsorted.
  split; [apply sorted_desc_R_perm|]. split; [apply sorted_desc_R_sorted|exact Hthree].
Qed.


End PostsPages.

(** ** Dictionaries written as lists of items *)

Section Dicts.
Variable V : Type.

Lemma dict_set_keys (k : string) (v : V) (d : list (string * V)) :
  (In k (map fst d) /\ map fst (Py.dict_set k v d) = map fst d)
  \/ (~ In k (map fst d) /\ map fst (Py.dict_set k v d) = (map fst d ++ [k])%list).
Proof.
  induction d as [|[k' v'] d IH]; cbn.
  - right. split; [tauto|reflexivity].
  - destruct (String.eqb_spec k' k) as [->|Hne]; cbn.
    + left. split; [now left|reflexivity].
    + destruct IH as [[Hin Heq]|[Hnin Heq]]; rewrite Heq.
      * left. split; [now right|reflexivity].
      * right. split; [|reflexivity]. intros [E|Hin]; [congruence|contradiction].
Qed.

Lemma dict_set_in_keys (k k' : string) (v : V) (d : list (string * V)) :
  In k' (map fst (Py.dict_set k v d)) <-> k' = k \/ In k' (map fst d).
Proof.
  destruct (dict_set_keys k v d) as [[Hin ->]|[Hnin ->]].
  - split; [now right|]. intros [->|H]; assumption.
  - rewrite in_app_iff. cbn. split; [intros [H|[->|[]]]|intros [->|H]]; auto.
Qed.

Lemma dict_set_nodup (k : string) (v : V) (d : list (string * V)) :
  NoDup (map fst d) -> NoDup (map fst (Py.dict_set k v d)).
Proof.
  intros Hnd. destruct (dict_set_keys k v d) as [[Hin ->]|[Hnin ->]]; [exact Hnd|].
  apply NoDup_app; [exact Hnd|repeat constructor; intros []|].
  intros x Hx [->|[]]. contradiction.
Qed.

Lemma lookup_not_key (k : string) (d : list (string * V)) :
  ~ In k (map fst d) -> Py.lookup k d = None.
Proof.
  induction d as [|[k' v'] d IH]; cbn; [reflexivity|].
  intros H. rewrite IH by tauto.
  destruct (String.eqb_spec k' k); [|reflexivity]. subst. tauto.
Qed.

Lemma lookup_dict_set_same (k : string) (v : V) (d : list (string * V)) :
  NoDup (map fst d) -> Py.lookup k (Py.dict_set k v d) = Some v.
Proof.
  induction d as [|[k' v'] d IH]; cbn; intros Hnd.
  - now rewrite String.eqb_refl.
  - inversion Hnd as [|? ? Hnin Hnd']; subst.
    destruct (String.eqb_spec k' k) as [->|Hne]; cbn.
    + rewrite (lookup_not_key _ _ Hnin). now rewrite String.eqb_refl.
    + rewrite (IH Hnd'). reflexivity.
Qed.

Lemma lookup_dict_set_other (k k' : string) (v : V) (d : list (string * V)) :
  k <> k' -> Py.lookup k' (Py.dict_set k v d) = Py.lookup k' d.
Proof.
  intros Hne. induction d as [|[k0 v0] d IH]; cbn.
  - destruct (String.eqb_spec k k'); [contradiction|reflexivity].
  - destruct (String.eqb_spec k0 k) as [->|Hne0]; cbn.
    + destruct (String.eqb_spec k k'); [contradiction|reflexivity].
    + now rewrite IH.
Qed.

Lemma dict_of_keys (items : list (string * V)) :
  NoDup (map fst (Py.dict_of items))
  /\ forall k, In k (map fst (Py.dict_of items)) <-> In k (map fst items).
Proof.
  unfold Py.dict_of.
  assert (H : forall (items d : list (string * V)), NoDup (map fst d) ->
            NoDup (map fst (fold_left (fun d kv => Py.dict_set (fst kv) (snd kv) d) items d))
            /\ forall k, In k (map fst (fold_left (fun d kv => Py.dict_set (fst kv) (snd kv) d)
                                          items d))
                         <-> In k (map fst d) \/ In k (map fst items)).
  { clear items. induction items as [|[k v] items IH]; intros d Hnd; cbn.
    - split; [exact Hnd|]. intros k. tauto.
    - destruct (IH (Py.dict_set k v d) (dict_set_nodup k v d Hnd)) as [H1 H2].
      split; [exact H1|]. intros k'. rewrite H2, dict_set_in_keys.
      intuition (subst; auto). }
  destruct (H items [] (NoDup_nil _)) as [H1 H2].
  split; [exact H1|]. intros k. rewrite H2. cbn. tauto.
Qed.

End Dicts.

(** ** The Twitter analyzer: loading *)

Section TweetsLoad.
Context {L : PyLib}.
Import TwPostsPython.

Lemma map_fst_combine_firstn (A B : Type) (l : list A) (l' : list B) :
  map fst (combine l l') = firstn (List.length l') l.
Proof.
  revert l'. induction l as [|x l IH]; intros [|y l']; cbn; try reflexivity.
  now rewrite IH.
Qed.

Lemma fold_dict_set_keys (V : Type) (v : V) (ks : list string) :
  forall d : list (string * V),
    NoDup (map fst d) ->
    NoDup (map fst (fold_left (fun d k => Py.dict_set k v d) ks d))
    /\ forall k, In k (map fst (fold_left (fun d k => Py.dict_set k v d) ks d))
                 <-> In k (map fst d) \/ In k ks.
Proof.
  induction ks as [|k0 ks IH]; intros d Hnd; cbn.
  - split; [exact Hnd|]. intros k. tauto.
  - destruct (IH (Py.dict_set k0 v d) (dict_set_nodup k0 v d Hnd)) as [H1 H2].
    split; [exact H1|]. intros k. rewrite H2, dict_set_in_keys.
    intuition (subst; auto).
Qed.

(** A row of [csv.DictReader] has the field names for keys, each once. *)
Lemma dict_row_keys_tw (fieldnames fields : list string) :
  NoDup (map fst (dict_row fieldnames fields))
  /\ forall h, In h fieldnames <-> In h (map fst (dict_row fieldnames fields)).
Proof.
  unfold dict_row.
  destruct (dict_of_keys (combine fieldnames (map TStr fields))) as [Hnd Hkeys].
  destruct (@fold_dict_set_keys tcell TNone (skipn (List.length fields) fieldnames)
              _ Hnd) as [H1 H2].
  split; [exact H1|]. intros h. rewrite H2, Hkeys, map_fst_combine_firstn, length_map.
  rewrite <- (firstn_skipn (List.length fields) fieldnames) at 1.
  now rewrite in_app_iff.
Qed.

Lemma clean_row_keys (r : row) : map fst (clean_row r) = map fst r.
Proof. unfold clean_row. rewrite map_map. reflexivity. Qed.

Lemma cleaned_rows_keys (fieldnames : list string) (lines : list (list string)) :
  Forall (fun r => NoDup (map fst r) /\ forall h, In h fieldnames <-> In h (map fst r))
         (Described.tweets_cleaned fieldnames lines).
Proof.
  apply Forall_forall. intros r Hr. unfold Described.tweets_cleaned in Hr.
  apply in_map_iff in Hr. destruct Hr as (l & <- & _).
  rewrite clean_row_keys. apply dict_row_keys_tw.
Qed.

Lemma tuple_tcell_eqb_eq (t1 t2 : list tcell) :
  Py.tuple_eqb tcell_eqb t1 t2 = true <-> t1 = t2.
Proof. apply tuple_eqb_eq, tcell_eqb_eq. Qed.

Lemma unique_rows_spec (hs : list string) (rows : list row) :
  forall (seen : list (list tcell)) (kept : list row),
    (forall k, In k seen <-> In k (map (row_tuple hs) kept)) ->
    NoDup (map (row_tuple hs) kept) ->
    exists l,
      unique_rows hs rows seen kept = (kept ++ l)%list
      /\ Described.subsequence l rows
      /\ NoDup (map (row_tuple hs) (kept ++ l))
      /\ (forall r, In r rows -> In (row_tuple hs r) (map (row_tuple hs) (kept ++ l)))
      /\ (forall before r after,
            rows = (before ++ r :: after)%list ->
            ~ In (row_tuple hs r) (map (row_tuple hs) kept) ->
            ~ In (row_tuple hs r) (map (row_tuple hs) before) -> In r l).
Proof.
  induction rows as [|r rows IH]; intros seen kept Hseen Hnd; cbn [unique_rows].
  - exists []. rewrite app_nil_r. repeat split; try assumption; try constructor.
    + intros row [].
    + intros [|? ?] row after E; discriminate E.
  - cbv zeta. destruct (existsb (Py.tuple_eqb tcell_eqb (row_tuple hs r)) seen) eqn:Em.
    + apply (proj1 (@existsb_eqb_In _ _ tuple_tcell_eqb_eq _ _)), Hseen in Em.
      destruct (IH seen kept Hseen Hnd) as (l & -> & Hsub & Hnd' & Hall & Hfirst).
      exists l. repeat split; try assumption.
      * now constructor.
      * intros row [<-|Hrow]; [|now apply Hall].
        rewrite map_app. apply in_or_app. now left.
      * intros [|b before] row after E Hk Hb; injection E as <- E.
        -- contradiction.
        -- apply (Hfirst before row after E Hk). intros Hin. apply Hb. now right.
    + assert (Hnew : ~ In (row_tuple hs r) (map (row_tuple hs) kept)).
      { intros Hin. apply Hseen, (proj2 (@existsb_eqb_In _ _ tuple_tcell_eqb_eq _ _)) in Hin.
        congruence. }
      destruct (IH (row_tuple hs r :: seen) (kept ++ [r])%list)
        as (l & -> & Hsub & Hnd' & Hall & Hfirst).
      * intros k. rewrite map_app, in_app_iff. cbn. rewrite Hseen. tauto.
      * rewrite map_app. cbn.
        apply (Permutation_NoDup (l := row_tuple hs r :: map (row_tuple hs) kept));
          [apply Permutation_cons_append|now constructor].
      * exists (r :: l). rewrite <- app_assoc in *. cbn [app] in *.
        repeat split; try assumption.
        -- now constructor.
        -- intros row [<-|Hrow]; [|now apply Hall].
           rewrite map_app. apply in_or_app. right. now left.
        -- intros [|b before] row after E Hk Hb; injection E as <- E.
           ++ now left.
           ++ right. apply (Hfirst before row after E).
              ** rewrite map_app, in_app_iff. cbn. intros [Hin|[Hin|[]]]; [contradiction|].
                 apply Hb. now left.
              ** intros Hin. apply Hb. now right.
Qed.

Lemma unique_rows_first_by_key (hs : list string) (rows : list row) :
  Described.first_by_key (row_tuple hs) (unique_rows hs rows [] []) rows.
Proof.
  destruct (@unique_rows_spec hs rows [] []) as (l & -> & Hsub & Hnd & Hall & Hfirst).
  - intros k. cbn. tauto.
  - constructor.
  - cbn [app] in *. unfold Described.first_by_key. repeat split; try assumption.
    intros before r after E Hb. apply (Hfirst before r after E); [|exact Hb].
    intros [].
Qed.

Lemma dict_get_get (col : string) (r : row) :
  In col (map fst r) -> Py.dict_get col r = Ok (get col r).
Proof.
  intros H. destruct (lookup_key col r H) as (v & Hv).
  unfold Py.dict_get, get. now rewrite Hv.
Qed.

Lemma column_of_tweets (col : string) (rows : list row) :
  Forall (fun r => In col (map fst r)) rows ->
  for_each (fun r => Py.dict_get col r) rows = Ok (map (get col) rows).
Proof.
  intros H. apply for_each_ok. intros r Hr. rewrite Forall_forall in H.
  now apply dict_get_get, H.
Qed.

Lemma is_numeric_tweet_column (col : string) (rows : list row) :
  Forall (fun r => In col (map fst r)) rows ->
  is_numeric_column col rows = Ok (Described.numeric_tweet_column rows col).
Proof.
  intros H. unfold is_numeric_column.
  rewrite (@column_of_tweets col (firstn 100 rows) (Forall_firstn 100 H)).
  cbn [and_then]. f_equal.
  unfold Described.numeric_tweet_column, Described.tweet_samples.
  destruct (filter truthy (map (get col) (firstn 100 rows))) as [|v vs]; [reflexivity|].
  destruct (Nat.ltb_spec (4 * List.length (v :: vs))
              (5 * List.length (filter _is_num (v :: vs))));
    symmetry; [apply Nat.ltb_lt|apply Nat.ltb_ge]; lia.
Qed.

(** The loop of [_identify_column_types] over the headers [hs]. *)
Lemma tweets_classify_loop (P : string -> bool) (hs : list string) :
  forall (a : analyzer) (out : list event),
    (forall h, In h hs -> is_numeric_column h (data a) = Ok (P h)) ->
    Run.for_ hs (fun col =>
      Run.bind (Run.gets data) (fun rows =>
      Run.bind (Run.lift (is_numeric_column col rows)) (fun numeric =>
        Run.modify (fun a =>
          if numeric
          then Build_analyzer (data a) (headers a)
                 (numeric_columns a ++ [col]) (text_columns a)
          else Build_analyzer (data a) (headers a)
                 (numeric_columns a) (text_columns a ++ [col])))))
      (Run.Build_world a out)
    = (Ok tt,
       Run.Build_world
         (Build_analyzer (data a) (headers a)
            (numeric_columns a ++ filter P hs)
            (text_columns a ++ filter (fun h => negb (P h)) hs))
         out).
Proof.
  induction hs as [|h hs IH]; intros a out H.
  - cbn. rewrite !app_nil_r. now destruct a.
  - cbn [Run.for_]. unfold Run.bind at 1. unfold Run.bind at 1.
    unfold Run.gets at 1. cbn [Run.self Run.stdout].
    unfold Run.bind at 1. unfold Run.lift at 1. rewrite (H h (or_introl eq_refl)).
    unfold Run.modify at 1. cbn [Run.self Run.stdout].
    rewrite IH.
    + cbn [filter]. destruct (P h);
        cbn [negb data headers numeric_columns text_columns];
        rewrite <- ?app_assoc; reflexivity.
    + intros h' Hh'. destruct (P h); cbn [data]; apply H; now right.
Qed.

Lemma identify_column_types_ok (a : analyzer) (out : list event) :
  (forall h r, In h (headers a) -> In r (data a) -> In h (map fst r)) ->
  _identify_column_types (Run.Build_world a out)
  = (Ok tt,
     Run.Build_world
       (Build_analyzer (data a) (headers a)
          (filter (Described.numeric_tweet_column (data a)) (headers a))
          (filter (fun h => negb (Described.numeric_tweet_column (data a) h)) (headers a)))
       out).
Proof.
  intros Hkeys. unfold _identify_column_types.
  unfold Run.bind at 1. unfold Run.modify at 1. cbn [Run.self Run.stdout].
  unfold Run.bind at 1. unfold Run.gets at 1. cbn [Run.self Run.stdout headers].
  rewrite (@tweets_classify_loop (Described.numeric_tweet_column (data a)) (headers a)).
  - reflexivity.
  - intros h Hh. cbn [data]. apply is_numeric_tweet_column.
    apply Forall_forall. intros r Hr. now apply Hkeys.
Qed.

Lemma lookup_in_keys (V : Type) (k : string) (v : V) (d : list (string * V)) :
  Py.lookup k d = Some v -> In k (map fst d).
Proof.
  intros H. destruct (in_dec string_dec k (map fst d)) as [Hin|Hnin]; [exact Hin|].
  rewrite (lookup_not_key _ _ Hnin) in H. discriminate.
Qed.

Lemma convert_value_keys (col : string) (r : row) :
  map fst (convert_value col r) = map fst r.
Proof.
  unfold convert_value. destruct (Py.lookup col r) as [v|] eqn:E; [|reflexivity].
  apply lookup_in_keys in E.
  destruct v; try reflexivity;
    match goal with |- context [Py.dict_set col ?x r] =>
      destruct (dict_set_keys col x r) as [[_ ->]|[Hnin _]];
        [reflexivity|contradiction]
    end.
Qed.

Lemma convert_value_same (col : string) (r : row) :
  NoDup (map fst r) -> Described.none_or_float (get col (convert_value col r)).
Proof.
  intros Hnd. unfold convert_value.
  destruct (Py.lookup col r) as [v|] eqn:E.
  - destruct v.
    + unfold get. now rewrite E.
    + unfold get. rewrite lookup_dict_set_same by exact Hnd.
      cbn. destruct (float_of_str s); exact I.
    + unfold get. rewrite lookup_dict_set_same by exact Hnd. exact I.
  - unfold get. now rewrite E.
Qed.

Lemma convert_value_other (col col' : string) (r : row) :
  col <> col' -> get col' (convert_value col r) = get col' r.
Proof.
  intros Hne. unfold convert_value.
  destruct (Py.lookup col r) as [[| |]|]; try reflexivity;
    unfold get; now rewrite lookup_dict_set_other.
Qed.

Lemma convert_value_keeps_float (col col' : string) (r : row) :
  NoDup (map fst r) ->
  Described.none_or_float (get col' r) ->
  Described.none_or_float (get col' (convert_value col r)).
Proof.
  intros Hnd H. destruct (string_dec col col') as [->|Hne].
  - now apply convert_value_same.
  - now rewrite convert_value_other.
Qed.

(** The conversion of lines 34-41 on one row: the keys stay, the numeric
    columns hold numbers or [None], the other columns are not touched. *)
Lemma convert_row_spec (num : list string) :
  forall r : row,
    NoDup (map fst r) ->
    map fst (convert_row num r) = map fst r
    /\ (forall col, In col num -> Described.none_or_float (get col (convert_row num r)))
    /\ (forall col, Described.none_or_float (get col r) ->
                    Described.none_or_float (get col (convert_row num r)))
    /\ (forall col, ~ In col num -> get col (convert_row num r) = get col r).
Proof.
  unfold convert_row. induction num as [|c num IH]; intros r Hnd; cbn [fold_left].
  - repeat split; auto. intros col [].
  - assert (Hnd' : NoDup (map fst (convert_value c r)))
      by now rewrite convert_value_keys.
    destruct (IH (convert_value c r) Hnd') as (H1 & H2 & H3 & H4).
    split; [now rewrite H1, convert_value_keys|]. split; [|split].
    + intros col [<-|Hin]; [|now apply H2].
      apply H3. now apply convert_value_same.
    + intros col Hf. apply H3. now apply convert_value_keeps_float.
    + intros col Hnin. rewrite H4 by (intros Hin; apply Hnin; now right).
      apply convert_value_other. intros ->. apply Hnin. now left.
Qed.

Lemma dict_set_values (V : Type) (P : V -> Prop) (k : string) (v : V)
    (d : list (string * V)) :
  P v -> Forall P (map snd d) -> Forall P (map snd (Py.dict_set k v d)).
Proof.
  intros Hv. induction d as [|[k' v'] d IH]; cbn; intros H.
  - now constructor.
  - inversion H; subst. destruct (String.eqb k' k); cbn; constructor; auto.
Qed.

Lemma lookup_value (V : Type) (P : V -> Prop) (k : string) (v : V)
    (d : list (string * V)) :
  Forall P (map snd d) -> Py.lookup k d = Some v -> P v.
Proof.
  induction d as [|[k' v'] d IH]; cbn; [discriminate|].
  intros H. inversion H; subst.
  destruct (Py.lookup k d) as [v0|].
  - intros [= <-]. now apply IH.
  - destruct (String.eqb k' k); [intros [= <-]; assumption|discriminate].
Qed.

Lemma dict_row_values (fieldnames fields : list string) :
  Forall Described.not_a_number (map snd (dict_row fieldnames fields)).
Proof.
  unfold dict_row.
  assert (H1 : forall ks d, Forall Described.not_a_number (map snd d) ->
             Forall Described.not_a_number
               (map snd (fold_left (fun d k => Py.dict_set k TNone d) ks d))).
  { induction ks as [|k ks IH]; intros d Hd; cbn; [exact Hd|].
    apply IH, dict_set_values; [intros x; discriminate|exact Hd]. }
  apply H1. unfold Py.dict_of.
  assert (H2 : forall (items d : list (string * tcell)),
             Forall Described.not_a_number (map snd items) ->
             Forall Described.not_a_number (map snd d) ->
             Forall Described.not_a_number
               (map snd (fold_left (fun d kv => Py.dict_set (fst kv) (snd kv) d) items d))).
  { induction items as [|[k v] items IH]; intros d Hi Hd; cbn; [exact Hd|].
    inversion Hi; subst. apply IH; [assumption|]. now apply dict_set_values. }
  apply H2; [|constructor].
  apply Forall_forall. intros v Hv. apply in_map_iff in Hv.
  destruct Hv as ([k v'] & <- & Hin). apply in_combine_r in Hin.
  apply in_map_iff in Hin. destruct Hin as (s & <- & _). intros x. discriminate.
Qed.

Lemma cleaned_values (fieldnames : list string) (lines : list (list string))
    (r : row) (col : string) :
  In r (Described.tweets_cleaned fieldnames lines) -> Described.not_a_number (get col r).
Proof.
  intros Hr. unfold Described.tweets_cleaned in Hr. apply in_map_iff in Hr.
  destruct Hr as (l & <- & _). unfold get.
  destruct (Py.lookup col (clean_row (dict_row fieldnames l))) as [v|] eqn:E;
    [|intros x; discriminate].
  apply (@lookup_value _ Described.not_a_number col v _) in E; [exact E|].
  unfold clean_row. rewrite map_map. cbn [snd].
  rewrite <- (map_map snd clean). apply Forall_map.
  eapply Forall_impl; [|apply dict_row_values].
  intros v0 Hv0 x. destruct v0; cbn; try discriminate.
  - match goal with |- context [if ?b then _ else _] => destruct b end; discriminate.
  - exfalso. now apply (Hv0 x0).
Qed.

Lemma subsequence_in (A : Type) (l all : list A) (x : A) :
  Described.subsequence l all -> In x l -> In x all.
Proof.
  induction 1 as [|y l all _ IH|y l all _ IH]; cbn; [tauto| |].
  - intros [->|H]; [now left|right; now apply IH].
  - intros H. right. now apply IH.
Qed.

(** What [load_and_clean_data] does when the file is read without an
    exception and has a first row. *)
Lemma tweets_load_ok (path contents : string) (a0 : analyzer) (out0 : list event)
    (fieldnames : list string) (lines : list (list string)) :
  read_text path = Ok contents ->
  csv_reader Py.comma contents = (fieldnames :: lines, None) ->
  let kept := unique_rows fieldnames (Described.tweets_cleaned fieldnames lines) [] [] in
  let num := filter (Described.numeric_tweet_column kept) fieldnames in
  let txt := filter (fun h => negb (Described.numeric_tweet_column kept h)) fieldnames in
  let d := map (convert_row num) kept in
  load_and_clean_data path (Run.Build_world a0 out0)
  = (Ok d,
     Run.Build_world (Build_analyzer d fieldnames num txt)
       (out0 ++ [Line "LOADING AND CLEANING DATA" [];
                 Line "Dataset loaded: {} rows x {} columns; Nulls: {}; Numeric: {}; Text: {}"
                   ([str_nat (List.length d); str_nat (List.length fieldnames);
                     str_nat (nulls d)] ++ num ++ txt)])).
Proof.
  intros Hread Hcsv kept num txt d.
  assert (Hkeys : forall h r, In h fieldnames -> In r kept -> In h (map fst r)).
  { intros h r Hh Hr.
    destruct (unique_rows_first_by_key fieldnames
                (Described.tweets_cleaned fieldnames lines)) as (Hsub & _).
    fold kept in Hsub. pose proof (@subsequence_in _ _ _ r Hsub Hr) as Hin.
    pose proof (cleaned_rows_keys fieldnames lines) as Hall.
    rewrite Forall_forall in Hall. now apply (Hall r Hin). }
  unfold load_and_clean_data.
  unfold Run.bind at 1. unfold Run.print at 1. cbn [Run.self Run.stdout].
  unfold Run.bind at 1. unfold Run.lift at 1. rewrite Hread, Hcsv.
  unfold Run.bind at 1. unfold Run.modify at 1. cbn [Run.self Run.stdout].
  unfold Run.bind at 1. unfold Run.ret at 1.
  fold (Described.tweets_cleaned fieldnames lines).
  unfold Run.bind at 1. unfold Run.modify at 1.
  cbn [Run.self Run.stdout data headers numeric_columns text_columns].
  fold kept.
  unfold Run.bind at 1.
  rewrite identify_column_types_ok by (cbn [headers data]; exact Hkeys).
  cbn [data headers]. fold num. fold txt.
  unfold Run.bind, Run.gets, Run.modify, Run.print, Run.ret.
  cbn [Run.self Run.stdout data headers numeric_columns text_columns].
  fold d. rewrite <- !app_assoc. reflexivity.
Qed.

(** The analyzer object after a load that read the file is well formed. *)
Lemma tweets_loaded_table (fieldnames : list string) (lines : list (list string)) :
  let kept := unique_rows fieldnames (Described.tweets_cleaned fieldnames lines) [] [] in
  let num := filter (Described.numeric_tweet_column kept) fieldnames in
  let txt := filter (fun h => negb (Described.numeric_tweet_column kept h)) fieldnames in
  Described.tweets_table (Build_analyzer (map (convert_row num) kept) fieldnames num txt).
Proof.
  intros kept num txt.
  destruct (unique_rows_first_by_key fieldnames
              (Described.tweets_cleaned fieldnames lines)) as (Hsub & _).
  fold kept in Hsub.
  assert (Hkept : forall r, In r kept ->
            In r (Described.tweets_cleaned fieldnames lines)
            /\ NoDup (map fst r)
            /\ forall h, In h fieldnames <-> In h (map fst r)).
  { intros r Hr. pose proof (@subsequence_in _ _ _ r Hsub Hr) as Hin.
    pose proof (cleaned_rows_keys fieldnames lines) as Hall.
    rewrite Forall_forall in Hall. split; [exact Hin|]. now apply Hall. }
  unfold Described.tweets_table. cbn [data headers numeric_columns text_columns].
  split; [|split; [apply filter_incl_self|split; [apply filter_incl_self|split]]].
  - apply Forall_forall. intros r Hr. apply in_map_iff in Hr.
    destruct Hr as (r0 & <- & Hr0). destruct (Hkept r0 Hr0) as (_ & Hnd & Hk).
    destruct (@convert_row_spec num r0 Hnd) as (-> & _). auto.
  - intros r col Hr Hcol. apply in_map_iff in Hr.
    destruct Hr as (r0 & <- & Hr0). destruct (Hkept r0 Hr0) as (_ & Hnd & _).
    destruct (@convert_row_spec num r0 Hnd) as (_ & H2 & _). now apply H2.
  - intros r col x Hr Hcol. apply in_map_iff in Hr.
    destruct Hr as (r0 & <- & Hr0). destruct (Hkept r0 Hr0) as (Hin & Hnd & _).
    destruct (@convert_row_spec num r0 Hnd) as (_ & _ & _ & H4).
    rewrite H4.
    + apply (@cleaned_values fieldnames lines r0 col Hin).
    + intros Hn. unfold num, txt in *. apply filter_In in Hn, Hcol.
      destruct Hn as [_ Hn], Hcol as [_ Hcol]. rewrite Hn in Hcol. discriminate.
Qed.

(** X12.  When the file is read and has a first row, the Twitter loader
    puts every field name in exactly one of the two lists of columns: a
    column is numeric exactly when at least one of the first up-to-100 rows
    kept has a value in it that is neither a null marker nor empty and
    strictly more than 80% of these values are numbers for [float];
    otherwise it is a text column.  In the rows it stores, a numeric column
    holds a number or [None], and a text column never holds a number. *)
Theorem tweets_columns_by_sampling (path contents : string) (a0 : analyzer)
    (fieldnames : list string) (lines : list (list string)) :
  read_text path = Ok contents ->
  csv_reader Py.comma contents = (fieldnames :: lines, None) ->
  let kept := unique_rows fieldnames (Described.tweets_cleaned fieldnames lines) [] [] in
  let r := load_and_clean_data path (Run.Build_world a0 []) in
  let a := Run.self (snd r) in
  fst r = Ok (data a)
  /\ headers a = fieldnames
  /\ numeric_columns a = filter (Described.numeric_tweet_column kept) fieldnames
  /\ text_columns a
     = filter (fun h => negb (Described.numeric_tweet_column kept h)) fieldnames
  /\ Permutation (numeric_columns a ++ text_columns a) fieldnames
  /\ (forall h,
        Described.numeric_tweet_column kept h = true <->
        Described.tweet_samples kept h <> []
        /\ 80 * List.length (Described.tweet_samples kept h)
           < 100 * List.length (filter _is_num (Described.tweet_samples kept h)))
  /\ (forall row col, In row (data a) -> In col (numeric_columns a) ->
        Described.none_or_float (get col row))
  /\ (forall row col, In row (data a) -> In col (text_columns a) ->
        Described.not_a_number (get col row)).
Proof.
  intros Hread Hcsv kept r a. subst a r.
  rewrite (@tweets_load_ok path contents a0 [] fieldnames lines Hread Hcsv).
  fold kept. cbn [fst snd Run.self data headers numeric_columns text_columns].
  pose proof (tweets_loaded_table fieldnames lines) as Ht. cbv zeta in Ht. fold kept in Ht.
  destruct Ht as (_ & _ & _ & Hnum & Htxt).
  cbn [data headers numeric_columns text_columns] in Hnum, Htxt.
  split; [reflexivity|]. split; [reflexivity|]. split; [reflexivity|].
  split; [reflexivity|]. split; [apply filter_split_perm|].
  split; [|split; [exact Hnum|intros row col Hr Hc x; now apply Htxt]].
  intros h. unfold Described.numeric_tweet_column.
  destruct (Described.tweet_samples kept h) as [|v vs].
  - split; [discriminate|intros [H _]; contradiction].
  - rewrite Nat.ltb_lt. split; [intros H; split; [discriminate|exact H]|tauto].
Qed.

(** X13.  When the file is read and has a first row, the Twitter loader
    removes exactly the rows that repeat an earlier one: of the cleaned
    rows it keeps, in their order, the first for each tuple of the values in
    the columns of the first row; no two kept rows have the same values in
    all columns, every row read has the values of a kept row, and the rows
    stored are the kept rows with their numeric columns converted. *)
Theorem tweets_duplicates_removed (path contents : string) (a0 : analyzer)
    (fieldnames : list string) (lines : list (list string)) :
  read_text path = Ok contents ->
  csv_reader Py.comma contents = (fieldnames :: lines, None) ->
  let cleaned := Described.tweets_cleaned fieldnames lines in
  let a := Run.self (snd (load_and_clean_data path (Run.Build_world a0 []))) in
  exists kept,
    Described.first_by_key (row_tuple fieldnames) kept cleaned
    /\ data a = map (convert_row (numeric_columns a)) kept
    /\ List.length (data a) <= List.length cleaned.
Proof.
  intros Hread Hcsv cleaned a. subst a.
  rewrite (@tweets_load_ok path contents a0 [] fieldnames lines Hread Hcsv).
  cbn [fst snd Run.self data headers numeric_columns text_columns].
  exists (unique_rows fieldnames cleaned [] []).
  pose proof (unique_rows_first_by_key fieldnames cleaned) as Hfirst.
  split; [exact Hfirst|]. split; [reflexivity|].
  rewrite length_map. apply subsequence_length. apply Hfirst.
Qed.

End TweetsLoad.

(** ** The Twitter analyzer: engagement by group *)

Section TweetsEngagement.
Context {L : PyLib}.
Import TwPostsPython.

Lemma fill_one_key (K V : Type) (eqb : K -> K -> bool) (key : V -> K) (k : K)
    (rows : list V) :
  eqb k k = true ->
  (forall r, In r rows -> key r = k) ->
  forall members,
    Described.fill eqb key rows [(k, members)] = [(k, (members ++ rows)%list)].
Proof.
  intros Hkk. induction rows as [|r rows IH]; intros Hkey members; cbn.
  - now rewrite app_nil_r.
  - rewrite (Hkey r (or_introl eq_refl)), Hkk.
    unfold Described.fill in IH. rewrite IH by (intros r' Hr'; apply Hkey; now right).
    now rewrite <- app_assoc.
Qed.

(** X14.  [engagement_by_group] never fails and changes nothing in the
    analyzer object.  It splits the rows by their value in the grouping
    column and prints one table, which lists the ten largest groups (all of
    them when there are fewer) in non-increasing order of size.  A row that
    has no such column goes to the group "N/A": when the column is no column
    of the table at all, the table has the single row "N/A", with all the
    posts. *)
Theorem engagement_table (a : analyzer) (out : list event) (group_col : string)
    (metrics : list string) :
  let d := engagement_groups group_col (data a) in
  engagement_by_group group_col metrics (Run.Build_world a out)
  = (Ok tt,
     Run.Build_world a
       (out ++ [Line "Engagement by {}:" [group_col];
                Table [TStr group_col; TStr "Posts"; TStr "TotalEng"; TStr "AvgEng"]
                  (map (engagement_row metrics) (engagement_listed d))]))
  /\ Described.partition_by (fun r k => get_or_na group_col r = k) d (data a)
  /\ Described.largest (fun kv => List.length (snd kv)) 10 (engagement_listed d) d
  /\ ((forall r, In r (data a) -> Py.lookup group_col r = None) ->
      data a <> [] ->
      engagement_listed d = [(TStr "N/A", data a)]).
Proof.
  intros d. split; [|split; [|split]].
  - unfold engagement_by_group, Run.bind, Run.gets, Run.print, _table.
    cbn [Run.self Run.stdout]. fold d. now rewrite <- app_assoc.
  - apply (@fill_partition _ _ _ tcell_eqb_eq
             (fun r k => get_or_na group_col r = k) (get_or_na group_col) (data a)).
    reflexivity.
  - apply firstn_sorted_desc_largest.
  - intros Hnone Hne. subst d. unfold engagement_groups.
    destruct (data a) as [|r rows] eqn:Ed; [contradiction|].
    assert (Hkey : forall r', In r' (r :: rows) -> get_or_na group_col r' = TStr "N/A").
    { intros r' Hr'. unfold get_or_na. now rewrite (Hnone r' Hr'). }
    cbn [fold_left Py.append_to]. rewrite (Hkey r (or_introl eq_refl)).
    change (fold_left (fun d0 r0 => Py.append_to tcell_eqb (get_or_na group_col r0) r0 d0)
              rows [(TStr "N/A", [r])])
      with (Described.fill tcell_eqb (get_or_na group_col) rows [(TStr "N/A", [r])]).
    rewrite (@fill_one_key _ _ tcell_eqb (get_or_na group_col) (TStr "N/A") rows).
    + reflexivity.
    + now apply tcell_eqb_eq.
    + intros r' Hr'. apply Hkey. now right.
Qed.

End TweetsEngagement.

(** ** The Twitter analyzer: the reports return *)

Section TweetsReturns.
Context {L : PyLib}.
Variable a : TwPostsPython.analyzer.
Import TwPostsPython.
Hypothesis Htable : Described.tweets_table a.

Local Abbreviation returns := (@Described.returns_from analyzer event _ a).

Lemma header_is_key (col : string) (r : row) :
  In col (headers a) -> In r (data a) -> In col (map fst r).
Proof.
  intros Hcol Hr. destruct Htable as (Hkeys & _). rewrite Forall_forall in Hkeys.
  now apply (Hkeys r Hr).
Qed.

Lemma values_of_column (col : string) (rows : list row) :
  In col (headers a) -> incl rows (data a) ->
  for_each (fun r => Py.dict_get col r) rows = Ok (map (get col) rows).
Proof.
  intros Hcol Hrows. apply column_of_tweets. apply Forall_forall.
  intros r Hr. apply header_is_key; [exact Hcol|now apply Hrows].
Qed.

Lemma tw_nums_of_returns (col : string) (rows : list row) :
  In col (headers a) -> incl rows (data a) -> exists vals, nums_of col rows = Ok vals.
Proof.
  intros Hcol Hrows. unfold nums_of.
  rewrite (@values_of_column col rows Hcol Hrows). cbn. now eexists.
Qed.

Lemma tally_keys (x : tcell) (counts : list (tcell * nat)) (k : tcell) :
  In k (map fst (tally x counts)) -> k = x \/ In k (map fst counts).
Proof.
  induction counts as [|[y n] counts IH]; cbn.
  - intros [<-|[]]. now left.
  - destruct (tcell_eqb y x); cbn.
    + intros [<-|H]; right; [now left|now right].
    + intros [<-|H]; [right; now left|].
      destruct (IH H) as [->|H']; [now left|right; now right].
Qed.

Lemma tally_not_nil (x : tcell) (counts : list (tcell * nat)) : tally x counts <> [].
Proof.
  destruct counts as [|[y n] counts]; cbn; [discriminate|].
  destruct (tcell_eqb y x); discriminate.
Qed.

Lemma counter_keys (vals : list tcell) (k : tcell) :
  In k (map fst (Counter vals)) -> In k vals.
Proof.
  unfold Counter.
  assert (H : forall l c, In k (map fst (fold_left (fun counts x => tally x counts) l c)) ->
            In k l \/ In k (map fst c)).
  { induction l as [|x l IH]; intros c; cbn; [tauto|].
    intros Hin. destruct (IH _ Hin) as [H|H]; [left; now right|].
    destruct (tally_keys _ _ _ H) as [->|H']; [left; now left|now right]. }
  intros Hin. destruct (H vals [] Hin) as [H'|[]]. exact H'.
Qed.

Lemma counter_not_nil (vals : list tcell) : vals <> [] -> Counter vals <> [].
Proof.
  unfold Counter. destruct vals as [|v vals]; [contradiction|]. intros _.
  cbn [fold_left].
  assert (H : forall l c, c <> [] ->
            fold_left (fun counts x => tally x counts) l c <> []).
  { induction l as [|x l IH]; intros c Hc; cbn; [exact Hc|].
    apply IH, tally_not_nil. }
  apply H, tally_not_nil.
Qed.

Lemma most_common1_in (counts : list (tcell * nat)) (top : tcell * nat) :
  most_common1 counts = Ok top -> In top counts.
Proof.
  unfold most_common1. destruct counts as [|c rest]; [discriminate|].
  intros [= <-].
  assert (H : forall (l : list (tcell * nat)) (best : tcell * nat),
            In (fold_left (fun best kv => if snd best <? snd kv then kv else best)
                  l best) (best :: l)).
  { induction l as [|kv l IH]; intros best; cbn [fold_left]; [now left|].
    destruct (snd best <? snd kv).
    - destruct (IH kv) as [H|H]; [right; left; exact H|right; right; exact H].
    - destruct (IH best) as [H|H]; [left; exact H|right; right; exact H]. }
  apply H.
Qed.

Lemma text_row_returns (col : string) :
  In col (text_columns a) -> exists rows, text_row col (data a) = Ok rows.
Proof.
  intros Hcol. destruct Htable as (_ & _ & Htxt & _ & Hstr).
  unfold text_row.
  rewrite (@values_of_column col (data a) (Htxt col Hcol) (incl_refl _)).
  cbn [and_then]. cbv zeta.
  destruct (filter truthy (map (get col) (data a))) as [|v vals] eqn:Ev; [now eexists|].
  destruct (most_common1 (Counter (v :: vals))) as [top|e] eqn:Et.
  - cbn [and_then]. apply most_common1_in in Et.
    assert (Hin : In (fst top) (v :: vals))
      by (apply counter_keys, in_map_iff; exists top; auto).
    rewrite <- Ev in Hin. apply filter_In in Hin. destruct Hin as [Hin Htruthy].
    apply in_map_iff in Hin. destruct Hin as (r & Hr & Hin).
    destruct (fst top) as [|s|x] eqn:Etop.
    + discriminate.
    + cbn. now eexists.
    + exfalso. apply (Hstr r col x Hin Hcol). exact Hr.
  - exfalso. unfold most_common1 in Et.
    destruct (Counter (v :: vals)) eqn:Ec; [|discriminate].
    now apply (@counter_not_nil (v :: vals)).
Qed.

Lemma tw_statistics_returns : returns compute_overall_statistics.
Proof.
  pose proof Htable as (_ & Hnum & Htxt & _).
  unfold compute_overall_statistics.
  apply returns_then; [apply returns_print|].
  apply returns_bind; [apply returns_gets|]. intros rows Hr. apply yields_gets in Hr. subst rows.
  apply returns_bind; [apply returns_gets|]. intros hs _.
  apply returns_then; [apply returns_print|].
  apply returns_bind; [apply returns_gets|]. intros num Hn. apply yields_gets in Hn. subst num.
  apply returns_then.
  { destruct (numeric_columns a) as [|c cs] eqn:En; [apply returns_ret|].
    destruct (@for_each_returns _ _ (fun col => numeric_row col (data a)) (c :: cs))
      as (table & Hs).
    { intros col Hcol. unfold numeric_row.
      destruct (@tw_nums_of_returns col (data a) (Hnum col Hcol) (incl_refl _)) as (vals & ->).
      cbn. now eexists. }
    apply returns_bind; [eapply returns_lift; exact Hs|].
    intros; apply returns_print. }
  apply returns_bind; [apply returns_gets|]. intros txt Ht. apply yields_gets in Ht. subst txt.
  destruct (text_columns a) as [|c cs] eqn:Et; [apply returns_ret|].
  destruct (@for_each_returns _ _ (fun col => text_row col (data a)) (c :: cs))
    as (table & Hs).
  { intros col Hcol. apply text_row_returns. now rewrite Et. }
  apply returns_bind; [eapply returns_lift; exact Hs|].
  intros; apply returns_print.
Qed.

(** Grouping by headers: the groups are filled from the values of the
    columns, and their members are rows of the table. *)
Lemma tweet_groups (by_cols : list string) :
  incl by_cols (headers a) ->
  group_rows by_cols (data a) []
  = Ok (Described.fill (Py.tuple_eqb tcell_eqb) (Described.tweet_key by_cols) (data a) [])
  /\ forall k members,
       In (k, members)
          (Described.fill (Py.tuple_eqb tcell_eqb) (Described.tweet_key by_cols) (data a) []) ->
       incl members (data a).
Proof.
  intros Hcols. split.
  - apply tw_group_rows_fill. intros r Hr. apply tw_group_key_ok.
    apply Forall_forall. intros c Hc.
    destruct (lookup_key c r (header_is_key c r (Hcols c Hc) Hr)) as (v & ->).
    discriminate.
  - intros k members Hin r Hr.
    destruct (@fill_partition _ _ _ (@tuple_eqb_eq _ _ tcell_eqb_eq)
                (fun r k => Described.tweet_key by_cols r = k)
                (Described.tweet_key by_cols) (data a) (fun r _ => eq_refl))
      as (_ & Hperm & _).
    apply (Permutation_in _ Hperm). apply in_concat.
    exists members. split; [|exact Hr]. apply in_map_iff. exists (k, members). auto.
Qed.

Lemma group_and_print_returns (by_cols : list string) (topn : nat) :
  incl by_cols (headers a) ->
  returns (group_and_print by_cols topn)
  /\ forall d, Described.yields a (group_and_print by_cols topn) d ->
       d = Described.fill (Py.tuple_eqb tcell_eqb) (Described.tweet_key by_cols)
             (data a) [].
Proof.
  intros Hcols. destruct (tweet_groups Hcols) as [Hg _]. split.
  - unfold group_and_print.
    apply returns_bind; [apply returns_gets|]. intros rows Hr. apply yields_gets in Hr.
    subst rows.
    apply returns_bind; [eapply returns_lift; exact Hg|]. intros d _.
    apply returns_then; [apply returns_print|].
    cbv zeta. apply returns_then; [apply returns_print|apply returns_ret].
  - intros d (w & Hw & Hd). unfold group_and_print in Hd.
    unfold Run.bind, Run.gets, Run.lift, Run.print, Run.ret in Hd.
    cbn [Run.self Run.stdout] in Hd. rewrite Hw, Hg in Hd. cbn in Hd. now injection Hd.
Qed.

Lemma stats_rows_returns (col : string) (items : groups) :
  In col (headers a) ->
  (forall k members, In (k, members) items -> incl members (data a)) ->
  exists rows, stats_rows col items = Ok rows /\ (items = [] -> rows = []).
Proof.
  intros Hcol. induction items as [|[k v] items IH]; intros Hitems; cbn.
  - exists []. auto.
  - destruct (@tw_nums_of_returns col v Hcol (Hitems k v (or_introl eq_refl)))
      as (vals & ->). cbn [and_then].
    destruct IH as (more & -> & _); [intros k' m Hin; apply (Hitems k' m); now right|].
    cbn [and_then]. destruct vals; eexists; (split; [reflexivity|discriminate]).
Qed.

Lemma group_numeric_stats_returns (d : groups) (topn : nat) :
  (forall k members, In (k, members) d -> incl members (data a)) ->
  returns (group_numeric_stats d (numeric_columns a) topn).
Proof.
  intros Hd. pose proof Htable as (_ & Hnum & _).
  unfold group_numeric_stats. apply returns_for. intros col Hcol.
  apply in_firstn in Hcol.
  destruct (@stats_rows_returns col (stats_groups d) (Hnum col Hcol))
    as (rows & Hrows & Hnil).
  { intros k members Hin. unfold stats_groups in Hin. apply in_firstn in Hin.
    now apply (Hd k members). }
  apply returns_bind; [eapply returns_lift; exact Hrows|].
  intros rows' Hy. apply yields_lift in Hy. rewrite Hrows in Hy. injection Hy as <-.
  destruct rows as [|row rows]; [apply returns_ret|].
  destruct d as [|kv d'].
  { exfalso. specialize (Hnil eq_refl). discriminate. }
  apply returns_bind; [eapply returns_lift; reflexivity|]. intros key_headers _.
  apply returns_then; apply returns_print.
Qed.

Lemma grouping_returns (by_cols : list string) :
  incl by_cols (headers a) -> returns (grouping by_cols).
Proof.
  intros Hcols. destruct (@group_and_print_returns by_cols 10 Hcols) as [Hret Hyields].
  destruct (tweet_groups Hcols) as [_ Hmembers].
  unfold grouping. apply returns_bind; [exact Hret|].
  intros d Hd. apply Hyields in Hd. subst d.
  apply returns_then; [apply returns_print|].
  apply returns_bind; [apply returns_gets|]. intros num Hn. apply yields_gets in Hn. subst num.
  apply returns_then; [|apply returns_print].
  now apply group_numeric_stats_returns.
Qed.

Lemma engagement_by_group_returns (group_col : string) (metrics : list string) :
  returns (engagement_by_group group_col metrics).
Proof.
  unfold engagement_by_group.
  apply returns_bind; [apply returns_gets|]. intros rows _. cbv zeta.
  apply returns_then; apply returns_print.
Qed.

(** The steps of a run that follow the load. *)
Lemma tw_reports_return :
  returns
    (Run.print (Line "[TIMER] load_and_clean_data" []) ;;
     compute_overall_statistics ;;
     Run.print (Line "[TIMER] compute_overall_statistics" []) ;;
     hs <- Run.gets headers ;;
     (if Py.mem "source" hs then grouping ["source"%string] else Run.ret tt) ;;
     (if forallb (fun x => Py.mem x hs) ["id"; "source"]%string
      then grouping ["id"; "source"]%string else Run.ret tt) ;;
     (if Py.mem "lang" hs then grouping ["lang"%string] else Run.ret tt) ;;
     let metrics := filter (fun c => Py.mem c hs) engagement_metrics in
     match metrics with
     | [] => Run.ret tt
     | _ =>
         engagement_by_group "source" metrics ;;
         Run.print (Line "[TIMER] engagement_by_group 'source'" []) ;;
         engagement_by_group "lang" metrics ;;
         Run.print (Line "[TIMER] engagement_by_group 'lang'" [])
     end ;;
     Run.print (Line "[TIMER] TOTAL; === PURE PYTHON TWITTER ANALYSIS END ===" []))%py.
Proof.
  apply returns_then; [apply returns_print|].
  apply returns_then; [apply tw_statistics_returns|].
  apply returns_then; [apply returns_print|].
  apply returns_bind; [apply returns_gets|]. intros hs Hh. apply yields_gets in Hh. subst hs.
  apply returns_then.
  { destruct (Py.mem "source" (headers a)) eqn:E; [|apply returns_ret].
    apply grouping_returns. intros c [<-|[]]. now apply mem_In. }
  apply returns_then.
  { destruct (forallb (fun x => Py.mem x (headers a)) ["id"; "source"]%string) eqn:E;
      [|apply returns_ret].
    apply grouping_returns. intros c Hc. apply mem_In.
    rewrite forallb_forall in E. now apply E. }
  apply returns_then.
  { destruct (Py.mem "lang" (headers a)) eqn:E; [|apply returns_ret].
    apply grouping_returns. intros c [<-|[]]. now apply mem_In. }
  cbv zeta. apply returns_then; [|apply returns_print].
  destruct (filter (fun c => Py.mem c (headers a)) engagement_metrics);
    [apply returns_ret|].
  apply returns_then; [apply engagement_by_group_returns|].
  apply returns_then; [apply returns_print|].
  apply returns_then; [apply engagement_by_group_returns|apply returns_print].
Qed.

End TweetsReturns.

(** ** The Twitter analyzer: runs *)

Section TweetsRuns.
Context {L : PyLib}.
Import TwPostsPython.

Lemma tweets_run_ends (path : string) :
  Described.ends_with
    [Line "[TIMER] TOTAL; === PURE PYTHON TWITTER ANALYSIS END ===" []]
    (run_complete_analysis path).
Proof.
  unfold run_complete_analysis.
  do 9 (apply ends_with_bind; intros ?). cbv zeta.
  apply ends_with_bind; intros ?.
  intros w0 u _. exists (Run.stdout w0). reflexivity.
Qed.

(** X9.  The run of the Twitter analyzer catches nothing, and the only
    step of it that can fail on a file that is read is the load: when the
    file is read and has a first row, the run returns normally and the last
    line it prints is the one that ends the analysis, whatever the rows and
    the column names are. *)
Theorem tweets_run_completes (path contents : string) (a0 : analyzer)
    (fieldnames : list string) (lines : list (list string)) :
  read_text path = Ok contents ->
  csv_reader Py.comma contents = (fieldnames :: lines, None) ->
  let run := run_complete_analysis path (Run.Build_world a0 []) in
  fst run = Ok tt
  /\ exists out,
       Run.stdout (snd run)
       = (out ++ [Line "[TIMER] TOTAL; === PURE PYTHON TWITTER ANALYSIS END ===" []])%list.
Proof.
  intros Hread Hcsv run. subst run.
  assert (Hfst : fst (run_complete_analysis path (Run.Build_world a0 [])) = Ok tt).
  { unfold run_complete_analysis.
    unfold Run.bind at 1. unfold Run.print at 1. cbn [Run.self Run.stdout app].
    unfold Run.bind at 1.
    rewrite (@tweets_load_ok L path contents a0 _ fieldnames lines Hread Hcsv).
    match goal with |- fst (_ ?w) = _ =>
      destruct (@tw_reports_return L _ (tweets_loaded_table fieldnames lines) w eq_refl)
        as ([] & Hfst & _)
    end.
    exact Hfst. }
  split; [exact Hfst|]. exact (@tweets_run_ends path _ _ Hfst).
Qed.

End TweetsRuns.

(** ** Files that cannot be read, and empty files *)

Section BadFiles.
Context {L : PyLib}.

(** X15.  The runs of the Facebook-posts and of the Twitter analyzer catch
    nothing: when the file cannot be opened, the exception leaves the run
    after the two lines printed before the file is opened, and no report
    follows. *)
Theorem runs_propagate (path : string) (a0 : TwPostsPython.analyzer) (e : exn) :
  read_text path = Raise e ->
  FbPostsPython.run_complete_analysis (Run.Build_world (FbPostsPython.__init__ path) [])
  = (Raise e,
     Run.Build_world (FbPostsPython.__init__ path)
       [FbPostsPython.Line "=== PURE PYTHON FB POSTS ANALYSIS START ===" [];
        FbPostsPython.Line "LOADING AND CLEANING DATA" []])
  /\ TwPostsPython.run_complete_analysis path (Run.Build_world a0 [])
     = (Raise e,
        Run.Build_world a0
          [TwPostsPython.Line "=== PURE PYTHON TWITTER ANALYSIS START ===" [];
           TwPostsPython.Line "LOADING AND CLEANING DATA" []]).
Proof.
  intros Hread. split.
  - unfold FbPostsPython.run_complete_analysis, FbPostsPython.load_and_clean_data.
    unfold Run.bind, Run.print, Run.gets, Run.lift.
    cbn [Run.self Run.stdout app FbPostsPython.csv_file_path FbPostsPython.__init__].
    rewrite Hread. reflexivity.
  - unfold TwPostsPython.run_complete_analysis, TwPostsPython.load_and_clean_data.
    unfold Run.bind, Run.print, Run.gets, Run.lift.
    cbn [Run.self Run.stdout app]. rewrite Hread. reflexivity.
Qed.

(** X16.  On an empty file (one in which the CSV reader finds no row) the
    three pure-Python analyzers part ways.  The fb_ads loader catches the
    StopIteration of the missing header row, and the run ends with "No data
    loaded!".  The Facebook-posts and the Twitter loader get [None] for the
    field names and raise TypeError when they use it, and the run ends with
    that exception. *)
Theorem empty_file_outcomes (path contents : string) (a0 : TwPostsPython.analyzer) :
  read_text path = Ok contents ->
  csv_reader (FbAdsPython.detect_delim contents) contents = ([], None) ->
  csv_reader Py.comma contents = ([], None) ->
  FbAdsPython.run_complete_analysis (Run.Build_world (FbAdsPython.__init__ path) [])
  = (Ok tt,
     Run.Build_world (FbAdsPython.__init__ path)
       [FbAdsPython.Line "FAST PYTHON DATASET ANALYZER" [];
        FbAdsPython.Line "======================================================================" [];
        FbAdsPython.Header "STEP 1: LOADING AND CLEANING DATASET" 1;
        FbAdsPython.Line "Error: {}" [FbAdsPython.CStr ""];
        FbAdsPython.Line "No data loaded!" []])
  /\ fst (FbPostsPython.run_complete_analysis
            (Run.Build_world (FbPostsPython.__init__ path) []))
     = Raise (LibraryError "object of type 'NoneType' has no len()")
  /\ fst (TwPostsPython.run_complete_analysis path (Run.Build_world a0 []))
     = Raise (LibraryError "'NoneType' object is not iterable").
Proof.
  intros Hread Hads Hcsv. split; [|split].
  - unfold FbAdsPython.run_complete_analysis, FbAdsPython.banner, FbAdsPython.analysis,
      FbAdsPython.load_and_clean_data, FbAdsPython._header, FbAdsPython.report_error.
    unfold Run.try_except, Run.bind, Run.print, Run.gets, Run.lift, Run.raise.
    cbn [Run.self Run.stdout app FbAdsPython.filepath FbAdsPython.__init__].
    rewrite Hread, Hads. reflexivity.
  - unfold FbPostsPython.run_complete_analysis, FbPostsPython.load_and_clean_data.
    unfold Run.bind, Run.print, Run.gets, Run.lift, Run.raise.
    cbn [Run.self Run.stdout app FbPostsPython.csv_file_path FbPostsPython.__init__].
    rewrite Hread, Hcsv. reflexivity.
  - unfold TwPostsPython.run_complete_analysis, TwPostsPython.load_and_clean_data.
    unfold Run.bind, Run.print, Run.gets, Run.lift, Run.raise, Run.modify.
    cbn [Run.self Run.stdout app]. rewrite Hread, Hcsv. reflexivity.
Qed.

End BadFiles.

(** ** The dataframe analyzers of fb_ads: errors *)

Section DataframeErrors.
Context {L : PyLib} {P : FbAdsPandas.PdLib} {Q : FbAdsPolars.PlLib}.

(** X17.  When the file cannot be opened, none of the three fb_ads runs
    fails.  The pure-Python and the pandas loader print the error and
    return, and the run ends with "No data loaded!".  The polars loader
    prints the error and raises it again; the run prints it a second time,
    with a traceback, and runs no further step. *)
Theorem unreadable_file_is_reported (path : string) (e : exn) :
  read_text path = Raise e ->
  FbAdsPython.run_complete_analysis (Run.Build_world (FbAdsPython.__init__ path) [])
  = (Ok tt,
     Run.Build_world (FbAdsPython.__init__ path)
       [FbAdsPython.Line "FAST PYTHON DATASET ANALYZER" [];
        FbAdsPython.Line "======================================================================" [];
        FbAdsPython.Header "STEP 1: LOADING AND CLEANING DATASET" 1;
        FbAdsPython.Line "Error: {}" [FbAdsPython.CStr (exn_str e)];
        FbAdsPython.Line "No data loaded!" []])
  /\ FbAdsPandas.run_complete_analysis (Run.Build_world (FbAdsPandas.__init__ path) [])
     = (Ok tt,
        Run.Build_world (FbAdsPandas.__init__ path)
          [DfLine "FAST PANDAS DATASET ANALYZER" [];
           DfLine "======================================================================" [];
           DfHeader "STEP 1: LOADING AND CLEANING DATASET" 1;
           DfLine "Error: {}" [exn_str e];
           DfLine "No data loaded!" []])
  /\ FbAdsPolars.run_complete_analysis (Run.Build_world (FbAdsPolars.__init__ path) [])
     = (Ok tt,
        Run.Build_world (FbAdsPolars.__init__ path)
          [DfLine "=== POLARS ANALYSIS START ===" [];
           DfHeader "STEP 1: LOADING AND CLEANING DATASET" 1;
           DfLine "Auto-detecting delimiter..." [];
           DfLine "Error loading data: {}" [exn_str e];
           DfLine "Error in analysis: {}" [exn_str e];
           DfReport "traceback"]).
Proof.
  intros Hread. split; [|split].
  - unfold FbAdsPython.run_complete_analysis, FbAdsPython.banner, FbAdsPython.analysis,
      FbAdsPython.load_and_clean_data, FbAdsPython._header, FbAdsPython.report_error.
    unfold Run.try_except, Run.bind, Run.print, Run.gets, Run.lift, Run.raise.
    cbn [Run.self Run.stdout app FbAdsPython.filepath FbAdsPython.__init__].
    rewrite Hread. reflexivity.
  - unfold FbAdsPandas.run_complete_analysis, FbAdsPandas.banner, FbAdsPandas.analysis,
      FbAdsPandas.load_and_clean_data, FbAdsPandas._header, FbAdsPandas.report_error.
    unfold Run.try_except, Run.bind, Run.print, Run.gets, Run.lift, Run.raise.
    cbn [Run.self Run.stdout app FbAdsPandas.filepath FbAdsPandas.__init__].
    rewrite Hread. reflexivity.
  - unfold FbAdsPolars.run_complete_analysis, FbAdsPolars.analysis,
      FbAdsPolars.load_and_clean_data, FbAdsPolars._header, FbAdsPolars.report_error.
    unfold Run.try_except, Run.bind, Run.print, Run.gets, Run.lift, Run.raise.
    cbn [Run.self Run.stdout app FbAdsPolars.filepath FbAdsPolars.__init__].
    rewrite Hread. reflexivity.
Qed.

(** X18.  An exception of the grouping calls is contained by the polars
    analyzer: with a dataframe loaded, [perform_groupby_analysis] returns
    normally whatever polars does and whatever the columns are, and leaves
    the analyzer object as it was; when the grouping calls raise, the last
    line printed reports the exception. *)
Theorem polars_groupby_contains_errors (w : Run.world FbAdsPolars.analyzer df_event)
    (d : FbAdsPolars.frame) (group_cols : list string) (name : string) :
  FbAdsPolars.df (Run.self w) = Some d ->
  let r := FbAdsPolars.perform_groupby_analysis group_cols name w in
  fst r = Ok tt
  /\ Run.self (snd r) = Run.self w
  /\ (Forall (fun c => Py.mem c (FbAdsPolars.columns d) = true) group_cols ->
      forall e,
        snd (FbAdsPolars.groupby d group_cols (FbAdsPolars.numeric_columns (Run.self w)))
        = Some e ->
        exists out,
          Run.stdout (snd r)
          = (out ++ [DfLine "Error in groupby analysis: {}" [exn_str e]])%list).
Proof.
  intros Hdf r. subst r.
  assert (Hfilter : forall (cols : list string) (l : list string),
            Forall (fun c => Py.mem c cols = true) l ->
            filter (fun c => negb (Py.mem c cols)) l = []).
  { intros cols l H. induction H as [|c l Hc _ IH]; cbn; [reflexivity|].
    now rewrite Hc. }
  unfold FbAdsPolars.perform_groupby_analysis, FbAdsPolars._header, FbAdsPolars.the_df,
    FbAdsPolars.report.
  unfold Run.try_except, Run.bind, Run.print, Run.prints, Run.gets, Run.ret, Run.raise.
  cbn [Run.self Run.stdout]. rewrite Hdf. cbn [Run.self Run.stdout].
  repeat split.
  - destruct (filter (fun c => negb (Py.mem c (FbAdsPolars.columns d))) group_cols);
      [|reflexivity].
    destruct (snd (FbAdsPolars.groupby d group_cols _)); reflexivity.
  - destruct (filter (fun c => negb (Py.mem c (FbAdsPolars.columns d))) group_cols);
      [|reflexivity].
    destruct (snd (FbAdsPolars.groupby d group_cols _)); reflexivity.
  - intros Hall e He. rewrite (Hfilter _ _ Hall). cbn [Run.self Run.stdout].
    rewrite He. cbn [Run.self Run.stdout fst snd]. eexists. reflexivity.
Qed.

End DataframeErrors.

(** ** The additional grouping of the fb_ads run *)

Section ExtraGrouping.
Context {L : PyLib}.
Import FbAdsPython.

(** The head of a list sorted by [Py.sorted_by] is the first of the
    elements with the least key. *)
Lemma sorted_by_filter_head (key : string -> nat) (p : string -> bool)
    (cols : list string) :
  match Py.sorted_by snd (map (fun c => (c, key c)) (filter p cols)) with
  | [] => forall c, In c cols -> p c = false
  | (best, n) :: _ =>
      exists before after,
        cols = (before ++ best :: after)%list
        /\ p best = true
        /\ n = key best
        /\ (forall c, In c before -> p c = true -> n < key c)
        /\ (forall c, In c after -> p c = true -> n <= key c)
  end.
Proof.
  induction cols as [|c cols IH]; cbn [filter map Py.sorted_by fold_right].
  - intros c [].
  - destruct (p c) eqn:Hp; cbn [map Py.sorted_by fold_right].
    + fold (Py.sorted_by snd (map (fun c => (c, key c)) (filter p cols))).
      destruct (Py.sorted_by snd (map (fun c => (c, key c)) (filter p cols)))
        as [|[best n] rest]; cbn [Py.insert_by snd].
      * exists [], cols. repeat split; auto.
        -- intros c' [].
        -- intros c' Hc' Hp'. rewrite (IH c' Hc') in Hp'. discriminate.
      * destruct IH as (before & after & Hcols & Hbest & Hn & Hlt & Hle).
        destruct (key c <=? n) eqn:Hcmp.
        -- apply Nat.leb_le in Hcmp. exists [], cols. repeat split; auto.
           ++ intros c' [].
           ++ intros c' Hc' Hp'. rewrite Hcols in Hc'.
              apply in_app_or in Hc'. destruct Hc' as [Hc'|[<-|Hc']].
              ** specialize (Hlt c' Hc' Hp'). lia.
              ** lia.
              ** specialize (Hle c' Hc' Hp'). lia.
        -- apply Nat.leb_gt in Hcmp. exists (c :: before), after.
           repeat split; auto.
           ++ now rewrite Hcols.
           ++ intros c' [<-|Hc'] Hp'; [lia|now apply Hlt].
    + fold (Py.sorted_by snd (map (fun c => (c, key c)) (filter p cols))).
      destruct (Py.sorted_by snd (map (fun c => (c, key c)) (filter p cols)))
        as [|[best n] rest].
      * intros c' [<-|Hc']; [exact Hp|now apply IH].
      * destruct IH as (before & after & Hcols & Hbest & Hn & Hlt & Hle).
        exists (c :: before), after. repeat split; auto.
        -- now rewrite Hcols.
        -- intros c' [<-|Hc'] Hp'; [congruence|now apply Hlt].
Qed.

(** [candidate] prints nothing, and neither does collecting candidates. *)
Lemma candidate_prints_nothing (col : string) (w : Run.world analyzer event) :
  snd (candidate col w) = w.
Proof.
  unfold candidate. destruct (Py.mem col ["page_id"; "ad_id"]%string); [reflexivity|].
  unfold Run.bind, Run.gets, Run.lift. cbn [Run.self Run.stdout].
  destruct (header_index col (headers (Run.self w))) as [idx|]; [|reflexivity].
  destruct (for_each (getitem idx) (firstn 1000 (data (Run.self w)))) as [cells|];
    [|reflexivity].
  cbv zeta. destruct (map str (filter truthy cells)); [reflexivity|].
  match goal with |- context [if ?b then _ else _] => destruct b end; reflexivity.
Qed.

Lemma collect_prints_nothing (A B : Type) (l : list A)
    (f : A -> Run.M analyzer event B) (w : Run.world analyzer event) :
  (forall x w0, snd (f x w0) = w0) -> snd (Run.collect l f w) = w.
Proof.
  intros Hf. revert w. induction l as [|x l IH]; intros w; cbn [Run.collect].
  - reflexivity.
  - unfold Run.bind. specialize (Hf x w) as Hx.
    destruct (f x w) as [[y|e] w1]; cbn [snd] in Hx; subst w1; [|reflexivity].
    specialize (IH w). destruct (Run.collect l f w) as [[ys|e] w2]; cbn [snd] in IH;
      subst w2; reflexivity.
Qed.

Variable a : analyzer.
Hypothesis Hwf : Described.well_formed a.

(** What [candidate] returns for a categorical column. *)
Lemma candidate_yields (col : string) (y : list (string * nat)) :
  In col (categorical_columns a) ->
  Described.yields a (candidate col) y ->
  y = if Described.grouping_candidate a col
      then [(col, Described.distinct_count a col)] else [].
Proof.
  intros Hcol (w & Hw & Hy). destruct Hwf as (_ & _ & Hcat).
  unfold Described.grouping_candidate, Described.distinct_count, Described.sampled_texts.
  unfold candidate in Hy.
  destruct (Py.mem col ["page_id"; "ad_id"]%string).
  { cbn in Hy. injection Hy as <-. reflexivity. }
  cbn [negb andb].
  destruct (@header_index_of_header a col (Hcat col Hcol)) as (idx & Hidx & Hlt).
  unfold Run.bind, Run.gets, Run.lift in Hy. cbn [Run.self Run.stdout] in Hy.
  rewrite Hw, Hidx in Hy.
  assert (Hcells : for_each (getitem idx) (firstn 1000 (data a))
                   = Ok (map (fun row => nth idx row CNone) (firstn 1000 (data a)))).
  { apply (@column_cells a Hwf idx _ Hlt). intros row Hrow. eapply in_firstn. exact Hrow. }
  rewrite Hcells in Hy.
  unfold header_index in Hidx. destruct (Py.index col (headers a)) as [i|]; [|discriminate].
  injection Hidx as ->.
  destruct (map str (filter truthy (map (fun row => nth idx row CNone)
                                       (firstn 1000 (data a))))) as [|v vals].
  { cbn in Hy. injection Hy as <-. reflexivity. }
  match type of Hy with
  | context [if ?b then _ else _] => destruct b
  end; cbn in Hy; injection Hy as <-; reflexivity.
Qed.

Lemma collected_candidates (cols : list string) (found : list (list (string * nat))) :
  Forall2 (fun col y => y = if Described.grouping_candidate a col
                            then [(col, Described.distinct_count a col)] else [])
          cols found ->
  List.concat found
  = map (fun c => (c, Described.distinct_count a c))
        (filter (Described.grouping_candidate a) cols).
Proof.
  induction 1 as [|col y cols found Hy _ IH]; [reflexivity|].
  cbn [List.concat filter]. rewrite IH, Hy.
  destruct (Described.grouping_candidate a col); reflexivity.
Qed.

End ExtraGrouping.

(** X19.  The column of the additional grouping of the fb_ads run.  On a
    well-formed table, collecting the candidates among the first ten
    categorical columns fails for no column and changes nothing; the
    candidates are the columns other than page_id and ad_id that have from 2
    to 20 distinct non-empty values in the first up-to-1000 rows; and the
    column the run then groups by is the candidate with the fewest distinct
    values, the first of them in the order of the columns when several have
    as few.  When there is no candidate, there is no additional grouping. *)
Theorem extra_grouping_is_smallest {L : PyLib}
    (w : Run.world FbAdsPython.analyzer FbAdsPython.event) :
  Described.well_formed (Run.self w) ->
  let a := Run.self w in
  let cols := firstn 10 (FbAdsPython.categorical_columns a) in
  let r := Run.collect cols FbAdsPython.candidate w in
  exists found,
    r = (Ok found, w)
    /\ List.concat found
       = map (fun c => (c, Described.distinct_count a c))
             (filter (Described.grouping_candidate a) cols)
    /\ match Py.sorted_by snd (List.concat found) with
       | [] => forall c, In c cols -> Described.grouping_candidate a c = false
       | (best_col, n) :: _ =>
           exists before after,
             cols = (before ++ best_col :: after)%list
             /\ Described.grouping_candidate a best_col = true
             /\ n = Described.distinct_count a best_col
             /\ (forall c, In c before -> Described.grouping_candidate a c = true ->
                           n < Described.distinct_count a c)
             /\ (forall c, In c after -> Described.grouping_candidate a c = true ->
                           n <= Described.distinct_count a c)
       end.
Proof.
  intros Hwf a cols r.
  assert (Hret : forall col, In col cols ->
                   Described.returns_from a (FbAdsPython.candidate col)).
  { intros col Hcol. apply (@candidate_returns L a Hwf).
    eapply in_firstn. exact Hcol. }
  destruct (@returns_collect _ _ a _ _ cols FbAdsPython.candidate Hret w eq_refl)
    as (found & Hfound & Hself).
  assert (Hall : Forall2 (fun col y => y = if Described.grouping_candidate a col
                                           then [(col, Described.distinct_count a col)]
                                           else [])
                         cols found).
  { apply (@yields_collect _ _ a _ _ _ cols FbAdsPython.candidate found Hret).
    - intros col y Hcol Hy. apply (@candidate_yields L a Hwf col y); [|exact Hy].
      eapply in_firstn. exact Hcol.
    - exists w. split; [reflexivity|exact Hfound]. }
  exists found. split; [|split].
  - subst r. rewrite (surjective_pairing (Run.collect cols FbAdsPython.candidate w)).
    rewrite Hfound. f_equal. apply collect_prints_nothing.
    intros col w0. apply candidate_prints_nothing.
  - now apply collected_candidates.
  - rewrite (@collected_candidates L a cols found Hall).
    apply sorted_by_filter_head.
Qed.

(** ** The cells of the loaded fb_ads table *)

Section LoadedCells.
Context {L : PyLib}.
Import FbAdsPython.

Lemma process_cell_clean (num : list string) (h val : string) :
  Described.clean_cell num h (process_cell h val).
Proof.
  unfold Described.clean_cell, process_cell. intros Hh.
  destruct (String.eqb val "" || Py.mem (Py.strip val) null_markers) eqn:E; [exact I|].
  rewrite Hh. apply orb_false_iff in E. destruct E as (_ & E).
  split; [exact E|]. now exists val.
Qed.

Lemma process_row_clean (num hs : list string) (row : list string) :
  Forall2 (Described.clean_cell num) hs (process_row hs row).
Proof.
  unfold process_row.
  assert (Hlen : List.length (fit (List.length hs) row) = List.length hs)
    by apply fit_length.
  revert Hlen. generalize (fit (List.length hs) row) as vals.
  induction hs as [|h hs IH]; intros [|v vals] Hlen; cbn in *; try discriminate.
  - constructor.
  - constructor; [apply process_cell_clean|]. apply IH. lia.
Qed.

Lemma convert_clean (num num' : list string) (h : string) (c : cell) :
  incl num num' -> In h num' ->
  Described.clean_cell num h c -> Described.clean_cell num' h (convert c).
Proof.
  intros Hincl Hin Hc Hh. specialize (Hc Hh).
  destruct c as [|s|j|z|x]; cbn [convert]; try exact I; try contradiction.
  - destruct (Py.contains "." (str (CStr s))).
    + destruct (float_of (CStr s)); [exact Hin|exact Hc].
    + destruct (int_of (CStr s)); [exact Hin|exact Hc].
  - destruct (Py.contains "." (str (CInt z))).
    + destruct (float_of (CInt z)); exact Hin.
    + destruct (int_of (CInt z)); exact Hin.
  - destruct (Py.contains "." (str (CFloat x))).
    + destruct (float_of (CFloat x)); exact Hin.
    + destruct (int_of (CFloat x)); exact Hin.
Qed.

Lemma clean_cell_more (num num' : list string) (h : string) (c : cell) :
  incl num num' -> Described.clean_cell num h c -> Described.clean_cell num' h c.
Proof.
  intros Hincl Hc Hh. specialize (Hc Hh). destruct c; auto.
Qed.

Lemma convert_at_clean (num num' : list string) (i : nat) (h : string) :
  incl num num' -> In h num' ->
  forall (hs : list string) (row : list cell),
    nth_error hs i = Some h ->
    Forall2 (Described.clean_cell num) hs row ->
    Forall2 (Described.clean_cell num') hs
            (Py.set_item i (convert (nth i row CNone)) row).
Proof.
  intros Hincl Hin. induction i as [|i IH]; intros hs row Hi Hrow.
  - destruct Hrow as [|h0 c hs row Hc Hrest]; [discriminate|].
    cbn in Hi. injection Hi as ->. cbn. constructor.
    + now apply (convert_clean Hincl).
    + eapply Forall2_impl; [|exact Hrest]. intros h' c'. now apply clean_cell_more.
  - destruct Hrow as [|h0 c hs row Hc Hrest]; [discriminate|].
    cbn in Hi. cbn. constructor.
    + now apply (clean_cell_more Hincl).
    + now apply IH.
Qed.

Lemma enumerate_nth_error (A : Type) (l : list A) (i : nat) (x : A) :
  In (i, x) (Py.enumerate l) -> nth_error l i = Some x.
Proof.
  unfold Py.enumerate.
  assert (H : forall k, In (i, x) (combine (seq k (List.length l)) l) ->
                        k <= i /\ nth_error l (i - k) = Some x).
  { induction l as [|y l IH]; intros k Hin; cbn in Hin; [contradiction|].
    destruct Hin as [Hin|Hin].
    - injection Hin as -> ->. split; [lia|]. now rewrite Nat.sub_diag.
    - destruct (IH (S k) Hin) as (Hle & Hnth). split; [lia|].
      replace (i - k) with (S (i - S k)) by lia. exact Hnth. }
  intros Hin. destruct (H 0 Hin) as (_ & Hnth). now rewrite Nat.sub_0_r in Hnth.
Qed.

Lemma detect_step_clean (hs : list string) (st : detect_state) (ih : nat * string) :
  nth_error hs (fst ih) = Some (snd ih) ->
  Forall (Forall2 (Described.clean_cell (snd (fst st))) hs) (fst (fst st)) ->
  Forall (Forall2 (Described.clean_cell (snd (fst (detect_step st ih)))) hs)
         (fst (fst (detect_step st ih))).
Proof.
  destruct st as [[raw num] cat], ih as [i h]. cbn [fst snd]. intros Hi H.
  unfold detect_step.
  destruct (Py.mem h complex_fields); [exact H|].
  destruct (column_vals i (sample_data raw)); [exact H|].
  destruct (mostly_numeric _); [|exact H].
  cbn [fst snd]. unfold convert_column. apply Forall_map.
  eapply Forall_impl; [|exact H]. intros row Hrow. cbn beta.
  apply (@convert_at_clean num (num ++ [h])%list i h); auto.
  - intros x Hx. apply in_or_app. now left.
  - apply in_or_app. right. now left.
Qed.

Lemma detect_types_clean (hs : list string) (st : detect_state) :
  Forall (Forall2 (Described.clean_cell (snd (fst st))) hs) (fst (fst st)) ->
  Forall (Forall2 (Described.clean_cell (snd (fst (detect_types hs st)))) hs)
         (fst (fst (detect_types hs st))).
Proof.
  unfold detect_types.
  assert (Hl : forall ih, In ih (Py.enumerate hs) -> nth_error hs (fst ih) = Some (snd ih)).
  { intros [i h] Hin. now apply enumerate_nth_error. }
  revert Hl. generalize (Py.enumerate hs) as l. intros l. revert st.
  induction l as [|ih l IH]; intros st Hl H; cbn [fold_left]; [exact H|].
  apply IH; [intros ih' Hin; apply Hl; now right|].
  apply detect_step_clean; [apply Hl; now left|exact H].
Qed.

(** X20.  Whatever the file system and the CSV reader do, in the table a
    fresh fb_ads analyzer holds after [load_and_clean_data] every row has
    one cell per header, and a cell in a column that is not one of the three
    JSON fields is [None], a number, or a text: a text is the stripped text
    of a field and none of the null markers (the empty text, null, NULL,
    None, N/A, NA), which are stored as [None]; a number stands only in a
    column listed as numeric. *)
Theorem missing_values_are_none (path : string) (out0 : list event) :
  let a := Run.self (snd (load_and_clean_data (Run.Build_world (__init__ path) out0))) in
  Forall (Forall2 (Described.clean_cell (numeric_columns a)) (headers a)) (data a).
Proof.
  intros a. subst a.
  destruct (read_text path) as [contents|e] eqn:Hread.
  - destruct (csv_reader (detect_delim contents) contents) as [[|first rows] stop] eqn:Hcsv.
    + unfold load_and_clean_data, _header.
      unfold Run.try_except, Run.bind, Run.gets, Run.lift, Run.print.
      cbn [Run.self Run.stdout filepath __init__]. rewrite Hread, Hcsv.
      destruct stop; cbn; constructor.
    + destruct stop as [e|].
      * unfold load_and_clean_data, _header, set_headers.
        unfold Run.try_except, Run.bind, Run.gets, Run.lift, Run.print, Run.prints,
          Run.modify, Run.raise.
        cbn [Run.self Run.stdout filepath __init__]. rewrite Hread, Hcsv.
        cbn. constructor.
      * rewrite (@load_and_clean_data_ok L (__init__ path) out0 contents first rows
                   Hread Hcsv).
        cbn [Run.self snd headers data numeric_columns categorical_columns __init__].
        set (hs := map Py.strip first).
        set (st := detect_types hs (map (process_row hs) rows, [], [])).
        assert (H : Forall (Forall2 (Described.clean_cell (snd (fst st))) hs)
                           (fst (fst st))).
        { apply detect_types_clean. cbn [fst snd]. apply Forall_map, Forall_forall.
          intros r _. apply process_row_clean. }
        apply Forall_forall. intros row Hrow.
        destruct (remove_duplicates_In _ _ _ _ Hrow) as [Hin|[]].
        rewrite Forall_forall in H. now apply H.
  - unfold load_and_clean_data, _header.
    unfold Run.try_except, Run.bind, Run.gets, Run.lift, Run.print.
    cbn [Run.self Run.stdout filepath __init__]. rewrite Hread.
    cbn. constructor.
Qed.

End LoadedCells.

(** ** The posts by page and post *)

Section PostsCombinations.
Context {L : PyLib}.
Import FbPostsPython.


End PostsCombinations.

(** ** The most frequent value of a text column *)

Section Counters.

Local Abbreviation count_in := Described.count_in.

Lemma tally_count_in (x k : string) (counts : list (string * nat)) :
  count_in k (Py.tally x counts)
  = count_in k counts + (if string_dec x k then 1 else 0).
Proof.
  unfold Described.count_in.
  induction counts as [|[y n] counts IH]; cbn [Py.tally find fst snd].
  - destruct (String.eqb_spec x k), (string_dec x k); try contradiction; reflexivity.
  - destruct (String.eqb_spec y x) as [->|Hyx]; cbn [find fst snd].
    + destruct (String.eqb_spec x k), (string_dec x k); try contradiction;
        cbn [snd]; lia.
    + destruct (String.eqb_spec y k) as [->|Hyk].
      * destruct (string_dec x k); [congruence|cbn [snd]; lia].
      * exact IH.
Qed.

Lemma tally_keys_of (x : string) (counts : list (string * nat)) :
  map fst (Py.tally x counts)
  = if Py.mem x (map fst counts) then map fst counts else (map fst counts ++ [x])%list.
Proof.
  induction counts as [|[y n] counts IH]; cbn [Py.tally map fst Py.mem existsb app].
  - reflexivity.
  - rewrite (String.eqb_sym x y). destruct (String.eqb y x) eqn:E; cbn [map fst orb].
    + reflexivity.
    + rewrite IH. unfold Py.mem. destruct (existsb (String.eqb x) (map fst counts));
        reflexivity.
Qed.

Lemma tally_nodup (x : string) (counts : list (string * nat)) :
  NoDup (map fst counts) -> NoDup (map fst (Py.tally x counts)).
Proof.
  intros H. rewrite tally_keys_of.
  destruct (Py.mem x (map fst counts)) eqn:E; [exact H|].
  apply NoDup_app; [exact H|repeat constructor; intros []|].
  intros y Hy [<-|[]].
  apply mem_In in Hy. congruence.
Qed.

Lemma counter_invariant (l : list string) (counts : list (string * nat)) :
  NoDup (map fst counts) ->
  let c := fold_left (fun counts x => Py.tally x counts) l counts in
  NoDup (map fst c)
  /\ (forall k, count_in k c = count_in k counts + count_occ string_dec l k)
  /\ (forall k, In k (map fst c) <-> In k (map fst counts) \/ In k l).
Proof.
  revert counts. induction l as [|x l IH]; intros counts Hnd; cbn [fold_left].
  - split; [exact Hnd|]. split; [intros k; cbn; lia|]. intros k. cbn. tauto.
  - destruct (IH (Py.tally x counts) (@tally_nodup x counts Hnd)) as (Hnd' & Hcount & Hkeys).
    split; [exact Hnd'|]. split.
    + intros k. rewrite Hcount, tally_count_in. cbn [count_occ].
      destruct (string_dec x k); lia.
    + intros k. rewrite Hkeys, tally_keys_of.
      destruct (Py.mem x (map fst counts)) eqn:E.
      * apply mem_In in E. cbn [In]. split; [tauto|].
        intros [H|[<-|H]]; tauto.
      * rewrite in_app_iff. cbn [In]. tauto.
Qed.

Lemma count_in_entry (k : string) (n : nat) (counts : list (string * nat)) :
  NoDup (map fst counts) -> In (k, n) counts -> count_in k counts = n.
Proof.
  unfold Described.count_in.
  induction counts as [|[y m] counts IH]; intros Hnd Hin; [contradiction|].
  cbn [find fst snd]. inversion Hnd as [|? ? Hy Hnd']; subst.
  destruct Hin as [Hin|Hin].
  - injection Hin as -> ->. now rewrite String.eqb_refl.
  - destruct (String.eqb_spec y k) as [->|_]; [|now apply IH].
    exfalso. apply Hy. apply in_map_iff. now exists (k, n).
Qed.

(** [Py.Counter] counts the occurrences of each distinct value. *)
Lemma counter_counts (vals : list string) :
  NoDup (map fst (Py.Counter vals))
  /\ (forall k n, In (k, n) (Py.Counter vals) ->
                  In k vals /\ n = Described.occurrences vals k)
  /\ List.length (Py.Counter vals) = List.length (nodup string_dec vals).
Proof.
  unfold Py.Counter.
  destruct (@counter_invariant vals [] (NoDup_nil _)) as (Hnd & Hcount & Hkeys).
  cbv zeta in *. split; [exact Hnd|]. split.
  - intros k n Hin. split.
    + destruct (proj1 (Hkeys k)) as [[]|H]; [|exact H].
      apply in_map_iff. now exists (k, n).
    + rewrite <- (@count_in_entry k n _ Hnd Hin), Hcount. reflexivity.
  - rewrite <- (length_map fst). apply Permutation_length.
    apply NoDup_Permutation; [exact Hnd|apply NoDup_nodup|].
    intros k. rewrite Hkeys, nodup_In. cbn. tauto.
Qed.

(** [Py.most_common1] returns an item with the greatest count. *)
Lemma most_common1_greatest (counts : list (string * nat)) (top : string * nat) :
  Py.most_common1 counts = Ok top ->
  In top counts /\ forall kv, In kv counts -> snd kv <= snd top.
Proof.
  unfold Py.most_common1. destruct counts as [|c rest]; [discriminate|].
  intros [= <-]. revert c. induction rest as [|kv rest IH]; intros c; cbn [fold_left].
  - split; [now left|]. intros kv [<-|[]]. lia.
  - destruct (snd c <? snd kv) eqn:E.
    + apply Nat.ltb_lt in E. destruct (IH kv) as (Hin & Hmax). split.
      * right. exact Hin.
      * intros kv' [<-|Hkv']; [|now apply Hmax].
        specialize (Hmax kv (or_introl eq_refl)). lia.
    + apply Nat.ltb_ge in E. destruct (IH c) as (Hin & Hmax). split.
      * destruct Hin as [<-|Hin]; [now left|right; now right].
      * intros kv' [<-|[<-|Hkv']].
        -- apply Hmax. now left.
        -- specialize (Hmax c (or_introl eq_refl)). lia.
        -- apply Hmax. now right.
Qed.

End Counters.

Section PostsTopValue.
Context {L : PyLib}.
Import FbPostsPython.


End PostsTopValue.

(** ** Worked examples of the further properties *)

Section FurtherWorked.
Import Examples.
Local Open Scope string_scope.

(** Grouping the ads of [ads_file] by page returns normally. *)
Lemma groupby_returns_on_loaded_table_witness :
  let L := Simple.simple_lib (Some ads_file) in
  let a := Run.self (ads_loaded ads_file) in
  let r := FbAdsPython.perform_groupby_analysis ["page_id"] "Analysis by PAGE_ID"
             (Run.Build_world a []) in
  ["page_id"] <> [] /\ fst r = Ok tt /\ Run.self (snd r) = a.
Proof.
  intros L a r. split; [discriminate|].
  apply (@groupby_returns_on_loaded_table L "ads.csv" [] [] ["page_id"]
           "Analysis by PAGE_ID").
  discriminate.
Defined.

(** The statistics of a fresh analyzer, which has no row: the step raises
    ZeroDivisionError after its header. *)
Lemma statistics_raise_without_cells_witness :
  let L := Simple.simple_lib None in
  let w := Run.Build_world (FbAdsPython.__init__ "ads.csv") [] in
  let r := FbAdsPython.compute_column_statistics w in
  Described.well_formed (Run.self w)
  /\ r = (Raise ZeroDivisionError,
          Run.Build_world (FbAdsPython.__init__ "ads.csv")
            [FbAdsPython.Header "STEP 2: COMPUTING STATISTICS" 1]).
Proof.
  intros L w r.
  assert (Hwf : Described.well_formed (Run.self w)).
  { repeat split; [constructor | intros x [] | intros x []]. }
  split; [exact Hwf|].
  destruct (@statistics_raise_without_cells L w Hwf) as (_ & [(Hdata & _)|(_ & Hr)]).
  - exfalso. apply Hdata. reflexivity.
  - exact Hr.
Defined.

(** The run on [ads_file] goes through all its steps. *)
Lemma run_completes_witness :
  let L := Simple.simple_lib (Some ads_file) in
  let run := FbAdsPython.run_complete_analysis
               (Run.Build_world (FbAdsPython.__init__ "ads.csv") []) in
  read_text "ads.csv" = Ok ads_file
  /\ csv_reader (FbAdsPython.detect_delim ads_file) ads_file
     = (["page_id"; "spend"; "note"]
          :: [["p1"; "10"; "a"]; ["p2"; "20"; "b"]; ["p1"; "10"; "a"];
              ["p3"; "30"; "c"]; ["p4"; "n/k"; "d"]], None)
  /\ fst run = Ok tt
  /\ exists out,
       Run.stdout (snd run)
       = (out ++ [FbAdsPython.Line "======================================================================" [];
                  FbAdsPython.Line "ANALYSIS COMPLETED SUCCESSFULLY" [];
                  FbAdsPython.Line "======================================================================" []])%list.
Proof.
  intros L run.
  assert (Hread : read_text "ads.csv" = Ok ads_file) by reflexivity.
  assert (Hcsv : csv_reader (FbAdsPython.detect_delim ads_file) ads_file
                 = (["page_id"; "spend"; "note"]
                      :: [["p1"; "10"; "a"]; ["p2"; "20"; "b"]; ["p1"; "10"; "a"];
                          ["p3"; "30"; "c"]; ["p4"; "n/k"; "d"]], None))
    by (vm_compute; reflexivity).
  split; [exact Hread|]. split; [exact Hcsv|].
  apply (@run_completes L "ads.csv" ads_file _ _ Hread Hcsv); discriminate.
Defined.

(** The run on [headless_file], whose first line is empty. *)
Lemma empty_header_line_is_reported_witness :
  let L := Simple.simple_lib (Some headless_file) in
  let run := FbAdsPython.run_complete_analysis
               (Run.Build_world (FbAdsPython.__init__ "ads.csv") []) in
  read_text "ads.csv" = Ok headless_file
  /\ csv_reader (FbAdsPython.detect_delim headless_file) headless_file
     = ([] :: [["x"]], None)
  /\ fst run = Ok tt
  /\ exists out,
       Run.stdout (snd run)
       = (out ++ [FbAdsPython.Header "STEP 2: COMPUTING STATISTICS" 1;
                  FbAdsPython.Line "Error: {}" [FbAdsPython.CStr "division by zero"]])%list.
Proof.
  intros L run.
  assert (Hread : read_text "ads.csv" = Ok headless_file) by reflexivity.
  assert (Hcsv : csv_reader (FbAdsPython.detect_delim headless_file) headless_file
                 = ([] :: [["x"]], None))
    by (vm_compute; reflexivity).
  split; [exact Hread|]. split; [exact Hcsv|].
  apply (@empty_header_line_is_reported L "ads.csv" headless_file _ Hread Hcsv).
  discriminate.
Defined.

(** The columns of [posts_file]: four of the five values of Comments are
    numbers, which is not more than 80%, and the column is a text column. *)
Lemma posts_columns_by_sampling_witness :
  let L := Simple.simple_lib (Some posts_file) in
  read_text "posts.csv" = Ok posts_file
  /\ csv_reader Py.comma posts_file = (posts_header :: posts_lines, None)
  /\ FbPostsPython.headers (Run.self posts_loaded) = posts_header
  /\ FbPostsPython.numeric_columns (Run.self posts_loaded) = ["Likes"]
  /\ FbPostsPython.text_columns (Run.self posts_loaded)
     = ["Facebook_Id"; "post_id"; "Page Category"; "Comments"].
Proof.
  intros L.
  assert (Hread : read_text "posts.csv" = Ok posts_file) by reflexivity.
  assert (Hcsv : csv_reader Py.comma posts_file = (posts_header :: posts_lines, None))
    by (vm_compute; reflexivity).
  split; [exact Hread|]. split; [exact Hcsv|].
  destruct (@posts_columns_by_sampling L "posts.csv" posts_file _ _ Hread Hcsv)
    as (_ & _ & Hhs & _ & Hnum & Htxt & _).
  unfold posts_loaded. fold L. rewrite Hhs, Hnum, Htxt.
  repeat split; vm_compute; reflexivity.
Defined.

(** The run of the Facebook-posts analyzer on [posts_file]. *)
Lemma posts_run_completes_witness :
  let L := Simple.simple_lib (Some posts_file) in
  let run := FbPostsPython.run_complete_analysis
               (Run.Build_world (FbPostsPython.__init__ "posts.csv") []) in
  read_text "posts.csv" = Ok posts_file
  /\ csv_reader Py.comma posts_file = (posts_header :: posts_lines, None)
  /\ fst run = Ok tt
  /\ exists out,
       Run.stdout (snd run)
       = (out ++ [FbPostsPython.Line
                    "[TIMER] TOTAL; === PURE PYTHON FB POSTS ANALYSIS END ===" []])%list.
Proof.
  intros L run.
  assert (Hread : read_text "posts.csv" = Ok posts_file) by reflexivity.
  assert (Hcsv : csv_reader Py.comma posts_file = (posts_header :: posts_lines, None))
    by (vm_compute; reflexivity).
  split; [exact Hread|]. split; [exact Hcsv|].
  apply (@posts_run_completes L "posts.csv" posts_file _ _ Hread Hcsv).
Defined.

(** The run of the Twitter analyzer on [tweets_file]. *)
Lemma tweets_run_completes_witness :
  let L := Simple.simple_lib (Some tweets_file) in
  let run := TwPostsPython.run_complete_analysis "tweets.csv"
               (Run.Build_world tweets_init []) in
  read_text "tweets.csv" = Ok tweets_file
  /\ csv_reader Py.comma tweets_file = (tweets_header :: tweets_lines, None)
  /\ fst run = Ok tt
  /\ exists out,
       Run.stdout (snd run)
       = (out ++ [TwPostsPython.Line
                    "[TIMER] TOTAL; === PURE PYTHON TWITTER ANALYSIS END ===" []])%list.
Proof.
  intros L run.
  assert (Hread : read_text "tweets.csv" = Ok tweets_file) by reflexivity.
  assert (Hcsv : csv_reader Py.comma tweets_file = (tweets_header :: tweets_lines, None))
    by (vm_compute; reflexivity).
  split; [exact Hread|]. split; [exact Hcsv|].
  apply (@tweets_run_completes L "tweets.csv" tweets_file tweets_init _ _ Hread Hcsv).
Defined.


(** The pages of [posts_file], ranked by their total engagement. *)
Lemma pages_are_ranked_witness :
  let L := Simple.simple_lib (Some posts_file) in
  let a := Run.self posts_loaded in
  let r := FbPostsPython.compare_groups_analysis (Run.Build_world a []) in
  Described.posts_table a
  /\ In "Facebook_Id" (FbPostsPython.headers a)
  /\ In "Likes" (FbPostsPython.headers a)
  /\ FbPostsPython.data a <> []
  /\ fst r = Ok tt
  /\ exists g before,
       let pages := map (Described.totals_of_page ["Likes"; "Comments"]) g in
       Run.stdout (snd r)
       = (before
          ++ [FbPostsPython.Table "TOP FACEBOOK PAGES BY TOTAL ENGAGEMENT"
                (map FbPostsPython.page_row (FbPostsPython.ranked_pages pages))])%list
       /\ map fst (FbPostsPython.ranked_pages pages)
          = seq 1 (Nat.min 10 (List.length g)).
Proof.
  intros L a r.
  assert (Hread : read_text "posts.csv" = Ok posts_file) by reflexivity.
  assert (Hcsv : csv_reader Py.comma posts_file = (posts_header :: posts_lines, None))
    by (vm_compute; reflexivity).
  destruct (@posts_loaded_table L "posts.csv" posts_file _ _ [] Hread Hcsv)
    as (_ & Htable & _).
  assert (Hid : In "Facebook_Id" (FbPostsPython.headers a))
    by (vm_compute; left; reflexivity).
  assert (Hlikes : In "Likes" (FbPostsPython.headers a))
    by (vm_compute; right; right; right; left; reflexivity).
  assert (Hdata : FbPostsPython.data a <> []) by (vm_compute; discriminate).
  split; [exact Htable|]. split; [exact Hid|]. split; [exact Hlikes|].
  split; [exact Hdata|].
  destruct (@pages_are_ranked L a Htable [] Hid Hlikes Hdata)
    as (g & before & rest & _ & Hfst & Hout & Hranks & _).
  split; [exact Hfst|].
  exists g, before. split; [exact Hout|exact Hranks].
Defined.

(** The columns of [tweets_file]: the ids and the likes are numbers. *)
Lemma tweets_columns_by_sampling_witness :
  let L := Simple.simple_lib (Some tweets_file) in
  read_text "tweets.csv" = Ok tweets_file
  /\ csv_reader Py.comma tweets_file = (tweets_header :: tweets_lines, None)
  /\ TwPostsPython.headers (Run.self tweets_loaded) = tweets_header
  /\ TwPostsPython.numeric_columns (Run.self tweets_loaded) = ["id"; "likeCount"]
  /\ TwPostsPython.text_columns (Run.self tweets_loaded) = ["source"; "lang"].
Proof.
  intros L.
  assert (Hread : read_text "tweets.csv" = Ok tweets_file) by reflexivity.
  assert (Hcsv : csv_reader Py.comma tweets_file = (tweets_header :: tweets_lines, None))
    by (vm_compute; reflexivity).
  split; [exact Hread|]. split; [exact Hcsv|].
  destruct (@tweets_columns_by_sampling L "tweets.csv" tweets_file tweets_init _ _
              Hread Hcsv)
    as (_ & Hhs & Hnum & Htxt & _).
  unfold tweets_loaded. fold L. rewrite Hhs, Hnum, Htxt.
  repeat split; vm_compute; reflexivity.
Defined.

(** The tweets kept of [tweets_file]: the third line repeats the first and
    is dropped. *)
Lemma tweets_duplicates_removed_witness :
  let L := Simple.simple_lib (Some tweets_file) in
  let cleaned := Described.tweets_cleaned tweets_header tweets_lines in
  let a := Run.self tweets_loaded in
  read_text "tweets.csv" = Ok tweets_file
  /\ csv_reader Py.comma tweets_file = (tweets_header :: tweets_lines, None)
  /\ exists kept,
       Described.first_by_key (TwPostsPython.row_tuple tweets_header) kept cleaned
       /\ TwPostsPython.data a
          = map (TwPostsPython.convert_row (TwPostsPython.numeric_columns a)) kept
       /\ List.length (TwPostsPython.data a) <= List.length cleaned.
Proof.
  intros L cleaned a.
  assert (Hread : read_text "tweets.csv" = Ok tweets_file) by reflexivity.
  assert (Hcsv : csv_reader Py.comma tweets_file = (tweets_header :: tweets_lines, None))
    by (vm_compute; reflexivity).
  split; [exact Hread|]. split; [exact Hcsv|].
  apply (@tweets_duplicates_removed L "tweets.csv" tweets_file tweets_init _ _
           Hread Hcsv).
Defined.

(** The two runs when there is no file. *)
Lemma runs_propagate_witness :
  let L := Simple.simple_lib None in
  read_text "posts.csv" = Raise FileNotFoundError
  /\ fst (FbPostsPython.run_complete_analysis
            (Run.Build_world (FbPostsPython.__init__ "posts.csv") []))
     = Raise FileNotFoundError
  /\ fst (TwPostsPython.run_complete_analysis "posts.csv"
            (Run.Build_world tweets_init []))
     = Raise FileNotFoundError.
Proof.
  intros L.
  assert (Hread : read_text "posts.csv" = Raise FileNotFoundError) by reflexivity.
  split; [exact Hread|].
  destruct (@runs_propagate L "posts.csv" tweets_init FileNotFoundError Hread)
    as (Hposts & Htweets).
  rewrite Hposts, Htweets. split; reflexivity.
Defined.

(** The three runs on [empty_file]. *)
Lemma empty_file_outcomes_witness :
  let L := Simple.simple_lib (Some empty_file) in
  read_text "data.csv" = Ok empty_file
  /\ csv_reader (FbAdsPython.detect_delim empty_file) empty_file = ([], None)
  /\ csv_reader Py.comma empty_file = ([], None)
  /\ fst (FbAdsPython.run_complete_analysis
            (Run.Build_world (FbAdsPython.__init__ "data.csv") []))
     = Ok tt
  /\ fst (FbPostsPython.run_complete_analysis
            (Run.Build_world (FbPostsPython.__init__ "data.csv") []))
     = Raise (LibraryError "object of type 'NoneType' has no len()")
  /\ fst (TwPostsPython.run_complete_analysis "data.csv"
            (Run.Build_world tweets_init []))
     = Raise (LibraryError "'NoneType' object is not iterable").
Proof.
  intros L.
  assert (Hread : read_text "data.csv" = Ok empty_file) by reflexivity.
  assert (Hads : csv_reader (FbAdsPython.detect_delim empty_file) empty_file
                 = ([], None)) by reflexivity.
  assert (Hcsv : csv_reader Py.comma empty_file = ([], None)) by reflexivity.
  split; [exact Hread|]. split; [exact Hads|]. split; [exact Hcsv|].
  destruct (@empty_file_outcomes L "data.csv" empty_file tweets_init Hread Hads Hcsv)
    as (Hrun & Hposts & Htweets).
  rewrite Hrun. split; [reflexivity|]. split; [exact Hposts|exact Htweets].
Defined.

(** The three fb_ads runs when there is no file. *)
Lemma unreadable_file_is_reported_witness :
  let L := Simple.simple_lib None in
  let P := Simple.simple_pandas None in
  let Q := Simple.simple_polars in
  read_text "ads.csv" = Raise FileNotFoundError
  /\ fst (FbAdsPython.run_complete_analysis
            (Run.Build_world (FbAdsPython.__init__ "ads.csv") [])) = Ok tt
  /\ fst (FbAdsPandas.run_complete_analysis
            (Run.Build_world (FbAdsPandas.__init__ "ads.csv") [])) = Ok tt
  /\ fst (FbAdsPolars.run_complete_analysis
            (Run.Build_world (FbAdsPolars.__init__ "ads.csv") [])) = Ok tt.
Proof.
  intros L P Q.
  assert (Hread : read_text "ads.csv" = Raise FileNotFoundError) by reflexivity.
  split; [exact Hread|].
  destruct (@unreadable_file_is_reported L P Q "ads.csv" FileNotFoundError Hread)
    as (Hpy & Hpd & Hpl).
  rewrite Hpy, Hpd, Hpl. repeat split; reflexivity.
Defined.

(** A polars whose grouping raises ValueError: the step returns normally
    and reports the exception. *)
Lemma polars_groupby_contains_errors_witness :
  let Q := Simple.failing_polars ValueError in
  let d := ([("ad_id", FbAdsPolars.Utf8)], 3) in
  let w := Run.Build_world (FbAdsPolars.Build_analyzer "ads.csv" (Some d) [] ["ad_id"])
             [] in
  let r := FbAdsPolars.perform_groupby_analysis ["ad_id"] "Group by ad_id" w in
  FbAdsPolars.df (Run.self w) = Some d
  /\ fst r = Ok tt
  /\ Run.self (snd r) = Run.self w
  /\ exists out,
       Run.stdout (snd r)
       = (out ++ [DfLine "Error in groupby analysis: {}" ["is not in list"]])%list.
Proof.
  intros Q d w r.
  assert (Hdf : FbAdsPolars.df (Run.self w) = Some d) by reflexivity.
  split; [exact Hdf|].
  destruct (@polars_groupby_contains_errors Q w d ["ad_id"] "Group by ad_id" Hdf)
    as (Hfst & Hself & Hout).
  split; [exact Hfst|]. split; [exact Hself|].
  assert (Hcols : Forall (fun c => Py.mem c (FbAdsPolars.columns d) = true) ["ad_id"])
    by (repeat constructor).
  apply (Hout Hcols ValueError). reflexivity.
Defined.

(** The additional grouping on [ads_file]: page_id is set aside, and the
    column note, with four distinct values, is the one chosen. *)
Lemma extra_grouping_is_smallest_witness :
  let L := Simple.simple_lib (Some ads_file) in
  let w := ads_loaded ads_file in
  let found := fst (Run.collect (firstn 10 (FbAdsPython.categorical_columns (Run.self w)))
                      FbAdsPython.candidate w) in
  Described.well_formed (Run.self w)
  /\ found = Ok [[]; [("note", 4)]]
  /\ exists before after,
       firstn 10 (FbAdsPython.categorical_columns (Run.self w))
       = (before ++ "note" :: after)%list
       /\ Described.grouping_candidate (Run.self w) "note" = true
       /\ (forall c, In c before -> Described.grouping_candidate (Run.self w) c = true ->
                     4 < Described.distinct_count (Run.self w) c).
Proof.
  intros L w found.
  assert (Hwf : Described.well_formed (Run.self w))
    by apply (@load_well_formed L "ads.csv" []).
  split; [exact Hwf|].
  destruct (@extra_grouping_is_smallest L w Hwf) as (found' & Hr & Hfound & Hbest).
  assert (Hlist : found' = [[]; [("note", 4)]]).
  { assert (H : fst (Run.collect (firstn 10 (FbAdsPython.categorical_columns (Run.self w)))
                       FbAdsPython.candidate w) = Ok found') by now rewrite Hr.
    vm_compute in H. injection H as <-. reflexivity. }
  split; [subst found; rewrite Hr, Hlist; reflexivity|].
  rewrite Hlist in Hbest. cbn [List.concat app Py.sorted_by fold_right Py.insert_by] in Hbest.
  destruct Hbest as (before & after & Hcols & Hcand & _ & Hlt & _).
  exists before, after. split; [exact Hcols|]. split; [exact Hcand|exact Hlt].
Defined.



End FurtherWorked.
